(** * Cash-advance backend: the advance lifecycle, its guards and its list views

    A shallow embedding of the Express/Mongoose handlers of the repository.
    A handler becomes a function from the store (and the request) to the new
    store and the response; a Mongoose document is a record; a collection is
    the list of its documents in insertion order.  JavaScript strings are
    [string], one character for a code unit below 256, so that [length]
    and [trim] are the ones of JavaScript on such text; [===] on strings is
    [String.eqb], ObjectIds are natural numbers, dates are millisecond
    timestamps in [Z].

    Amounts are integers: the handlers store and copy them, and the
    statistics and reports add them up.  A handler receives the user that
    [authenticate] has resolved; [authenticate] itself is embedded over a
    function that stands for [jwt.verify].  The projections of [select] and
    [populate] narrow the fields of the documents of a response and are not
    modelled: a handler answers with the stored documents, except for the
    two lists of the staff dashboard.  [save()] validates the document
    against its schema, then runs the pre-save hook, then writes: it
    replaces the stored document with the same [_id] or, for a new
    document, appends it under the unique index on [requestNumber].  A
    handler runs the validators of the paths it assigns from the request
    (the required [requestNumber] of a new advance, the [enum] of
    [disbursement.method], the [maxlength] of [rejectedReason]); the other
    paths of a stored document have passed their validators before, and
    the writes keep it so.  [populate] of a path the schema does not have
    throws.  The repository holds two models of the same entity, [Advance]
    and [CashAdvance], each with its own collection and its own routes;
    both are embedded, side by side. *)

From Stdlib Require Import String Ascii List ZArith Arith Bool Lia.
From Stdlib Require Import DecimalString Permutation Sorted.
Import ListNotations.
Open Scope string_scope.

Definition ObjectId := nat.
Definition Date := Z.
Bind Scope nat_scope with ObjectId.
Bind Scope Z_scope with Date.

(** The response envelope [{success, message, data}] together with the HTTP
    status code.  [extra] holds the additional top-level fields some error
    responses carry ([currentStatus], [userRole]). *)
Inductive response (A : Type) : Type :=
| Success (code : nat) (message : string) (data : A)
| Failure (code : nat) (message : string) (extra : list (string * string)).
Arguments Success {A} code message data.
Arguments Failure {A} code message extra.

Definition is_success {A} (r : response A) : bool :=
  match r with Success _ _ _ => true | Failure _ _ _ => false end.

(** JavaScript's [a || b] on an optional string: the empty string is falsy. *)
Definition or_string (a : option string) (b : string) : string :=
  match a with
  | Some s => if s =? EmptyString then b else s
  | None => b
  end.

(** [a || b] on an optional number: [0] is falsy. *)
Definition or_number (a : option Z) (b : Z) : Z :=
  match a with
  | Some n => if (n =? 0)%Z then b else n
  | None => b
  end.

(** [xs.includes(x)] on an array of strings. *)
Definition includes (xs : list string) (x : string) : bool :=
  existsb (String.eqb x) xs.

(** ** The JavaScript primitives the handlers use *)
Module JS.

(** A JavaScript number as far as the handlers compute with one: an
    integer, [NaN] (what [parseInt] gives on a string without digits) or
    [Infinity] (a division by zero). *)
Inductive number := NaN | Infinity | Int (z : Z).

Definition add (a b : number) : number :=
  match a, b with
  | NaN, _ | _, NaN => NaN
  | Infinity, _ | _, Infinity => Infinity
  | Int x, Int y => Int (x + y)
  end.

(** [a - b] and [a * b], needed on the results of [parseInt] only. *)
Definition sub (a b : number) : number :=
  match a, b with
  | Int x, Int y => Int (x - y)
  | _, _ => NaN
  end.

Definition mul (a b : number) : number :=
  match a, b with
  | Int x, Int y => Int (x * y)
  | _, _ => NaN
  end.

(** [a < b]: false as soon as one side is [NaN]. *)
Definition lt (a b : number) : bool :=
  match a, b with
  | NaN, _ | _, NaN => false
  | Infinity, _ => false
  | Int _, Infinity => true
  | Int x, Int y => (x <? y)%Z
  end.

Definition gt (a b : number) : bool := lt b a.

(** [Math.ceil(total / limit)] for a count [total] and a parsed [limit]. *)
Definition ceil_div (total : nat) (limit : number) : number :=
  match limit with
  | NaN => NaN
  | Infinity => Int 0
  | Int l =>
    if (l =? 0)%Z then (if Nat.eqb total 0 then NaN else Infinity)
    else Int (- ((- Z.of_nat total) / l))
  end.

(** [String(n)] and the interpolation of a number in a template literal. *)
Definition toString (n : number) : string :=
  match n with
  | NaN => "NaN"
  | Infinity => "Infinity"
  | Int z => DecimalString.NilZero.string_of_int (Z.to_int z)
  end.

Fixpoint repeat_char (c : ascii) (n : nat) : string :=
  match n with
  | O => EmptyString
  | S n' => String c (repeat_char c n')
  end.

(** [s.padStart(targetLength, c)] for a one-character pad string. *)
Definition padStart (targetLength : nat) (c : ascii) (s : string) : string :=
  repeat_char c (targetLength - String.length s) ++ s.

(** [s.slice(-k)]: the last [k] characters, the whole string when shorter. *)
Definition slice_last (k : nat) (s : string) : string :=
  substring (String.length s - k) k s.

(** White space as [trim] and [parseInt] skip it: the blank, the controls
    from tab to carriage return, and the no-break space. *)
Definition is_blank_char (c : ascii) : bool :=
  existsb (Nat.eqb (nat_of_ascii c)) [32; 9; 10; 11; 12; 13; 160].

Fixpoint trim_start (s : string) : string :=
  match s with
  | String c s' => if is_blank_char c then trim_start s' else s
  | EmptyString => EmptyString
  end.

Fixpoint rev_string (s acc : string) : string :=
  match s with
  | String c s' => rev_string s' (String c acc)
  | EmptyString => acc
  end.

Definition trim (s : string) : string :=
  rev_string (trim_start (rev_string (trim_start s) EmptyString)) EmptyString.

(** The value of a character as a digit, up to radix 16. *)
Definition digit_val (c : ascii) : option Z :=
  let n := nat_of_ascii c in
  if ((48 <=? n) && (n <=? 57))%nat then Some (Z.of_nat (n - 48))
  else if ((97 <=? n) && (n <=? 102))%nat then Some (Z.of_nat (n - 87))
  else if ((65 <=? n) && (n <=? 70))%nat then Some (Z.of_nat (n - 55))
  else None.

(** The longest prefix of digits of the radix, as a number; [None] when
    the string does not start with a digit. *)
Fixpoint parse_digits (radix : Z) (s : string) (acc : option Z) : option Z :=
  match s with
  | String c s' =>
    match digit_val c with
    | Some d =>
      if (d <? radix)%Z
      then parse_digits radix s'
             (Some (match acc with Some a => a * radix + d | None => d end)%Z)
      else acc
    | None => acc
    end
  | EmptyString => acc
  end.

(** [parseInt(s)] without a radix argument: leading white space, a sign,
    an optional [0x] prefix, then digits. *)
Definition parseInt (s : string) : number :=
  let s1 := trim_start s in
  let '(negative, s2) :=
    match s1 with
    | String c r =>
      if Nat.eqb (nat_of_ascii c) 45 then (true, r)
      else if Nat.eqb (nat_of_ascii c) 43 then (false, r)
      else (false, s1)
    | EmptyString => (false, s1)
    end in
  let '(radix, s3) :=
    match s2 with
    | String c0 (String c1 r) =>
      if Nat.eqb (nat_of_ascii c0) 48
         && (Nat.eqb (nat_of_ascii c1) 120 || Nat.eqb (nat_of_ascii c1) 88)
      then (16%Z, r) else (10%Z, s2)
    | _ => (10%Z, s2)
    end in
  match parse_digits radix s3 None with
  | Some v => Int (if negative then - v else v)
  | None => NaN
  end.

(** [parseInt(x)] for a query parameter with a numeric default. *)
Definition parseInt_or (x : option string) (default : Z) : number :=
  match x with
  | Some s => parseInt s
  | None => Int default
  end.

(** [x && x !== "all"] for an optional query parameter. *)
Definition given_not_all (x : option string) : option string :=
  match x with
  | Some s => if (s =? EmptyString) || (s =? "all") then None else Some s
  | None => None
  end.

End JS.

(** ** models/User.js *)
Module User.
Record t := mk {
  _id : ObjectId;
  firstName : string;
  lastName : string;
  email : string;
  employeeId : string;
  department : string;
  role : string;
  isActive : bool;
  createdAt : Date
}.
End User.

(** ** models/Advance.js *)
Module Advance.

(** An element of the [approvals] array. *)
Module Approval.
Record t := mk {
  approver : ObjectId;
  role : string;
  status : string;
  comment : string;
  date : Date
}.
End Approval.

Record Disbursement := mkDisbursement {
  disbursedBy : ObjectId;
  disbursedDate : Date;
  disbursedAmount : Z;
  method : string;
  reference : option string
}.

Record Retirement := mkRetirement {
  retiredDate : Date;
  totalSpent : Z;
  balanceReturned : Z;
  retiredBy : ObjectId
}.

Record t := mk {
  _id : ObjectId;
  requestNumber : option string;
  requester : ObjectId;
  amount : Z;
  purpose : string;
  description : option string;
  requestDate : Date;
  expectedReturnDate : Date;
  status : string;
  approvals : list Approval.t;
  disbursement : option Disbursement;
  retirement : option Retirement;
  priority : string;
  isActive : bool
}.

Definition set_status (a : t) (s : string) : t :=
  mk (_id a) (requestNumber a) (requester a) (amount a) (purpose a)
     (description a) (requestDate a) (expectedReturnDate a) s (approvals a)
     (disbursement a) (retirement a) (priority a) (isActive a).

Definition set_approvals (a : t) (l : list Approval.t) : t :=
  mk (_id a) (requestNumber a) (requester a) (amount a) (purpose a)
     (description a) (requestDate a) (expectedReturnDate a) (status a) l
     (disbursement a) (retirement a) (priority a) (isActive a).

Definition set_disbursement (a : t) (d : Disbursement) : t :=
  mk (_id a) (requestNumber a) (requester a) (amount a) (purpose a)
     (description a) (requestDate a) (expectedReturnDate a) (status a)
     (approvals a) (Some d) (retirement a) (priority a) (isActive a).

Definition set_requestNumber (a : t) (n : string) : t :=
  mk (_id a) (Some n) (requester a) (amount a) (purpose a)
     (description a) (requestDate a) (expectedReturnDate a) (status a)
     (approvals a) (disbursement a) (retirement a) (priority a) (isActive a).

(** [advanceSchema.methods.canBeApprovedBy] *)
Definition canBeApprovedBy (this : t) (userRole : string) : bool :=
  if (status this =? "rejected") || (status this =? "retired") then false
  else if (userRole =? "manager") && (status this =? "pending") then true
  else if (userRole =? "finance") && (status this =? "manager_approved") then true
  else false.

(** [addApproval], first statement: [this.approvals.push({...})]. *)
Definition push_approval (this : t) (ev : Approval.t) : t :=
  set_approvals this (approvals this ++ [ev]).

(** [addApproval], second statement: the [if / else if] chain that updates
    the main status.  When no branch applies the status is left alone. *)
Definition update_main_status (this : t) (role decision : string) : t :=
  if decision =? "rejected" then set_status this "rejected"
  else if (role =? "manager") && (decision =? "approved")
       then set_status this "manager_approved"
  else if (role =? "finance") && (decision =? "approved")
       then set_status this "finance_approved"
  else this.

(** [advanceSchema.methods.addApproval]; the empty string is the default of
    [comment], taken when the caller passes [undefined]. *)
Definition addApproval (now : Date) (this : t) (approverId : ObjectId)
           (role decision : string) (comment : option string) : t :=
  let ev := Approval.mk approverId role decision
              (match comment with Some c => c | None => EmptyString end) now in
  let this1 := push_approval this ev in
  update_main_status this1 role decision.

(** The request number of a document, for comparisons (empty when unset). *)
Definition rn (a : t) : string :=
  match requestNumber a with Some n => n | None => EmptyString end.

(** [{ requestNumber: new RegExp(`^ADV${year}${month}`) }]: the pattern has
    letters and digits only, so the test is a test of prefix. *)
Definition matches_prefix (p : string) (a : t) : bool :=
  match requestNumber a with Some n => String.prefix p n | None => false end.

(** The first document of [.sort({ requestNumber: -1 })]: the greatest
    request number in the order of the character codes. *)
Fixpoint greatest (l : list t) (best : option t) : option t :=
  match l with
  | [] => best
  | a :: l' =>
    greatest l'
      (match best with
       | None => Some a
       | Some b => if String.ltb (rn b) (rn a) then Some a else Some b
       end)
  end.

Definition findLast (p : string) (collection : list t) : option t :=
  greatest (filter (matches_prefix p) collection) None.

(** [advanceSchema.pre("save")].  [year] and [month0] are what
    [new Date().getFullYear()] and [new Date().getMonth()] return;
    [collection] is the collection as the hook's query sees it. *)
Definition pre_save (year month0 : Z) (collection : list t) (this : t) : t :=
  if match requestNumber this with
     | Some n => negb (n =? EmptyString)
     | None => false
     end
  then this
  else
    let year_s := JS.toString (JS.Int year) in
    let month := JS.padStart 2 "0"%char (JS.toString (JS.Int (month0 + 1))) in
    let lastAdvance := findLast ("ADV" ++ year_s ++ month) collection in
    let sequence :=
      match lastAdvance with
      | Some la => JS.add (JS.parseInt (JS.slice_last 4 (rn la))) (JS.Int 1)
      | None => JS.Int 1
      end in
    set_requestNumber this
      ("ADV" ++ year_s ++ month ++ JS.padStart 4 "0"%char (JS.toString sequence)).

End Advance.

(** ** middleware/auth.js *)
Module Auth.

(** [authorize(...roles)] for a request whose [req.user] has been set by
    [authenticate]: [None] stands for the call of [next()]. *)
Definition authorize {A} (roles : list string) (user : User.t)
  : option (response A) :=
  if negb (includes roles (User.role user))
  then Some (Failure 403 "Access denied. Insufficient permissions."
                     [("current", User.role user)])
  else None.

Definition isAdmin {A} := @authorize A ["admin"].
Definition isFinance {A} := @authorize A ["finance"; "admin"].
Definition isManager {A} := @authorize A ["manager"; "finance"; "admin"].
Definition canApprove {A} := @authorize A ["manager"; "finance"; "admin"].

End Auth.

(** ** models/CashAdvance.js *)
Module CashAdvance.

Record Retirement := mkRetirement {
  retirementDate : Date;
  totalExpenses : Z;
  expenseBreakdown : option string;
  retiredAt : Date
}.

(** [approvedAt], [rejectedBy] and [rejectedAt], which the manager routes
    assign, are not paths of the schema and are not part of the document. *)
Record t := mk {
  _id : ObjectId;
  user : ObjectId;
  amount : Z;
  purpose : string;
  description : option string;
  status : string;
  priority : string;
  dateNeeded : Date;
  retirement : option Retirement;
  approvedBy : option ObjectId;
  rejectedReason : option string;
  createdAt : Date
}.

Definition set_status (a : t) (s : string) : t :=
  mk (_id a) (user a) (amount a) (purpose a) (description a) s (priority a)
     (dateNeeded a) (retirement a) (approvedBy a) (rejectedReason a)
     (createdAt a).

Definition set_retirement (a : t) (r : Retirement) : t :=
  mk (_id a) (user a) (amount a) (purpose a) (description a) (status a)
     (priority a) (dateNeeded a) (Some r) (approvedBy a) (rejectedReason a)
     (createdAt a).

Definition set_approvedBy (a : t) (u : ObjectId) : t :=
  mk (_id a) (user a) (amount a) (purpose a) (description a) (status a)
     (priority a) (dateNeeded a) (retirement a) (Some u) (rejectedReason a)
     (createdAt a).

Definition set_rejectedReason (a : t) (r : string) : t :=
  mk (_id a) (user a) (amount a) (purpose a) (description a) (status a)
     (priority a) (dateNeeded a) (retirement a) (approvedBy a) (Some r)
     (createdAt a).

End CashAdvance.

(** ** The document store: one collection per Mongoose model *)
Module Db.
Record t := mk {
  users : list User.t;
  advances : list Advance.t;
  cashAdvances : list CashAdvance.t
}.

Definition set_advances (db : t) (l : list Advance.t) : t :=
  mk (users db) l (cashAdvances db).

Definition set_cashAdvances (db : t) (l : list CashAdvance.t) : t :=
  mk (users db) (advances db) l.
End Db.

(** ** middleware/validation.js *)
Module Validation.

Record AdvanceRequest := mkAdvanceRequest {
  amount : Z;
  purpose : string;
  description : option string;
  expectedReturnDate : Date;
  priority : option string
}.

(** The Joi schema of [validateAdvanceRequest]; string rules apply to the
    trimmed value. *)
Definition validateAdvanceRequest (now : Date) (body : AdvanceRequest) : bool :=
  ((0 <? amount body) && (amount body <=? 1000000))%Z
  && ((10 <=? String.length (JS.trim (purpose body)))
      && (String.length (JS.trim (purpose body)) <=? 500))%nat
  && match description body with
     | Some d => ((1 <=? String.length (JS.trim d))
                  && (String.length (JS.trim d) <=? 1000))%nat
     | None => true
     end
  && (now <? expectedReturnDate body)%Z
  && match priority body with
     | Some p => includes ["low"; "medium"; "high"; "urgent"] p
     | None => true
     end.

End Validation.

(** ** What the schemas accept, path by path *)
Module Schema.

(** [required] on a string path: present and not empty. *)
Definition required (s : option string) : bool :=
  match s with
  | Some n => negb (n =? EmptyString)
  | None => false
  end.

Definition approval_ok (e : Advance.Approval.t) : bool :=
  includes ["manager"; "finance"] (Advance.Approval.role e)
  && includes ["approved"; "rejected"] (Advance.Approval.status e).

(** The [enum] of [disbursement.method]. *)
Definition method_ok (m : string) : bool :=
  includes ["cash"; "bank_transfer"; "check"] m.

(** The validators of [advanceSchema]: [required], [min], [maxlength] and
    the [enum]s. *)
Definition advance_ok (a : Advance.t) : bool :=
  required (Advance.requestNumber a)
  && (1 <=? Advance.amount a)%Z
  && negb (Advance.purpose a =? EmptyString)
  && (String.length (Advance.purpose a) <=? 500)%nat
  && match Advance.description a with
     | Some d => (String.length d <=? 1000)%nat
     | None => true
     end
  && includes ["pending"; "manager_approved"; "finance_approved"; "disbursed";
               "rejected"; "retired"] (Advance.status a)
  && forallb approval_ok (Advance.approvals a)
  && includes ["low"; "medium"; "high"; "urgent"] (Advance.priority a)
  && match Advance.disbursement a with
     | Some d => method_ok (Advance.method d)
     | None => true
     end.

(** The [enum] of [status] in [cashAdvanceSchema]. *)
Definition cash_status_ok (a : CashAdvance.t) : bool :=
  includes ["pending"; "approved"; "rejected"; "retired"] (CashAdvance.status a).

(** The [maxlength] of [rejectedReason]. *)
Definition reason_ok (r : string) : bool :=
  (String.length r <=? 500)%nat.

(** The validators of [cashAdvanceSchema]; on an integer amount [min: 0.01]
    asks for at least 1. *)
Definition cash_ok (a : CashAdvance.t) : bool :=
  ((1 <=? CashAdvance.amount a) && (CashAdvance.amount a <=? 1000000))%Z
  && negb (CashAdvance.purpose a =? EmptyString)
  && (String.length (CashAdvance.purpose a) <=? 500)%nat
  && match CashAdvance.description a with
     | Some d => negb (d =? EmptyString) && (String.length d <=? 1000)%nat
     | None => false
     end
  && cash_status_ok a
  && includes ["low"; "medium"; "high"; "urgent"] (CashAdvance.priority a)
  && match CashAdvance.rejectedReason a with
     | Some r => reason_ok r
     | None => true
     end.

End Schema.

(** ** Offset pagination as the list routes write it *)
Module Listing.

(** Insertion in a list sorted in descending order of [key]; a document
    goes after the documents with the same key. *)
Fixpoint insert_desc {A} (key : A -> Z) (x : A) (l : list A) : list A :=
  match l with
  | [] => [x]
  | y :: l' => if (key y <? key x)%Z then x :: l else y :: insert_desc key x l'
  end.

(** [.sort({ key: -1 })] *)
Definition sort_desc {A} (key : A -> Z) (l : list A) : list A :=
  fold_left (fun acc x => insert_desc key x acc) l [].

(** [.skip(skip).limit(limit)] of a [find] query.  A limit of zero means
    no limit and a negative limit counts as its absolute value.  A negative
    skip, and a skip or limit that is not a number, are taken to be refused
    by the store; the pages of the list routes are stated for page numbers
    and limits that [parseInt] reads as numbers of at least one. *)
Definition find_window {A} (skip limit : JS.number) (l : list A)
  : option (list A) :=
  match skip, limit with
  | JS.Int s, JS.Int n =>
    if (s <? 0)%Z then None
    else
      let rest := skipn (Z.to_nat s) l in
      Some (if (n =? 0)%Z then rest else firstn (Z.to_nat (Z.abs n)) rest)
  | _, _ => None
  end.

(** The [$skip] and [$limit] stages of a pipeline: [$skip] takes a
    non-negative and [$limit] a positive integer. *)
Definition aggregate_window {A} (skip limit : JS.number) (l : list A)
  : option (list A) :=
  match skip, limit with
  | JS.Int s, JS.Int n =>
    if ((s <? 0) || (n <=? 0))%Z then None
    else Some (firstn (Z.to_nat n) (skipn (Z.to_nat s) l))
  | _, _ => None
  end.

Record Pagination := mkPagination {
  currentPage : JS.number;
  totalPages : JS.number;
  total : nat;
  hasNext : bool;
  hasPrev : bool
}.

Record Page (A : Type) := mkPage {
  items : list A;
  pagination : Pagination
}.
Arguments mkPage {A} items pagination.
Arguments items {A} p.
Arguments pagination {A} p.

(** [(parseInt(page) - 1) * parseInt(limit)] *)
Definition skip_of (page limit : JS.number) : JS.number :=
  JS.mul (JS.sub page (JS.Int 1)) limit.

(** The [pagination] object every list route builds from the count. *)
Definition paginate (page limit : JS.number) (total : nat) : Pagination :=
  let totalPages := JS.ceil_div total limit in
  mkPagination page totalPages total (JS.lt page totalPages)
               (JS.gt page (JS.Int 1)).

End Listing.

Definition dquote : string := String (ascii_of_nat 34) EmptyString.

(** ** routes/advances.js over the [Advance] model *)
Module AdvanceRoutes.

(** [Advance.findById(id)] *)
Definition findById (db : Db.t) (id : ObjectId) : option Advance.t :=
  find (fun a => Nat.eqb (Advance._id a) id) (Db.advances db).

(** [advance.save()] for a document that was read from the collection: the
    stored document with the same [_id] is replaced. *)
Definition save (db : Db.t) (advance : Advance.t) : Db.t :=
  Db.set_advances db
    (map (fun a => if Nat.eqb (Advance._id a) (Advance._id advance)
                   then advance else a)
         (Db.advances db)).

Record ApproveBody := mkApproveBody {
  approve_status : option string;
  approve_comment : option string
}.

(** [PUT /api/advances/:id/approve], with its [canApprove] middleware. *)
Definition put_approve (now : Date) (db : Db.t) (user : User.t)
           (id : ObjectId) (body : ApproveBody) : Db.t * response Advance.t :=
  match Auth.canApprove user with
  | Some denied => (db, denied)
  | None =>
    match approve_status body with
    | None =>
      (db, Failure 400 ("Status must be either " ++ dquote ++ "approved"
                        ++ dquote ++ " or " ++ dquote ++ "rejected" ++ dquote) [])
    | Some status =>
      if negb (includes ["approved"; "rejected"] status) then
        (db, Failure 400 ("Status must be either " ++ dquote ++ "approved"
                          ++ dquote ++ " or " ++ dquote ++ "rejected" ++ dquote) [])
      else
        match findById db id with
        | None => (db, Failure 404 "Cash advance request not found" [])
        | Some advance =>
          if negb (Advance.canBeApprovedBy advance (User.role user)) then
            (db, Failure 400 ("This request cannot be " ++ status ++ " at this stage")
                         [("currentStatus", Advance.status advance);
                          ("userRole", User.role user)])
          else
            let advance' :=
              Advance.addApproval now advance (User._id user) (User.role user)
                                  status (approve_comment body) in
            (save db advance',
             Success 200 ("Cash advance request " ++ status ++ " successfully")
                     advance')
        end
    end
  end.

(** The body of the disburse request.  The route has no validation
    middleware: [method] is whatever string the request carries;
    [disbursedAmount] is a number when it is there. *)
Record DisburseBody := mkDisburseBody {
  disbursedAmount : option Z;
  method : option string;
  reference : option string
}.

(** [PUT /api/advances/:id/disburse], behind [authorize("finance", "admin")].
    [save()] refuses a method outside the [enum] of the schema, and the
    handler's [catch] answers 500. *)
Definition put_disburse (now : Date) (db : Db.t) (user : User.t)
           (id : ObjectId) (body : DisburseBody) : Db.t * response Advance.t :=
  match Auth.authorize ["finance"; "admin"] user with
  | Some denied => (db, denied)
  | None =>
    match findById db id with
    | None => (db, Failure 404 "Cash advance request not found" [])
    | Some advance =>
      if negb (Advance.status advance =? "finance_approved") then
        (db, Failure 400 "Advance must be finance approved before disbursement" [])
      else
        let advance1 :=
          Advance.set_disbursement advance
            (Advance.mkDisbursement (User._id user) now
               (or_number (disbursedAmount body) (Advance.amount advance))
               (or_string (method body) "cash")
               (reference body)) in
        let advance2 := Advance.set_status advance1 "disbursed" in
        if negb (Schema.method_ok (or_string (method body) "cash")) then
          (db, Failure 500 "Error disbursing advance" [])
        else
          (save db advance2,
           Success 200 "Cash advance disbursed successfully" advance2)
    end
  end.

(** The unique index on [requestNumber]: an insert that would duplicate a
    stored request number fails (duplicate key). *)
Definition insert (db : Db.t) (doc : Advance.t) : option Db.t :=
  if existsb (fun a => Advance.rn a =? Advance.rn doc) (Db.advances db)
  then None
  else Some (Db.set_advances db (Db.advances db ++ [doc])).

(** [new Advance({ requester, amount, purpose, description,
    expectedReturnDate, priority })] with the defaults of the schema; the
    schema trims the strings. *)
Definition new_advance (now : Date) (oid : ObjectId) (user : User.t)
           (body : Validation.AdvanceRequest) : Advance.t :=
  Advance.mk oid None (User._id user) (Validation.amount body)
             (JS.trim (Validation.purpose body))
             (option_map JS.trim (Validation.description body))
             now (Validation.expectedReturnDate body) "pending" [] None None
             (or_string (Validation.priority body) "medium") true.

(** [POST /api/advances] behind [validateAdvanceRequest].  [oid] is the
    ObjectId the new document gets.  [save()] validates the document
    before it runs the pre-save hook; the hook's query reads [seen]; the
    insert goes to [db].  The handler's [catch] turns any error of
    [save()] into the 500 response. *)
Definition post_advance_at (now : Date) (year month0 : Z) (oid : ObjectId)
           (seen db : Db.t) (user : User.t) (body : Validation.AdvanceRequest)
  : Db.t * response Advance.t :=
  if negb (Validation.validateAdvanceRequest now body) then
    (db, Failure 400 "Validation error" [])
  else
    let advance := new_advance now oid user body in
    if negb (Schema.advance_ok advance) then
      (db, Failure 500 "Error creating cash advance request" [])
    else
      let advance' := Advance.pre_save year month0 (Db.advances seen) advance in
      match insert db advance' with
      | None => (db, Failure 500 "Error creating cash advance request" [])
      | Some db' =>
        (db', Success 201 "Cash advance request created successfully" advance')
      end.

(** The same request when nothing else writes between the hook's query
    and the insert. *)
Definition post_advance (now : Date) (year month0 : Z) (oid : ObjectId)
           (db : Db.t) (user : User.t) (body : Validation.AdvanceRequest)
  : Db.t * response Advance.t :=
  post_advance_at now year month0 oid db db user body.

Record Query := mkQuery {
  page : option string;
  limit : option string;
  status : option string;
  priority : option string;
  search : option string;
  startDate : option Date;
  endDate : option Date
}.

(** The [filter] object of [GET /api/advances]. *)
Record Filter := mkFilter {
  f_isActive : bool;
  f_requester : option ObjectId;
  f_status : option string;
  f_priority : option string;
  f_requestDate_gte : option Date;
  f_requestDate_lte : option Date
}.

Definition build_filter (user : User.t) (q : Query) : Filter :=
  mkFilter true
           (if User.role user =? "staff" then Some (User._id user) else None)
           (JS.given_not_all (status q))
           (JS.given_not_all (priority q))
           (startDate q)
           (endDate q).

Definition satisfies {A} (c : option A) (test : A -> bool) : bool :=
  match c with Some x => test x | None => true end.

(** A document matches the filter when it matches every path of it. *)
Definition matches (f : Filter) (a : Advance.t) : bool :=
  Bool.eqb (Advance.isActive a) (f_isActive f)
  && satisfies (f_requester f) (Nat.eqb (Advance.requester a))
  && satisfies (f_status f) (String.eqb (Advance.status a))
  && satisfies (f_priority f) (String.eqb (Advance.priority a))
  && satisfies (f_requestDate_gte f) (fun d => (d <=? Advance.requestDate a)%Z)
  && satisfies (f_requestDate_lte f) (fun d => (Advance.requestDate a <=? d)%Z).

Section WithRegExp.
(** [regexp_i p s] is [new RegExp(p, "i").test(s)]. *)
Variable regexp_i : string -> string -> bool.

(** The [$or] of the search branch, after the [$lookup] of the
    requester in [users]. *)
Definition search_matches (db : Db.t) (pattern : string) (a : Advance.t)
  : bool :=
  let requesterData :=
    filter (fun u => Nat.eqb (User._id u) (Advance.requester a))
           (Db.users db) in
  regexp_i pattern (Advance.rn a)
  || regexp_i pattern (Advance.purpose a)
  || existsb (fun u => regexp_i pattern (User.firstName u)) requesterData
  || existsb (fun u => regexp_i pattern (User.lastName u)) requesterData
  || existsb (fun u => regexp_i pattern (User.employeeId u)) requesterData.

(** [GET /api/advances] *)
Definition get_advances (db : Db.t) (user : User.t) (q : Query)
  : response (Listing.Page Advance.t) :=
  let filter_ := build_filter user q in
  let page_n := JS.parseInt_or (page q) 1 in
  let limit_n := JS.parseInt_or (limit q) 10 in
  let skip := Listing.skip_of page_n limit_n in
  let total := List.length (filter (matches filter_) (Db.advances db)) in
  match search q with
  | Some (String c pattern') =>
    let pattern := String c pattern' in
    match Listing.aggregate_window skip limit_n
            (Listing.sort_desc Advance.requestDate
               (filter (fun a => matches filter_ a
                                 && search_matches db pattern a)
                       (Db.advances db))) with
    | None => Failure 500 "Error fetching cash advances" []
    | Some advances =>
      Success 200 EmptyString
              (Listing.mkPage advances (Listing.paginate page_n limit_n total))
    end
  | _ =>
    match Listing.find_window skip limit_n
            (Listing.sort_desc Advance.requestDate
               (filter (matches filter_) (Db.advances db))) with
    | None => Failure 500 "Error fetching cash advances" []
    | Some advances =>
      Success 200 EmptyString
              (Listing.mkPage advances (Listing.paginate page_n limit_n total))
    end
  end.
End WithRegExp.

End AdvanceRoutes.

(** ** routes/advances.js over the [CashAdvance] model *)
Module CashAdvanceRoutes.

(** [CashAdvance.findOne({ _id: id, user: userId })] *)
Definition findOwned (db : Db.t) (id userId : ObjectId) : option CashAdvance.t :=
  find (fun a => Nat.eqb (CashAdvance._id a) id
                 && Nat.eqb (CashAdvance.user a) userId)
       (Db.cashAdvances db).

Definition save (db : Db.t) (advance : CashAdvance.t) : Db.t :=
  Db.set_cashAdvances db
    (map (fun a => if Nat.eqb (CashAdvance._id a) (CashAdvance._id advance)
                   then advance else a)
         (Db.cashAdvances db)).

(** The body of the retire request as the route's [validateRetirement]
    passes it on. *)
Record RetireBody := mkRetireBody {
  retirementDate : Date;
  totalExpenses : Z;
  expenseBreakdown : option string
}.

(** [PUT /api/advances/:id/retire].  The second test is written after the
    first one in the source and is kept in that place. *)
Definition put_retire (now : Date) (db : Db.t) (user : User.t)
           (id : ObjectId) (body : RetireBody) : Db.t * response CashAdvance.t :=
  match findOwned db id (User._id user) with
  | None => (db, Failure 404 "Cash advance request not found" [])
  | Some advance =>
    if negb (CashAdvance.status advance =? "approved") then
      (db, Failure 400 "Only approved advances can be retired" [])
    else if CashAdvance.status advance =? "retired" then
      (db, Failure 400 "Advance has already been retired" [])
    else
      let advance1 := CashAdvance.set_status advance "retired" in
      let advance2 :=
        CashAdvance.set_retirement advance1
          (CashAdvance.mkRetirement (retirementDate body) (totalExpenses body)
                                    (expenseBreakdown body) now) in
      (save db advance2,
       Success 200 "Cash advance retired successfully" advance2)
  end.

Record Query := mkQuery {
  q_status : option string;
  q_page : option string;
  q_limit : option string;
  q_sort : option string
}.

Section WithSort.
(** [sort_by spec l] is the order [.sort(spec)] gives to the documents
    [l] for a sort string such as [-createdAt]. *)
Variable sort_by : string -> list CashAdvance.t -> list CashAdvance.t.

(** [GET /api/advances/my-requests] *)
Definition get_my_requests (db : Db.t) (user : User.t) (q : Query)
  : response (Listing.Page CashAdvance.t) :=
  let matches a :=
    Nat.eqb (CashAdvance.user a) (User._id user)
    && match JS.given_not_all (q_status q) with
       | Some s => CashAdvance.status a =? s
       | None => true
       end in
  let page_n := JS.parseInt_or (q_page q) 1 in
  let limit_n := JS.parseInt_or (q_limit q) 10 in
  let skip := Listing.skip_of page_n limit_n in
  let sort := match q_sort q with Some s => s | None => "-createdAt" end in
  match Listing.find_window skip limit_n
          (sort_by sort (filter matches (Db.cashAdvances db))) with
  | None => Failure 500 "Error fetching cash advance requests" []
  | Some advances =>
    let total := List.length (filter matches (Db.cashAdvances db)) in
    Success 200 EmptyString
            (Listing.mkPage advances (Listing.paginate page_n limit_n total))
  end.
End WithSort.

End CashAdvanceRoutes.

(** ** routes/manager.js *)
Module ManagerRoutes.

(** [User.find({ department, role: "staff", isActive: true })] mapped to the
    [_id]s: the manager's team. *)
Definition teamMemberIds (db : Db.t) (manager : User.t) : list ObjectId :=
  map User._id
      (filter (fun u => (User.department u =? User.department manager)
                        && (User.role u =? "staff") && User.isActive u)
              (Db.users db)).

(** [CashAdvance.findOne({ _id, status: "pending", user: { $in: team } })] *)
Definition findPendingOfTeam (db : Db.t) (id : ObjectId) (team : list ObjectId)
  : option CashAdvance.t :=
  find (fun a => Nat.eqb (CashAdvance._id a) id
                 && (CashAdvance.status a =? "pending")
                 && existsb (Nat.eqb (CashAdvance.user a)) team)
       (Db.cashAdvances db).

(** [PUT /api/manager/requests/:id/approve]; [User.findById(req.user.id)]
    returns the authenticated user's own record. *)
Definition put_approve (db : Db.t) (user : User.t) (id : ObjectId)
  : Db.t * response CashAdvance.t :=
  match Auth.authorize ["manager"] user with
  | Some denied => (db, denied)
  | None =>
    match findPendingOfTeam db id (teamMemberIds db user) with
    | None => (db, Failure 404 "Request not found or already processed" [])
    | Some advance =>
      let advance1 := CashAdvance.set_status advance "approved" in
      let advance2 := CashAdvance.set_approvedBy advance1 (User._id user) in
      (CashAdvanceRoutes.save db advance2,
       Success 200 "Request approved successfully" advance2)
    end
  end.

(** [PUT /api/manager/requests/:id/reject].  [save()] refuses a reason
    longer than the [maxlength] of [rejectedReason].  After the write the
    handler populates [rejectedBy], which is not a path of the schema: the
    call throws and the handler's [catch] answers 500. *)
Definition put_reject (db : Db.t) (user : User.t) (id : ObjectId)
           (reason : option string) : Db.t * response CashAdvance.t :=
  match Auth.authorize ["manager"] user with
  | Some denied => (db, denied)
  | None =>
    match findPendingOfTeam db id (teamMemberIds db user) with
    | None => (db, Failure 404 "Request not found or already processed" [])
    | Some advance =>
      match reason with
      | None => (db, Failure 400 "Rejection reason is required" [])
      | Some reason =>
        if (reason =? EmptyString) || Nat.eqb (String.length (JS.trim reason)) 0 then
          (db, Failure 400 "Rejection reason is required" [])
        else
          let advance1 := CashAdvance.set_status advance "rejected" in
          let advance2 := CashAdvance.set_rejectedReason advance1 (JS.trim reason) in
          if negb (Schema.reason_ok (JS.trim reason)) then
            (db, Failure 500 "Error rejecting request" [])
          else
            (CashAdvanceRoutes.save db advance2,
             Failure 500 "Error rejecting request" [])
      end
    end
  end.

End ManagerRoutes.

(** ** routes/users.js *)
Module UserRoutes.

Record Query := mkQuery {
  page : option string;
  limit : option string;
  role : option string;
  department : option string;
  search : option string;
  isActive : option string
}.

Section WithRegExp.
Variable regexp_i : string -> string -> bool.

(** The [filter] object of [GET /api/users], as a predicate. *)
Definition matches (q : Query) (u : User.t) : bool :=
  match JS.given_not_all (role q) with
  | Some r => User.role u =? r
  | None => true
  end
  && match JS.given_not_all (department q) with
     | Some d => regexp_i d (User.department u)
     | None => true
     end
  && match isActive q with
     | Some s => if s =? "all" then true
                 else Bool.eqb (User.isActive u) (s =? "true")
     | None => true
     end
  && match search q with
     | Some (String c pattern') =>
       let pattern := String c pattern' in
       regexp_i pattern (User.firstName u)
       || regexp_i pattern (User.lastName u)
       || regexp_i pattern (User.email u)
       || regexp_i pattern (User.employeeId u)
     | _ => true
     end.

(** [GET /api/users] behind [authorize("admin", "manager", "finance")]. *)
Definition get_users (db : Db.t) (user : User.t) (q : Query)
  : response (Listing.Page User.t) :=
  match Auth.authorize ["admin"; "manager"; "finance"] user with
  | Some denied => denied
  | None =>
    let page_n := JS.parseInt_or (page q) 1 in
    let limit_n := JS.parseInt_or (limit q) 10 in
    let skip := Listing.skip_of page_n limit_n in
    match Listing.find_window skip limit_n
            (Listing.sort_desc User.createdAt
               (filter (matches q) (Db.users db))) with
    | None => Failure 500 "Error fetching users" []
    | Some users =>
      let total := List.length (filter (matches q) (Db.users db)) in
      Success 200 EmptyString
              (Listing.mkPage users (Listing.paginate page_n limit_n total))
    end
  end.
End WithRegExp.

End UserRoutes.

(** ** The lifecycle operations as one transition system on the store *)
Module Lifecycle.

Inductive operation :=
| Approve (now : Date) (user : User.t) (id : ObjectId)
          (body : AdvanceRoutes.ApproveBody)
| Disburse (now : Date) (user : User.t) (id : ObjectId)
           (body : AdvanceRoutes.DisburseBody)
| Retire (now : Date) (user : User.t) (id : ObjectId)
         (body : CashAdvanceRoutes.RetireBody)
| ManagerApprove (user : User.t) (id : ObjectId)
| ManagerReject (user : User.t) (id : ObjectId) (reason : option string).

(** The store after the request, and whether the request succeeded. *)
Definition outcome {A} (r : Db.t * response A) : Db.t * bool :=
  (fst r, is_success (snd r)).

Definition step (db : Db.t) (op : operation) : Db.t * bool :=
  match op with
  | Approve now user id body =>
    outcome (AdvanceRoutes.put_approve now db user id body)
  | Disburse now user id body =>
    outcome (AdvanceRoutes.put_disburse now db user id body)
  | Retire now user id body =>
    outcome (CashAdvanceRoutes.put_retire now db user id body)
  | ManagerApprove user id => outcome (ManagerRoutes.put_approve db user id)
  | ManagerReject user id reason =>
    outcome (ManagerRoutes.put_reject db user id reason)
  end.

Fixpoint run (db : Db.t) (ops : list operation) : Db.t :=
  match ops with
  | [] => db
  | op :: ops' => run (fst (step db op)) ops'
  end.

(** The two statuses no transition leaves. *)
Definition terminal (status : string) : bool :=
  (status =? "rejected") || (status =? "retired").

End Lifecycle.

(** ** The documents the accepting branches store *)

(** The document [put_disburse] stores for an advance it accepts. *)
Definition disbursed_from (now : Date) (user : User.t)
           (body : AdvanceRoutes.DisburseBody) (a : Advance.t) : Advance.t :=
  Advance.set_status
    (Advance.set_disbursement a
       (Advance.mkDisbursement (User._id user) now
          (or_number (AdvanceRoutes.disbursedAmount body) (Advance.amount a))
          (or_string (AdvanceRoutes.method body) "cash")
          (AdvanceRoutes.reference body)))
    "disbursed".

(** The document [put_retire] stores for an advance it accepts. *)
Definition retired_from (now : Date) (body : CashAdvanceRoutes.RetireBody)
           (a : CashAdvance.t) : CashAdvance.t :=
  CashAdvance.set_retirement (CashAdvance.set_status a "retired")
    (CashAdvance.mkRetirement (CashAdvanceRoutes.retirementDate body)
                              (CashAdvanceRoutes.totalExpenses body)
                              (CashAdvanceRoutes.expenseBreakdown body) now).

(** ** Request numbers as the specification states them *)

(** The two-digit month and the four-digit sequence of a request number. *)
Definition pad2 (month : Z) : string :=
  JS.padStart 2 "0"%char (JS.toString (JS.Int month)).

Definition pad4 (sequence : Z) : string :=
  JS.padStart 4 "0"%char (JS.toString (JS.Int sequence)).

(** [ADV<year><month>], the prefix the numbers of a month share. *)
Definition month_prefix (year month : Z) : string :=
  "ADV" ++ JS.toString (JS.Int year) ++ pad2 month.

(** [ADV<year><month><sequence>] *)
Definition request_number (year month sequence : Z) : string :=
  month_prefix year month ++ pad4 sequence.

Definition is_digit (c : ascii) : bool :=
  ((48 <=? nat_of_ascii c) && (nat_of_ascii c <=? 57))%nat.

Fixpoint all_digits (s : string) : bool :=
  match s with
  | String c s' => is_digit c && all_digits s'
  | EmptyString => true
  end.

(** The pattern [ADV] followed by a four-digit year, a two-digit month and a
    four-digit sequence. *)
Definition has_request_number_pattern (s : string) : bool :=
  String.prefix "ADV" s
  && Nat.eqb (String.length s) 13
  && all_digits (substring 3 10 s).

(** The sequence a request number ends with, as the hook reads it:
    [parseInt(requestNumber.slice(-4))]. *)
Definition sequence_of (a : Advance.t) : Z :=
  match JS.parseInt (JS.slice_last 4 (Advance.rn a)) with
  | JS.Int z => z
  | _ => 0
  end.

(** The integers [lo], [lo + 1], ..., [lo + n - 1]. *)
Definition Zrange (lo : Z) (n : nat) : list Z :=
  map (fun i => (lo + Z.of_nat i)%Z) (seq 0 n).

(** The four characters of a number below 10000, digit by digit. *)
Definition digit_char (d : Z) : ascii := ascii_of_nat (48 + Z.to_nat d).

Definition digits (d3 d2 d1 d0 : Z) : string :=
  String (digit_char d3)
    (String (digit_char d2)
       (String (digit_char d1) (String (digit_char d0) EmptyString))).

Definition digits4 (q : Z) : string :=
  digits (q / 1000) (q / 100 mod 10) (q / 10 mod 10) (q mod 10).

Definition is_int (n : JS.number) (z : Z) : bool :=
  match n with
  | JS.Int x => (x =? z)%Z
  | _ => false
  end.

(** What the proofs need of the decimal strings, as checks that run: on the
    ten digits, on the twelve months, and on the numbers below 10000, digit
    by digit. *)
Definition digit_check (d : Z) : bool :=
  is_digit (digit_char d)
  && negb (JS.is_blank_char (digit_char d))
  && negb (Nat.eqb (nat_of_ascii (digit_char d)) 45)
  && negb (Nat.eqb (nat_of_ascii (digit_char d)) 43)
  && negb (Nat.eqb (nat_of_ascii (digit_char d)) 120)
  && negb (Nat.eqb (nat_of_ascii (digit_char d)) 88)
  && match JS.digit_val (digit_char d) with
     | Some v => (v =? d)%Z
     | None => false
     end.

Definition month_check (m : Z) : bool :=
  Nat.eqb (String.length (pad2 m)) 2
  && all_digits (pad2 m)
  && is_int (JS.parseInt (pad2 m)) m.

Definition digits_check (d3 d2 d1 d0 : Z) : bool :=
  let q := (1000 * d3 + 100 * d2 + 10 * d1 + d0)%Z in
  (pad4 q =? digits d3 d2 d1 d0)
  && (if (d3 =? 0)%Z then true
      else Nat.eqb (String.length (JS.toString (JS.Int q))) 4).

Definition digit_order_check (a b : Z) : bool :=
  match Ascii.compare (digit_char a) (digit_char b), Z.compare a b with
  | Eq, Eq | Lt, Lt | Gt, Gt => true
  | _, _ => false
  end.

(** Every stored advance carries a request number of a year, a month and a
    sequence between 1 and 9999. *)
Definition well_numbered (collection : list Advance.t) : Prop :=
  forall a, In a collection ->
    exists year month sequence,
      (1000 <= year <= 9999 /\ 1 <= month <= 12 /\ 1 <= sequence <= 9999)%Z
      /\ Advance.requestNumber a = Some (request_number year month sequence).

(** ** Pagination as the specification states it *)

(** [ceil(n / l)] on natural numbers. *)
Definition ceil_nat (n l : nat) : nat := (n + l - 1) / l.

(** The documents of page [p] (counted from 1) of [xs] for page size [l]. *)
Definition page_of {A} (xs : list A) (l p : nat) : list A :=
  firstn l (skipn ((p - 1) * l) xs).

(** ** Concrete users, documents and requests for the worked examples *)
Module Sample.

Definition staff : User.t :=
  User.mk 1 "Uche" "Obi" "uche@example.com" "EMP001" "Sales" "staff" true 0.
Definition other_staff : User.t :=
  User.mk 5 "Ada" "Eze" "ada@example.com" "EMP005" "Sales" "staff" true 0.
Definition manager : User.t :=
  User.mk 2 "Mary" "Ade" "mary@example.com" "EMP002" "Sales" "manager" true 0.
Definition finance : User.t :=
  User.mk 3 "Femi" "Bello" "femi@example.com" "EMP003" "Finance" "finance" true 0.
Definition admin : User.t :=
  User.mk 4 "Ngozi" "Okoro" "ngozi@example.com" "EMP004" "IT" "admin" true 0.

Definition users : list User.t := [staff; manager; finance; admin; other_staff].

(** A week in milliseconds. *)
Definition week : Z := 604800000.

Definition advance_of (id requester : ObjectId) (number status : string)
  : Advance.t :=
  Advance.mk id (Some number) requester 500 "travel reimbursement" None 1000
             (1000 + week) status [] None None "medium" true.

Definition advance_with (id : ObjectId) (number status : string) : Advance.t :=
  advance_of id 1 number status.

Definition cash_of (id user : ObjectId) (status : string) : CashAdvance.t :=
  CashAdvance.mk id user 500 "travel reimbursement" (Some "client visit")
                 status "medium" (1000 + week) None None None 1000.

Definition cash_with (id : ObjectId) (status : string) : CashAdvance.t :=
  cash_of id 1 status.

(** [new RegExp(p, "i").test(s)] for a pattern [p] of letters, digits and
    spaces: a search of [p] in [s] that ignores case. *)
Definition lower (c : ascii) : ascii :=
  let n := nat_of_ascii c in
  if ((65 <=? n) && (n <=? 90))%nat then ascii_of_nat (n + 32) else c.

Fixpoint lower_string (s : string) : string :=
  match s with
  | String c s' => String (lower c) (lower_string s')
  | EmptyString => EmptyString
  end.

Fixpoint contains (p s : string) : bool :=
  String.prefix p s
  || match s with
     | String _ s' => contains p s'
     | EmptyString => false
     end.

Definition literal_i (p s : string) : bool :=
  contains (lower_string p) (lower_string s).

(** [.sort("-createdAt")], the default order of the list routes of the
    [CashAdvance] model. *)
Definition newest_first (spec : string) (l : list CashAdvance.t)
  : list CashAdvance.t :=
  Listing.sort_desc CashAdvance.createdAt l.

(** The body of the scenario: 500 for a travel reimbursement, to be
    returned in seven days. *)
Definition request (now : Date) : Validation.AdvanceRequest :=
  Validation.mkAdvanceRequest 500 "travel reimbursement" None (now + week) None.

Definition db_of (advances : list Advance.t) (cash : list CashAdvance.t)
  : Db.t :=
  Db.mk users advances cash.

End Sample.

(** ** The status of an advance against its sub-records *)
Module Consistency.

Definition is_event (role status : string) (e : Advance.Approval.t) : bool :=
  (Advance.Approval.role e =? role) && (Advance.Approval.status e =? status).

(** The history and the disbursement record that go with each status the
    routes of the [Advance] model can give. *)
Definition stage_consistent (a : Advance.t) : bool :=
  let s := Advance.status a in
  if s =? "pending" then
    match Advance.approvals a, Advance.disbursement a with
    | [], None => true
    | _, _ => false
    end
  else if s =? "manager_approved" then
    match Advance.approvals a, Advance.disbursement a with
    | [e], None => is_event "manager" "approved" e
    | _, _ => false
    end
  else if s =? "finance_approved" then
    match Advance.approvals a, Advance.disbursement a with
    | [e1; e2], None =>
      is_event "manager" "approved" e1 && is_event "finance" "approved" e2
    | _, _ => false
    end
  else if s =? "disbursed" then
    match Advance.approvals a, Advance.disbursement a with
    | [e1; e2], Some _ =>
      is_event "manager" "approved" e1 && is_event "finance" "approved" e2
    | _, _ => false
    end
  else if s =? "rejected" then
    match Advance.approvals a, Advance.disbursement a with
    | [e], None => is_event "manager" "rejected" e
    | [e1; e2], None =>
      is_event "manager" "approved" e1 && is_event "finance" "rejected" e2
    | _, _ => false
    end
  else false.

(** No route of the [Advance] model writes the [retirement] record. *)
Definition consistent (a : Advance.t) : bool :=
  match Advance.retirement a with
  | None => stage_consistent a
  | Some _ => false
  end.

(** What no route writes after the creation: an advance [b] is a later
    state of [a] when it has the same identity, request and requester and a
    history that extends the history of [a]. *)
Definition later_state (a b : Advance.t) : Prop :=
  Advance._id b = Advance._id a
  /\ Advance.requestNumber b = Advance.requestNumber a
  /\ Advance.requester b = Advance.requester a
  /\ Advance.amount b = Advance.amount a
  /\ Advance.purpose b = Advance.purpose a
  /\ Advance.description b = Advance.description a
  /\ Advance.requestDate b = Advance.requestDate a
  /\ Advance.expectedReturnDate b = Advance.expectedReturnDate a
  /\ Advance.priority b = Advance.priority a
  /\ Advance.isActive b = Advance.isActive a
  /\ exists more, Advance.approvals b = (Advance.approvals a ++ more)%list.

(** The same for a document of the [CashAdvance] model. *)
Definition same_request (a b : CashAdvance.t) : Prop :=
  CashAdvance._id b = CashAdvance._id a
  /\ CashAdvance.user b = CashAdvance.user a
  /\ CashAdvance.amount b = CashAdvance.amount a
  /\ CashAdvance.purpose b = CashAdvance.purpose a
  /\ CashAdvance.description b = CashAdvance.description a
  /\ CashAdvance.priority b = CashAdvance.priority a
  /\ CashAdvance.dateNeeded b = CashAdvance.dateNeeded a
  /\ CashAdvance.createdAt b = CashAdvance.createdAt a.

End Consistency.

(** ** What one accepted request does to the document it names *)
Module Transition.

(** The two writes of the routes of the [Advance] model. *)
Inductive advance_step (a : Advance.t) : Advance.t -> Prop :=
| approval : forall (now : Date) (user : User.t) (decision : string)
                    (comment : option string),
    Advance.canBeApprovedBy a (User.role user) = true ->
    decision = "approved" \/ decision = "rejected" ->
    advance_step a (Advance.addApproval now a (User._id user) (User.role user)
                                        decision comment)
| disbursal : forall (now : Date) (user : User.t)
                     (body : AdvanceRoutes.DisburseBody),
    Advance.status a = "finance_approved" ->
    Schema.method_ok (or_string (AdvanceRoutes.method body) "cash") = true ->
    advance_step a (disbursed_from now user body a).

(** The three writes of the routes of the [CashAdvance] model. *)
Inductive cash_step (a : CashAdvance.t) : CashAdvance.t -> Prop :=
| retirement : forall (now : Date) (body : CashAdvanceRoutes.RetireBody),
    CashAdvance.status a = "approved" ->
    cash_step a (retired_from now body a)
| manager_approval : forall (user : User.t),
    CashAdvance.status a = "pending" ->
    cash_step a (CashAdvance.set_approvedBy (CashAdvance.set_status a "approved")
                                            (User._id user))
| manager_rejection : forall (reason : string),
    CashAdvance.status a = "pending" ->
    Schema.reason_ok (JS.trim reason) = true ->
    cash_step a (CashAdvance.set_rejectedReason
                   (CashAdvance.set_status a "rejected") (JS.trim reason)).

(** The authenticated user of a request. *)
Definition actor (op : Lifecycle.operation) : User.t :=
  match op with
  | Lifecycle.Approve _ user _ _ => user
  | Lifecycle.Disburse _ user _ _ => user
  | Lifecycle.Retire _ user _ _ => user
  | Lifecycle.ManagerApprove user _ => user
  | Lifecycle.ManagerReject user _ _ => user
  end.

(** [replace key x l]: the collection after [x.save()]. *)
Definition replace {A} (key : A -> ObjectId) (x : A) (l : list A) : list A :=
  map (fun y => if Nat.eqb (key y) (key x) then x else y) l.

End Transition.

(** ** The read routes of the [Advance] model and its static method *)
Module AdvanceViews.

(** Insertion in a list sorted in ascending order of [key]; a document
    goes after the documents with the same key. *)
Fixpoint insert_asc {A} (key : A -> Z) (x : A) (l : list A) : list A :=
  match l with
  | [] => [x]
  | y :: l' => if (key x <? key y)%Z then x :: l else y :: insert_asc key x l'
  end.

(** [.sort({ key: 1 })] *)
Definition sort_asc {A} (key : A -> Z) (l : list A) : list A :=
  fold_left (fun acc x => insert_asc key x acc) l [].

(** The [statusFilter] object of [getPendingForApproval]: [None] is the
    empty filter [{}]. *)
Definition statusFilter (userRole : string) : option string :=
  if userRole =? "manager" then Some "pending"
  else if userRole =? "finance" then Some "manager_approved"
  else None.

(** [advanceSchema.statics.getPendingForApproval]; the [userId] argument
    is not used by the method. *)
Definition getPendingForApproval (collection : list Advance.t)
           (userRole : string) (userId : ObjectId) : list Advance.t :=
  sort_asc Advance.requestDate
    (filter (fun a => match statusFilter userRole with
                      | Some s => Advance.status a =? s
                      | None => true
                      end)
            collection).

(** The [data] of [GET /api/advances/pending/approvals]. *)
Record Pending := mkPending {
  advances : list Advance.t;
  count : nat
}.

(** [GET /api/advances/pending/approvals], behind [canApprove]. *)
Definition get_pending_approvals (db : Db.t) (user : User.t)
  : response Pending :=
  match Auth.canApprove user with
  | Some denied => denied
  | None =>
    let advances :=
      getPendingForApproval (Db.advances db) (User.role user) (User._id user) in
    Success 200 EmptyString (mkPending advances (List.length advances))
  end.

(** [.populate("requester", ...)]: the user the reference points to, if
    there is one. *)
Definition populate (db : Db.t) (id : ObjectId) : option User.t :=
  find (fun u => Nat.eqb (User._id u) id) (Db.users db).

(** [GET /api/advances/:id].  When the requester no longer exists the
    populated path is [null], reading its [_id] throws and the handler's
    [catch] answers 500. *)
Definition get_advance (db : Db.t) (user : User.t) (id : ObjectId)
  : response Advance.t :=
  match AdvanceRoutes.findById db id with
  | None => Failure 404 "Cash advance request not found" []
  | Some advance =>
    match populate db (Advance.requester advance) with
    | None => Failure 500 "Error fetching cash advance request" []
    | Some requester =>
      let canView :=
        Nat.eqb (User._id requester) (User._id user)
        || includes ["admin"; "manager"; "finance"] (User.role user) in
      if negb canView then Failure 403 "Access denied" []
      else Success 200 EmptyString advance
    end
  end.

End AdvanceViews.

(** ** The [$group] stage by status *)
Module Aggregate.

(** One output document of [{ $group: { _id: "$status", count: { $sum: 1 },
    totalAmount: { $sum: "$amount" } } }]. *)
Record Group := mkGroup {
  _id : string;
  count : nat;
  totalAmount : Z
}.

(** The groups after one more input document. *)
Fixpoint add (status : string) (amount : Z) (groups : list Group) : list Group :=
  match groups with
  | [] => [mkGroup status 1 amount]
  | g :: groups' =>
    if _id g =? status
    then mkGroup status (count g + 1) (totalAmount g + amount) :: groups'
    else g :: add status amount groups'
  end.

(** The groups of a list of documents, in the order in which the statuses
    first appear. *)
Definition group_by_status (docs : list CashAdvance.t) : list Group :=
  fold_left (fun groups a => add (CashAdvance.status a) (CashAdvance.amount a)
                                 groups)
            docs [].

(** [groups.find((stat) => stat._id === status)?.count || 0] *)
Definition count_of (status : string) (groups : list Group) : nat :=
  match find (fun g => _id g =? status) groups with
  | Some g => count g
  | None => 0
  end.

(** [groups.reduce((sum, stat) => sum + stat.count, 0)] *)
Definition sum_count (groups : list Group) : nat :=
  fold_left (fun sum g => (sum + count g)%nat) groups 0%nat.

(** [groups.reduce((sum, stat) => sum + stat.totalAmount, 0)] *)
Definition sum_amount (groups : list Group) : Z :=
  fold_left (fun sum g => (sum + totalAmount g)%Z) groups 0%Z.

End Aggregate.

(** ** The statics of models/CashAdvance.js and the staff dashboard *)
Module CashAdvanceViews.

Record Stats := mkStats {
  totalRequests : nat;
  pending : nat;
  approved : nat;
  rejected : nat;
  retired : nat;
  totalAmount : Z
}.


(** [{ $cond: [{ $eq: ["$status", s] }, 1, 0] }] *)
Definition cond (a : CashAdvance.t) (s : string) : nat :=
  if CashAdvance.status a =? s then 1 else 0.

(** The accumulators of the [$group] stage of [getUserStats] after one
    more document. *)
Definition accumulate (acc : Stats) (a : CashAdvance.t) : Stats :=
  mkStats (totalRequests acc + 1)
          (pending acc + cond a "pending")
          (approved acc + cond a "approved")
          (rejected acc + cond a "rejected")
          (retired acc + cond a "retired")
          (totalAmount acc + CashAdvance.amount a).

(** A [$group] stage with [_id: null]: one group, and none when no
    document reaches the stage. *)
Definition group_all {B} (step : B -> CashAdvance.t -> B) (init : B)
           (docs : list CashAdvance.t) : list B :=
  match docs with
  | [] => []
  | _ => [fold_left step docs init]
  end.

Definition of_user (userId : ObjectId) (a : CashAdvance.t) : bool :=
  Nat.eqb (CashAdvance.user a) userId.


(** [this.countDocuments({ user: userId, status })] *)
Definition countDocuments (collection : list CashAdvance.t) (userId : ObjectId)
           (status : option string) : nat :=
  List.length
    (filter (fun a => of_user userId a
                      && match status with
                         | Some s => CashAdvance.status a =? s
                         | None => true
                         end)
            collection).

(** [cashAdvanceSchema.statics.getUserStatsAlt] *)
Definition getUserStatsAlt (collection : list CashAdvance.t) (userId : ObjectId)
  : Stats :=
  let totalRequests := countDocuments collection userId None in
  let pending := countDocuments collection userId (Some "pending") in
  let approved := countDocuments collection userId (Some "approved") in
  let rejected := countDocuments collection userId (Some "rejected") in
  let retired := countDocuments collection userId (Some "retired") in
  let totalAmountResult :=
    group_all (fun sum a => (sum + CashAdvance.amount a)%Z) 0%Z
              (filter (of_user userId) collection) in
  let totalAmount :=
    match totalAmountResult with
    | sum :: _ => sum
    | [] => 0%Z
    end in
  mkStats totalRequests pending approved rejected retired totalAmount.

(** [GET /api/advances/staff/stats] *)
Definition get_staff_stats (db : Db.t) (user : User.t) : response Stats :=
  Success 200 EmptyString
          (getUserStatsAlt (Db.cashAdvances db) (User._id user)).

(** [GET /api/advances/my-requests/:id] *)
Definition get_my_request (db : Db.t) (user : User.t) (id : ObjectId)
  : response CashAdvance.t :=
  match CashAdvanceRoutes.findOwned db id (User._id user) with
  | None => Failure 404 "Cash advance request not found" []
  | Some advance => Success 200 EmptyString advance
  end.









End CashAdvanceViews.

(** ** Counting and summing a list of requests, for the statements *)
Module Tally.

(** The number of documents with the status [s]. *)
Definition count_status (s : string) (docs : list CashAdvance.t) : nat :=
  List.length (filter (fun a => CashAdvance.status a =? s) docs).

(** The sum of the amounts. *)
Definition sum_amounts (docs : list CashAdvance.t) : Z :=
  fold_right (fun a sum => (CashAdvance.amount a + sum)%Z) 0%Z docs.

(** The documents of one user. *)
Definition owned (userId : ObjectId) (docs : list CashAdvance.t)
  : list CashAdvance.t :=
  filter (fun a => Nat.eqb (CashAdvance.user a) userId) docs.

(** The count a summary by role gives for [role]; zero when the role has
    no entry. *)
Definition role_count (role : string) (summary : list (string * nat)) : nat :=
  match find (fun g => fst g =? role) summary with
  | Some g => snd g
  | None => 0
  end.

(** The number of users with the role [role]. *)
Definition with_role (role : string) (users : list User.t) : nat :=
  List.length (filter (fun u => User.role u =? role) users).

End Tally.

(** ** The read routes of routes/manager.js *)
Module ManagerViews.

(** The filter [{ department: manager.department, role: "staff",
    isActive: true }] on users. *)
Definition is_team_member (manager u : User.t) : bool :=
  (User.department u =? User.department manager)
  && (User.role u =? "staff") && User.isActive u.

(** [{ user: { $in: teamMemberIds } }] *)
Definition in_team (teamMemberIds : list ObjectId) (a : CashAdvance.t) : bool :=
  existsb (Nat.eqb (CashAdvance.user a)) teamMemberIds.

Record Stats := mkStats {
  pendingApprovals : nat;
  teamMembers : nat;
  totalTeamRequests : nat;
  approvedRequests : nat;
  pendingRequests : nat;
  totalAmount : Z
}.

Record Dashboard := mkDashboard {
  dashboard_stats : Stats;
  dashboard_pendingApprovals : list CashAdvance.t;
  dashboard_teamMembers : list User.t;
  dashboard_recentTeamRequests : list CashAdvance.t
}.

(** [GET /api/manager/dashboard], behind [authorize("manager")]. *)
Definition get_dashboard (db : Db.t) (user : User.t) : response Dashboard :=
  match Auth.authorize ["manager"] user with
  | Some denied => denied
  | None =>
    let teamMembersCount :=
      List.length (filter (is_team_member user) (Db.users db)) in
    let teamMemberIds := ManagerRoutes.teamMemberIds db user in
    let pendingApprovalsCount :=
      List.length
        (filter (fun a => (CashAdvance.status a =? "pending")
                          && in_team teamMemberIds a)
                (Db.cashAdvances db)) in
    let teamStats :=
      Aggregate.group_by_status
        (filter (in_team teamMemberIds) (Db.cashAdvances db)) in
    let stats :=
      mkStats pendingApprovalsCount teamMembersCount
              (Aggregate.sum_count teamStats)
              (Aggregate.count_of "approved" teamStats)
              (Aggregate.count_of "pending" teamStats)
              (Aggregate.sum_amount teamStats) in
    let pendingApprovals :=
      firstn 5 (Listing.sort_desc CashAdvance.createdAt
                  (filter (fun a => (CashAdvance.status a =? "pending")
                                    && in_team teamMemberIds a)
                          (Db.cashAdvances db))) in
    let recentTeamRequests :=
      firstn 5 (Listing.sort_desc CashAdvance.createdAt
                  (filter (in_team teamMemberIds) (Db.cashAdvances db))) in
    let displayTeamMembers :=
      firstn 6 (filter (is_team_member user) (Db.users db)) in
    Success 200 EmptyString
            (mkDashboard stats pendingApprovals displayTeamMembers
                         recentTeamRequests)
  end.

Record PendingQuery := mkPendingQuery {
  pending_page : option string;
  pending_limit : option string;
  pending_search : option string
}.

Record TeamQuery := mkTeamQuery {
  team_status : option string;
  team_page : option string;
  team_limit : option string;
  team_sort : option string;
  team_search : option string
}.

Section WithRegExp.
(** [compiles p]: the store accepts [p] as a regular expression; a query
    with a [$regex] it does not accept throws. *)
Variable compiles : string -> bool.
(** [regexp_i p s]: the string [s] matches [{ $regex: p, $options: "i" }]. *)
Variable regexp_i : string -> string -> bool.
(** [sort_by spec l]: the order [.sort(spec)] gives to the documents [l]. *)
Variable sort_by : string -> list CashAdvance.t -> list CashAdvance.t.

(** Whether the query can run: a [search] that is given must compile. *)
Definition search_compiles (search : option string) : bool :=
  match search with
  | Some (String c pattern') => compiles (String c pattern')
  | _ => true
  end.

(** The [$or] of the search on [purpose] and [description]; an absent or
    empty [search] adds no condition. *)
Definition search_matches (search : option string) (a : CashAdvance.t) : bool :=
  match search with
  | Some (String c pattern') =>
    let pattern := String c pattern' in
    regexp_i pattern (CashAdvance.purpose a)
    || match CashAdvance.description a with
       | Some d => regexp_i pattern d
       | None => false
       end
  | _ => true
  end.

(** The filter of [GET /api/manager/pending-approvals]. *)
Definition pending_matches (teamMemberIds : list ObjectId)
           (q : PendingQuery) (a : CashAdvance.t) : bool :=
  (CashAdvance.status a =? "pending") && in_team teamMemberIds a
  && search_matches (pending_search q) a.

(** [GET /api/manager/pending-approvals] *)
Definition get_pending_approvals (db : Db.t) (user : User.t) (q : PendingQuery)
  : response (Listing.Page CashAdvance.t) :=
  match Auth.authorize ["manager"] user with
  | Some denied => denied
  | None =>
    let teamMemberIds := ManagerRoutes.teamMemberIds db user in
    let page_n := JS.parseInt_or (pending_page q) 1 in
    let limit_n := JS.parseInt_or (pending_limit q) 10 in
    let skip := Listing.skip_of page_n limit_n in
    if negb (search_compiles (pending_search q)) then
      Failure 500 "Error fetching pending approvals" []
    else
      match Listing.find_window skip limit_n
              (Listing.sort_desc CashAdvance.createdAt
                 (filter (pending_matches teamMemberIds q)
                         (Db.cashAdvances db)))
      with
      | None => Failure 500 "Error fetching pending approvals" []
      | Some pendingApprovals =>
        let total :=
          List.length (filter (pending_matches teamMemberIds q)
                              (Db.cashAdvances db)) in
        Success 200 EmptyString
                (Listing.mkPage pendingApprovals
                                (Listing.paginate page_n limit_n total))
      end
  end.

(** The filter of [GET /api/manager/team-requests]. *)
Definition team_matches (teamMemberIds : list ObjectId)
           (q : TeamQuery) (a : CashAdvance.t) : bool :=
  in_team teamMemberIds a
  && match JS.given_not_all (team_status q) with
     | Some s => CashAdvance.status a =? s
     | None => true
     end
  && search_matches (team_search q) a.

(** [GET /api/manager/team-requests] *)
Definition get_team_requests (db : Db.t) (user : User.t) (q : TeamQuery)
  : response (Listing.Page CashAdvance.t) :=
  match Auth.authorize ["manager"] user with
  | Some denied => denied
  | None =>
    let teamMemberIds := ManagerRoutes.teamMemberIds db user in
    let page_n := JS.parseInt_or (team_page q) 1 in
    let limit_n := JS.parseInt_or (team_limit q) 10 in
    let skip := Listing.skip_of page_n limit_n in
    let sort := match team_sort q with Some s => s | None => "-createdAt" end in
    if negb (search_compiles (team_search q)) then
      Failure 500 "Error fetching team requests" []
    else
      match Listing.find_window skip limit_n
              (sort_by sort
                 (filter (team_matches teamMemberIds q) (Db.cashAdvances db)))
      with
      | None => Failure 500 "Error fetching team requests" []
      | Some requests =>
        let total :=
          List.length (filter (team_matches teamMemberIds q)
                              (Db.cashAdvances db)) in
        Success 200 EmptyString
                (Listing.mkPage requests (Listing.paginate page_n limit_n total))
      end
  end.

End WithRegExp.

(** [GET /api/manager/requests/:id].  The query populates [rejectedBy],
    which is not a path of the schema: on a request it has found the
    query throws and the handler's [catch] answers 500. *)
Definition get_request (db : Db.t) (user : User.t) (id : ObjectId)
  : response CashAdvance.t :=
  match Auth.authorize ["manager"] user with
  | Some denied => denied
  | None =>
    let teamMemberIds := ManagerRoutes.teamMemberIds db user in
    match find (fun a => Nat.eqb (CashAdvance._id a) id
                         && in_team teamMemberIds a)
               (Db.cashAdvances db) with
    | None => Failure 404 "Request not found" []
    | Some request => Failure 500 "Error fetching request details" []
    end
  end.

(** A JavaScript object with numeric values, as the list of its keys
    and values in insertion order. *)
Definition object := list (string * Z).

(** [obj[key]], zero standing for [undefined]. *)
Definition get (key : string) (obj : object) : Z :=
  match find (fun kv => fst kv =? key) obj with
  | Some kv => snd kv
  | None => 0%Z
  end.

(** [obj[key] = v]: an existing key keeps its place, a new key goes last. *)
Fixpoint set (key : string) (v : Z) (obj : object) : object :=
  match obj with
  | [] => [(key, v)]
  | kv :: obj' =>
    if fst kv =? key then (key, v) :: obj' else kv :: set key v obj'
  end.

(** The initial [statusCounts]. *)
Definition statusCounts0 : object :=
  [("pending", 0%Z); ("approved", 0%Z); ("rejected", 0%Z); ("retired", 0%Z);
   ("total", 0%Z); ("totalAmount", 0%Z)].

(** The body of [stats.forEach((stat) => { ... })]. *)
Definition count_stat (statusCounts : object) (stat : Aggregate.Group) : object :=
  let c1 := set (Aggregate._id stat) (Z.of_nat (Aggregate.count stat))
                statusCounts in
  let c2 := set "total" (get "total" c1 + Z.of_nat (Aggregate.count stat))%Z c1 in
  set "totalAmount"
      (get "totalAmount" c2 + or_number (Some (Aggregate.totalAmount stat)) 0)%Z
      c2.

Record MemberQuery := mkMemberQuery {
  member_status : option string;
  member_page : option string;
  member_limit : option string
}.

Record MemberRequests := mkMemberRequests {
  teamMember : User.t;
  teamMember_stats : object;
  member_requests : Listing.Page CashAdvance.t
}.

(** The filter of the requests of [GET /api/manager/team-members/:id/requests]. *)
Definition member_matches (id : ObjectId) (q : MemberQuery) (a : CashAdvance.t)
  : bool :=
  Nat.eqb (CashAdvance.user a) id
  && match JS.given_not_all (member_status q) with
     | Some s => CashAdvance.status a =? s
     | None => true
     end.

(** [GET /api/manager/team-members/:id/requests] *)
Definition get_member_requests (db : Db.t) (user : User.t) (id : ObjectId)
           (q : MemberQuery) : response MemberRequests :=
  match Auth.authorize ["manager"] user with
  | Some denied => denied
  | None =>
    match find (fun u => Nat.eqb (User._id u) id && is_team_member user u)
               (Db.users db) with
    | None => Failure 404 "Team member not found" []
    | Some teamMember =>
      let page_n := JS.parseInt_or (member_page q) 1 in
      let limit_n := JS.parseInt_or (member_limit q) 10 in
      let skip := Listing.skip_of page_n limit_n in
      match Listing.find_window skip limit_n
              (Listing.sort_desc CashAdvance.createdAt
                 (filter (member_matches id q) (Db.cashAdvances db))) with
      | None => Failure 500 "Error fetching team member requests" []
      | Some requests =>
        let total :=
          List.length (filter (member_matches id q) (Db.cashAdvances db)) in
        let stats :=
          Aggregate.group_by_status
            (filter (fun a => Nat.eqb (CashAdvance.user a) (User._id teamMember))
                    (Db.cashAdvances db)) in
        let statusCounts := fold_left count_stat stats statusCounts0 in
        Success 200 EmptyString
                (mkMemberRequests teamMember statusCounts
                   (Listing.mkPage requests
                                   (Listing.paginate page_n limit_n total)))
      end
    end
  end.

End ManagerViews.

(** ** routes/users.js: one user, roles, activation and deletion *)
Module UserAdmin.

Definition set_users (db : Db.t) (l : list User.t) : Db.t :=
  Db.mk l (Db.advances db) (Db.cashAdvances db).

(** [User.findById(id)] *)
Definition findById (db : Db.t) (id : ObjectId) : option User.t :=
  find (fun u => Nat.eqb (User._id u) id) (Db.users db).

Definition set_role (u : User.t) (role : string) : User.t :=
  User.mk (User._id u) (User.firstName u) (User.lastName u) (User.email u)
          (User.employeeId u) (User.department u) role (User.isActive u)
          (User.createdAt u).

Definition set_isActive (u : User.t) (isActive : bool) : User.t :=
  User.mk (User._id u) (User.firstName u) (User.lastName u) (User.email u)
          (User.employeeId u) (User.department u) (User.role u) isActive
          (User.createdAt u).

(** The collection after [findByIdAndUpdate(id, ...)]: the first document
    with the id is rewritten. *)
Fixpoint update (id : ObjectId) (f : User.t -> User.t) (l : list User.t)
  : list User.t :=
  match l with
  | [] => []
  | u :: l' => if Nat.eqb (User._id u) id then f u :: l' else u :: update id f l'
  end.

(** The collection after [findByIdAndDelete(id)]. *)
Fixpoint remove (id : ObjectId) (l : list User.t) : list User.t :=
  match l with
  | [] => []
  | u :: l' => if Nat.eqb (User._id u) id then l' else u :: remove id l'
  end.

(** The text of [req.params.id] as far as the route tells one text from
    another: [Spelled id canonical] is a text that [findById] casts to
    [id], and [canonical] says whether it is the text [req.user.id] gives
    for that id (the 24 hexadecimal digits in lower case); [Malformed] is
    a text that [findById] cannot cast. *)
Inductive IdParam :=
| Spelled (id : ObjectId) (canonical : bool)
| Malformed.

(** [req.user.id !== req.params.id], a comparison of strings. *)
Definition differs (user : User.t) (id : ObjectId) (canonical : bool) : bool :=
  negb (Nat.eqb (User._id user) id && canonical).

(** [GET /api/users/:id]: the lookup comes before the access check. *)
Definition get_user (db : Db.t) (user : User.t) (param : IdParam)
  : response User.t :=
  match param with
  | Malformed => Failure 500 "Error fetching user" []
  | Spelled id canonical =>
    match findById db id with
    | None => Failure 404 "User not found" []
    | Some found =>
      if differs user id canonical
         && negb (includes ["admin"; "manager"; "finance"] (User.role user))
      then Failure 403 "Access denied" []
      else Success 200 EmptyString found
    end
  end.

(** [PUT /api/users/:id/role], behind [isAdmin]; [role] is the field of
    the body, [None] when it is absent. *)
Definition put_role (db : Db.t) (user : User.t) (id : ObjectId)
           (role : option string) : Db.t * response User.t :=
  match Auth.isAdmin user with
  | Some denied => (db, denied)
  | None =>
    match role with
    | None => (db, Failure 400 "Invalid role specified" [])
    | Some role =>
      if negb (includes ["staff"; "manager"; "finance"; "admin"] role) then
        (db, Failure 400 "Invalid role specified" [])
      else
        match findById db id with
        | None => (db, Failure 404 "User not found" [])
        | Some found =>
          (set_users db (update id (fun u => set_role u role) (Db.users db)),
           Success 200 "User role updated successfully" (set_role found role))
        end
    end
  end.

(** [PUT /api/users/:id/status], behind [isAdmin]; [isActive] is the
    field of the body when it is a boolean and [None] otherwise. *)
Definition put_status (db : Db.t) (user : User.t) (id : ObjectId)
           (isActive : option bool) : Db.t * response User.t :=
  match Auth.isAdmin user with
  | Some denied => (db, denied)
  | None =>
    match isActive with
    | None => (db, Failure 400 "isActive must be a boolean value" [])
    | Some isActive =>
      match findById db id with
      | None => (db, Failure 404 "User not found" [])
      | Some found =>
        (set_users db (update id (fun u => set_isActive u isActive)
                              (Db.users db)),
         Success 200
                 ("User " ++ (if isActive then "activated" else "deactivated")
                          ++ " successfully")
                 (set_isActive found isActive))
      end
    end
  end.

(** [DELETE /api/users/:id], behind [isAdmin]. *)
Definition delete_user (db : Db.t) (user : User.t) (id : ObjectId)
  : Db.t * response unit :=
  match Auth.isAdmin user with
  | Some denied => (db, denied)
  | None =>
    match findById db id with
    | None => (db, Failure 404 "User not found" [])
    | Some _ =>
      (set_users db (remove id (Db.users db)),
       Success 200 "User deleted successfully" tt)
    end
  end.

(** One output document of [{ $group: { _id: "$role", count: { $sum: 1 } } }]. *)
Record RoleCount := mkRoleCount {
  _id : string;
  count : nat
}.

Fixpoint add (role : string) (groups : list RoleCount) : list RoleCount :=
  match groups with
  | [] => [mkRoleCount role 1]
  | g :: groups' =>
    if _id g =? role then mkRoleCount role (count g + 1) :: groups'
    else g :: add role groups'
  end.

Definition group_by_role (users : list User.t) : list RoleCount :=
  fold_left (fun groups u => add (User.role u) groups) users [].

(** [{ $sort: { _id: 1 } }]: strings in ascending binary order. *)
Fixpoint insert_role (x : RoleCount) (l : list RoleCount) : list RoleCount :=
  match l with
  | [] => [x]
  | y :: l' => if String.ltb (_id x) (_id y) then x :: l else y :: insert_role x l'
  end.

Definition sort_by_role (l : list RoleCount) : list RoleCount :=
  fold_left (fun acc x => insert_role x acc) l [].

(** [GET /api/users/roles/summary], behind [authorize("admin", "manager")]. *)
Definition get_roles_summary (db : Db.t) (user : User.t)
  : response (list RoleCount) :=
  match Auth.authorize ["admin"; "manager"] user with
  | Some denied => denied
  | None =>
    Success 200 EmptyString
            (sort_by_role (group_by_role (filter User.isActive (Db.users db))))
  end.

End UserAdmin.

(** ** middleware/auth.js: [authenticate] *)
Module Authentication.

(** [s.slice(n)] *)
Fixpoint drop (n : nat) (s : string) : string :=
  match n, s with
  | O, _ => s
  | S n', String _ s' => drop n' s'
  | S _, EmptyString => EmptyString
  end.

(** [s.replace(pattern, replacement)] for a string pattern: the first
    occurrence is replaced. *)
Fixpoint replace (pattern replacement s : string) : string :=
  if String.prefix pattern s
  then replacement ++ drop (String.length pattern) s
  else match s with
       | String c s' => String c (replace pattern replacement s')
       | EmptyString => EmptyString
       end.

(** What [jwt.verify(token, secret)] does: it returns the payload, whose
    [id] is the id the token was signed for, or throws an error with one
    of the names the handler tells apart. *)
Inductive verified :=
| Payload (id : ObjectId)
| TokenExpiredError
| JsonWebTokenError
| OtherError.

(** The middleware either answers or calls [next()] with [req.user] set. *)
Inductive outcome :=
| Next (user : User.t)
| Respond (code : nat) (message : string).

Section WithJwt.
Variable jwt_verify : string -> verified.

(** [authenticate]; [authorization] is the [Authorization] header. *)
Definition authenticate (db : Db.t) (authorization : option string) : outcome :=
  match option_map (replace "Bearer " EmptyString) authorization with
  | None => Respond 401 "Access denied. No token provided."
  | Some token =>
    if token =? EmptyString then Respond 401 "Access denied. No token provided."
    else
      match jwt_verify token with
      | Payload id =>
        match UserAdmin.findById db id with
        | None => Respond 401 "Token is not valid. User not found."
        | Some user =>
          if negb (User.isActive user)
          then Respond 401 "Account has been deactivated."
          else Next user
        end
      | TokenExpiredError => Respond 401 "Token has expired."
      | JsonWebTokenError => Respond 401 "Invalid token."
      | OtherError => Respond 500 "Server error during authentication."
      end
  end.

End WithJwt.

End Authentication.

(** ** routes/reports.js: the pending and the overdue advances *)
Module Reports.

Record PendingSummary := mkPendingSummary {
  totalPending : nat;
  awaitingManagerApproval : nat;
  awaitingFinanceApproval : nat;
  totalPendingAmount : Z
}.

Record PendingReport := mkPendingReport {
  pendingAdvances : list Advance.t;
  categorized_pending : list Advance.t;
  categorized_managerApproved : list Advance.t;
  pending_summary : PendingSummary
}.

(** [GET /api/reports/pending-advances], behind
    [authorize("manager", "finance", "admin")]. *)
Definition get_pending_advances (db : Db.t) (user : User.t)
  : response PendingReport :=
  match Auth.authorize ["manager"; "finance"; "admin"] user with
  | Some denied => denied
  | None =>
    let pendingAdvances :=
      AdvanceViews.sort_asc Advance.requestDate
        (filter (fun a => includes ["pending"; "manager_approved"]
                                   (Advance.status a)
                          && Advance.isActive a)
                (Db.advances db)) in
    let pending :=
      filter (fun adv => Advance.status adv =? "pending") pendingAdvances in
    let managerApproved :=
      filter (fun adv => Advance.status adv =? "manager_approved")
             pendingAdvances in
    Success 200 EmptyString
            (mkPendingReport pendingAdvances pending managerApproved
               (mkPendingSummary
                  (List.length pendingAdvances) (List.length pending)
                  (List.length managerApproved)
                  (fold_left (fun sum adv => (sum + Advance.amount adv)%Z)
                             pendingAdvances 0%Z)))
  end.

(** An overdue advance with the [daysOverdue] the handler adds. *)
Record Overdue := mkOverdue {
  advance : Advance.t;
  daysOverdue : Z
}.

Record OverdueSummary := mkOverdueSummary {
  totalOverdue : nat;
  totalOverdueAmount : Z
}.

Record OverdueReport := mkOverdueReport {
  overdueAdvances : list Overdue;
  overdue_summary : OverdueSummary
}.

(** The filter [{ status: "disbursed", expectedReturnDate: { $lt: today },
    isActive: true }]. *)
Definition is_overdue (today : Date) (a : Advance.t) : bool :=
  (Advance.status a =? "disbursed")
  && (Advance.expectedReturnDate a <? today)%Z
  && Advance.isActive a.

(** [adv.disbursement.disbursedAmount || adv.amount] *)
Definition amount_out (adv : Advance.t) : Z :=
  or_number (option_map Advance.disbursedAmount (Advance.disbursement adv))
            (Advance.amount adv).

(** [GET /api/reports/overdue-returns], behind [authorize("finance",
    "admin")]; [today] is [new Date()]. *)
Definition get_overdue_returns (today : Date) (db : Db.t) (user : User.t)
  : response OverdueReport :=
  match Auth.authorize ["finance"; "admin"] user with
  | Some denied => denied
  | None =>
    let overdueAdvances :=
      AdvanceViews.sort_asc Advance.expectedReturnDate
        (filter (is_overdue today) (Db.advances db)) in
    let overdueWithDays :=
      map (fun advance =>
             mkOverdue advance
                       ((today - Advance.expectedReturnDate advance)
                          / (1000 * 60 * 60 * 24))%Z)
          overdueAdvances in
    Success 200 EmptyString
            (mkOverdueReport overdueWithDays
               (mkOverdueSummary
                  (List.length overdueAdvances)
                  (fold_left (fun sum adv => (sum + amount_out adv)%Z)
                             overdueAdvances 0%Z)))
  end.

Record SummaryQuery := mkSummaryQuery {
  startDate : option Date;
  endDate : option Date;
  department : option string;
  status : option string
}.

(** [matchFilter]: active advances, requested within the dates that are
    given, with the status that is given. *)
Definition matchFilter (q : SummaryQuery) (a : Advance.t) : bool :=
  Advance.isActive a
  && match startDate q with
     | Some d => (d <=? Advance.requestDate a)%Z
     | None => true
     end
  && match endDate q with
     | Some d => (Advance.requestDate a <=? d)%Z
     | None => true
     end
  && match JS.given_not_all (status q) with
     | Some s => Advance.status a =? s
     | None => true
     end.

(** The [$lookup] of the requester followed by [$unwind]: one document
    for each user with the id, none when there is no such user. *)
Definition lookup_requester (db : Db.t) (docs : list Advance.t)
  : list (Advance.t * User.t) :=
  flat_map (fun a => map (fun u => (a, u))
                         (filter (fun u => Nat.eqb (User._id u)
                                                    (Advance.requester a))
                                 (Db.users db)))
           docs.

(** The second [$match]: on the requester's department when one is given. *)
Definition departmentFilter (q : SummaryQuery) (d : Advance.t * User.t) : bool :=
  match JS.given_not_all (department q) with
  | Some dep => User.department (snd d) =? dep
  | None => true
  end.

Record Totals := mkTotals {
  totalRequests : nat;
  totalAmount : Z;
  approvedAmount : Z;
  pendingAmount : Z;
  disbursedAmount : Z
}.

Definition no_totals : Totals := mkTotals 0 0 0 0 0.

(** [{ $cond: [{ $in: ["$status", statuses] }, value, 0] }] *)
Definition cond_in (statuses : list string) (a : Advance.t) (value : Z) : Z :=
  if includes statuses (Advance.status a) then value else 0%Z.

(** The accumulators of the [$group] stage of the summary after one more
    document; a missing [disbursement.disbursedAmount] adds nothing. *)
Definition accumulate (acc : Totals) (d : Advance.t * User.t) : Totals :=
  let a := fst d in
  mkTotals (totalRequests acc + 1)
           (totalAmount acc + Advance.amount a)
           (approvedAmount acc
            + cond_in ["finance_approved"; "disbursed"; "retired"] a
                      (Advance.amount a))
           (pendingAmount acc
            + cond_in ["pending"; "manager_approved"] a (Advance.amount a))
           (disbursedAmount acc
            + cond_in ["disbursed"; "retired"] a
                      (match Advance.disbursement a with
                       | Some d => Advance.disbursedAmount d
                       | None => 0
                       end)).

(** A [$group] stage with [_id: null]: one group, and none when no
    document reaches the stage. *)
Definition group_null {B D} (step : B -> D -> B) (init : B) (docs : list D)
  : list B :=
  match docs with
  | [] => []
  | _ => [fold_left step docs init]
  end.

(** The groups of a list of keys with amounts, in the order in which the
    keys first appear. *)
Definition group_by (docs : list (string * Z)) : list Aggregate.Group :=
  fold_left (fun groups d => Aggregate.add (fst d) (snd d) groups) docs [].

(** [{ $sort: { _id: 1 } }] on groups. *)
Fixpoint insert_group (x : Aggregate.Group) (l : list Aggregate.Group)
  : list Aggregate.Group :=
  match l with
  | [] => [x]
  | y :: l' =>
    if String.ltb (Aggregate._id x) (Aggregate._id y) then x :: l
    else y :: insert_group x l'
  end.

Definition sort_by_id (l : list Aggregate.Group) : list Aggregate.Group :=
  fold_left (fun acc x => insert_group x acc) l [].

Record Summary := mkSummary {
  summary : Totals;
  statusBreakdown : list Aggregate.Group;
  departmentBreakdown : list Aggregate.Group
}.

(** [GET /api/reports/summary], behind [authorize("manager", "finance",
    "admin")].  [startDate] and [endDate] are the dates the parameters
    denote, [None] for a parameter that is absent or empty; a string that
    is not a date is outside the model. *)
Definition get_summary (db : Db.t) (user : User.t) (q : SummaryQuery)
  : response Summary :=
  match Auth.authorize ["manager"; "finance"; "admin"] user with
  | Some denied => denied
  | None =>
    let matched := lookup_requester db (filter (matchFilter q) (Db.advances db)) in
    let summary :=
      group_null accumulate no_totals (filter (departmentFilter q) matched) in
    let statusBreakdown :=
      sort_by_id
        (group_by (map (fun d => (Advance.status (fst d), Advance.amount (fst d)))
                       (filter (departmentFilter q) matched))) in
    let departmentBreakdown :=
      Listing.sort_desc Aggregate.totalAmount
        (group_by (map (fun d => (User.department (snd d), Advance.amount (fst d)))
                       matched)) in
    Success 200 EmptyString
            (mkSummary (match summary with
                        | summary0 :: _ => summary0
                        | [] => no_totals
                        end)
                       statusBreakdown departmentBreakdown)
  end.










End Reports.

(** * Verified properties *)

(** The guard as a relation between status and role. *)
Lemma canBeApprovedBy_iff :
  forall (a : Advance.t) (userRole : string),
    Advance.canBeApprovedBy a userRole = true <->
    (Advance.status a = "pending" /\ userRole = "manager") \/
    (Advance.status a = "manager_approved" /\ userRole = "finance").
Proof.
  intros a userRole. unfold Advance.canBeApprovedBy. split.
  - destruct (String.eqb_spec (Advance.status a) "rejected") as [E|E];
      simpl; [discriminate|].
    destruct (String.eqb_spec (Advance.status a) "retired") as [E1|E1];
      simpl; [discriminate|].
    destruct (String.eqb_spec userRole "manager") as [E2|E2]; simpl.
    + destruct (String.eqb_spec (Advance.status a) "pending") as [E3|E3];
        [intros _; left; split; assumption|].
      subst userRole. simpl. discriminate.
    + destruct (String.eqb_spec userRole "finance") as [E3|E3]; simpl;
        [|discriminate].
      destruct (String.eqb_spec (Advance.status a) "manager_approved");
        [intros _; right; split; assumption | discriminate].
  - intros [[Hs Hr]|[Hs Hr]]; rewrite Hs, Hr; reflexivity.
Qed.

(** A guard that is not true is false: the contrapositive, ready to use. *)
Lemma canBeApprovedBy_false :
  forall (a : Advance.t) (userRole : string),
    ~ ((Advance.status a = "pending" /\ userRole = "manager") \/
       (Advance.status a = "manager_approved" /\ userRole = "finance")) ->
    Advance.canBeApprovedBy a userRole = false.
Proof.
  intros a userRole H.
  destruct (Advance.canBeApprovedBy a userRole) eqn:G; [|reflexivity].
  apply canBeApprovedBy_iff in G. contradiction.
Qed.

(** C1. The guard [canBeApprovedBy] holds exactly for a manager on a pending
    advance and for finance on a manager-approved advance; it is false for
    the roles admin and staff and for the statuses finance_approved,
    disbursed, rejected and retired, whoever asks. *)
Theorem canBeApprovedBy_exactly_stage_role :
  (forall (a : Advance.t) (userRole : string),
      Advance.canBeApprovedBy a userRole = true <->
      (Advance.status a = "pending" /\ userRole = "manager") \/
      (Advance.status a = "manager_approved" /\ userRole = "finance"))
  /\ (forall a, Advance.canBeApprovedBy a "admin" = false)
  /\ (forall a, Advance.canBeApprovedBy a "staff" = false)
  /\ (forall a userRole,
         Advance.canBeApprovedBy (Advance.set_status a "finance_approved") userRole = false
         /\ Advance.canBeApprovedBy (Advance.set_status a "disbursed") userRole = false
         /\ Advance.canBeApprovedBy (Advance.set_status a "rejected") userRole = false
         /\ Advance.canBeApprovedBy (Advance.set_status a "retired") userRole = false).
Proof.
  split; [exact canBeApprovedBy_iff|].
  repeat apply conj; intros; repeat apply conj;
    apply canBeApprovedBy_false; simpl;
    intros [[G1 G2]|[G1 G2]]; discriminate.
Qed.

(** C3. [addApproval] first appends the event to the history, leaving the
    status as it was, and only then sets the status; the events already in
    the history stay in place; the new status follows from the event just
    appended: a rejection gives rejected whatever the role, an approval by a
    manager gives manager_approved and one by finance finance_approved. *)
Theorem addApproval_appends_then_sets_status :
  forall (now : Date) (a : Advance.t) (approverId : ObjectId)
         (role decision : string) (comment : option string),
    let ev := Advance.Approval.mk approverId role decision
                (match comment with Some c => c | None => EmptyString end) now in
    let pushed := Advance.push_approval a ev in
    let a' := Advance.addApproval now a approverId role decision comment in
    (* the push comes first and does not touch the status *)
    Advance.approvals pushed = (Advance.approvals a ++ [ev])%list
    /\ Advance.status pushed = Advance.status a
    (* the status update works on the pushed document and keeps the history *)
    /\ a' = Advance.update_main_status pushed role decision
    /\ Advance.approvals a' = (Advance.approvals a ++ [ev])%list
    /\ firstn (List.length (Advance.approvals a)) (Advance.approvals a')
       = Advance.approvals a
    /\ last (Advance.approvals a') ev = ev
    (* the status is a function of the last event *)
    /\ Advance.status a'
       = (if Advance.Approval.status ev =? "rejected" then "rejected"
          else if (Advance.Approval.role ev =? "manager")
                  && (Advance.Approval.status ev =? "approved")
               then "manager_approved"
          else if (Advance.Approval.role ev =? "finance")
                  && (Advance.Approval.status ev =? "approved")
               then "finance_approved"
          else Advance.status a)
    /\ Advance.status
         (Advance.addApproval now a approverId role "rejected" comment)
       = "rejected"
    /\ Advance.status
         (Advance.addApproval now a approverId "manager" "approved" comment)
       = "manager_approved"
    /\ Advance.status
         (Advance.addApproval now a approverId "finance" "approved" comment)
       = "finance_approved".
Proof.
  intros now a approverId role decision comment ev pushed a'.
  assert (Happ : Advance.approvals a' = (Advance.approvals a ++ [ev])%list).
  { subst a' pushed ev.
    unfold Advance.addApproval, Advance.update_main_status.
    destruct (decision =? "rejected");
      [reflexivity|].
    destruct ((role =? "manager") && (decision =? "approved"));
      [reflexivity|].
    destruct ((role =? "finance") && (decision =? "approved")); reflexivity. }
  repeat apply conj.
  - reflexivity.
  - reflexivity.
  - reflexivity.
  - exact Happ.
  - rewrite Happ. rewrite firstn_app, Nat.sub_diag, firstn_all. simpl.
    apply app_nil_r.
  - rewrite Happ. apply last_last.
  - subst a' pushed ev.
    unfold Advance.addApproval, Advance.update_main_status. simpl.
    destruct (decision =? "rejected"); [reflexivity|].
    destruct ((role =? "manager") && (decision =? "approved"));
      [reflexivity|].
    destruct ((role =? "finance") && (decision =? "approved")); reflexivity.
  - reflexivity.
  - reflexivity.
  - reflexivity.
Qed.

(** The role gate [canApprove] lets the admin role through. *)
Lemma canApprove_admits_admin :
  forall (A : Type) (user : User.t),
    User.role user = "admin" -> @Auth.canApprove A user = None.
Proof.
  intros A user Hrole. unfold Auth.canApprove, Auth.authorize.
  rewrite Hrole. reflexivity.
Qed.

(** C10. Whatever the status of the advance, an approval or a rejection that
    an admin sends to [PUT /api/advances/:id/approve] passes the role gate
    [canApprove] and is then refused by the guard: the answer is the 400
    response of the cannot-be-approved-at-this-stage branch, and the store is
    the one before the request. *)
Theorem admin_approval_never_succeeds :
  forall (now : Date) (db : Db.t) (user : User.t) (id : ObjectId)
         (decision : string) (comment : option string) (advance : Advance.t),
    User.role user = "admin" ->
    decision = "approved" \/ decision = "rejected" ->
    AdvanceRoutes.findById db id = Some advance ->
    @Auth.canApprove Advance.t user = None
    /\ Advance.canBeApprovedBy advance (User.role user) = false
    /\ AdvanceRoutes.put_approve now db user id
         (AdvanceRoutes.mkApproveBody (Some decision) comment)
       = (db, Failure 400 ("This request cannot be " ++ decision ++ " at this stage")
                      [("currentStatus", Advance.status advance);
                       ("userRole", "admin")]).
Proof.
  intros now db user id decision comment advance Hrole Hdec Hfind.
  assert (Hguard : Advance.canBeApprovedBy advance (User.role user) = false).
  { rewrite Hrole. apply canBeApprovedBy_false.
    intros [[_ G]|[_ G]]; discriminate. }
  repeat apply conj.
  - apply canApprove_admits_admin; assumption.
  - exact Hguard.
  - unfold AdvanceRoutes.put_approve.
    rewrite (canApprove_admits_admin _ _ Hrole).
    cbn [AdvanceRoutes.approve_status AdvanceRoutes.approve_comment].
    assert (Hin : includes ["approved"; "rejected"] decision = true)
      by (destruct Hdec; subst; reflexivity).
    rewrite Hin, Hfind, Hguard, Hrole. reflexivity.
Qed.

Lemma admin_approval_never_succeeds_witness :
  let db := Sample.db_of [Sample.advance_with 10 "ADV2025010001" "pending"] [] in
  User.role Sample.admin = "admin"
  /\ AdvanceRoutes.findById db 10
     = Some (Sample.advance_with 10 "ADV2025010001" "pending")
  /\ @Auth.canApprove Advance.t Sample.admin = None
  /\ AdvanceRoutes.put_approve 2000 db Sample.admin 10
       (AdvanceRoutes.mkApproveBody (Some "approved") None)
     = (db, Failure 400 "This request cannot be approved at this stage"
                    [("currentStatus", "pending"); ("userRole", "admin")]).
Proof.
  intro db.
  pose proof (admin_approval_never_succeeds 2000 db Sample.admin 10 "approved"
                None (Sample.advance_with 10 "ADV2025010001" "pending")
                eq_refl (or_introl eq_refl) eq_refl) as [H1 [_ H3]].
  repeat apply conj; [reflexivity | reflexivity | exact H1 | exact H3].
Defined.

(** ** What each lifecycle handler can answer *)

Lemma put_disburse_cases :
  forall now db user id body,
    (exists c m e,
        AdvanceRoutes.put_disburse now db user id body = (db, Failure c m e)
        /\ (c = 400 \/ c = 403 \/ c = 404 \/ c = 500))
    \/ (exists a,
           AdvanceRoutes.findById db id = Some a
           /\ Advance.status a = "finance_approved"
           /\ @Auth.authorize Advance.t ["finance"; "admin"] user = None
           /\ Schema.method_ok (or_string (AdvanceRoutes.method body) "cash")
              = true
           /\ AdvanceRoutes.put_disburse now db user id body
              = (AdvanceRoutes.save db (disbursed_from now user body a),
                 Success 200 "Cash advance disbursed successfully"
                         (disbursed_from now user body a))).
Proof.
  intros now db user id body. unfold AdvanceRoutes.put_disburse.
  destruct (@Auth.authorize Advance.t ["finance"; "admin"] user) as [r|] eqn:Hauth.
  - left. unfold Auth.authorize in Hauth.
    destruct (negb (includes ["finance"; "admin"] (User.role user)));
      [|discriminate].
    injection Hauth as <-. eauto 10.
  - destruct (AdvanceRoutes.findById db id) as [a|] eqn:Hfind;
      [|left; eauto 10].
    destruct (String.eqb_spec (Advance.status a) "finance_approved") as [E|E];
      simpl; [|left; eauto 10].
    destruct (Schema.method_ok (or_string (AdvanceRoutes.method body) "cash"))
      eqn:Hm; simpl; [|left; eauto 10].
    right. exists a. repeat apply conj; auto.
Qed.

Lemma put_retire_cases :
  forall now db user id body,
    (exists c m e,
        CashAdvanceRoutes.put_retire now db user id body = (db, Failure c m e)
        /\ (c = 400 \/ c = 404))
    \/ (exists a,
           CashAdvanceRoutes.findOwned db id (User._id user) = Some a
           /\ CashAdvance.status a = "approved"
           /\ CashAdvanceRoutes.put_retire now db user id body
              = (CashAdvanceRoutes.save db (retired_from now body a),
                 Success 200 "Cash advance retired successfully"
                         (retired_from now body a))).
Proof.
  intros now db user id body. unfold CashAdvanceRoutes.put_retire.
  destruct (CashAdvanceRoutes.findOwned db id (User._id user)) as [a|] eqn:Hfind;
    [|left; eauto 10].
  destruct (String.eqb_spec (CashAdvance.status a) "approved") as [E|E]; simpl.
  - right. exists a. rewrite E. simpl. repeat apply conj; auto.
  - left. eauto 10.
Qed.

Lemma put_approve_cases :
  forall now db user id body,
    (exists c m e,
        AdvanceRoutes.put_approve now db user id body = (db, Failure c m e)
        /\ (c = 400 \/ c = 403 \/ c = 404))
    \/ (exists a decision,
           AdvanceRoutes.findById db id = Some a
           /\ AdvanceRoutes.approve_status body = Some decision
           /\ (decision = "approved" \/ decision = "rejected")
           /\ Advance.canBeApprovedBy a (User.role user) = true
           /\ AdvanceRoutes.put_approve now db user id body
              = (AdvanceRoutes.save db
                   (Advance.addApproval now a (User._id user) (User.role user)
                      decision (AdvanceRoutes.approve_comment body)),
                 Success 200 ("Cash advance request " ++ decision ++ " successfully")
                   (Advance.addApproval now a (User._id user) (User.role user)
                      decision (AdvanceRoutes.approve_comment body)))).
Proof.
  intros now db user id body. unfold AdvanceRoutes.put_approve.
  destruct (@Auth.canApprove Advance.t user) as [r|] eqn:Hauth.
  - left. unfold Auth.canApprove, Auth.authorize in Hauth.
    destruct (negb (includes ["manager"; "finance"; "admin"] (User.role user)));
      [|discriminate].
    injection Hauth as <-. eauto 10.
  - destruct (AdvanceRoutes.approve_status body) as [decision|] eqn:Hdec;
      [|left; eauto 10].
    destruct (includes ["approved"; "rejected"] decision) eqn:Hin; simpl;
      [|left; eauto 10].
    destruct (AdvanceRoutes.findById db id) as [a|] eqn:Hfind;
      [|left; eauto 10].
    destruct (Advance.canBeApprovedBy a (User.role user)) eqn:Hguard; simpl;
      [|left; eauto 10].
    right. exists a, decision. repeat apply conj; auto.
    unfold includes in Hin. simpl in Hin.
    destruct (String.eqb_spec decision "approved"); [left; assumption|].
    destruct (String.eqb_spec decision "rejected"); [right; assumption|].
    discriminate.
Qed.

Lemma manager_put_approve_cases :
  forall db user id,
    (exists c m e,
        ManagerRoutes.put_approve db user id = (db, Failure c m e)
        /\ (c = 403 \/ c = 404))
    \/ (exists a,
           ManagerRoutes.findPendingOfTeam db id
             (ManagerRoutes.teamMemberIds db user) = Some a
           /\ ManagerRoutes.put_approve db user id
              = (CashAdvanceRoutes.save db
                   (CashAdvance.set_approvedBy
                      (CashAdvance.set_status a "approved") (User._id user)),
                 Success 200 "Request approved successfully"
                   (CashAdvance.set_approvedBy
                      (CashAdvance.set_status a "approved") (User._id user)))).
Proof.
  intros db user id. unfold ManagerRoutes.put_approve.
  destruct (@Auth.authorize CashAdvance.t ["manager"] user) as [r|] eqn:Hauth.
  - left. unfold Auth.authorize in Hauth.
    destruct (negb (includes ["manager"] (User.role user))); [|discriminate].
    injection Hauth as <-. eauto 10.
  - destruct (ManagerRoutes.findPendingOfTeam db id
                (ManagerRoutes.teamMemberIds db user)) as [a|] eqn:Hfind;
      [|left; eauto 10].
    right. exists a. split; reflexivity.
Qed.

(** A rejection either leaves the store as it is or writes the rejected
    request; in both cases the answer is an error. *)
Lemma manager_put_reject_cases :
  forall db user id reason,
    (exists c m e,
        ManagerRoutes.put_reject db user id reason = (db, Failure c m e)
        /\ (c = 400 \/ c = 403 \/ c = 404 \/ c = 500))
    \/ (exists a r,
           ManagerRoutes.findPendingOfTeam db id
             (ManagerRoutes.teamMemberIds db user) = Some a
           /\ reason = Some r
           /\ ManagerRoutes.put_reject db user id reason
              = (CashAdvanceRoutes.save db
                   (CashAdvance.set_rejectedReason
                      (CashAdvance.set_status a "rejected") (JS.trim r)),
                 Failure 500 "Error rejecting request" [])
           /\ JS.trim r <> EmptyString
           /\ Schema.reason_ok (JS.trim r) = true).
Proof.
  intros db user id reason. unfold ManagerRoutes.put_reject.
  destruct (@Auth.authorize CashAdvance.t ["manager"] user) as [r|] eqn:Hauth.
  - left. unfold Auth.authorize in Hauth.
    destruct (negb (includes ["manager"] (User.role user))); [|discriminate].
    injection Hauth as <-. eauto 10.
  - destruct (ManagerRoutes.findPendingOfTeam db id
                (ManagerRoutes.teamMemberIds db user)) as [a|] eqn:Hfind;
      [|left; eauto 10].
    destruct reason as [r|]; [|left; eauto 10].
    destruct ((r =? EmptyString) || Nat.eqb (String.length (JS.trim r)) 0)
      eqn:Hblank; [left; eauto 10|].
    destruct (Schema.reason_ok (JS.trim r)) eqn:Hlen; simpl;
      [|left; eauto 10].
    right. exists a, r.
    split; [reflexivity|]. split; [reflexivity|]. split; [reflexivity|].
    split; [|exact Hlen].
    intro Hempty. rewrite Hempty in Hblank. simpl in Hblank.
    rewrite orb_true_r in Hblank. discriminate.
Qed.

(** ** A collection keyed by [_id] *)
Section Collection.
Context {A : Type} (key : A -> nat).

Lemma find_replace :
  forall (l : list A) (id : nat) (a x : A),
    find (fun y => Nat.eqb (key y) id) l = Some a ->
    key x = id ->
    find (fun y => Nat.eqb (key y) id)
         (map (fun y => if Nat.eqb (key y) (key x) then x else y) l)
    = Some x.
Proof.
  induction l as [|y l IH]; intros id a x Hfind Hkey; simpl in *;
    [discriminate|].
  rewrite Hkey.
  destruct (Nat.eqb (key y) id) eqn:E.
  - rewrite Hkey, Nat.eqb_refl. reflexivity.
  - rewrite E. rewrite <- Hkey. apply (IH (key x) a x).
    + rewrite Hkey. exact Hfind.
    + reflexivity.
Qed.

Lemma keys_replace :
  forall (l : list A) (x : A),
    map key (map (fun y => if Nat.eqb (key y) (key x) then x else y) l)
    = map key l.
Proof.
  induction l as [|y l IH]; intros x; simpl; [reflexivity|].
  rewrite IH. f_equal.
  destruct (Nat.eqb_spec (key y) (key x)); congruence.
Qed.

Lemma In_replace_other :
  forall (l : list A) (x y : A),
    In y l -> key y <> key x ->
    In y (map (fun y => if Nat.eqb (key y) (key x) then x else y) l).
Proof.
  intros l x y Hin Hneq. apply in_map_iff. exists y. split; [|exact Hin].
  destruct (Nat.eqb_spec (key y) (key x)); [contradiction|reflexivity].
Qed.

Lemma NoDup_key_inj :
  forall (l : list A) (x y : A),
    NoDup (map key l) -> In x l -> In y l -> key x = key y -> x = y.
Proof.
  induction l as [|z l IH]; intros x y Hnd Hx Hy Hk; [contradiction|].
  simpl in Hnd. inversion Hnd as [|? ? Hnotin Hnd']; subst.
  destruct Hx as [->|Hx], Hy as [->|Hy].
  - reflexivity.
  - exfalso. apply Hnotin. rewrite Hk. apply in_map. exact Hy.
  - exfalso. apply Hnotin. rewrite <- Hk. apply in_map. exact Hx.
  - apply IH; assumption.
Qed.

Lemma find_by_key_In :
  forall (l : list A) (id : nat) (a : A),
    find (fun y => Nat.eqb (key y) id) l = Some a -> In a l /\ key a = id.
Proof.
  intros l id a H. apply find_some in H. destruct H as [H1 H2].
  split; [exact H1|]. apply Nat.eqb_eq. exact H2.
Qed.

Lemma find_In_NoDup :
  forall (l : list A) (a : A),
    NoDup (map key l) -> In a l ->
    find (fun y => Nat.eqb (key y) (key a)) l = Some a.
Proof.
  intros l a Hnd Hin.
  destruct (find (fun y => Nat.eqb (key y) (key a)) l) as [b|] eqn:E.
  - apply find_by_key_In in E. destruct E as [Hb Hk].
    f_equal. apply (NoDup_key_inj l); assumption.
  - exfalso. apply (find_none _ _ E) in Hin.
    rewrite Nat.eqb_refl in Hin. discriminate.
Qed.
End Collection.

(** ** Terminal documents survive every lifecycle step *)

Lemma terminal_not :
  forall s, Lifecycle.terminal s = true ->
            s <> "pending" /\ s <> "manager_approved"
            /\ s <> "finance_approved" /\ s <> "approved".
Proof.
  intros s H; repeat apply conj; intros ->; discriminate.
Qed.

Lemma save_keeps_other_advance :
  forall db a a' x,
    NoDup (map Advance._id (Db.advances db)) ->
    In a (Db.advances db) -> Advance._id a' = Advance._id a ->
    In x (Db.advances db) -> Advance.status x <> Advance.status a ->
    In x (Db.advances (AdvanceRoutes.save db a')).
Proof.
  intros db a a' x Hnd Ha Hid Hx Hst. unfold AdvanceRoutes.save. simpl.
  apply (In_replace_other Advance._id); [exact Hx|].
  intro Hk. apply Hst. f_equal.
  apply (NoDup_key_inj Advance._id (Db.advances db)); auto; congruence.
Qed.

Lemma save_keeps_other_cash :
  forall db a a' x,
    NoDup (map CashAdvance._id (Db.cashAdvances db)) ->
    In a (Db.cashAdvances db) -> CashAdvance._id a' = CashAdvance._id a ->
    In x (Db.cashAdvances db) -> CashAdvance.status x <> CashAdvance.status a ->
    In x (Db.cashAdvances (CashAdvanceRoutes.save db a')).
Proof.
  intros db a a' x Hnd Ha Hid Hx Hst. unfold CashAdvanceRoutes.save. simpl.
  apply (In_replace_other CashAdvance._id); [exact Hx|].
  intro Hk. apply Hst. f_equal.
  apply (NoDup_key_inj CashAdvance._id (Db.cashAdvances db)); auto; congruence.
Qed.

Lemma addApproval_id :
  forall now a u role decision comment,
    Advance._id (Advance.addApproval now a u role decision comment)
    = Advance._id a.
Proof.
  intros. unfold Advance.addApproval, Advance.update_main_status.
  destruct (decision =? "rejected"); [reflexivity|].
  destruct ((role =? "manager") && (decision =? "approved")); [reflexivity|].
  destruct ((role =? "finance") && (decision =? "approved")); reflexivity.
Qed.

Lemma findOwned_In :
  forall db id uid a,
    CashAdvanceRoutes.findOwned db id uid = Some a ->
    In a (Db.cashAdvances db) /\ CashAdvance._id a = id
    /\ CashAdvance.user a = uid.
Proof.
  intros db id uid a H. apply find_some in H. destruct H as [H1 H2].
  apply andb_prop in H2. destruct H2 as [H2 H3].
  apply Nat.eqb_eq in H2, H3. auto.
Qed.

Lemma findPendingOfTeam_In :
  forall db id team a,
    ManagerRoutes.findPendingOfTeam db id team = Some a ->
    In a (Db.cashAdvances db) /\ CashAdvance._id a = id
    /\ CashAdvance.status a = "pending".
Proof.
  intros db id team a H. apply find_some in H. destruct H as [H1 H2].
  apply andb_prop in H2. destruct H2 as [H2 _].
  apply andb_prop in H2. destruct H2 as [H2 H3].
  apply Nat.eqb_eq in H2. apply String.eqb_eq in H3. auto.
Qed.

(** The invariant of the store and what a step keeps: the [_id]s of both
    collections, and every document whose status is terminal. *)
Lemma step_keeps_terminal :
  forall db op,
    NoDup (map Advance._id (Db.advances db)) ->
    NoDup (map CashAdvance._id (Db.cashAdvances db)) ->
    map Advance._id (Db.advances (fst (Lifecycle.step db op)))
    = map Advance._id (Db.advances db)
    /\ map CashAdvance._id (Db.cashAdvances (fst (Lifecycle.step db op)))
       = map CashAdvance._id (Db.cashAdvances db)
    /\ (forall x, In x (Db.advances db) ->
                  Lifecycle.terminal (Advance.status x) = true ->
                  In x (Db.advances (fst (Lifecycle.step db op))))
    /\ (forall x, In x (Db.cashAdvances db) ->
                  Lifecycle.terminal (CashAdvance.status x) = true ->
                  In x (Db.cashAdvances (fst (Lifecycle.step db op)))).
Proof.
  intros db op Hnd Hnc.
  destruct op as [now user id body | now user id body | now user id body
                 | user id | user id reason];
    cbn [Lifecycle.step Lifecycle.outcome fst].
  - destruct (put_approve_cases now db user id body)
      as [(c & m & e & -> & _) | (a & d & Hf & _ & _ & Hg & ->)];
      cbn [fst]; auto.
    apply find_by_key_In in Hf. destruct Hf as [Hin Hid].
    repeat apply conj; auto.
    + apply (keys_replace Advance._id).
    + intros x Hx Ht.
      apply (save_keeps_other_advance db a); auto using addApproval_id.
      apply terminal_not in Ht.
      apply canBeApprovedBy_iff in Hg.
      destruct Hg as [[-> _]|[-> _]]; tauto.
  - destruct (put_disburse_cases now db user id body)
      as [(c & m & e & -> & _) | (a & Hf & Hs & _ & _ & ->)]; cbn [fst]; auto.
    apply find_by_key_In in Hf. destruct Hf as [Hin Hid].
    repeat apply conj; auto.
    + apply (keys_replace Advance._id).
    + intros x Hx Ht.
      apply (save_keeps_other_advance db a); auto.
      apply terminal_not in Ht. rewrite Hs. tauto.
  - destruct (put_retire_cases now db user id body)
      as [(c & m & e & -> & _) | (a & Hf & Hs & ->)]; cbn [fst]; auto.
    apply findOwned_In in Hf. destruct Hf as (Hin & Hid & _).
    repeat apply conj; auto.
    + apply (keys_replace CashAdvance._id).
    + intros x Hx Ht.
      apply (save_keeps_other_cash db a); auto.
      apply terminal_not in Ht. rewrite Hs. tauto.
  - destruct (manager_put_approve_cases db user id)
      as [(c & m & e & -> & _) | (a & Hf & ->)]; cbn [fst]; auto.
    apply findPendingOfTeam_In in Hf. destruct Hf as (Hin & Hid & Hs).
    repeat apply conj; auto.
    + apply (keys_replace CashAdvance._id).
    + intros x Hx Ht.
      apply (save_keeps_other_cash db a); auto.
      apply terminal_not in Ht. rewrite Hs. tauto.
  - destruct (manager_put_reject_cases db user id reason)
      as [(c & m & e & -> & _) | (a & r & Hf & _ & -> & _)]; cbn [fst]; auto.
    apply findPendingOfTeam_In in Hf. destruct Hf as (Hin & Hid & Hs).
    repeat apply conj; auto.
    + apply (keys_replace CashAdvance._id).
    + intros x Hx Ht.
      apply (save_keeps_other_cash db a); auto.
      apply terminal_not in Ht. rewrite Hs. tauto.
Qed.

Lemma run_keeps_terminal :
  forall ops db,
    NoDup (map Advance._id (Db.advances db)) ->
    NoDup (map CashAdvance._id (Db.cashAdvances db)) ->
    (forall x, In x (Db.advances db) ->
               Lifecycle.terminal (Advance.status x) = true ->
               In x (Db.advances (Lifecycle.run db ops)))
    /\ (forall x, In x (Db.cashAdvances db) ->
                  Lifecycle.terminal (CashAdvance.status x) = true ->
                  In x (Db.cashAdvances (Lifecycle.run db ops))).
Proof.
  induction ops as [|op ops IH]; intros db Hnd Hnc; simpl; [auto|].
  destruct (step_keeps_terminal db op Hnd Hnc) as (Ha & Hc & Ka & Kc).
  destruct (IH (fst (Lifecycle.step db op))) as [IHa IHc].
  - rewrite Ha. exact Hnd.
  - rewrite Hc. exact Hnc.
  - split; intros x Hx Ht; [apply IHa | apply IHc]; auto.
Qed.

(** C2. An advance whose status is rejected or retired is out of reach of
    every lifecycle operation: the guard is false for every role, so each
    approve or reject attempt fails; each disburse attempt fails, its status
    not being finance_approved; each retire attempt fails, its status not
    being approved; and after any sequence of lifecycle requests the document
    is in the store as it was, so its status is still the terminal one. *)
Theorem terminal_status_is_absorbing :
  forall (db : Db.t) (ops : list Lifecycle.operation),
    NoDup (map Advance._id (Db.advances db)) ->
    NoDup (map CashAdvance._id (Db.cashAdvances db)) ->
    (forall a,
        In a (Db.advances db) ->
        Lifecycle.terminal (Advance.status a) = true ->
        (forall role, Advance.canBeApprovedBy a role = false)
        /\ (forall now user body,
               exists c m e,
                 AdvanceRoutes.put_approve now db user (Advance._id a) body
                 = (db, Failure c m e))
        /\ Advance.status a <> "finance_approved"
        /\ (forall now user body,
               exists c m e,
                 AdvanceRoutes.put_disburse now db user (Advance._id a) body
                 = (db, Failure c m e))
        /\ (forall now user body,
               @Auth.authorize Advance.t ["finance"; "admin"] user = None ->
               AdvanceRoutes.put_disburse now db user (Advance._id a) body
               = (db, Failure 400
                        "Advance must be finance approved before disbursement" []))
        /\ In a (Db.advances (Lifecycle.run db ops)))
    /\ (forall c,
           In c (Db.cashAdvances db) ->
           Lifecycle.terminal (CashAdvance.status c) = true ->
           CashAdvance.status c <> "approved"
           /\ (forall now user body,
                  exists code m e,
                    CashAdvanceRoutes.put_retire now db user (CashAdvance._id c) body
                    = (db, Failure code m e))
           /\ (forall now user body,
                  User._id user = CashAdvance.user c ->
                  CashAdvanceRoutes.put_retire now db user (CashAdvance._id c) body
                  = (db, Failure 400 "Only approved advances can be retired" []))
           /\ (forall user,
                  exists code m e,
                    ManagerRoutes.put_approve db user (CashAdvance._id c)
                    = (db, Failure code m e))
           /\ (forall user reason,
                  exists code m e,
                    ManagerRoutes.put_reject db user (CashAdvance._id c) reason
                    = (db, Failure code m e))
           /\ In c (Db.cashAdvances (Lifecycle.run db ops))).
Proof.
  intros db ops Hnd Hnc.
  destruct (run_keeps_terminal ops db Hnd Hnc) as [Ka Kc].
  split.
  - intros a Hin Ht.
    pose proof (terminal_not _ Ht) as (Np & Nm & Nf & _).
    assert (Hfind : AdvanceRoutes.findById db (Advance._id a) = Some a)
      by (apply (find_In_NoDup Advance._id); assumption).
    assert (Hguard : forall role, Advance.canBeApprovedBy a role = false)
      by (intro role; apply canBeApprovedBy_false; tauto).
    repeat apply conj; auto.
    + intros now user body.
      destruct (put_approve_cases now db user (Advance._id a) body)
        as [(c & m & e & H & _) | (a0 & d & Hf & _ & _ & Hg & _)]; eauto.
      rewrite Hfind in Hf. injection Hf as <-.
      rewrite Hguard in Hg. discriminate.
    + intros now user body.
      destruct (put_disburse_cases now db user (Advance._id a) body)
        as [(c & m & e & H & _) | (a0 & Hf & Hs & _)]; eauto.
      rewrite Hfind in Hf. injection Hf as <-. contradiction.
    + intros now user body Hauth. unfold AdvanceRoutes.put_disburse.
      rewrite Hauth, Hfind.
      destruct (String.eqb_spec (Advance.status a) "finance_approved");
        [contradiction | reflexivity].
  - intros c Hin Ht.
    pose proof (terminal_not _ Ht) as (Np & _ & _ & Na).
    repeat apply conj; auto.
    + intros now user body.
      destruct (put_retire_cases now db user (CashAdvance._id c) body)
        as [(code & m & e & H & _) | (a0 & Hf & Hs & _)]; eauto.
      apply findOwned_In in Hf. destruct Hf as (Hin0 & Hid & _).
      assert (a0 = c)
        by (apply (NoDup_key_inj CashAdvance._id (Db.cashAdvances db)); auto).
      subst a0. contradiction.
    + intros now user body Hown. unfold CashAdvanceRoutes.put_retire.
      assert (Hf : CashAdvanceRoutes.findOwned db (CashAdvance._id c)
                     (User._id user) = Some c).
      { unfold CashAdvanceRoutes.findOwned.
        destruct (find _ (Db.cashAdvances db)) as [a0|] eqn:E.
        - apply findOwned_In in E. destruct E as (Hin0 & Hid & _).
          f_equal.
          apply (NoDup_key_inj CashAdvance._id (Db.cashAdvances db)); auto.
        - exfalso. apply (find_none _ _ E) in Hin.
          rewrite Hown, !Nat.eqb_refl in Hin. discriminate. }
      rewrite Hf.
      destruct (String.eqb_spec (CashAdvance.status c) "approved");
        [contradiction | reflexivity].
    + intros user.
      destruct (manager_put_approve_cases db user (CashAdvance._id c))
        as [(code & m & e & H & _) | (a0 & Hf & _)]; eauto.
      apply findPendingOfTeam_In in Hf. destruct Hf as (Hin0 & Hid & Hs).
      assert (a0 = c)
        by (apply (NoDup_key_inj CashAdvance._id (Db.cashAdvances db)); auto).
      subst a0. contradiction.
    + intros user reason.
      destruct (manager_put_reject_cases db user (CashAdvance._id c) reason)
        as [(code & m & e & H & _) | (a0 & r & Hf & _)]; eauto.
      apply findPendingOfTeam_In in Hf. destruct Hf as (Hin0 & Hid & Hs).
      assert (a0 = c)
        by (apply (NoDup_key_inj CashAdvance._id (Db.cashAdvances db)); auto).
      subst a0. contradiction.
Qed.

Lemma terminal_status_is_absorbing_witness :
  let rejected := Sample.advance_with 10 "ADV2025010001" "rejected" in
  let retired := Sample.cash_with 20 "retired" in
  let db := Sample.db_of [rejected; Sample.advance_with 11 "ADV2025010002" "pending"]
                         [retired; Sample.cash_with 21 "pending"] in
  let ops := [Lifecycle.Approve 2000 Sample.manager 10
                (AdvanceRoutes.mkApproveBody (Some "approved") None);
              Lifecycle.Approve 2001 Sample.manager 11
                (AdvanceRoutes.mkApproveBody (Some "approved") None);
              Lifecycle.Disburse 2002 Sample.finance 10
                (AdvanceRoutes.mkDisburseBody None (Some "bank_transfer") None);
              Lifecycle.Retire 2003 Sample.staff 20
                (CashAdvanceRoutes.mkRetireBody 2003 480 None);
              Lifecycle.ManagerApprove Sample.manager 21;
              Lifecycle.ManagerReject Sample.manager 20 (Some "late")] in
  NoDup (map Advance._id (Db.advances db))
  /\ NoDup (map CashAdvance._id (Db.cashAdvances db))
  /\ In rejected (Db.advances db)
  /\ Lifecycle.terminal (Advance.status rejected) = true
  /\ In retired (Db.cashAdvances db)
  /\ Lifecycle.terminal (CashAdvance.status retired) = true
  /\ In rejected (Db.advances (Lifecycle.run db ops))
  /\ In retired (Db.cashAdvances (Lifecycle.run db ops)).
Proof.
  intros rejected retired db ops.
  assert (N1 : NoDup (map Advance._id (Db.advances db))).
  { simpl. repeat constructor; simpl; intuition discriminate. }
  assert (N2 : NoDup (map CashAdvance._id (Db.cashAdvances db))).
  { simpl. repeat constructor; simpl; intuition discriminate. }
  assert (I1 : In rejected (Db.advances db)) by (left; reflexivity).
  assert (I2 : In retired (Db.cashAdvances db)) by (left; reflexivity).
  destruct (terminal_status_is_absorbing db ops N1 N2) as [HA HC].
  destruct (HA rejected I1 eq_refl) as (_ & _ & _ & _ & _ & KA).
  destruct (HC retired I2 eq_refl) as (_ & _ & _ & _ & _ & KC).
  repeat apply conj; auto.
Defined.

Lemma findById_save :
  forall db id a a',
    AdvanceRoutes.findById db id = Some a ->
    Advance._id a' = Advance._id a ->
    AdvanceRoutes.findById (AdvanceRoutes.save db a') id = Some a'.
Proof.
  intros db id a a' Hf Hid. unfold AdvanceRoutes.findById, AdvanceRoutes.save.
  cbn [Db.advances Db.set_advances].
  apply (find_replace Advance._id _ id a a' Hf).
  rewrite Hid. apply (find_by_key_In Advance._id _ _ _ Hf).
Qed.

Lemma findOwned_save :
  forall db id uid a a',
    CashAdvanceRoutes.findOwned db id uid = Some a ->
    CashAdvance._id a' = CashAdvance._id a ->
    CashAdvance.user a' = CashAdvance.user a ->
    CashAdvanceRoutes.findOwned (CashAdvanceRoutes.save db a') id uid = Some a'.
Proof.
  intros db id uid a a' Hf Hid Hu.
  pose proof (findOwned_In _ _ _ _ Hf) as (_ & Ha & Hb).
  unfold CashAdvanceRoutes.findOwned, CashAdvanceRoutes.save in *.
  cbn [Db.cashAdvances Db.set_cashAdvances].
  induction (Db.cashAdvances db) as [|y l IH]; simpl in *; [discriminate|].
  destruct (Nat.eqb_spec (CashAdvance._id y) (CashAdvance._id a')) as [E|E].
  - rewrite Hid, Hu, Ha, Hb, !Nat.eqb_refl. reflexivity.
  - assert (Hn : Nat.eqb (CashAdvance._id y) id = false)
      by (apply Nat.eqb_neq; congruence).
    rewrite Hn in Hf |- *. simpl in *. apply IH. exact Hf.
Qed.

(** The methods [save()] accepts for a disbursement: none or the empty
    string, which the handler replaces by cash, or one of the [enum]. *)
Lemma method_ok_iff :
  forall method : option string,
    Schema.method_ok (or_string method "cash") = true
    <-> method = None
        \/ exists m, method = Some m
                     /\ (m = EmptyString \/ m = "cash" \/ m = "bank_transfer"
                         \/ m = "check").
Proof.
  intros [m|]; unfold or_string.
  - destruct (String.eqb_spec m EmptyString) as [E|E].
    + split; [|reflexivity]. intros _. right. exists m. auto.
    + unfold Schema.method_ok, includes. cbn [existsb].
      rewrite !orb_true_iff, !String.eqb_eq. split.
      * intros [H|[H|[H|H]]]; [| | |discriminate H];
          right; exists m; auto.
      * intros [H|(m' & H & K)]; [discriminate H|].
        injection H as <-. intuition.
  - split; [auto|reflexivity].
Qed.

(** C6. Disbursement succeeds exactly for an authorised actor on an advance
    whose status is finance_approved, when the request names a payment
    method of the schema or none; it then stores the advance with status
    disbursed and the disbursement record (the actor, the time, the amount
    of the request, or the amount of the advance when the request has none
    or zero, the method of the request, or cash when it has none, and the
    reference), every other field as it was, and a second disbursement of
    it is refused.  A method the schema does not have is refused by
    [save()] and answered 500.  Retirement succeeds exactly for the owner on
    an advance whose status is approved; it then stores the advance with
    status retired and the retirement record, every other field as it was,
    and a second retirement is refused.  From any other status either
    request is answered by an error response and the store, hence every
    field of the advance, is unchanged. *)
Theorem disburse_and_retire_only_from_their_stage :
  (forall now db user id body,
      let r := AdvanceRoutes.put_disburse now db user id body in
      let method_accepted :=
        AdvanceRoutes.method body = None
        \/ exists m, AdvanceRoutes.method body = Some m
                     /\ (m = EmptyString \/ m = "cash" \/ m = "bank_transfer"
                         \/ m = "check") in
      (is_success (snd r) = true <->
       (exists a, AdvanceRoutes.findById db id = Some a
                  /\ Advance.status a = "finance_approved")
       /\ @Auth.authorize Advance.t ["finance"; "admin"] user = None
       /\ method_accepted)
      /\ (forall a,
             AdvanceRoutes.findById db id = Some a ->
             Advance.status a = "finance_approved" ->
             @Auth.authorize Advance.t ["finance"; "admin"] user = None ->
             method_accepted ->
             exists a' d,
               r = (AdvanceRoutes.save db a',
                    Success 200 "Cash advance disbursed successfully" a')
               /\ Advance.status a' = "disbursed"
               /\ Advance.disbursement a' = Some d
               /\ Advance.disbursedBy d = User._id user
               /\ Advance.disbursedDate d = now
               /\ (forall n, AdvanceRoutes.disbursedAmount body = Some n ->
                             n <> 0%Z -> Advance.disbursedAmount d = n)
               /\ (AdvanceRoutes.disbursedAmount body = None
                   \/ AdvanceRoutes.disbursedAmount body = Some 0%Z ->
                   Advance.disbursedAmount d = Advance.amount a)
               /\ (forall m, AdvanceRoutes.method body = Some m ->
                             m <> EmptyString -> Advance.method d = m)
               /\ (AdvanceRoutes.method body = None
                   \/ AdvanceRoutes.method body = Some EmptyString ->
                   Advance.method d = "cash")
               /\ Advance.reference d = AdvanceRoutes.reference body
               /\ Advance._id a' = Advance._id a
               /\ Advance.requestNumber a' = Advance.requestNumber a
               /\ Advance.requester a' = Advance.requester a
               /\ Advance.amount a' = Advance.amount a
               /\ Advance.purpose a' = Advance.purpose a
               /\ Advance.description a' = Advance.description a
               /\ Advance.requestDate a' = Advance.requestDate a
               /\ Advance.expectedReturnDate a' = Advance.expectedReturnDate a
               /\ Advance.approvals a' = Advance.approvals a
               /\ Advance.retirement a' = Advance.retirement a
               /\ Advance.priority a' = Advance.priority a
               /\ Advance.isActive a' = Advance.isActive a
               /\ AdvanceRoutes.findById (fst r) id = Some a'
               /\ (forall now2 user2 body2,
                      exists c m e,
                        AdvanceRoutes.put_disburse now2 (fst r) user2 id body2
                        = (fst r, Failure c m e)))
      /\ (forall a,
             AdvanceRoutes.findById db id = Some a ->
             Advance.status a = "finance_approved" ->
             @Auth.authorize Advance.t ["finance"; "admin"] user = None ->
             ~ method_accepted ->
             r = (db, Failure 500 "Error disbursing advance" []))
      /\ (forall a,
             AdvanceRoutes.findById db id = Some a ->
             Advance.status a <> "finance_approved" ->
             (exists c m e, r = (db, Failure c m e) /\ (c = 400 \/ c = 403))
             /\ AdvanceRoutes.findById (fst r) id = Some a))
  /\ (forall now db user id body,
         let r := CashAdvanceRoutes.put_retire now db user id body in
         (is_success (snd r) = true <->
          exists a, CashAdvanceRoutes.findOwned db id (User._id user) = Some a
                    /\ CashAdvance.status a = "approved")
         /\ (forall a,
                CashAdvanceRoutes.findOwned db id (User._id user) = Some a ->
                CashAdvance.status a = "approved" ->
                exists a',
                  r = (CashAdvanceRoutes.save db a',
                       Success 200 "Cash advance retired successfully" a')
                  /\ CashAdvance.status a' = "retired"
                  /\ CashAdvance.retirement a'
                     = Some (CashAdvance.mkRetirement
                               (CashAdvanceRoutes.retirementDate body)
                               (CashAdvanceRoutes.totalExpenses body)
                               (CashAdvanceRoutes.expenseBreakdown body) now)
                  /\ CashAdvance._id a' = CashAdvance._id a
                  /\ CashAdvance.user a' = CashAdvance.user a
                  /\ CashAdvance.amount a' = CashAdvance.amount a
                  /\ CashAdvance.purpose a' = CashAdvance.purpose a
                  /\ CashAdvance.description a' = CashAdvance.description a
                  /\ CashAdvance.priority a' = CashAdvance.priority a
                  /\ CashAdvance.dateNeeded a' = CashAdvance.dateNeeded a
                  /\ CashAdvance.approvedBy a' = CashAdvance.approvedBy a
                  /\ CashAdvance.rejectedReason a' = CashAdvance.rejectedReason a
                  /\ CashAdvance.createdAt a' = CashAdvance.createdAt a
                  /\ CashAdvanceRoutes.findOwned (fst r) id (User._id user)
                     = Some a'
                  /\ (forall now2 body2,
                         CashAdvanceRoutes.put_retire now2 (fst r) user id body2
                         = (fst r, Failure 400
                                     "Only approved advances can be retired" [])))
         /\ (forall a,
                CashAdvanceRoutes.findOwned db id (User._id user) = Some a ->
                CashAdvance.status a <> "approved" ->
                r = (db, Failure 400 "Only approved advances can be retired" [])
                /\ CashAdvanceRoutes.findOwned (fst r) id (User._id user)
                   = Some a)).
Proof.
  split.
  - intros now db user id body r method_accepted.
    assert (Hok : forall a,
               AdvanceRoutes.findById db id = Some a ->
               Advance.status a = "finance_approved" ->
               @Auth.authorize Advance.t ["finance"; "admin"] user = None ->
               method_accepted ->
               r = (AdvanceRoutes.save db (disbursed_from now user body a),
                    Success 200 "Cash advance disbursed successfully"
                            (disbursed_from now user body a))).
    { intros a Hf Hs Ha Hm. apply method_ok_iff in Hm. subst r.
      unfold AdvanceRoutes.put_disburse. rewrite Ha, Hf, Hs, Hm. reflexivity. }
    split; [|split; [|split]].
    + split.
      * intros Hsucc. subst r.
        destruct (put_disburse_cases now db user id body)
          as [(c & m & e & H & _) | (a & Hf & Hs & Ha & Hm & _)].
        -- rewrite H in Hsucc. discriminate.
        -- apply method_ok_iff in Hm. eauto.
      * intros [(a & Hf & Hs) [Ha Hm]]. rewrite (Hok a Hf Hs Ha Hm).
        reflexivity.
    + intros a Hf Hs Ha Hm. rewrite (Hok a Hf Hs Ha Hm). cbn [fst].
      set (a' := disbursed_from now user body a).
      assert (Hf' : AdvanceRoutes.findById (AdvanceRoutes.save db a') id = Some a')
        by (apply (findById_save db id a); [exact Hf | reflexivity]).
      exists a',
        (Advance.mkDisbursement (User._id user) now
           (or_number (AdvanceRoutes.disbursedAmount body) (Advance.amount a))
           (or_string (AdvanceRoutes.method body) "cash")
           (AdvanceRoutes.reference body)).
      cbn [Advance.disbursedBy Advance.disbursedDate Advance.disbursedAmount
           Advance.method Advance.reference].
      repeat match goal with |- _ /\ _ => split end; try reflexivity.
      * intros n Hn Hne. rewrite Hn. unfold or_number.
        destruct (Z.eqb_spec n 0); [contradiction|reflexivity].
      * intros [Hn|Hn]; rewrite Hn; reflexivity.
      * intros m Hb Hne. rewrite Hb. unfold or_string.
        destruct (String.eqb_spec m EmptyString); [contradiction|reflexivity].
      * intros [Hb|Hb]; rewrite Hb; reflexivity.
      * exact Hf'.
      * intros now2 user2 body2.
        destruct (put_disburse_cases now2 (AdvanceRoutes.save db a') user2 id
                                     body2)
          as [(c & m & e & H & _) | (a0 & Hf0 & Hs0 & _)]; eauto.
        rewrite Hf' in Hf0. injection Hf0 as <-. discriminate.
    + intros a Hf Hs Ha Hm. subst r. unfold AdvanceRoutes.put_disburse.
      rewrite Ha, Hf, Hs.
      destruct (Schema.method_ok (or_string (AdvanceRoutes.method body) "cash"))
        eqn:E; [|reflexivity].
      apply method_ok_iff in E. contradiction.
    + intros a Hf Hs. subst r. unfold AdvanceRoutes.put_disburse.
      destruct (@Auth.authorize Advance.t ["finance"; "admin"] user) as [d|] eqn:Ha.
      * cbn [fst]. split; [|exact Hf].
        unfold Auth.authorize in Ha.
        destruct (negb (includes ["finance"; "admin"] (User.role user)));
          [|discriminate].
        injection Ha as <-. eauto 10.
      * rewrite Hf.
        destruct (String.eqb_spec (Advance.status a) "finance_approved");
          [contradiction|].
        cbn [negb fst]. split; [|exact Hf]. eauto 10.
  - intros now db user id body r.
    assert (Hok : forall a,
               CashAdvanceRoutes.findOwned db id (User._id user) = Some a ->
               CashAdvance.status a = "approved" ->
               r = (CashAdvanceRoutes.save db (retired_from now body a),
                    Success 200 "Cash advance retired successfully"
                            (retired_from now body a))).
    { intros a Hf Hs. subst r. unfold CashAdvanceRoutes.put_retire.
      rewrite Hf, Hs. reflexivity. }
    assert (Hko : forall db0 a,
               CashAdvanceRoutes.findOwned db0 id (User._id user) = Some a ->
               CashAdvance.status a <> "approved" ->
               forall now0 body0,
                 CashAdvanceRoutes.put_retire now0 db0 user id body0
                 = (db0, Failure 400 "Only approved advances can be retired" [])).
    { intros db0 a Hf Hs now0 body0. unfold CashAdvanceRoutes.put_retire.
      rewrite Hf.
      destruct (String.eqb_spec (CashAdvance.status a) "approved");
        [contradiction | reflexivity]. }
    split; [|split].
    + split.
      * intros Hsucc. subst r.
        destruct (put_retire_cases now db user id body)
          as [(c & m & e & H & _) | (a & Hf & Hs & _)].
        -- rewrite H in Hsucc. discriminate.
        -- eauto.
      * intros (a & Hf & Hs). rewrite (Hok a Hf Hs). reflexivity.
    + intros a Hf Hs. rewrite (Hok a Hf Hs). cbn [fst].
      set (a' := retired_from now body a).
      assert (Hf' : CashAdvanceRoutes.findOwned (CashAdvanceRoutes.save db a') id
                      (User._id user) = Some a')
        by (apply (findOwned_save db id _ a); [exact Hf | reflexivity | reflexivity]).
      exists a'.
      repeat match goal with |- _ /\ _ => split end; try reflexivity.
      * exact Hf'.
      * intros now2 body2. apply (Hko _ a' Hf'). discriminate.
    + intros a Hf Hs. subst r. rewrite (Hko db a Hf Hs). cbn [fst].
      split; [reflexivity | exact Hf].
Qed.

Lemma disburse_and_retire_only_from_their_stage_witness :
  let a := Sample.advance_with 10 "ADV2025010001" "finance_approved" in
  let c := Sample.cash_with 20 "approved" in
  let db := Sample.db_of [a] [c] in
  let body := AdvanceRoutes.mkDisburseBody (Some 450%Z) (Some "bank_transfer")
                                           None in
  let rbody := CashAdvanceRoutes.mkRetireBody 3000 480 None in
  AdvanceRoutes.findById db 10 = Some a
  /\ Advance.status a = "finance_approved"
  /\ @Auth.authorize Advance.t ["finance"; "admin"] Sample.finance = None
  /\ (exists a' d,
         AdvanceRoutes.put_disburse 2000 db Sample.finance 10 body
         = (AdvanceRoutes.save db a',
            Success 200 "Cash advance disbursed successfully" a')
         /\ Advance.status a' = "disbursed"
         /\ Advance.disbursement a' = Some d
         /\ Advance.disbursedBy d = 3
         /\ Advance.disbursedAmount d = 450%Z
         /\ Advance.method d = "bank_transfer"
         /\ Advance.amount a' = 500%Z)
  /\ CashAdvanceRoutes.findOwned db 20 (User._id Sample.staff) = Some c
  /\ CashAdvance.status c = "approved"
  /\ (exists c',
         CashAdvanceRoutes.put_retire 3000 db Sample.staff 20 rbody
         = (CashAdvanceRoutes.save db c',
            Success 200 "Cash advance retired successfully" c')
         /\ CashAdvance.status c' = "retired"
         /\ CashAdvance.retirement c'
            = Some (CashAdvance.mkRetirement 3000 480 None 3000)
         /\ CashAdvance.amount c' = 500%Z).
Proof.
  intros a c db body rbody.
  destruct disburse_and_retire_only_from_their_stage as [HD HR].
  destruct (HD 2000%Z db Sample.finance 10 body) as (_ & HD2 & _).
  assert (Hm : AdvanceRoutes.method body = None
               \/ exists m, AdvanceRoutes.method body = Some m
                            /\ (m = EmptyString \/ m = "cash"
                                \/ m = "bank_transfer" \/ m = "check")).
  { right. exists "bank_transfer". split; [reflexivity|]. auto. }
  destruct (HD2 a eq_refl eq_refl eq_refl Hm)
    as (a' & d & E1 & E2 & E3 & E4 & _ & E5 & _ & E6 & _ & _ & _ & _ & _ & E7
        & _).
  destruct (HR 3000%Z db Sample.staff 20 rbody) as (_ & HR2 & _).
  destruct (HR2 c eq_refl eq_refl) as (c' & F1 & F2 & F3 & _ & _ & F4 & _).
  split; [reflexivity|]. split; [reflexivity|]. split; [reflexivity|].
  split.
  { exists a', d.
    split; [exact E1|]. split; [exact E2|]. split; [exact E3|].
    split; [exact E4|].
    split; [apply (E5 450%Z eq_refl); discriminate|].
    split; [apply (E6 "bank_transfer" eq_refl); discriminate|].
    exact E7. }
  split; [reflexivity|]. split; [reflexivity|].
  exists c'.
  split; [exact F1|]. split; [exact F2|]. split; [exact F3|]. exact F4.
Defined.

(** ** The scenario of the specification, request by request *)

(** C4, at the input where the code departs from it.  The first request
    of the scenario, the creation of the advance, is answered 500 and
    stores nothing.  On a store that holds the advance as pending, the
    manager's approval makes it manager_approved, the finance approval
    finance_approved and the disbursement by bank transfer disbursed, with
    the disbursement recorded; the retire request of its requester is then
    answered 404 by the retire route, which reads the [CashAdvance]
    collection, and the status stays disbursed.  The retire route does on
    an approved document of its own model what the scenario asks for: the
    document is retired with the totals recorded and a second retire
    request is refused with the 400 of the status check. *)
Theorem canonical_lifecycle_breaks_at_creation_and_retirement :
  let oid := 100 in
  let db0 := Sample.db_of [] [] in
  let db1 := Sample.db_of [Sample.advance_with oid "ADV2025010001" "pending"] [] in
  let '(db2, r2) :=
    AdvanceRoutes.put_approve 2000 db1 Sample.manager oid
      (AdvanceRoutes.mkApproveBody (Some "approved") None) in
  let '(db3, r3) :=
    AdvanceRoutes.put_approve 3000 db2 Sample.finance oid
      (AdvanceRoutes.mkApproveBody (Some "approved") None) in
  let '(db4, r4) :=
    AdvanceRoutes.put_disburse 4000 db3 Sample.finance oid
      (AdvanceRoutes.mkDisburseBody None (Some "bank_transfer") None) in
  let '(db5, r5) :=
    CashAdvanceRoutes.put_retire 5000 db4 Sample.staff oid
      (CashAdvanceRoutes.mkRetireBody 5000 480 None) in
  let dbc := Sample.db_of [] [Sample.cash_with oid "approved"] in
  let '(dbc1, rc1) :=
    CashAdvanceRoutes.put_retire 5000 dbc Sample.staff oid
      (CashAdvanceRoutes.mkRetireBody 5000 480 None) in
  Validation.validateAdvanceRequest 1000 (Sample.request 1000) = true
  /\ AdvanceRoutes.post_advance 1000 2025 0 oid db0 Sample.staff
                                (Sample.request 1000)
     = (db0, Failure 500 "Error creating cash advance request" [])
  /\ is_success r2 = true
  /\ option_map Advance.status (AdvanceRoutes.findById db2 oid)
     = Some "manager_approved"
  /\ is_success r3 = true
  /\ option_map Advance.status (AdvanceRoutes.findById db3 oid)
     = Some "finance_approved"
  /\ is_success r4 = true
  /\ option_map Advance.status (AdvanceRoutes.findById db4 oid) = Some "disbursed"
  /\ option_map Advance.disbursement (AdvanceRoutes.findById db4 oid)
     = Some (Some (Advance.mkDisbursement 3 4000 500 "bank_transfer" None))
  /\ r5 = Failure 404 "Cash advance request not found" []
  /\ db5 = db4
  /\ option_map Advance.status (AdvanceRoutes.findById db5 oid) = Some "disbursed"
  /\ is_success rc1 = true
  /\ option_map CashAdvance.status (CashAdvanceRoutes.findOwned dbc1 oid 1)
     = Some "retired"
  /\ option_map CashAdvance.retirement (CashAdvanceRoutes.findOwned dbc1 oid 1)
     = Some (Some (CashAdvance.mkRetirement 5000 480 None 5000))
  /\ CashAdvanceRoutes.put_retire 6000 dbc1 Sample.staff oid
       (CashAdvanceRoutes.mkRetireBody 6000 480 None)
     = (dbc1, Failure 400 "Only approved advances can be retired" []).
Proof.
  vm_compute. repeat apply conj; reflexivity.
Qed.

(** ** Accepting branches of the handlers *)

Lemma authorize_member :
  forall (A : Type) roles user,
    includes roles (User.role user) = true ->
    @Auth.authorize A roles user = None.
Proof.
  intros A roles user H. unfold Auth.authorize. rewrite H. reflexivity.
Qed.

Lemma put_approve_accepts :
  forall now db user id decision comment a,
    includes ["manager"; "finance"; "admin"] (User.role user) = true ->
    includes ["approved"; "rejected"] decision = true ->
    AdvanceRoutes.findById db id = Some a ->
    Advance.canBeApprovedBy a (User.role user) = true ->
    AdvanceRoutes.put_approve now db user id
      (AdvanceRoutes.mkApproveBody (Some decision) comment)
    = (AdvanceRoutes.save db
         (Advance.addApproval now a (User._id user) (User.role user)
                              decision comment),
       Success 200 ("Cash advance request " ++ decision ++ " successfully")
         (Advance.addApproval now a (User._id user) (User.role user)
                              decision comment)).
Proof.
  intros now db user id decision comment a Hrole Hdec Hfind Hguard.
  unfold AdvanceRoutes.put_approve, Auth.canApprove.
  rewrite (authorize_member _ _ _ Hrole).
  cbn [AdvanceRoutes.approve_status AdvanceRoutes.approve_comment].
  rewrite Hdec, Hfind, Hguard. reflexivity.
Qed.

(** The document the create route builds has no request number, and the
    schema requires one. *)
Lemma new_advance_refused :
  forall now oid user body,
    Schema.advance_ok (AdvanceRoutes.new_advance now oid user body) = false.
Proof. reflexivity. Qed.

(** What [POST /api/advances] answers: the 400 of the middleware or the 500
    of the handler's [catch]; it stores nothing. *)
Lemma post_advance_cases :
  forall now year month0 oid seen db user body,
    AdvanceRoutes.post_advance_at now year month0 oid seen db user body
    = (db, if Validation.validateAdvanceRequest now body
           then Failure 500 "Error creating cash advance request" []
           else Failure 400 "Validation error" []).
Proof.
  intros. unfold AdvanceRoutes.post_advance_at.
  destruct (Validation.validateAdvanceRequest now body); cbn [negb];
    [|reflexivity].
  rewrite new_advance_refused. reflexivity.
Qed.

(** ** Sorting and windows keep to the documents they are given *)

Lemma insert_desc_perm :
  forall {A : Type} (key : A -> Z) (x : A) (l : list A),
    Permutation (Listing.insert_desc key x l) (x :: l).
Proof.
  intros A key x l. induction l as [|y l IH]; simpl.
  - apply Permutation_refl.
  - destruct (key y <? key x)%Z.
    + apply Permutation_refl.
    + apply perm_trans with (y :: x :: l).
      * apply perm_skip. exact IH.
      * apply perm_swap.
Qed.

Lemma sort_desc_perm :
  forall {A : Type} (key : A -> Z) (l : list A),
    Permutation (Listing.sort_desc key l) l.
Proof.
  intros A key l. unfold Listing.sort_desc.
  assert (G : forall acc,
             Permutation (fold_left (fun acc x => Listing.insert_desc key x acc)
                                    l acc) (l ++ acc)%list).
  { induction l as [|x l IH]; intros acc; simpl.
    - apply Permutation_refl.
    - apply perm_trans with (l ++ Listing.insert_desc key x acc)%list.
      + apply IH.
      + apply perm_trans with (l ++ x :: acc)%list.
        * apply Permutation_app_head. apply insert_desc_perm.
        * apply Permutation_sym. apply Permutation_middle. }
  rewrite <- (app_nil_r l) at 2. apply G.
Qed.

Lemma In_firstn : forall {A : Type} (n : nat) (l : list A) (x : A),
    In x (firstn n l) -> In x l.
Proof.
  intros A n l x H. rewrite <- (firstn_skipn n l). apply in_or_app. left. exact H.
Qed.

Lemma In_skipn : forall {A : Type} (n : nat) (l : list A) (x : A),
    In x (skipn n l) -> In x l.
Proof.
  intros A n l x H. rewrite <- (firstn_skipn n l). apply in_or_app. right. exact H.
Qed.

Lemma find_window_In :
  forall {A : Type} skip limit (l w : list A) (x : A),
    Listing.find_window skip limit l = Some w -> In x w -> In x l.
Proof.
  intros A skip limit l w x H Hx. unfold Listing.find_window in H.
  destruct skip as [| |s]; try discriminate.
  destruct limit as [| |n]; try discriminate.
  destruct (s <? 0)%Z; [discriminate|].
  injection H as <-.
  destruct (n =? 0)%Z.
  - apply In_skipn in Hx. exact Hx.
  - apply In_firstn in Hx. apply In_skipn in Hx. exact Hx.
Qed.

Lemma aggregate_window_In :
  forall {A : Type} skip limit (l w : list A) (x : A),
    Listing.aggregate_window skip limit l = Some w -> In x w -> In x l.
Proof.
  intros A skip limit l w x H Hx. unfold Listing.aggregate_window in H.
  destruct skip as [| |s]; try discriminate.
  destruct limit as [| |n]; try discriminate.
  destruct ((s <? 0) || (n <=? 0))%Z; [discriminate|].
  injection H as <-.
  apply In_firstn in Hx. apply In_skipn in Hx. exact Hx.
Qed.

(** The filter of a staff member pins the requester. *)
Lemma staff_filter_matches_own :
  forall user q a,
    User.role user = "staff" ->
    AdvanceRoutes.matches (AdvanceRoutes.build_filter user q) a = true ->
    Advance.requester a = User._id user.
Proof.
  intros user q a Hrole H. unfold AdvanceRoutes.matches, AdvanceRoutes.build_filter in H.
  rewrite Hrole in H. cbn [AdvanceRoutes.f_requester AdvanceRoutes.satisfies
                           String.eqb Ascii.eqb Bool.eqb] in H.
  repeat (apply andb_prop in H; destruct H as [H ?]).
  match goal with
  | K : Nat.eqb _ _ = true |- _ => apply Nat.eqb_eq in K; exact K
  end.
Qed.

(** C7. Whatever page, limit, status, priority, search text and dates a
    staff member sends, every advance in the answer of [GET /api/advances]
    is a stored advance whose requester is that staff member; and every
    advance in the answer of [GET /api/advances/my-requests] is a stored
    advance of the caller. *)
Theorem staff_list_is_scoped_to_requester :
  forall (regexp_i : string -> string -> bool)
         (sort_by : string -> list CashAdvance.t -> list CashAdvance.t)
         (db : Db.t) (user : User.t),
    (forall spec l x, In x (sort_by spec l) -> In x l) ->
    User.role user = "staff" ->
    (forall (q : AdvanceRoutes.Query) code message page,
        AdvanceRoutes.get_advances regexp_i db user q = Success code message page ->
        forall a, In a (Listing.items page) ->
                  In a (Db.advances db)
                  /\ Advance.requester a = User._id user)
    /\ (forall (q : CashAdvanceRoutes.Query) code message page,
           CashAdvanceRoutes.get_my_requests sort_by db user q
           = Success code message page ->
           forall a, In a (Listing.items page) ->
                     In a (Db.cashAdvances db)
                     /\ CashAdvance.user a = User._id user).
Proof.
  intros regexp_i sort_by db user Hsort Hrole. split.
  - intros q code message page H a Ha.
    unfold AdvanceRoutes.get_advances in H.
    assert (K : exists f : Advance.t -> bool,
               (forall x, f x = true ->
                          AdvanceRoutes.matches (AdvanceRoutes.build_filter user q) x
                          = true)
               /\ In a (filter f (Db.advances db))).
    { destruct (AdvanceRoutes.search q) as [[|c pattern]|].
      - destruct (Listing.find_window _ _ _) as [w|] eqn:W; [|discriminate].
        injection H as _ _ <-. cbn [Listing.items] in Ha.
        eapply find_window_In in Ha; [|exact W].
        eapply Permutation_in in Ha; [|apply sort_desc_perm].
        eexists. split; [|exact Ha]. auto.
      - destruct (Listing.aggregate_window _ _ _) as [w|] eqn:W; [|discriminate].
        injection H as _ _ <-. cbn [Listing.items] in Ha.
        eapply aggregate_window_In in Ha; [|exact W].
        eapply Permutation_in in Ha; [|apply sort_desc_perm].
        eexists. split; [|exact Ha].
        cbv beta. intros x Hx. apply andb_prop in Hx. tauto.
      - destruct (Listing.find_window _ _ _) as [w|] eqn:W; [|discriminate].
        injection H as _ _ <-. cbn [Listing.items] in Ha.
        eapply find_window_In in Ha; [|exact W].
        eapply Permutation_in in Ha; [|apply sort_desc_perm].
        eexists. split; [|exact Ha]. auto. }
    destruct K as (f & Hf & Hin). apply filter_In in Hin.
    destruct Hin as [Hin Hfa]. split; [exact Hin|].
    apply (staff_filter_matches_own user q a Hrole). apply Hf. exact Hfa.
  - intros q code message page H a Ha.
    unfold CashAdvanceRoutes.get_my_requests in H.
    destruct (Listing.find_window _ _ _) as [w|] eqn:W; [|discriminate].
    injection H as _ _ <-. cbn [Listing.items] in Ha.
    eapply find_window_In in Ha; [|exact W].
    apply Hsort in Ha. apply filter_In in Ha. destruct Ha as [Hin Hm].
    split; [exact Hin|].
    apply andb_prop in Hm. destruct Hm as [Hm _].
    apply Nat.eqb_eq. exact Hm.
Qed.

Lemma staff_list_is_scoped_to_requester_witness :
  let db := Sample.db_of
              [Sample.advance_of 10 1 "ADV2025010001" "pending";
               Sample.advance_of 11 5 "ADV2025010002" "pending";
               Sample.advance_of 12 1 "ADV2025010003" "rejected"]
              [Sample.cash_of 20 5 "pending"; Sample.cash_of 21 1 "approved"] in
  let q := AdvanceRoutes.mkQuery (Some "1") (Some "50") (Some "all") None
                                 (Some "travel") None None in
  let cq := CashAdvanceRoutes.mkQuery None None None None in
  let page :=
    Listing.mkPage [Sample.advance_of 10 1 "ADV2025010001" "pending";
                    Sample.advance_of 12 1 "ADV2025010003" "rejected"]
                   (Listing.mkPagination (JS.Int 1) (JS.Int 1) 2 false false) in
  let cpage :=
    Listing.mkPage [Sample.cash_of 21 1 "approved"]
                   (Listing.mkPagination (JS.Int 1) (JS.Int 1) 1 false false) in
  (forall spec l x, In x (Sample.newest_first spec l) -> In x l)
  /\ User.role Sample.staff = "staff"
  /\ AdvanceRoutes.get_advances Sample.literal_i db Sample.staff q
     = Success 200 EmptyString page
  /\ (forall a, In a (Listing.items page) -> Advance.requester a = 1)
  /\ CashAdvanceRoutes.get_my_requests Sample.newest_first db Sample.staff cq
     = Success 200 EmptyString cpage
  /\ (forall a, In a (Listing.items cpage) -> CashAdvance.user a = 1).
Proof.
  intros db q cq page cpage.
  assert (Hsort : forall spec l x, In x (Sample.newest_first spec l) -> In x l).
  { intros spec l x H. unfold Sample.newest_first in H.
    eapply Permutation_in; [apply sort_desc_perm | exact H]. }
  assert (E1 : AdvanceRoutes.get_advances Sample.literal_i db Sample.staff q
               = Success 200 EmptyString page) by (vm_compute; reflexivity).
  assert (E2 : CashAdvanceRoutes.get_my_requests Sample.newest_first db
                 Sample.staff cq = Success 200 EmptyString cpage)
    by (vm_compute; reflexivity).
  destruct (staff_list_is_scoped_to_requester Sample.literal_i Sample.newest_first
              db Sample.staff Hsort eq_refl) as [HA HC].
  repeat apply conj; [exact Hsort | reflexivity | exact E1 | | exact E2 |].
  - intros a Ha. exact (proj2 (HA q 200 EmptyString page E1 a Ha)).
  - intros a Ha. exact (proj2 (HC cq 200 EmptyString cpage E2 a Ha)).
Defined.

(** ** Offset pagination of a list *)

Lemma firstn_plus :
  forall {A : Type} (a b : nat) (l : list A),
    firstn (a + b) l = (firstn a l ++ firstn b (skipn a l))%list.
Proof.
  intros A a. induction a as [|a IH]; intros b l; simpl; [reflexivity|].
  destruct l as [|x l]; simpl.
  - rewrite firstn_nil. reflexivity.
  - rewrite IH. reflexivity.
Qed.

Lemma pages_prefix :
  forall {A : Type} (xs : list A) (l k : nat),
    concat (map (page_of xs l) (seq 1 k)) = firstn (k * l) xs.
Proof.
  intros A xs l k. induction k as [|k IH].
  - reflexivity.
  - rewrite seq_S, map_app, concat_app, IH. cbn [map concat].
    unfold page_of. rewrite app_nil_r.
    replace (1 + k - 1) with k by lia.
    replace (S k * l) with (k * l + l) by lia.
    symmetry. apply firstn_plus.
Qed.

Lemma ceil_nat_covers :
  forall n l, 1 <= l -> n <= ceil_nat n l * l /\ (ceil_nat n l - 1) * l < n + l.
Proof.
  intros n l Hl. unfold ceil_nat.
  pose proof (Nat.div_mod (n + l - 1) l ltac:(lia)) as E.
  pose proof (Nat.mod_upper_bound (n + l - 1) l ltac:(lia)) as B.
  split; nia.
Qed.

(** Pages 1 to [ceil(n / l)] hold every record once, in order. *)
Lemma pages_partition :
  forall {A : Type} (xs : list A) (l : nat),
    1 <= l ->
    concat (map (page_of xs l) (seq 1 (ceil_nat (List.length xs) l))) = xs.
Proof.
  intros A xs l Hl. rewrite pages_prefix. apply firstn_all2.
  apply (ceil_nat_covers (List.length xs) l Hl).
Qed.

Lemma pages_count :
  forall {A : Type} (xs : list A) (l : nat),
    1 <= l ->
    list_sum (map (fun p => List.length (page_of xs l p))
                  (seq 1 (ceil_nat (List.length xs) l)))
    = List.length xs.
Proof.
  intros A xs l Hl.
  rewrite <- (pages_partition xs l Hl) at 2.
  generalize (seq 1 (ceil_nat (List.length xs) l)). intro ps.
  induction ps as [|p ps IH]; simpl; [reflexivity|].
  rewrite length_app, IH. reflexivity.
Qed.

Lemma ceil_div_nat :
  forall n l, 1 <= l ->
    JS.ceil_div n (JS.Int (Z.of_nat l)) = JS.Int (Z.of_nat (ceil_nat n l)).
Proof.
  intros n l Hl. unfold JS.ceil_div, ceil_nat.
  destruct (Z.eqb_spec (Z.of_nat l) 0); [lia|]. f_equal.
  rewrite Nat2Z.inj_div.
  replace (Z.of_nat (n + l - 1)) with (Z.of_nat n + Z.of_nat l - 1)%Z by lia.
  set (a := Z.of_nat n). set (b := Z.of_nat l).
  assert (Ha : (0 <= a)%Z) by lia. assert (Hb : (1 <= b)%Z) by lia.
  clearbody a b.
  pose proof (Z.div_mod (- a) b ltac:(lia)) as E1.
  pose proof (Z.mod_pos_bound (- a) b ltac:(lia)) as B1.
  pose proof (Z.div_mod (a + b - 1) b ltac:(lia)) as E2.
  pose proof (Z.mod_pos_bound (a + b - 1) b ltac:(lia)) as B2.
  nia.
Qed.

(** The window of a [find] query is the page, for a page number and a page
    size that are at least 1. *)
Lemma find_window_page :
  forall {A : Type} (xs : list A) (l p : nat),
    1 <= l -> 1 <= p ->
    Listing.find_window
      (Listing.skip_of (JS.Int (Z.of_nat p)) (JS.Int (Z.of_nat l)))
      (JS.Int (Z.of_nat l)) xs
    = Some (page_of xs l p).
Proof.
  intros A xs l p Hl Hp. unfold Listing.find_window, Listing.skip_of. simpl.
  destruct (Z.ltb_spec ((Z.of_nat p - 1) * Z.of_nat l) 0); [nia|].
  destruct (Z.eqb_spec (Z.of_nat l) 0); [lia|].
  unfold page_of. repeat f_equal.
  - rewrite Z.abs_eq by lia. apply Nat2Z.id.
  - replace ((Z.of_nat p - 1) * Z.of_nat l)%Z with (Z.of_nat ((p - 1) * l)) by nia.
    apply Nat2Z.id.
Qed.

(** The pagination object, for a page number and page size at least 1. *)
Lemma paginate_spec :
  forall (n l p : nat),
    1 <= l ->
    Listing.paginate (JS.Int (Z.of_nat p)) (JS.Int (Z.of_nat l)) n
    = Listing.mkPagination (JS.Int (Z.of_nat p))
                           (JS.Int (Z.of_nat (ceil_nat n l))) n
                           (p <? ceil_nat n l)%nat (1 <? p)%nat.
Proof.
  intros n l p Hl. unfold Listing.paginate. rewrite (ceil_div_nat n l Hl).
  unfold JS.gt, JS.lt. f_equal.
  - destruct (Z.ltb_spec (Z.of_nat p) (Z.of_nat (ceil_nat n l)));
      destruct (Nat.ltb_spec p (ceil_nat n l)); try reflexivity; lia.
  - destruct (Z.ltb_spec 1 (Z.of_nat p));
      destruct (Nat.ltb_spec 1 p); try reflexivity; lia.
Qed.

(** ** The list routes whose count is taken on the listed documents *)

(** [GET /api/users]: the search is part of the filter, so the count and the
    pages are over the same documents. *)
Lemma get_users_pagination :
  forall regexp_i db user q (l p : nat),
    includes ["admin"; "manager"; "finance"] (User.role user) = true ->
    JS.parseInt_or (UserRoutes.page q) 1 = JS.Int (Z.of_nat p) -> 1 <= p ->
    JS.parseInt_or (UserRoutes.limit q) 10 = JS.Int (Z.of_nat l) -> 1 <= l ->
    let xs := Listing.sort_desc User.createdAt
                (filter (UserRoutes.matches regexp_i q) (Db.users db)) in
    let n := List.length xs in
    UserRoutes.get_users regexp_i db user q
    = Success 200 EmptyString
        (Listing.mkPage (page_of xs l p)
           (Listing.mkPagination (JS.Int (Z.of_nat p))
              (JS.Int (Z.of_nat (ceil_nat n l))) n
              (p <? ceil_nat n l)%nat (1 <? p)%nat)).
Proof.
  intros regexp_i db user q l p Hrole Hp Hp1 Hl Hl1 xs n.
  unfold UserRoutes.get_users.
  rewrite (authorize_member _ _ _ Hrole), Hp, Hl.
  fold xs. rewrite (find_window_page xs l p Hl1 Hp1).
  replace (List.length (filter (UserRoutes.matches regexp_i q) (Db.users db)))
    with n by (unfold n, xs; apply Permutation_length; apply sort_desc_perm).
  rewrite (paginate_spec n l p Hl1). reflexivity.
Qed.

(** [GET /api/advances] without a search text. *)
Lemma get_advances_pagination :
  forall regexp_i db user q (l p : nat),
    AdvanceRoutes.search q = None \/ AdvanceRoutes.search q = Some EmptyString ->
    JS.parseInt_or (AdvanceRoutes.page q) 1 = JS.Int (Z.of_nat p) -> 1 <= p ->
    JS.parseInt_or (AdvanceRoutes.limit q) 10 = JS.Int (Z.of_nat l) -> 1 <= l ->
    let xs := Listing.sort_desc Advance.requestDate
                (filter (AdvanceRoutes.matches (AdvanceRoutes.build_filter user q))
                        (Db.advances db)) in
    let n := List.length xs in
    AdvanceRoutes.get_advances regexp_i db user q
    = Success 200 EmptyString
        (Listing.mkPage (page_of xs l p)
           (Listing.mkPagination (JS.Int (Z.of_nat p))
              (JS.Int (Z.of_nat (ceil_nat n l))) n
              (p <? ceil_nat n l)%nat (1 <? p)%nat)).
Proof.
  intros regexp_i db user q l p Hs Hp Hp1 Hl Hl1 xs n.
  unfold AdvanceRoutes.get_advances.
  rewrite Hp, Hl. fold xs.
  replace (List.length
             (filter (AdvanceRoutes.matches (AdvanceRoutes.build_filter user q))
                     (Db.advances db)))
    with n by (unfold n, xs; apply Permutation_length; apply sort_desc_perm).
  rewrite (find_window_page xs l p Hl1 Hp1), (paginate_spec n l p Hl1).
  destruct Hs as [-> | ->]; reflexivity.
Qed.

(** [GET /api/advances/my-requests], for any sort order. *)
Lemma get_my_requests_pagination :
  forall sort_by db user q (l p : nat),
    (forall spec docs, Permutation (sort_by spec docs) docs) ->
    JS.parseInt_or (CashAdvanceRoutes.q_page q) 1 = JS.Int (Z.of_nat p) -> 1 <= p ->
    JS.parseInt_or (CashAdvanceRoutes.q_limit q) 10 = JS.Int (Z.of_nat l) -> 1 <= l ->
    exists xs,
      Permutation xs
        (filter (fun a => Nat.eqb (CashAdvance.user a) (User._id user)
                          && match JS.given_not_all (CashAdvanceRoutes.q_status q) with
                             | Some s => CashAdvance.status a =? s
                             | None => true
                             end)
                (Db.cashAdvances db))
      /\ CashAdvanceRoutes.get_my_requests sort_by db user q
         = Success 200 EmptyString
             (Listing.mkPage (page_of xs l p)
                (Listing.mkPagination (JS.Int (Z.of_nat p))
                   (JS.Int (Z.of_nat (ceil_nat (List.length xs) l)))
                   (List.length xs)
                   (p <? ceil_nat (List.length xs) l)%nat (1 <? p)%nat)).
Proof.
  intros sort_by db user q l p Hsort Hp Hp1 Hl Hl1.
  unfold CashAdvanceRoutes.get_my_requests. rewrite Hp, Hl.
  match goal with
  | |- context [Listing.find_window _ _ (sort_by ?s ?docs)] =>
    exists (sort_by s docs); split; [apply Hsort|];
      rewrite (find_window_page (sort_by s docs) l p Hl1 Hp1);
      rewrite <- (Permutation_length (Hsort s docs));
      rewrite (paginate_spec (List.length (sort_by s docs)) l p Hl1)
  end.
  reflexivity.
Qed.

(** C8, at the input where the code departs from it.  Three advances are
    stored and one of them matches the search text.  With a page size of 1
    the search branch of [GET /api/advances] reports 3 records and 3 pages
    and says on page 1 that a next page exists, while page 1 holds the only
    matching record and pages 2 and 3 are empty: the pages hold 1 record in
    all, not 3, and [ceil(1 / 1)] is 1, not 3.  The same store listed
    without the search text reports 3 pages that hold the 3 records. *)
Theorem search_branch_counts_unsearched_records :
  let hotel :=
    Advance.mk 11 (Some "ADV2025010002") 1 300 "hotel booking" None 2000
               (2000 + Sample.week) "pending" [] None None "medium" true in
  let db := Sample.db_of [Sample.advance_with 10 "ADV2025010001" "pending"; hotel;
                          Sample.advance_with 12 "ADV2025010003" "pending"] [] in
  let q p := AdvanceRoutes.mkQuery (Some p) (Some "1") None None (Some "hotel")
                                   None None in
  let plain p := AdvanceRoutes.mkQuery (Some p) (Some "1") None None None
                                       None None in
  let answer query :=
    AdvanceRoutes.get_advances Sample.literal_i db Sample.finance query in
  answer (q "1")
  = Success 200 EmptyString
      (Listing.mkPage [hotel]
         (Listing.mkPagination (JS.Int 1) (JS.Int 3) 3 true false))
  /\ answer (q "2")
     = Success 200 EmptyString
         (Listing.mkPage []
            (Listing.mkPagination (JS.Int 2) (JS.Int 3) 3 true true))
  /\ answer (q "3")
     = Success 200 EmptyString
         (Listing.mkPage []
            (Listing.mkPagination (JS.Int 3) (JS.Int 3) 3 false true))
  /\ List.length
       (filter (fun a => AdvanceRoutes.matches
                           (AdvanceRoutes.build_filter Sample.finance (q "1")) a
                         && AdvanceRoutes.search_matches Sample.literal_i db "hotel" a)
               (Db.advances db)) = 1
  /\ ceil_nat 1 1 = 1
  /\ answer (plain "1")
     = Success 200 EmptyString
         (Listing.mkPage [hotel]
            (Listing.mkPagination (JS.Int 1) (JS.Int 3) 3 true false))
  /\ answer (plain "2")
     = Success 200 EmptyString
         (Listing.mkPage [Sample.advance_with 10 "ADV2025010001" "pending"]
            (Listing.mkPagination (JS.Int 2) (JS.Int 3) 3 true true))
  /\ answer (plain "3")
     = Success 200 EmptyString
         (Listing.mkPage [Sample.advance_with 12 "ADV2025010003" "pending"]
            (Listing.mkPagination (JS.Int 3) (JS.Int 3) 3 false true)).
Proof.
  vm_compute. repeat apply conj; reflexivity.
Qed.

(** ** Decimal strings of the years, months and sequences in range *)

Lemma Zrange_forallb :
  forall (f : Z -> bool) (lo : Z) (n : nat),
    forallb f (Zrange lo n) = true ->
    forall z, (lo <= z < lo + Z.of_nat n)%Z -> f z = true.
Proof.
  intros f lo n H z Hz. rewrite forallb_forall in H. apply H.
  unfold Zrange. apply in_map_iff. exists (Z.to_nat (z - lo)). split.
  - lia.
  - apply in_seq. lia.
Qed.

Lemma month_facts :
  forall m, (1 <= m <= 12)%Z -> month_check m = true.
Proof.
  intros m Hm. apply (Zrange_forallb month_check 1 12); [|lia].
  vm_compute. reflexivity.
Qed.

Lemma digit_facts :
  forall d, (0 <= d <= 9)%Z -> digit_check d = true.
Proof.
  intros d Hd. apply (Zrange_forallb digit_check 0 10); [|lia].
  vm_compute. reflexivity.
Qed.

Lemma digits_facts :
  forall d3 d2 d1 d0,
    (0 <= d3 <= 9)%Z -> (0 <= d2 <= 9)%Z -> (0 <= d1 <= 9)%Z ->
    (0 <= d0 <= 9)%Z ->
    digits_check d3 d2 d1 d0 = true.
Proof.
  intros d3 d2 d1 d0 H3 H2 H1 H0.
  apply (Zrange_forallb (fun x0 => digits_check d3 d2 d1 x0) 0 10); [|lia].
  apply (Zrange_forallb
           (fun x1 => forallb (fun x0 => digits_check d3 d2 x1 x0) (Zrange 0 10))
           0 10); [|lia].
  apply (Zrange_forallb
           (fun x2 =>
              forallb (fun x1 =>
                forallb (fun x0 => digits_check d3 x2 x1 x0) (Zrange 0 10))
                      (Zrange 0 10))
           0 10); [|lia].
  apply (Zrange_forallb
           (fun x3 =>
              forallb (fun x2 =>
                forallb (fun x1 =>
                  forallb (fun x0 => digits_check x3 x2 x1 x0) (Zrange 0 10))
                        (Zrange 0 10))
                      (Zrange 0 10))
           0 10); [|lia].
  vm_compute. reflexivity.
Qed.

(** ** Strings: common prefixes, fixed widths, order *)

Lemma string_app_length :
  forall s1 s2, String.length (s1 ++ s2) = String.length s1 + String.length s2.
Proof.
  induction s1 as [|c s1 IH]; intros s2; simpl; [reflexivity|].
  rewrite IH. reflexivity.
Qed.

Lemma string_app_inj :
  forall a a' b b',
    a ++ b = a' ++ b' -> String.length a = String.length a' ->
    a = a' /\ b = b'.
Proof.
  induction a as [|c a IH]; intros a' b b' H Hl; destruct a' as [|c' a'];
    simpl in *; try discriminate.
  - auto.
  - injection H as -> H. injection Hl as Hl.
    destruct (IH a' b b' H Hl) as [-> ->]. auto.
Qed.

Lemma prefix_app :
  forall p s, String.prefix p (p ++ s) = true.
Proof.
  induction p as [|c p IH]; intros s; simpl; [destruct s; reflexivity|].
  destruct (ascii_dec c c); [apply IH | contradiction].
Qed.

Lemma prefix_same_length :
  forall p p' s,
    String.prefix p (p' ++ s) = true -> String.length p = String.length p' ->
    p = p'.
Proof.
  induction p as [|c p IH]; intros p' s H Hl; destruct p' as [|c' p'];
    simpl in *; try discriminate; [reflexivity|].
  destruct (ascii_dec c c') as [->|]; [|discriminate].
  f_equal. apply (IH p' s H). lia.
Qed.

Lemma substring_skip :
  forall p s, substring (String.length p) (String.length s) (p ++ s) = s.
Proof.
  induction p as [|c p IH]; intros s; simpl.
  - induction s as [|d s IHs]; simpl; [reflexivity|].
    destruct s; simpl in *; f_equal; exact IHs.
  - apply IH.
Qed.

Lemma slice_last_app :
  forall p s k, String.length s = k -> JS.slice_last k (p ++ s) = s.
Proof.
  intros p s k Hk. unfold JS.slice_last.
  rewrite string_app_length, Hk.
  replace (String.length p + k - k) with (String.length p) by lia.
  rewrite <- Hk. apply substring_skip.
Qed.

Lemma ascii_compare_refl : forall c, Ascii.compare c c = Eq.
Proof.
  intros c. unfold Ascii.compare. apply N.compare_refl.
Qed.

Lemma compare_common_prefix :
  forall p s1 s2, String.compare (p ++ s1) (p ++ s2) = String.compare s1 s2.
Proof.
  induction p as [|c p IH]; intros s1 s2; simpl; [reflexivity|].
  rewrite ascii_compare_refl. apply IH.
Qed.

Lemma digit_order :
  forall a b, (0 <= a <= 9)%Z -> (0 <= b <= 9)%Z ->
    Ascii.compare (digit_char a) (digit_char b) = Z.compare a b.
Proof.
  intros a b Ha Hb.
  assert (H : forallb (fun x => forallb (digit_order_check x) (Zrange 0 10))
                      (Zrange 0 10) = true) by (vm_compute; reflexivity).
  pose proof (Zrange_forallb _ 0 10 H a ltac:(lia)) as H1. cbv beta in H1.
  pose proof (Zrange_forallb _ 0 10 H1 b ltac:(lia)) as H2.
  unfold digit_order_check in H2.
  destruct (Ascii.compare (digit_char a) (digit_char b)), (Z.compare a b);
    try reflexivity; discriminate.
Qed.

Lemma digits_in_range :
  forall q, (0 <= q <= 9999)%Z ->
    (0 <= q / 1000 <= 9 /\ 0 <= q / 100 mod 10 <= 9
     /\ 0 <= q / 10 mod 10 <= 9 /\ 0 <= q mod 10 <= 9)%Z
    /\ q = (1000 * (q / 1000) + 100 * (q / 100 mod 10)
            + 10 * (q / 10 mod 10) + q mod 10)%Z.
Proof.
  intros q Hq. Z.div_mod_to_equations. lia.
Qed.

(** Four-digit strings are ordered as the numbers they write. *)
Lemma digits4_order :
  forall q1 q2, (0 <= q1 <= 9999)%Z -> (0 <= q2 <= 9999)%Z ->
    String.ltb (digits4 q1) (digits4 q2) = (q1 <? q2)%Z.
Proof.
  intros q1 q2 H1 H2. unfold String.ltb, digits4, digits.
  cbn [String.compare].
  destruct (digits_in_range q1 H1) as ((A1 & B1 & C1 & D1) & _).
  destruct (digits_in_range q2 H2) as ((A2 & B2 & C2 & D2) & _).
  rewrite !digit_order by assumption.
  clear A1 B1 C1 D1 A2 B2 C2 D2.
  repeat match goal with
         | |- context [Z.compare ?x ?y] =>
           destruct (Z.compare_spec x y); cbv iota
         end;
    destruct (Z.ltb_spec q1 q2); try reflexivity; exfalso;
    Z.div_mod_to_equations; lia.
Qed.

(** ** Request numbers in range *)

Lemma digit_char_facts :
  forall d, (0 <= d <= 9)%Z ->
    is_digit (digit_char d) = true
    /\ JS.is_blank_char (digit_char d) = false
    /\ Nat.eqb (nat_of_ascii (digit_char d)) 45 = false
    /\ Nat.eqb (nat_of_ascii (digit_char d)) 43 = false
    /\ Nat.eqb (nat_of_ascii (digit_char d)) 120 = false
    /\ Nat.eqb (nat_of_ascii (digit_char d)) 88 = false
    /\ JS.digit_val (digit_char d) = Some d.
Proof.
  intros d Hd. pose proof (digit_facts d Hd) as H. unfold digit_check in H.
  rewrite !andb_true_iff in H.
  destruct H as ((((((A & B) & C) & D) & E) & F) & G).
  rewrite negb_true_iff in B, C, D, E, F.
  repeat apply conj; try assumption.
  destruct (JS.digit_val (digit_char d)) as [v|]; [|discriminate].
  f_equal. apply Z.eqb_eq. assumption.
Qed.

(** The four digits read back as the number they write. *)
Lemma parseInt_digits :
  forall d3 d2 d1 d0,
    (0 <= d3 <= 9)%Z -> (0 <= d2 <= 9)%Z -> (0 <= d1 <= 9)%Z ->
    (0 <= d0 <= 9)%Z ->
    JS.parseInt (digits d3 d2 d1 d0)
    = JS.Int (1000 * d3 + 100 * d2 + 10 * d1 + d0).
Proof.
  intros d3 d2 d1 d0 H3 H2 H1 H0.
  destruct (digit_char_facts d3 H3) as (_ & B3 & M3 & P3 & _ & _ & V3).
  destruct (digit_char_facts d2 H2) as (_ & _ & _ & _ & X2 & Y2 & V2).
  destruct (digit_char_facts d1 H1) as (_ & _ & _ & _ & _ & _ & V1).
  destruct (digit_char_facts d0 H0) as (_ & _ & _ & _ & _ & _ & V0).
  unfold JS.parseInt, digits. cbn [JS.trim_start].
  rewrite B3, M3, P3, X2, Y2. cbn [orb]. rewrite andb_false_r.
  cbn [JS.parse_digits]. rewrite V3, V2, V1, V0.
  assert (L : forall d, (0 <= d <= 9)%Z -> (d <? 10)%Z = true)
    by (intros; apply Z.ltb_lt; lia).
  rewrite !L by assumption. f_equal. lia.
Qed.

Lemma pad4_shape :
  forall q, (0 <= q <= 9999)%Z ->
    pad4 q = digits4 q /\ String.length (pad4 q) = 4
    /\ JS.parseInt (pad4 q) = JS.Int q /\ all_digits (pad4 q) = true.
Proof.
  intros q Hq. destruct (digits_in_range q Hq) as ((H3 & H2 & H1 & H0) & E).
  pose proof (digits_facts _ _ _ _ H3 H2 H1 H0) as H.
  unfold digits_check in H. rewrite <- E in H.
  apply andb_prop in H. destruct H as [H _]. apply String.eqb_eq in H.
  fold (digits4 q) in H. rewrite H. unfold digits4.
  repeat apply conj; try reflexivity.
  - rewrite parseInt_digits by assumption. rewrite <- E. reflexivity.
  - unfold digits. cbn [all_digits].
    rewrite (proj1 (digit_char_facts _ H3)), (proj1 (digit_char_facts _ H2)),
      (proj1 (digit_char_facts _ H1)), (proj1 (digit_char_facts _ H0)).
    reflexivity.
Qed.

(** A year of four digits is written as [pad4] writes it. *)
Lemma year_is_pad4 :
  forall y, (1000 <= y <= 9999)%Z -> JS.toString (JS.Int y) = pad4 y.
Proof.
  intros y Hy. destruct (digits_in_range y ltac:(lia)) as ((H3 & H2 & H1 & H0) & E).
  pose proof (digits_facts _ _ _ _ H3 H2 H1 H0) as H.
  unfold digits_check in H. rewrite <- E in H.
  apply andb_prop in H. destruct H as [_ H].
  destruct (Z.eqb_spec (y / 1000) 0) as [Z0|Z0];
    [exfalso; revert Z0; Z.div_mod_to_equations; lia|].
  apply Nat.eqb_eq in H. unfold pad4, JS.padStart. rewrite H. reflexivity.
Qed.

Lemma year_shape :
  forall y, (1000 <= y <= 9999)%Z ->
    String.length (JS.toString (JS.Int y)) = 4
    /\ JS.parseInt (JS.toString (JS.Int y)) = JS.Int y
    /\ all_digits (JS.toString (JS.Int y)) = true.
Proof.
  intros y Hy. rewrite (year_is_pad4 y Hy).
  destruct (pad4_shape y ltac:(lia)) as (_ & L & P & D). auto.
Qed.

Lemma month_shape :
  forall m, (1 <= m <= 12)%Z ->
    String.length (pad2 m) = 2 /\ JS.parseInt (pad2 m) = JS.Int m
    /\ all_digits (pad2 m) = true.
Proof.
  intros m Hm. pose proof (month_facts m Hm) as H. unfold month_check in H.
  apply andb_prop in H. destruct H as [H H3].
  apply andb_prop in H. destruct H as [H1 H2].
  apply Nat.eqb_eq in H1. repeat apply conj; auto.
  unfold is_int in H3. destruct (JS.parseInt (pad2 m)); try discriminate.
  apply Z.eqb_eq in H3. subst. reflexivity.
Qed.

Lemma month_prefix_length :
  forall y m, (1000 <= y <= 9999)%Z -> (1 <= m <= 12)%Z ->
    String.length (month_prefix y m) = 9.
Proof.
  intros y m Hy Hm. unfold month_prefix.
  rewrite !string_app_length.
  rewrite (proj1 (year_shape y Hy)), (proj1 (month_shape m Hm)). reflexivity.
Qed.

Lemma month_prefix_inj :
  forall y m y' m',
    (1000 <= y <= 9999)%Z -> (1 <= m <= 12)%Z ->
    (1000 <= y' <= 9999)%Z -> (1 <= m' <= 12)%Z ->
    month_prefix y m = month_prefix y' m' -> y = y' /\ m = m'.
Proof.
  intros y m y' m' Hy Hm Hy' Hm' H. unfold month_prefix in H.
  cbn [append] in H. injection H as H.
  destruct (year_shape y Hy) as (L1 & P1 & _).
  destruct (year_shape y' Hy') as (L2 & P2 & _).
  destruct (month_shape m Hm) as (_ & Q1 & _).
  destruct (month_shape m' Hm') as (_ & Q2 & _).
  change (JS.toString (JS.Int y) ++ pad2 m = JS.toString (JS.Int y') ++ pad2 m')
    in H.
  apply string_app_inj in H; [|rewrite L1, L2; reflexivity].
  destruct H as [Ey Em]. rewrite Ey in P1. rewrite Em in Q1.
  split; congruence.
Qed.

Lemma string_app_assoc :
  forall a b c : string, a ++ (b ++ c) = (a ++ b) ++ c.
Proof.
  induction a as [|x a IH]; intros b c; simpl; [reflexivity|].
  rewrite IH. reflexivity.
Qed.

Lemma all_digits_app :
  forall s1 s2, all_digits (s1 ++ s2) = all_digits s1 && all_digits s2.
Proof.
  induction s1 as [|c s1 IH]; intros s2; simpl; [reflexivity|].
  rewrite IH. apply andb_assoc.
Qed.

(** A number of a year, month and sequence in range has the pattern. *)
Lemma request_number_pattern :
  forall y m q,
    (1000 <= y <= 9999)%Z -> (1 <= m <= 12)%Z -> (0 <= q <= 9999)%Z ->
    has_request_number_pattern (request_number y m q) = true.
Proof.
  intros y m q Hy Hm Hq.
  destruct (year_shape y Hy) as (L1 & _ & D1).
  destruct (month_shape m Hm) as (L2 & _ & D2).
  destruct (pad4_shape q Hq) as (_ & L3 & _ & D3).
  set (rest := JS.toString (JS.Int y) ++ pad2 m ++ pad4 q).
  assert (E : request_number y m q = "ADV" ++ rest).
  { unfold request_number, month_prefix, rest.
    rewrite <- !string_app_assoc. reflexivity. }
  assert (Hl : String.length rest = 10)
    by (unfold rest; rewrite !string_app_length, L1, L2, L3; reflexivity).
  unfold has_request_number_pattern. rewrite E.
  apply andb_true_intro. split; [apply andb_true_intro; split|].
  - apply prefix_app.
  - apply Nat.eqb_eq. rewrite string_app_length, Hl. reflexivity.
  - assert (Hs : substring 3 10 ("ADV" ++ rest) = rest)
      by (rewrite <- Hl; apply (substring_skip "ADV" rest)).
    rewrite Hs. unfold rest.
    rewrite !all_digits_app, D1, D2, D3. reflexivity.
Qed.

Lemma sequence_of_request_number :
  forall a y m q,
    (0 <= q <= 9999)%Z ->
    Advance.rn a = request_number y m q -> sequence_of a = q.
Proof.
  intros a y m q Hq H. unfold sequence_of. rewrite H. unfold request_number.
  destruct (pad4_shape q Hq) as (_ & L & P & _).
  rewrite (slice_last_app _ _ 4 L), P. reflexivity.
Qed.

(** Within a month, the order of the request numbers is the order of the
    sequences. *)
Lemma request_number_order :
  forall y m q1 q2,
    (0 <= q1 <= 9999)%Z -> (0 <= q2 <= 9999)%Z ->
    String.ltb (request_number y m q1) (request_number y m q2) = (q1 <? q2)%Z.
Proof.
  intros y m q1 q2 H1 H2. unfold request_number, String.ltb.
  rewrite compare_common_prefix.
  rewrite (proj1 (pad4_shape q1 H1)), (proj1 (pad4_shape q2 H2)).
  apply (digits4_order q1 q2 H1 H2).
Qed.

(** ** The hook's query: the greatest request number of the month *)

Lemma greatest_spec :
  forall (l : list Advance.t) (best : option Advance.t),
    (forall a b,
        In a l \/ best = Some a -> In b l \/ best = Some b ->
        String.ltb (Advance.rn a) (Advance.rn b)
        = (sequence_of a <? sequence_of b)%Z) ->
    match Advance.greatest l best with
    | Some g =>
      (In g l \/ best = Some g)
      /\ forall x, In x l \/ best = Some x -> (sequence_of x <= sequence_of g)%Z
    | None => l = [] /\ best = None
    end.
Proof.
  induction l as [|a l IH]; intros best Hord; simpl.
  - destruct best as [b|]; [|auto]. split; [auto|].
    intros x [[]|Hx]. injection Hx as ->. lia.
  - set (best' := match best with
                  | Some b => if String.ltb (Advance.rn b) (Advance.rn a)
                              then Some a else Some b
                  | None => Some a
                  end).
    assert (Hsub : forall x, In x l \/ best' = Some x ->
                             In x (a :: l) \/ best = Some x).
    { intros x [Hx|Hx]; [left; right; exact Hx|].
      unfold best' in Hx. destruct best as [b|].
      - destruct (String.ltb (Advance.rn b) (Advance.rn a));
          injection Hx as <-; [left; left; reflexivity | right; reflexivity].
      - injection Hx as <-. left; left; reflexivity. }
    specialize (IH best').
    assert (Hord' : forall x y,
               In x l \/ best' = Some x -> In y l \/ best' = Some y ->
               String.ltb (Advance.rn x) (Advance.rn y)
               = (sequence_of x <? sequence_of y)%Z)
      by (intros x y Hx Hy; apply Hord; apply Hsub; assumption).
    specialize (IH Hord').
    destruct (Advance.greatest l best') as [g|].
    + destruct IH as [Hg Hmax]. split; [apply Hsub; exact Hg|].
      intros x [[<-|Hx]|Hx].
      * (* the head of the list *)
        unfold best' in Hmax. destruct best as [b|].
        -- destruct (String.ltb (Advance.rn b) (Advance.rn a)) eqn:E.
           ++ apply Hmax. right. reflexivity.
           ++ rewrite (Hord b a) in E by (simpl; auto).
              pose proof (Hmax b (or_intror eq_refl)). lia.
        -- apply Hmax. right. reflexivity.
      * apply Hmax. left. exact Hx.
      * (* the best so far *)
        subst best. unfold best' in Hmax.
        destruct (String.ltb (Advance.rn x) (Advance.rn a)) eqn:E.
        -- rewrite (Hord x a) in E by (simpl; auto).
           pose proof (Hmax a (or_intror eq_refl)). lia.
        -- apply Hmax. right. reflexivity.
    + destruct IH as [_ Hb]. unfold best' in Hb. destruct best as [b|].
      * destruct (String.ltb (Advance.rn b) (Advance.rn a)); discriminate.
      * discriminate.
Qed.

(** The documents the hook's query selects are the documents of the month. *)
Lemma month_candidates :
  forall collection year month a,
    well_numbered collection ->
    (1000 <= year <= 9999)%Z -> (1 <= month <= 12)%Z ->
    In a (filter (Advance.matches_prefix (month_prefix year month)) collection) ->
    In a collection
    /\ exists q, (1 <= q <= 9999)%Z
                 /\ Advance.requestNumber a = Some (request_number year month q).
Proof.
  intros collection year month a Hwf Hy Hm Hin.
  apply filter_In in Hin. destruct Hin as [Hin Hp]. split; [exact Hin|].
  destruct (Hwf a Hin) as (y' & m' & q & (Hy' & Hm' & Hq) & Hn).
  exists q. split; [exact Hq|].
  unfold Advance.matches_prefix in Hp. rewrite Hn in Hp.
  unfold request_number in Hp.
  apply prefix_same_length in Hp;
    [|rewrite !month_prefix_length by assumption; reflexivity].
  apply month_prefix_inj in Hp; try assumption.
  destruct Hp as [-> ->]. exact Hn.
Qed.

Lemma month_candidate_selected :
  forall collection year month q a,
    In a collection ->
    Advance.requestNumber a = Some (request_number year month q) ->
    In a (filter (Advance.matches_prefix (month_prefix year month)) collection).
Proof.
  intros collection year month q a Hin Hn. apply filter_In. split; [exact Hin|].
  unfold Advance.matches_prefix. rewrite Hn. apply prefix_app.
Qed.

Lemma rn_of_number :
  forall a n, Advance.requestNumber a = Some n -> Advance.rn a = n.
Proof.
  intros a n H. unfold Advance.rn. rewrite H. reflexivity.
Qed.

Lemma pad4_inj :
  forall q q', (0 <= q <= 9999)%Z -> (0 <= q' <= 9999)%Z ->
    pad4 q = pad4 q' -> q = q'.
Proof.
  intros q q' Hq Hq' H.
  destruct (pad4_shape q Hq) as (_ & _ & P & _).
  destruct (pad4_shape q' Hq') as (_ & _ & P' & _).
  rewrite H in P. congruence.
Qed.

Lemma request_number_inj :
  forall y m q y' m' q',
    (1000 <= y <= 9999)%Z -> (1 <= m <= 12)%Z -> (0 <= q <= 9999)%Z ->
    (1000 <= y' <= 9999)%Z -> (1 <= m' <= 12)%Z -> (0 <= q' <= 9999)%Z ->
    request_number y m q = request_number y' m' q' ->
    y = y' /\ m = m' /\ q = q'.
Proof.
  intros y m q y' m' q' Hy Hm Hq Hy' Hm' Hq' H. unfold request_number in H.
  apply string_app_inj in H;
    [|rewrite !month_prefix_length by assumption; reflexivity].
  destruct H as [Hp Hs].
  apply month_prefix_inj in Hp; try assumption.
  apply pad4_inj in Hs; try assumption. tauto.
Qed.

(** The template literal of the hook is the request number. *)
Lemma hook_literal :
  forall year month q,
    "ADV" ++ JS.toString (JS.Int year) ++ pad2 month ++ pad4 q
    = request_number year month q.
Proof.
  intros year month q. unfold request_number, month_prefix.
  rewrite <- !string_app_assoc. reflexivity.
Qed.

(** What the hook assigns to a new document: the number of the month whose
    sequence is 1 in an empty month and otherwise one more than the greatest
    sequence of the month. *)
Lemma pre_save_assigns_next :
  forall year month0 collection this,
    Advance.requestNumber this = None ->
    well_numbered collection ->
    (1000 <= year <= 9999)%Z -> (0 <= month0 <= 11)%Z ->
    (forall a q, (1 <= q <= 9999)%Z -> In a collection ->
                 Advance.requestNumber a
                 = Some (request_number year (month0 + 1) q) ->
                 (q < 9999)%Z) ->
    exists q,
      (1 <= q <= 9999)%Z
      /\ Advance.pre_save year month0 collection this
         = Advance.set_requestNumber this (request_number year (month0 + 1) q)
      /\ (forall a q', (1 <= q' <= 9999)%Z -> In a collection ->
                       Advance.requestNumber a
                       = Some (request_number year (month0 + 1) q') ->
                       (q' < q)%Z)
      /\ (q = 1
          \/ exists a, In a collection
                       /\ Advance.requestNumber a
                          = Some (request_number year (month0 + 1) (q - 1)))%Z.
Proof.
  intros year month0 collection this Hnone Hwf Hy Hm0 Hroom.
  set (month := (month0 + 1)%Z) in *.
  assert (Hm : (1 <= month <= 12)%Z) by (unfold month; lia).
  unfold Advance.pre_save. rewrite Hnone.
  fold month. fold (pad2 month). fold (month_prefix year month).
  unfold Advance.findLast.
  set (cands := filter (Advance.matches_prefix (month_prefix year month))
                       collection).
  assert (Hc : forall a, In a cands ->
                         In a collection
                         /\ exists q, (1 <= q <= 9999)%Z
                                      /\ Advance.requestNumber a
                                         = Some (request_number year month q)
                                      /\ sequence_of a = q).
  { intros a Ha. destruct (month_candidates _ _ _ _ Hwf Hy Hm Ha)
      as (Hin & q & Hq & Hn).
    split; [exact Hin|]. exists q. split; [exact Hq|]. split; [exact Hn|].
    apply (sequence_of_request_number a year month); [lia|].
    apply rn_of_number; exact Hn. }
  assert (Hord : forall a b,
             In a cands \/ @None Advance.t = Some a ->
             In b cands \/ @None Advance.t = Some b ->
             String.ltb (Advance.rn a) (Advance.rn b)
             = (sequence_of a <? sequence_of b)%Z).
  { intros a b [Ha|Ha] [Hb|Hb]; try discriminate.
    destruct (Hc a Ha) as (_ & qa & Hqa & Hna & Hsa).
    destruct (Hc b Hb) as (_ & qb & Hqb & Hnb & Hsb).
    rewrite (rn_of_number _ _ Hna), (rn_of_number _ _ Hnb), Hsa, Hsb.
    apply request_number_order; lia. }
  pose proof (greatest_spec cands None Hord) as G.
  destruct (Advance.greatest cands None) as [g|].
  - destruct G as [[Hg|Hg] Hmax]; [|discriminate].
    destruct (Hc g Hg) as (Hgin & qg & Hqg & Hng & Hsg).
    pose proof (Hroom g qg Hqg Hgin Hng) as Hlt.
    exists (qg + 1)%Z.
    assert (Hparse : JS.parseInt (JS.slice_last 4 (Advance.rn g)) = JS.Int qg).
    { rewrite (rn_of_number _ _ Hng). unfold request_number.
      destruct (pad4_shape qg ltac:(lia)) as (_ & L & P & _).
      rewrite (slice_last_app _ _ 4 L). exact P. }
    rewrite Hparse. cbn [JS.add]. fold (pad4 (qg + 1)).
    split; [lia|]. split; [|split].
    + f_equal. unfold month_prefix. apply hook_literal.
    + intros a q' Hq' Hin Hn.
      pose proof (month_candidate_selected _ _ _ _ _ Hin Hn) as Hca.
      fold cands in Hca.
      destruct (Hc a Hca) as (_ & qa & Hqa & Hna & Hsa).
      assert (Hn' : request_number year month qa = request_number year month q')
        by congruence.
      apply request_number_inj in Hn'; try lia.
      pose proof (Hmax a (or_introl Hca)). lia.
    + right. exists g. split; [exact Hgin|].
      replace (qg + 1 - 1)%Z with qg by lia. exact Hng.
  - destruct G as [Hnil _]. exists 1%Z. fold (pad4 1).
    split; [lia|]. split; [|split].
    + f_equal. unfold month_prefix. apply hook_literal.
    + intros a q' Hq' Hin Hn.
      pose proof (month_candidate_selected _ _ _ _ _ Hin Hn) as Hca.
      fold cands in Hca. rewrite Hnil in Hca. contradiction.
    + left. reflexivity.
Qed.

(** C5, at the inputs where the code departs from it: every valid creation
    input.  The document the create route builds has status pending, the
    amount of the input and no request number.  [save()] validates it
    before the pre-save hook runs, the schema requires a request number,
    and the route answers 500 and stores nothing, whatever the store holds
    and whatever the hook's query would read; the hook, which alone assigns
    request numbers, would have numbered the document. *)
Theorem valid_creation_is_refused_before_numbering :
  forall (now : Date) (year month0 : Z) (oid : ObjectId) (seen db : Db.t)
         (user : User.t) (body : Validation.AdvanceRequest),
    let doc := AdvanceRoutes.new_advance now oid user body in
    let r := AdvanceRoutes.post_advance_at now year month0 oid seen db user body in
    Advance.status doc = "pending"
    /\ Advance.amount doc = Validation.amount body
    /\ Advance.requestNumber doc = None
    /\ Schema.advance_ok doc = false
    /\ fst r = db
    /\ is_success (snd r) = false
    /\ (Validation.validateAdvanceRequest now body = true ->
        r = (db, Failure 500 "Error creating cash advance request" []))
    /\ (exists n,
           Advance.pre_save year month0 (Db.advances seen) doc
           = Advance.set_requestNumber doc n).
Proof.
  intros now year month0 oid seen db user body doc r. subst r.
  rewrite post_advance_cases. cbn [fst snd].
  split; [reflexivity|]. split; [reflexivity|]. split; [reflexivity|].
  split; [reflexivity|]. split; [reflexivity|].
  split; [destruct (Validation.validateAdvanceRequest now body); reflexivity|].
  split.
  - intros ->. reflexivity.
  - unfold Advance.pre_save. eexists. reflexivity.
Qed.

Lemma valid_creation_is_refused_before_numbering_witness :
  let db := Sample.db_of [Sample.advance_with 10 "ADV2025010001" "pending"] [] in
  Validation.validateAdvanceRequest 1000 (Sample.request 1000) = true
  /\ AdvanceRoutes.post_advance 1000 2025 0 100 db Sample.staff
                                (Sample.request 1000)
     = (db, Failure 500 "Error creating cash advance request" []).
Proof.
  intro db.
  assert (V : Validation.validateAdvanceRequest 1000 (Sample.request 1000) = true)
    by reflexivity.
  destruct (valid_creation_is_refused_before_numbering
              1000%Z 2025%Z 0%Z 100 db db Sample.staff (Sample.request 1000))
    as (_ & _ & _ & _ & _ & _ & H & _).
  split; [exact V|]. exact (H V).
Defined.

(** * Further properties of the handlers *)

(** ** Documents the routes store pass the schema *)

Lemma addApproval_fields :
  forall now a u role decision comment,
    let a' := Advance.addApproval now a u role decision comment in
    Advance._id a' = Advance._id a
    /\ Advance.requestNumber a' = Advance.requestNumber a
    /\ Advance.requester a' = Advance.requester a
    /\ Advance.amount a' = Advance.amount a
    /\ Advance.purpose a' = Advance.purpose a
    /\ Advance.description a' = Advance.description a
    /\ Advance.requestDate a' = Advance.requestDate a
    /\ Advance.expectedReturnDate a' = Advance.expectedReturnDate a
    /\ Advance.priority a' = Advance.priority a
    /\ Advance.isActive a' = Advance.isActive a
    /\ Advance.disbursement a' = Advance.disbursement a
    /\ Advance.approvals a'
       = (Advance.approvals a
            ++ [Advance.Approval.mk u role decision
                  (match comment with Some c => c | None => EmptyString end)
                  now])%list.
Proof.
  intros now a u role decision comment a'. subst a'.
  unfold Advance.addApproval, Advance.update_main_status.
  destruct (decision =? "rejected");
    [repeat apply conj; reflexivity|].
  destruct ((role =? "manager") && (decision =? "approved"));
    [repeat apply conj; reflexivity|].
  destruct ((role =? "finance") && (decision =? "approved"));
    repeat apply conj; reflexivity.
Qed.

Lemma run_invariant :
  forall (P : Db.t -> Prop),
    (forall db op, P db -> P (fst (Lifecycle.step db op))) ->
    forall ops db, P db -> P (Lifecycle.run db ops).
Proof.
  intros P Hstep ops. induction ops as [|op ops IH]; intros db H; simpl.
  - exact H.
  - apply IH, Hstep, H.
Qed.

(** A request leaves the store as it is or rewrites one document of one
    collection, by one of the writes of [Transition]. *)
Lemma step_store :
  forall db op,
    let db' := fst (Lifecycle.step db op) in
    Db.users db' = Db.users db
    /\ (db' = db
        \/ (exists a a',
               In a (Db.advances db) /\ Transition.advance_step a a'
               /\ Advance._id a' = Advance._id a
               /\ Db.advances db' = Transition.replace Advance._id a' (Db.advances db)
               /\ Db.cashAdvances db' = Db.cashAdvances db)
        \/ (exists c c',
               In c (Db.cashAdvances db) /\ Transition.cash_step c c'
               /\ CashAdvance._id c' = CashAdvance._id c
               /\ Db.cashAdvances db'
                  = Transition.replace CashAdvance._id c' (Db.cashAdvances db)
               /\ Db.advances db' = Db.advances db)).
Proof.
  intros db op db'. subst db'.
  destruct op as [now user id body|now user id body|now user id body
                  |user id|user id reason]; cbn [Lifecycle.step Lifecycle.outcome].
  - destruct (put_approve_cases now db user id body)
      as [(c & m & e & -> & _)|(a & decision & Hf & _ & Hd & Hg & ->)];
      cbn [fst snd]; [split; [reflexivity|left; reflexivity]|].
    split; [reflexivity|]. right; left.
    apply find_by_key_In in Hf. destruct Hf as [Hin _].
    exists a, (Advance.addApproval now a (User._id user) (User.role user)
                 decision (AdvanceRoutes.approve_comment body)).
    repeat apply conj; try reflexivity.
    + exact Hin.
    + constructor; assumption.
    + apply addApproval_id.
  - destruct (put_disburse_cases now db user id body)
      as [(c & m & e & -> & _)|(a & Hf & Hs & _ & Hm & ->)];
      cbn [fst snd]; [split; [reflexivity|left; reflexivity]|].
    split; [reflexivity|]. right; left.
    apply find_by_key_In in Hf. destruct Hf as [Hin _].
    exists a, (disbursed_from now user body a).
    repeat apply conj; try reflexivity.
    + exact Hin.
    + constructor; assumption.
  - destruct (put_retire_cases now db user id body)
      as [(c & m & e & -> & _)|(a & Hf & Hs & ->)];
      cbn [fst snd]; [split; [reflexivity|left; reflexivity]|].
    split; [reflexivity|]. right; right.
    apply findOwned_In in Hf. destruct Hf as (Hin & _ & _).
    exists a, (retired_from now body a).
    repeat apply conj; try reflexivity.
    + exact Hin.
    + constructor; assumption.
  - destruct (manager_put_approve_cases db user id)
      as [(c & m & e & -> & _)|(a & Hf & ->)];
      cbn [fst snd]; [split; [reflexivity|left; reflexivity]|].
    split; [reflexivity|]. right; right.
    apply findPendingOfTeam_In in Hf. destruct Hf as (Hin & _ & Hs).
    exists a, (CashAdvance.set_approvedBy (CashAdvance.set_status a "approved")
                                          (User._id user)).
    repeat apply conj; try reflexivity.
    + exact Hin.
    + constructor; assumption.
  - destruct (manager_put_reject_cases db user id reason)
      as [(c & m & e & -> & _)|(a & r & Hf & _ & -> & _ & Hlen)];
      cbn [fst snd]; [split; [reflexivity|left; reflexivity]|].
    split; [reflexivity|]. right; right.
    apply findPendingOfTeam_In in Hf. destruct Hf as (Hin & _ & Hs).
    exists a, (CashAdvance.set_rejectedReason
                 (CashAdvance.set_status a "rejected") (JS.trim r)).
    repeat apply conj; try reflexivity.
    + exact Hin.
    + constructor; assumption.
Qed.

Lemma Forall_replace :
  forall (A : Type) (key : A -> ObjectId) (P : A -> Prop) (x : A) (l : list A),
    Forall P l -> P x -> Forall P (Transition.replace key x l).
Proof.
  intros A key P x l Hl Hx. unfold Transition.replace.
  induction Hl as [|y l Hy Hl IH]; simpl; constructor.
  - destruct (Nat.eqb (key y) (key x)); assumption.
  - exact IH.
Qed.

(** A property of documents that each write keeps holds in every store a
    sequence of requests reaches. *)
Lemma run_Forall :
  forall (P : Advance.t -> Prop) (Q : CashAdvance.t -> Prop),
    (forall a a', Transition.advance_step a a' -> P a -> P a') ->
    (forall c c', Transition.cash_step c c' -> Q c -> Q c') ->
    forall ops db,
      Forall P (Db.advances db) -> Forall Q (Db.cashAdvances db) ->
      Forall P (Db.advances (Lifecycle.run db ops))
      /\ Forall Q (Db.cashAdvances (Lifecycle.run db ops)).
Proof.
  intros P Q HP HQ ops db Ha Hc.
  apply (run_invariant
           (fun db => Forall P (Db.advances db) /\ Forall Q (Db.cashAdvances db)));
    [|split; assumption].
  clear ops db Ha Hc. intros db op [Ha Hc].
  destruct (step_store db op) as [_ [->|[(a & a' & Hin & Hs & _ & -> & ->)
                                        |(c & c' & Hin & Hs & _ & -> & ->)]]].
  - split; assumption.
  - split; [|assumption]. apply Forall_replace; [assumption|].
    apply (HP a a' Hs). rewrite Forall_forall in Ha. apply Ha, Hin.
  - split; [assumption|]. apply Forall_replace; [assumption|].
    apply (HQ c c' Hs). rewrite Forall_forall in Hc. apply Hc, Hin.
Qed.

Lemma advance_step_cases :
  forall a a',
    Transition.advance_step a a' ->
    (exists now u comment,
        Advance.status a = "pending"
        /\ a' = Advance.addApproval now a u "manager" "approved" comment)
    \/ (exists now u comment,
           Advance.status a = "pending"
           /\ a' = Advance.addApproval now a u "manager" "rejected" comment)
    \/ (exists now u comment,
           Advance.status a = "manager_approved"
           /\ a' = Advance.addApproval now a u "finance" "approved" comment)
    \/ (exists now u comment,
           Advance.status a = "manager_approved"
           /\ a' = Advance.addApproval now a u "finance" "rejected" comment)
    \/ (exists now user body,
           Advance.status a = "finance_approved"
           /\ Schema.method_ok (or_string (AdvanceRoutes.method body) "cash")
              = true
           /\ a' = disbursed_from now user body a).
Proof.
  intros a a' H.
  destruct H as [now user decision comment Hg Hd|now user body Hs Hm].
  - apply canBeApprovedBy_iff in Hg.
    destruct Hg as [[Hs ->]|[Hs ->]], Hd as [->| ->].
    + left. exists now, (User._id user), comment. split; [exact Hs|reflexivity].
    + right; left. exists now, (User._id user), comment. split; [exact Hs|reflexivity].
    + right; right; left. exists now, (User._id user), comment.
      split; [exact Hs|reflexivity].
    + right; right; right; left. exists now, (User._id user), comment.
      split; [exact Hs|reflexivity].
  - right; right; right; right. exists now, user, body.
    split; [exact Hs|]. split; [exact Hm|reflexivity].
Qed.

Lemma forallb_snoc :
  forall (A : Type) (f : A -> bool) (l : list A) (x : A),
    forallb f (l ++ [x]) = forallb f l && f x.
Proof.
  intros. rewrite forallb_app. simpl. rewrite andb_true_r. reflexivity.
Qed.

Lemma advance_step_schema :
  forall a a',
    Transition.advance_step a a' ->
    Schema.advance_ok a = true -> Schema.advance_ok a' = true.
Proof.
  intros a a' H Hok.
  unfold Schema.advance_ok in *.
  repeat (apply andb_prop in Hok; destruct Hok as [Hok ?]).
  destruct (advance_step_cases a a' H)
    as [(now & u & c & Hs & ->)|[(now & u & c & Hs & ->)|[(now & u & c & Hs & ->)
       |[(now & u & c & Hs & ->)|(now & u & body & Hs & Hm & ->)]]]];
    cbn [Advance.addApproval Advance.update_main_status Advance.push_approval
         Advance.set_status Advance.set_approvals Advance.set_disbursement
         disbursed_from String.eqb Ascii.eqb Bool.eqb andb orb
         Advance.requestNumber Advance.amount Advance.purpose Advance.description
         Advance.status Advance.approvals Advance.priority
         Advance.disbursement Advance.method];
    rewrite ?forallb_snoc, !andb_true_iff;
    repeat apply conj; try assumption; reflexivity.
Qed.

Lemma advance_step_consistent :
  forall a a',
    Transition.advance_step a a' ->
    Consistency.consistent a = true -> Consistency.consistent a' = true.
Proof.
  intros a a' H Hok.
  unfold Consistency.consistent in *.
  assert (Hr : Advance.retirement a' = Advance.retirement a).
  { destruct H as [now user decision comment _ _|now user body _ _];
      [|reflexivity].
    unfold Advance.addApproval, Advance.update_main_status.
    destruct (decision =? "rejected"); [reflexivity|].
    destruct ((User.role user =? "manager") && (decision =? "approved"));
      [reflexivity|].
    destruct ((User.role user =? "finance") && (decision =? "approved"));
      reflexivity. }
  rewrite Hr. destruct (Advance.retirement a); [discriminate Hok|]. clear Hr.
  unfold Consistency.stage_consistent in Hok.
  destruct (advance_step_cases a a' H)
    as [(now & u & c & Hs & ->)|[(now & u & c & Hs & ->)|[(now & u & c & Hs & ->)
       |[(now & u & c & Hs & ->)|(now & u & body & Hs & _ & ->)]]]];
    rewrite Hs in Hok; cbn [String.eqb Ascii.eqb Bool.eqb] in Hok;
    destruct (Advance.approvals a) as [|e1 [|e2 [|e3 l]]] eqn:Ha;
    destruct (Advance.disbursement a) eqn:Hd; try discriminate Hok;
    unfold Consistency.stage_consistent;
    cbn [Advance.addApproval Advance.update_main_status Advance.push_approval
         Advance.set_status Advance.set_approvals Advance.set_disbursement
         disbursed_from String.eqb Ascii.eqb Bool.eqb andb orb
         Advance.status Advance.approvals Advance.disbursement];
    rewrite ?Ha, ?Hd; cbn [app];
    unfold Consistency.is_event in *;
    cbn [Advance.Approval.role Advance.Approval.status String.eqb Ascii.eqb
         Bool.eqb andb];
    rewrite ?andb_true_r; try exact Hok; reflexivity.
Qed.

Lemma advance_step_later :
  forall a a', Transition.advance_step a a' -> Consistency.later_state a a'.
Proof.
  intros a a' H.
  destruct H as [now user decision comment _ _|now user body _ _].
  - destruct (addApproval_fields now a (User._id user) (User.role user)
                decision comment)
      as (H1 & H2 & H3 & H4 & H5 & H6 & H7 & H8 & H9 & H10 & _ & H12).
    unfold Consistency.later_state. repeat apply conj; try assumption.
    eexists. exact H12.
  - unfold Consistency.later_state. repeat apply conj; try reflexivity.
    exists []. cbn. rewrite app_nil_r. reflexivity.
Qed.

Lemma later_state_refl : forall a, Consistency.later_state a a.
Proof.
  intro a. unfold Consistency.later_state. repeat apply conj; try reflexivity.
  exists []. rewrite app_nil_r. reflexivity.
Qed.

Lemma later_state_trans :
  forall a b c,
    Consistency.later_state a b -> Consistency.later_state b c ->
    Consistency.later_state a c.
Proof.
  unfold Consistency.later_state.
  intros a b c (A1 & A2 & A3 & A4 & A5 & A6 & A7 & A8 & A9 & A10 & m1 & A11)
         (B1 & B2 & B3 & B4 & B5 & B6 & B7 & B8 & B9 & B10 & m2 & B11).
  repeat apply conj; try congruence.
  exists (m1 ++ m2)%list. rewrite B11, A11, app_assoc. reflexivity.
Qed.

Lemma Forall2_replace :
  forall (A : Type) (key : A -> ObjectId) (R : A -> A -> Prop)
         (a a' : A) (l : list A),
    NoDup (map key l) -> In a l -> key a' = key a -> R a a' ->
    (forall x, R x x) ->
    Forall2 R l (Transition.replace key a' l).
Proof.
  intros A key R a a' l Hnd Hin Hk Hr Hrefl.
  assert (H : forall y, In y l ->
                        R y (if Nat.eqb (key y) (key a') then a' else y)).
  { intros y Hy. destruct (Nat.eqb (key y) (key a')) eqn:E; [|apply Hrefl].
    apply Nat.eqb_eq in E.
    assert (y = a)
      by (apply (NoDup_key_inj key l); [assumption..|congruence]).
    subst y. exact Hr. }
  clear Hnd Hin. unfold Transition.replace.
  induction l as [|y l IH]; simpl; constructor.
  - apply H. left. reflexivity.
  - apply IH. intros z Hz. apply H. right. exact Hz.
Qed.

Lemma Forall2_refl :
  forall (A : Type) (R : A -> A -> Prop) (l : list A),
    (forall x, R x x) -> Forall2 R l l.
Proof.
  intros A R l H. induction l; constructor; auto.
Qed.

Lemma Forall2_trans :
  forall (A : Type) (R : A -> A -> Prop),
    (forall x y z, R x y -> R y z -> R x z) ->
    forall l1 l2 l3, Forall2 R l1 l2 -> Forall2 R l2 l3 -> Forall2 R l1 l3.
Proof.
  intros A R Ht l1 l2 l3 H12. revert l3.
  induction H12 as [|x y l1 l2 Hxy H12 IH]; intros l3 H23;
    inversion H23; subst; constructor; eauto.
Qed.

Lemma same_request_refl : forall c, Consistency.same_request c c.
Proof.
  intro c. unfold Consistency.same_request. repeat apply conj; reflexivity.
Qed.

Lemma same_request_trans :
  forall a b c,
    Consistency.same_request a b -> Consistency.same_request b c ->
    Consistency.same_request a c.
Proof.
  unfold Consistency.same_request.
  intros a b c (A1 & A2 & A3 & A4 & A5 & A6 & A7 & A8)
         (B1 & B2 & B3 & B4 & B5 & B6 & B7 & B8).
  repeat apply conj; congruence.
Qed.

Lemma cash_step_same :
  forall c c', Transition.cash_step c c' -> Consistency.same_request c c'.
Proof.
  intros c c' H. destruct H; unfold Consistency.same_request;
    repeat apply conj; reflexivity.
Qed.

Lemma replace_keys :
  forall (A : Type) (key : A -> ObjectId) (x : A) (l : list A),
    map key (Transition.replace key x l) = map key l.
Proof.
  intros. apply keys_replace.
Qed.

(** The ids of both collections, in their order, after any sequence of
    requests. *)
Lemma run_keys :
  forall ops db,
    map Advance._id (Db.advances (Lifecycle.run db ops))
    = map Advance._id (Db.advances db)
    /\ map CashAdvance._id (Db.cashAdvances (Lifecycle.run db ops))
       = map CashAdvance._id (Db.cashAdvances db)
    /\ Db.users (Lifecycle.run db ops) = Db.users db.
Proof.
  induction ops as [|op ops IH]; intro db; simpl; [auto|].
  destruct (IH (fst (Lifecycle.step db op))) as (-> & -> & ->).
  destruct (step_store db op) as [Hu [->|[(a & a' & _ & _ & _ & -> & ->)
                                         |(c & c' & _ & _ & _ & -> & ->)]]];
    rewrite ?replace_keys; auto.
Qed.

Lemma step_later :
  forall db op,
    NoDup (map Advance._id (Db.advances db)) ->
    NoDup (map CashAdvance._id (Db.cashAdvances db)) ->
    Forall2 Consistency.later_state (Db.advances db)
            (Db.advances (fst (Lifecycle.step db op)))
    /\ Forall2 Consistency.same_request (Db.cashAdvances db)
               (Db.cashAdvances (fst (Lifecycle.step db op))).
Proof.
  intros db op Ha Hc.
  destruct (step_store db op) as [_ [->|[(a & a' & Hin & Hs & Hid & -> & ->)
                                        |(c & c' & Hin & Hs & Hid & -> & ->)]]].
  - split; apply Forall2_refl;
      [apply later_state_refl|apply same_request_refl].
  - split; [|apply Forall2_refl, same_request_refl].
    apply (Forall2_replace _ _ _ a); auto using later_state_refl.
    apply advance_step_later, Hs.
  - split; [apply Forall2_refl, later_state_refl|].
    apply (Forall2_replace _ _ _ c); auto using same_request_refl.
    apply cash_step_same, Hs.
Qed.

Lemma run_later :
  forall ops db,
    NoDup (map Advance._id (Db.advances db)) ->
    NoDup (map CashAdvance._id (Db.cashAdvances db)) ->
    Forall2 Consistency.later_state (Db.advances db)
            (Db.advances (Lifecycle.run db ops))
    /\ Forall2 Consistency.same_request (Db.cashAdvances db)
               (Db.cashAdvances (Lifecycle.run db ops)).
Proof.
  induction ops as [|op ops IH]; intros db Ha Hc; simpl.
  - split; apply Forall2_refl;
      [apply later_state_refl|apply same_request_refl].
  - destruct (step_later db op Ha Hc) as [H1 H2].
    destruct (run_keys [op] db) as (K1 & K2 & _). simpl in K1, K2.
    destruct (IH (fst (Lifecycle.step db op))) as [H3 H4];
      [rewrite K1; exact Ha|rewrite K2; exact Hc|].
    split.
    + eapply Forall2_trans; eauto using later_state_trans.
    + eapply Forall2_trans; eauto using same_request_trans.
Qed.

Lemma post_advance_store :
  forall now year month0 oid db user body,
    fst (AdvanceRoutes.post_advance now year month0 oid db user body) = db.
Proof.
  intros. unfold AdvanceRoutes.post_advance. rewrite post_advance_cases.
  reflexivity.
Qed.

(** Each write of the routes of the [CashAdvance] model keeps the
    validators of the schema satisfied. *)
Lemma cash_step_schema :
  forall c c',
    Transition.cash_step c c' ->
    Schema.cash_ok c = true -> Schema.cash_ok c' = true.
Proof.
  intros c c' H Hok. unfold Schema.cash_ok in *.
  rewrite !andb_true_iff in Hok.
  destruct Hok as (((((((H0 & H1) & H2) & H3) & H4) & H5) & H6) & H7).
  destruct H as [now body Hs|user Hs|reason Hs Hlen];
    cbn [retired_from CashAdvance.set_retirement CashAdvance.set_status
         CashAdvance.set_approvedBy CashAdvance.set_rejectedReason
         CashAdvance.amount CashAdvance.purpose CashAdvance.description
         CashAdvance.priority CashAdvance.rejectedReason];
    rewrite !andb_true_iff;
    repeat match goal with |- _ /\ _ => split end;
    try assumption; reflexivity.
Qed.

(** X1.  The writes of the lifecycle keep every stored document valid
    under its schema: if the stored advances pass the validators of
    [advanceSchema] ([required], [min], [maxlength] and the [enum]s, the
    one of the payment method included) and the stored cash advances those
    of [cashAdvanceSchema] ([min] and [max] of the amount, [required] and
    [maxlength] of purpose and description, the [enum]s of status and
    priority, [maxlength] of the rejection reason), then so do the documents
    of both collections after any sequence of approval, disbursement,
    retirement and manager decision requests. *)
Theorem stored_documents_pass_the_schema :
  forall (db : Db.t) (ops : list Lifecycle.operation),
    Forall (fun a => Schema.advance_ok a = true) (Db.advances db) ->
    Forall (fun c => Schema.cash_ok c = true) (Db.cashAdvances db) ->
    Forall (fun a => Schema.advance_ok a = true)
           (Db.advances (Lifecycle.run db ops))
    /\ Forall (fun c => Schema.cash_ok c = true)
              (Db.cashAdvances (Lifecycle.run db ops)).
Proof.
  intros db ops Ha Hc. apply run_Forall; try assumption.
  - apply advance_step_schema.
  - apply cash_step_schema.
Qed.

Lemma stored_documents_pass_the_schema_witness :
  let db := Sample.db_of [Sample.advance_with 10 "ADV2025010001" "finance_approved"]
                         [Sample.cash_with 20 "pending"] in
  let ops := [Lifecycle.Disburse 2000 Sample.finance 10
                (AdvanceRoutes.mkDisburseBody None (Some "check") None);
              Lifecycle.ManagerReject Sample.manager 20 (Some " no budget ")] in
  Forall (fun a => Schema.advance_ok a = true) (Db.advances db)
  /\ Forall (fun c => Schema.cash_ok c = true) (Db.cashAdvances db)
  /\ option_map Advance.status (AdvanceRoutes.findById (Lifecycle.run db ops) 10)
     = Some "disbursed"
  /\ option_map CashAdvance.rejectedReason
                (CashAdvanceRoutes.findOwned (Lifecycle.run db ops) 20 1)
     = Some (Some "no budget")
  /\ Forall (fun a => Schema.advance_ok a = true)
            (Db.advances (Lifecycle.run db ops))
  /\ Forall (fun c => Schema.cash_ok c = true)
            (Db.cashAdvances (Lifecycle.run db ops)).
Proof.
  intros db ops.
  assert (Ha : Forall (fun a => Schema.advance_ok a = true) (Db.advances db))
    by (repeat constructor).
  assert (Hc : Forall (fun c => Schema.cash_ok c = true) (Db.cashAdvances db))
    by (repeat constructor).
  destruct (stored_documents_pass_the_schema db ops Ha Hc) as (H1 & H2).
  split; [exact Ha|]. split; [exact Hc|].
  split; [reflexivity|]. split; [reflexivity|].
  split; [exact H1|exact H2].
Defined.

Lemma consistent_facts :
  forall a,
    Consistency.consistent a = true ->
    Advance.status a <> "retired"
    /\ Advance.retirement a = None
    /\ (Advance.status a = "disbursed" <-> Advance.disbursement a <> None)
    /\ (Advance.status a = "pending" <-> Advance.approvals a = [])
    /\ (List.length (Advance.approvals a) <= 2)%nat
    /\ (forall e, In e (Advance.approvals a) ->
                  (Advance.Approval.role e = "manager"
                   \/ Advance.Approval.role e = "finance")
                  /\ (Advance.Approval.status e = "approved"
                      \/ Advance.Approval.status e = "rejected")).
Proof.
  intros a H. unfold Consistency.consistent in H.
  destruct (Advance.retirement a); [discriminate H|].
  unfold Consistency.stage_consistent in H. cbv zeta in H.
  assert (E : forall role status e,
             Consistency.is_event role status e = true ->
             Advance.Approval.role e = role /\ Advance.Approval.status e = status).
  { intros role status e He. unfold Consistency.is_event in He.
    apply andb_prop in He. destruct He as [H1 H2].
    apply String.eqb_eq in H1, H2. split; assumption. }
  destruct (Advance.status a =? "pending") eqn:S1;
    [apply String.eqb_eq in S1|
     destruct (Advance.status a =? "manager_approved") eqn:S2;
     [apply String.eqb_eq in S2|
      destruct (Advance.status a =? "finance_approved") eqn:S3;
      [apply String.eqb_eq in S3|
       destruct (Advance.status a =? "disbursed") eqn:S4;
       [apply String.eqb_eq in S4|
        destruct (Advance.status a =? "rejected") eqn:S5;
        [apply String.eqb_eq in S5|discriminate H]]]]];
    destruct (Advance.approvals a) as [|e1 [|e2 [|e3 l]]];
    destruct (Advance.disbursement a); try discriminate H;
    rewrite ?andb_true_iff in H;
    repeat match goal with
           | Hc : _ /\ _ |- _ => destruct Hc
           | He : Consistency.is_event _ _ _ = true |- _ =>
             apply E in He
           end;
    repeat apply conj;
    try reflexivity; try congruence; try (intro; congruence);
    try (simpl; lia);
    intros e Hin; simpl in Hin;
    repeat (destruct Hin as [<-|Hin]); try contradiction;
    split; ((left; congruence) || (right; congruence)).
Qed.

(** X2.  The status of an advance and its sub-records stay in step: if
    every stored advance has the approval history and disbursement record
    that go with its status, then so has every advance after a creation
    and after any sequence of requests.  In particular no route brings an
    advance to [retired] or writes its retirement record, an advance is
    [disbursed] exactly when it has a disbursement record and [pending]
    exactly when its history is empty, and a history has at most two
    events, each by a manager or by finance. *)
Theorem status_agrees_with_history :
  forall (db : Db.t),
    Forall (fun a => Consistency.consistent a = true) (Db.advances db) ->
    (forall now year month0 oid user body,
        Forall (fun a => Consistency.consistent a = true)
               (Db.advances
                  (fst (AdvanceRoutes.post_advance now year month0 oid db
                                                   user body))))
    /\ (forall ops a,
           In a (Db.advances (Lifecycle.run db ops)) ->
           Consistency.consistent a = true
           /\ Advance.status a <> "retired"
           /\ Advance.retirement a = None
           /\ (Advance.status a = "disbursed" <-> Advance.disbursement a <> None)
           /\ (Advance.status a = "pending" <-> Advance.approvals a = [])
           /\ (List.length (Advance.approvals a) <= 2)%nat
           /\ (forall e, In e (Advance.approvals a) ->
                         (Advance.Approval.role e = "manager"
                          \/ Advance.Approval.role e = "finance")
                         /\ (Advance.Approval.status e = "approved"
                             \/ Advance.Approval.status e = "rejected"))).
Proof.
  intros db Ha. split.
  - intros now year month0 oid user body.
    rewrite post_advance_store. exact Ha.
  - intros ops a Hin.
    assert (Hc : Consistency.consistent a = true).
    { destruct (run_Forall (fun a => Consistency.consistent a = true)
                           (fun _ => True) advance_step_consistent
                           (fun _ _ _ _ => I) ops db Ha) as [H _].
      - apply Forall_forall. intros; exact I.
      - rewrite Forall_forall in H. apply H, Hin. }
    split; [exact Hc|]. apply consistent_facts, Hc.
Qed.

Lemma status_agrees_with_history_witness :
  let db := Sample.db_of [Sample.advance_with 10 "ADV2025010001" "pending"] [] in
  let ops := [Lifecycle.Approve 2000 Sample.manager 10
                (AdvanceRoutes.mkApproveBody (Some "approved") None);
              Lifecycle.Approve 2001 Sample.finance 10
                (AdvanceRoutes.mkApproveBody (Some "approved") (Some "ok"));
              Lifecycle.Disburse 2002 Sample.finance 10
                (AdvanceRoutes.mkDisburseBody None None None)] in
  let a :=
    Advance.mk 10 (Some "ADV2025010001") 1 500 "travel reimbursement" None 1000
               (1000 + Sample.week) "disbursed"
               [Advance.Approval.mk 2 "manager" "approved" EmptyString 2000;
                Advance.Approval.mk 3 "finance" "approved" "ok" 2001]
               (Some (Advance.mkDisbursement 3 2002 500 "cash" None))
               None "medium" true in
  Forall (fun a => Consistency.consistent a = true) (Db.advances db)
  /\ In a (Db.advances (Lifecycle.run db ops))
  /\ Consistency.consistent a = true
  /\ Advance.status a <> "retired".
Proof.
  intros db ops a.
  assert (Ha : Forall (fun a => Consistency.consistent a = true)
                      (Db.advances db))
    by (repeat constructor).
  assert (Hin : In a (Db.advances (Lifecycle.run db ops)))
    by (left; vm_compute; reflexivity).
  destruct (status_agrees_with_history db Ha) as [_ H].
  destruct (H ops a Hin) as (H1 & H2 & _).
  repeat apply conj; assumption.
Defined.

(** X3.  Approval, disbursement, retirement and manager decision requests
    never add or delete a document and never rewrite what the requester
    submitted: in a store with distinct ids, after any sequence of requests
    each collection holds, position by position, a document with the same
    id, requester, amount, purpose and dates as before, an advance keeps
    its request number and its approval history only grows at the end, and
    the users are unchanged. *)
Theorem lifecycle_keeps_identity_and_history :
  forall (db : Db.t) (ops : list Lifecycle.operation),
    NoDup (map Advance._id (Db.advances db)) ->
    NoDup (map CashAdvance._id (Db.cashAdvances db)) ->
    Forall2 Consistency.later_state (Db.advances db)
            (Db.advances (Lifecycle.run db ops))
    /\ Forall2 Consistency.same_request (Db.cashAdvances db)
               (Db.cashAdvances (Lifecycle.run db ops))
    /\ Db.users (Lifecycle.run db ops) = Db.users db.
Proof.
  intros db ops Ha Hc.
  destruct (run_later ops db Ha Hc) as [H1 H2].
  destruct (run_keys ops db) as (_ & _ & H3).
  repeat apply conj; assumption.
Qed.

Lemma lifecycle_keeps_identity_and_history_witness :
  let db := Sample.db_of [Sample.advance_with 10 "ADV2025010001" "pending";
                          Sample.advance_with 11 "ADV2025010002" "pending"]
                         [Sample.cash_with 20 "pending"] in
  let ops := [Lifecycle.Approve 2000 Sample.manager 10
                (AdvanceRoutes.mkApproveBody (Some "approved") None);
              Lifecycle.Approve 2001 Sample.finance 10
                (AdvanceRoutes.mkApproveBody (Some "rejected") (Some "no"));
              Lifecycle.ManagerApprove Sample.manager 20] in
  NoDup (map Advance._id (Db.advances db))
  /\ NoDup (map CashAdvance._id (Db.cashAdvances db))
  /\ Forall2 Consistency.later_state (Db.advances db)
             (Db.advances (Lifecycle.run db ops))
  /\ Forall2 Consistency.same_request (Db.cashAdvances db)
             (Db.cashAdvances (Lifecycle.run db ops)).
Proof.
  intros db ops.
  assert (Ha : NoDup (map Advance._id (Db.advances db))).
  { simpl. repeat constructor; simpl; intuition discriminate. }
  assert (Hc : NoDup (map CashAdvance._id (Db.cashAdvances db))).
  { simpl. repeat constructor; simpl; intuition discriminate. }
  destruct (lifecycle_keeps_identity_and_history db ops Ha Hc) as (H1 & H2 & _).
  repeat apply conj; assumption.
Defined.

(** ** The pending list of the [Advance] model *)

Lemma insert_asc_perm :
  forall {A : Type} (key : A -> Z) (x : A) (l : list A),
    Permutation (AdvanceViews.insert_asc key x l) (x :: l).
Proof.
  intros A key x l. induction l as [|y l IH]; simpl.
  - apply Permutation_refl.
  - destruct (key x <? key y)%Z.
    + apply Permutation_refl.
    + eapply Permutation_trans; [apply perm_skip, IH|apply perm_swap].
Qed.

Lemma sort_asc_perm :
  forall {A : Type} (key : A -> Z) (l : list A),
    Permutation (AdvanceViews.sort_asc key l) l.
Proof.
  intros A key l. unfold AdvanceViews.sort_asc.
  assert (H : forall acc,
             Permutation (fold_left (fun acc x => AdvanceViews.insert_asc key x acc)
                                    l acc)
                         (acc ++ l)%list).
  { induction l as [|x l IH]; intro acc; simpl.
    - rewrite app_nil_r. apply Permutation_refl.
    - eapply Permutation_trans; [apply IH|].
      eapply Permutation_trans;
        [apply Permutation_app_tail, insert_asc_perm|].
      simpl. apply Permutation_middle. }
  apply (H []).
Qed.

Lemma insert_asc_sorted :
  forall {A : Type} (key : A -> Z) (x : A) (l : list A),
    StronglySorted (fun a b => (key a <= key b)%Z) l ->
    StronglySorted (fun a b => (key a <= key b)%Z)
                   (AdvanceViews.insert_asc key x l).
Proof.
  intros A key x l H. induction H as [|y l Hl IH Hy]; simpl.
  - constructor; constructor.
  - destruct (key x <? key y)%Z eqn:E.
    + apply Z.ltb_lt in E. constructor; [constructor; assumption|].
      constructor; [lia|].
      rewrite Forall_forall in *. intros z Hz. specialize (Hy z Hz). lia.
    + apply Z.ltb_ge in E. constructor; [exact IH|].
      rewrite Forall_forall in *. intros z Hz.
      apply (Permutation_in _ (insert_asc_perm key x l)) in Hz.
      destruct Hz as [<-|Hz]; [exact E|apply Hy, Hz].
Qed.

Lemma sort_asc_sorted :
  forall {A : Type} (key : A -> Z) (l : list A),
    StronglySorted (fun a b => (key a <= key b)%Z) (AdvanceViews.sort_asc key l).
Proof.
  intros A key l. unfold AdvanceViews.sort_asc.
  assert (H : forall acc,
             StronglySorted (fun a b => (key a <= key b)%Z) acc ->
             StronglySorted (fun a b => (key a <= key b)%Z)
               (fold_left (fun acc x => AdvanceViews.insert_asc key x acc) l acc)).
  { induction l as [|x l IH]; intros acc Hacc; simpl; [exact Hacc|].
    apply IH, insert_asc_sorted, Hacc. }
  apply H. constructor.
Qed.






Lemma pending_list_In :
  forall collection role uid a,
    In a (AdvanceViews.getPendingForApproval collection role uid) <->
    In a collection
    /\ match AdvanceViews.statusFilter role with
       | Some s => Advance.status a = s
       | None => True
       end.
Proof.
  intros collection role uid a. unfold AdvanceViews.getPendingForApproval.
  split.
  - intro H. apply (Permutation_in _ (sort_asc_perm _ _)) in H.
    apply filter_In in H. destruct H as [Hin Hm]. split; [exact Hin|].
    destruct (AdvanceViews.statusFilter role); [|exact I].
    apply String.eqb_eq, Hm.
  - intros [Hin Hm].
    apply (Permutation_in _ (Permutation_sym (sort_asc_perm _ _))).
    apply filter_In. split; [exact Hin|].
    destruct (AdvanceViews.statusFilter role); [|reflexivity].
    apply String.eqb_eq, Hm.
Qed.

(** X4.  For a manager and for finance, the list of
    [GET /api/advances/pending/approvals] is exactly the set of stored
    advances that [canBeApprovedBy] admits for the caller's role, oldest
    request first, with its length as the count; in a store with distinct
    ids, an approval request of the caller for any listed advance is
    accepted. *)
Theorem pending_list_is_what_the_role_can_approve :
  forall (db : Db.t) (user : User.t),
    User.role user = "manager" \/ User.role user = "finance" ->
    exists l,
      AdvanceViews.get_pending_approvals db user
      = Success 200 EmptyString (AdvanceViews.mkPending l (List.length l))
      /\ (forall a,
             In a l <->
             In a (Db.advances db)
             /\ Advance.canBeApprovedBy a (User.role user) = true)
      /\ StronglySorted
           (fun a b => (Advance.requestDate a <= Advance.requestDate b)%Z) l
      /\ (NoDup (map Advance._id (Db.advances db)) ->
          forall a now decision comment,
            In a l ->
            decision = "approved" \/ decision = "rejected" ->
            is_success
              (snd (AdvanceRoutes.put_approve now db user (Advance._id a)
                      (AdvanceRoutes.mkApproveBody (Some decision) comment)))
            = true).
Proof.
  intros db user Hrole.
  exists (AdvanceViews.getPendingForApproval (Db.advances db) (User.role user)
                                             (User._id user)).
  assert (Hguard : forall a,
             In a (AdvanceViews.getPendingForApproval
                     (Db.advances db) (User.role user) (User._id user)) <->
             In a (Db.advances db)
             /\ Advance.canBeApprovedBy a (User.role user) = true).
  { intro a. rewrite pending_list_In, canBeApprovedBy_iff.
    destruct Hrole as [-> | ->]; cbn [AdvanceViews.statusFilter String.eqb
                                        Ascii.eqb Bool.eqb];
      split; intros [Hin H]; (split; [exact Hin|]).
    - left. split; [exact H|reflexivity].
    - destruct H as [[H _]|[_ H]]; [exact H|discriminate H].
    - right. split; [exact H|reflexivity].
    - destruct H as [[_ H]|[H _]]; [discriminate H|exact H]. }
  repeat apply conj.
  - unfold AdvanceViews.get_pending_approvals, Auth.canApprove.
    rewrite (authorize_member AdvanceViews.Pending); [reflexivity|].
    destruct Hrole as [-> | ->]; reflexivity.
  - intro a. apply Hguard.
  - apply sort_asc_sorted.
  - intros Hnd a now decision comment Hin Hd.
    apply Hguard in Hin. destruct Hin as [Hin Hg].
    rewrite (put_approve_accepts now db user (Advance._id a) decision comment a).
    + reflexivity.
    + destruct Hrole as [-> | ->]; reflexivity.
    + destruct Hd as [-> | ->]; reflexivity.
    + apply (find_In_NoDup Advance._id); assumption.
    + exact Hg.
Qed.

Lemma pending_list_is_what_the_role_can_approve_witness :
  let old := Advance.mk 10 (Some "ADV2025010001") 1 500 "travel reimbursement"
                        None 1000 5000 "manager_approved" [] None None "medium"
                        true in
  let db := Sample.db_of [Sample.advance_with 11 "ADV2025010002" "pending"; old;
                          Sample.advance_with 12 "ADV2025010003" "rejected"] [] in
  (User.role Sample.finance = "manager" \/ User.role Sample.finance = "finance")
  /\ exists l,
      AdvanceViews.get_pending_approvals db Sample.finance
      = Success 200 EmptyString (AdvanceViews.mkPending l (List.length l))
      /\ (In old l <->
          In old (Db.advances db)
          /\ Advance.canBeApprovedBy old (User.role Sample.finance) = true).
Proof.
  intros old db.
  assert (Hrole : User.role Sample.finance = "manager"
                  \/ User.role Sample.finance = "finance")
    by (right; reflexivity).
  split; [exact Hrole|].
  destruct (pending_list_is_what_the_role_can_approve db Sample.finance Hrole)
    as (l & H1 & H2 & _).
  exists l. split; [exact H1|apply H2].
Defined.

(** X5.  A caller whose role is neither manager nor finance and who
    passes [canApprove], that is an administrator, receives every stored
    advance whatever its status in [GET /api/advances/pending/approvals],
    although [canBeApprovedBy] refuses the role for each of them; a staff
    member is refused with 403. *)
Theorem admin_pending_list_is_the_whole_collection :
  forall (db : Db.t) (user : User.t),
    (User.role user = "admin" ->
     exists l,
       AdvanceViews.get_pending_approvals db user
       = Success 200 EmptyString (AdvanceViews.mkPending l (List.length l))
       /\ Permutation l (Db.advances db)
       /\ List.length l = List.length (Db.advances db)
       /\ (forall a, In a l -> Advance.canBeApprovedBy a (User.role user) = false))
    /\ (User.role user = "staff" ->
        exists e,
          AdvanceViews.get_pending_approvals db user
          = Failure 403 "Access denied. Insufficient permissions." e).
Proof.
  intros db user. split; intro Hrole.
  - exists (AdvanceViews.getPendingForApproval (Db.advances db) (User.role user)
                                               (User._id user)).
    assert (Hp : Permutation
                   (AdvanceViews.getPendingForApproval
                      (Db.advances db) (User.role user) (User._id user))
                   (Db.advances db)).
    { unfold AdvanceViews.getPendingForApproval. rewrite Hrole.
      cbn [AdvanceViews.statusFilter String.eqb Ascii.eqb Bool.eqb].
      eapply Permutation_trans; [apply sort_asc_perm|].
      clear. induction (Db.advances db) as [|a l IH]; simpl;
        [constructor|apply perm_skip, IH]. }
    repeat apply conj.
    + unfold AdvanceViews.get_pending_approvals, Auth.canApprove.
      rewrite (authorize_member AdvanceViews.Pending); [reflexivity|].
      rewrite Hrole. reflexivity.
    + exact Hp.
    + apply Permutation_length, Hp.
    + intros a _. apply canBeApprovedBy_false. rewrite Hrole.
      intros [[_ H]|[_ H]]; discriminate H.
  - unfold AdvanceViews.get_pending_approvals, Auth.canApprove, Auth.authorize.
    rewrite Hrole. cbn. eexists. reflexivity.
Qed.

Lemma admin_pending_list_is_the_whole_collection_witness :
  let db := Sample.db_of [Sample.advance_with 11 "ADV2025010002" "rejected";
                          Sample.advance_with 12 "ADV2025010003" "disbursed"] [] in
  User.role Sample.admin = "admin"
  /\ exists l,
      AdvanceViews.get_pending_approvals db Sample.admin
      = Success 200 EmptyString (AdvanceViews.mkPending l (List.length l))
      /\ List.length l = 2%nat.
Proof.
  intro db. split; [reflexivity|].
  destruct (admin_pending_list_is_the_whole_collection db Sample.admin)
    as [H _].
  destruct (H eq_refl) as (l & H1 & _ & H3 & _).
  exists l. split; [exact H1|exact H3].
Defined.

(** ** Reading one advance *)

Lemma populate_id :
  forall db id u, AdvanceViews.populate db id = Some u -> User._id u = id.
Proof.
  intros db id u H. apply (find_by_key_In User._id) in H. apply H.
Qed.

(** X6.  [GET /api/advances/:id] answers with the stored advance exactly
    when the caller is its requester or has the role admin, manager or
    finance; a staff member who asks for the advance of somebody else gets
    403, an unknown id gets 404, and an advance whose requester is no
    longer stored gets 500 for every caller. *)
Theorem advance_is_shown_to_requester_and_approvers :
  forall (db : Db.t) (user : User.t) (id : ObjectId),
    (AdvanceRoutes.findById db id = None ->
     AdvanceViews.get_advance db user id
     = Failure 404 "Cash advance request not found" [])
    /\ (forall a,
           AdvanceRoutes.findById db id = Some a ->
           (AdvanceViews.populate db (Advance.requester a) = None ->
            AdvanceViews.get_advance db user id
            = Failure 500 "Error fetching cash advance request" [])
           /\ (AdvanceViews.populate db (Advance.requester a) <> None ->
               (Advance.requester a = User._id user
                \/ User.role user = "admin" \/ User.role user = "manager"
                \/ User.role user = "finance" ->
                AdvanceViews.get_advance db user id = Success 200 EmptyString a)
               /\ (~ (Advance.requester a = User._id user
                      \/ User.role user = "admin" \/ User.role user = "manager"
                      \/ User.role user = "finance") ->
                   AdvanceViews.get_advance db user id
                   = Failure 403 "Access denied" []))).
Proof.
  intros db user id. unfold AdvanceViews.get_advance. split.
  - intros ->. reflexivity.
  - intros a ->. split.
    + intros ->. reflexivity.
    + intro Hp. destruct (AdvanceViews.populate db (Advance.requester a))
        as [r|] eqn:Hr; [clear Hp|contradiction].
      apply populate_id in Hr. rewrite Hr. cbv zeta.
      assert (Hiff : Nat.eqb (Advance.requester a) (User._id user)
                     || includes ["admin"; "manager"; "finance"] (User.role user)
                     = true <->
                     Advance.requester a = User._id user
                     \/ User.role user = "admin" \/ User.role user = "manager"
                     \/ User.role user = "finance").
      { rewrite orb_true_iff, Nat.eqb_eq. unfold includes. cbn [existsb].
        rewrite !orb_true_iff, !String.eqb_eq. intuition discriminate. }
      split; intro H.
      * apply Hiff in H. rewrite H. reflexivity.
      * destruct (Nat.eqb (Advance.requester a) (User._id user)
                  || includes ["admin"; "manager"; "finance"] (User.role user))
          eqn:E; [|reflexivity].
        exfalso. apply H, Hiff. reflexivity.
Qed.

Lemma advance_is_shown_to_requester_and_approvers_witness :
  let a := Sample.advance_of 10 5 "ADV2025010001" "pending" in
  let db := Sample.db_of [a] [] in
  AdvanceRoutes.findById db 10 = Some a
  /\ AdvanceViews.populate db (Advance.requester a) <> None
  /\ ~ (Advance.requester a = User._id Sample.staff
        \/ User.role Sample.staff = "admin" \/ User.role Sample.staff = "manager"
        \/ User.role Sample.staff = "finance")
  /\ AdvanceViews.get_advance db Sample.staff 10
     = Failure 403 "Access denied" []
  /\ AdvanceViews.get_advance db Sample.other_staff 10
     = Success 200 EmptyString a
  /\ AdvanceViews.get_advance db Sample.manager 10
     = Success 200 EmptyString a.
Proof.
  intros a db.
  assert (Hf : AdvanceRoutes.findById db 10 = Some a) by reflexivity.
  assert (Hp : AdvanceViews.populate db (Advance.requester a) <> None)
    by (vm_compute; discriminate).
  assert (Hn : ~ (Advance.requester a = User._id Sample.staff
                  \/ User.role Sample.staff = "admin"
                  \/ User.role Sample.staff = "manager"
                  \/ User.role Sample.staff = "finance"))
    by (vm_compute; intuition discriminate).
  repeat apply conj; try assumption.
  - destruct (advance_is_shown_to_requester_and_approvers db Sample.staff 10)
      as [_ H].
    destruct (H a Hf) as [_ H2]. destruct (H2 Hp) as [_ H3]. apply H3, Hn.
  - destruct (advance_is_shown_to_requester_and_approvers db Sample.other_staff 10)
      as [_ H].
    destruct (H a Hf) as [_ H2]. destruct (H2 Hp) as [H3 _]. apply H3.
    left. reflexivity.
  - destruct (advance_is_shown_to_requester_and_approvers db Sample.manager 10)
      as [_ H].
    destruct (H a Hf) as [_ H2]. destruct (H2 Hp) as [H3 _]. apply H3.
    right; right; left. reflexivity.
Defined.

(** ** The statistics of the staff dashboard *)







Lemma count_by_status :
  forall docs,
    Forall (fun c => Schema.cash_status_ok c = true) docs ->
    List.length docs
    = (Tally.count_status "pending" docs + Tally.count_status "approved" docs
       + Tally.count_status "rejected" docs
       + Tally.count_status "retired" docs)%nat.
Proof.
  intros docs H. unfold Tally.count_status.
  induction H as [|a l Ha Hl IH]; [reflexivity|].
  cbn [filter List.length]. unfold Schema.cash_status_ok, includes in Ha.
  cbn [existsb] in Ha. rewrite !orb_true_iff, !String.eqb_eq in Ha.
  destruct Ha as [->|[->|[->|[->|Hf]]]]; try discriminate Hf;
    cbn [String.eqb Ascii.eqb Bool.eqb List.length]; lia.
Qed.

Lemma count_by_status_le :
  forall docs,
    (Tally.count_status "pending" docs + Tally.count_status "approved" docs
     + Tally.count_status "rejected" docs + Tally.count_status "retired" docs
     <= List.length docs)%nat.
Proof.
  intro docs. unfold Tally.count_status.
  induction docs as [|a l IH]; [reflexivity|].
  cbn [filter List.length].
  destruct (CashAdvance.status a =? "pending") eqn:E1;
    [apply String.eqb_eq in E1; rewrite E1; cbn; lia|].
  destruct (CashAdvance.status a =? "approved") eqn:E2;
    [apply String.eqb_eq in E2; rewrite E2; cbn; lia|].
  destruct (CashAdvance.status a =? "rejected") eqn:E3;
    [apply String.eqb_eq in E3; rewrite E3; cbn; lia|].
  destruct (CashAdvance.status a =? "retired") eqn:E4; cbn; lia.
Qed.



(** ** The lists of the staff dashboard *)





(** X9.  [GET /api/advances/my-requests/:id] only ever answers with a
    request of the caller; in a store with distinct ids the request with
    the given id is returned to its owner, and to anybody else the answer
    is the same 404 as for an id that does not exist. *)
Theorem single_request_is_shown_to_its_owner_only :
  forall (db : Db.t) (user : User.t) (id : ObjectId),
    (forall code message a,
        CashAdvanceViews.get_my_request db user id = Success code message a ->
        In a (Db.cashAdvances db) /\ CashAdvance._id a = id
        /\ CashAdvance.user a = User._id user)
    /\ ((forall a, In a (Db.cashAdvances db) -> CashAdvance._id a <> id) ->
        CashAdvanceViews.get_my_request db user id
        = Failure 404 "Cash advance request not found" [])
    /\ (NoDup (map CashAdvance._id (Db.cashAdvances db)) ->
        forall a,
          In a (Db.cashAdvances db) -> CashAdvance._id a = id ->
          (CashAdvance.user a = User._id user ->
           CashAdvanceViews.get_my_request db user id = Success 200 EmptyString a)
          /\ (CashAdvance.user a <> User._id user ->
              CashAdvanceViews.get_my_request db user id
              = Failure 404 "Cash advance request not found" [])).
Proof.
  intros db user id. unfold CashAdvanceViews.get_my_request. repeat apply conj.
  - intros code message a H.
    destruct (CashAdvanceRoutes.findOwned db id (User._id user)) as [b|] eqn:E;
      [|discriminate H].
    injection H as _ _ <-. apply findOwned_In, E.
  - intro H.
    destruct (CashAdvanceRoutes.findOwned db id (User._id user)) as [b|] eqn:E;
      [|reflexivity].
    apply findOwned_In in E. destruct E as (Hin & Hid & _).
    exfalso. apply (H b Hin Hid).
  - intros Hnd a Hin Hid.
    destruct (CashAdvanceRoutes.findOwned db id (User._id user)) as [b|] eqn:E.
    + apply findOwned_In in E. destruct E as (Hb & Hbid & Hbu).
      assert (b = a)
        by (apply (NoDup_key_inj CashAdvance._id (Db.cashAdvances db));
            [assumption..|congruence]).
      subst b. split; [reflexivity|intro Hne; contradiction].
    + split; [|reflexivity]. intro Hu. exfalso.
      unfold CashAdvanceRoutes.findOwned in E.
      apply (find_none _ _ E) in Hin. cbv beta in Hin.
      rewrite Hid, Hu, !Nat.eqb_refl in Hin. discriminate Hin.
Qed.

Lemma single_request_is_shown_to_its_owner_only_witness :
  let mine := Sample.cash_of 20 1 "pending" in
  let theirs := Sample.cash_of 21 5 "pending" in
  let db := Sample.db_of [] [mine; theirs] in
  NoDup (map CashAdvance._id (Db.cashAdvances db))
  /\ CashAdvanceViews.get_my_request db Sample.staff 20
     = Success 200 EmptyString mine
  /\ CashAdvanceViews.get_my_request db Sample.staff 21
     = Failure 404 "Cash advance request not found" [].
Proof.
  intros mine theirs db.
  assert (Hnd : NoDup (map CashAdvance._id (Db.cashAdvances db))).
  { simpl. repeat constructor; simpl; intuition discriminate. }
  destruct (single_request_is_shown_to_its_owner_only db Sample.staff 20)
    as (_ & _ & H1).
  destruct (single_request_is_shown_to_its_owner_only db Sample.staff 21)
    as (_ & _ & H2).
  repeat apply conj.
  - exact Hnd.
  - apply (H1 Hnd mine); [left; reflexivity|reflexivity|reflexivity].
  - apply (H2 Hnd theirs); [right; left; reflexivity|reflexivity|].
    vm_compute. discriminate.
Defined.

(** ** The manager's dashboard *)

Lemma sum_count_acc :
  forall groups acc,
    fold_left (fun sum g => (sum + Aggregate.count g)%nat) groups acc
    = (acc + Aggregate.sum_count groups)%nat.
Proof.
  unfold Aggregate.sum_count.
  induction groups as [|g gs IH]; intro acc; cbn [fold_left].
  - lia.
  - rewrite IH, (IH (0 + Aggregate.count g)%nat). lia.
Qed.

Lemma sum_amount_acc :
  forall groups acc,
    fold_left (fun sum g => (sum + Aggregate.totalAmount g)%Z) groups acc
    = (acc + Aggregate.sum_amount groups)%Z.
Proof.
  unfold Aggregate.sum_amount.
  induction groups as [|g gs IH]; intro acc; cbn [fold_left].
  - lia.
  - rewrite IH, (IH (0 + Aggregate.totalAmount g)%Z). lia.
Qed.

Lemma sum_count_cons :
  forall g gs,
    Aggregate.sum_count (g :: gs)
    = (Aggregate.count g + Aggregate.sum_count gs)%nat.
Proof.
  intros. unfold Aggregate.sum_count at 1. cbn [fold_left].
  rewrite sum_count_acc. lia.
Qed.

Lemma sum_amount_cons :
  forall g gs,
    Aggregate.sum_amount (g :: gs)
    = (Aggregate.totalAmount g + Aggregate.sum_amount gs)%Z.
Proof.
  intros. unfold Aggregate.sum_amount at 1. cbn [fold_left].
  rewrite sum_amount_acc. lia.
Qed.

Lemma add_sums :
  forall s amt gs,
    Aggregate.sum_count (Aggregate.add s amt gs)
    = (Aggregate.sum_count gs + 1)%nat
    /\ Aggregate.sum_amount (Aggregate.add s amt gs)
       = (Aggregate.sum_amount gs + amt)%Z.
Proof.
  intros s amt gs. induction gs as [|g gs [IH1 IH2]]; cbn [Aggregate.add].
  - split; reflexivity.
  - destruct (Aggregate._id g =? s).
    + rewrite !sum_count_cons, !sum_amount_cons. cbn. split; lia.
    + rewrite !sum_count_cons, !sum_amount_cons, IH1, IH2. split; lia.
Qed.

Lemma add_count_of :
  forall s s' amt gs,
    Aggregate.count_of s (Aggregate.add s' amt gs)
    = (Aggregate.count_of s gs + if String.eqb s' s then 1 else 0)%nat.
Proof.
  intros s s' amt gs. unfold Aggregate.count_of.
  induction gs as [|g gs IH]; cbn [Aggregate.add find].
  - cbn [Aggregate._id]. destruct (s' =? s); reflexivity.
  - destruct (Aggregate._id g =? s') eqn:E.
    + apply String.eqb_eq in E. cbn [find Aggregate._id]. rewrite E.
      destruct (s' =? s); cbn [Aggregate.count]; lia.
    + cbn [find]. destruct (Aggregate._id g =? s) eqn:E2.
      * apply String.eqb_eq in E2. rewrite E2 in E.
        rewrite String.eqb_sym, E. lia.
      * exact IH.
Qed.

Lemma group_by_status_acc :
  forall docs gs s,
    let groups :=
      fold_left (fun groups a => Aggregate.add (CashAdvance.status a)
                                               (CashAdvance.amount a) groups)
                docs gs in
    Aggregate.count_of s groups
    = (Aggregate.count_of s gs + Tally.count_status s docs)%nat
    /\ Aggregate.sum_count groups = (Aggregate.sum_count gs + List.length docs)%nat
    /\ Aggregate.sum_amount groups
       = (Aggregate.sum_amount gs + Tally.sum_amounts docs)%Z.
Proof.
  induction docs as [|a docs IH]; intros gs s; cbn [fold_left].
  - cbn. repeat apply conj; lia.
  - destruct (IH (Aggregate.add (CashAdvance.status a) (CashAdvance.amount a) gs) s)
      as (H1 & H2 & H3).
    cbv zeta. rewrite H1, H2, H3, add_count_of.
    destruct (add_sums (CashAdvance.status a) (CashAdvance.amount a) gs)
      as [-> ->].
    unfold Tally.count_status. cbn [filter Tally.sum_amounts fold_right List.length].
    fold (Tally.sum_amounts docs).
    destruct (CashAdvance.status a =? s); cbn [List.length];
      repeat apply conj; lia.
Qed.

(** What the [$group] stage by status computes. *)
Lemma group_by_status_spec :
  forall docs s,
    Aggregate.count_of s (Aggregate.group_by_status docs)
    = Tally.count_status s docs
    /\ Aggregate.sum_count (Aggregate.group_by_status docs) = List.length docs
    /\ Aggregate.sum_amount (Aggregate.group_by_status docs)
       = Tally.sum_amounts docs.
Proof.
  intros docs s. destruct (group_by_status_acc docs [] s) as (H1 & H2 & H3).
  unfold Aggregate.group_by_status. rewrite H1, H2, H3. cbn.
  repeat apply conj; lia.
Qed.

Lemma in_team_member :
  forall db manager a,
    ManagerViews.in_team (ManagerRoutes.teamMemberIds db manager) a = true <->
    exists u, In u (Db.users db) /\ User._id u = CashAdvance.user a
              /\ User.department u = User.department manager
              /\ User.role u = "staff" /\ User.isActive u = true.
Proof.
  intros db manager a. unfold ManagerViews.in_team, ManagerRoutes.teamMemberIds.
  rewrite existsb_exists. split.
  - intros (id & Hin & Heq). apply in_map_iff in Hin.
    destruct Hin as (u & <- & Hu). apply filter_In in Hu.
    destruct Hu as [Hu Hm]. apply Nat.eqb_eq in Heq.
    apply andb_prop in Hm. destruct Hm as [Hm Hact].
    apply andb_prop in Hm. destruct Hm as [Hdep Hrole].
    apply String.eqb_eq in Hdep, Hrole.
    exists u. repeat apply conj; auto.
  - intros (u & Hu & Hid & Hdep & Hrole & Hact).
    exists (User._id u). split.
    + apply in_map. apply filter_In. split; [exact Hu|].
      rewrite Hdep, Hrole, Hact, !String.eqb_refl. reflexivity.
    + apply Nat.eqb_eq. congruence.
Qed.

Lemma count_status_filter :
  forall (p : CashAdvance.t -> bool) s docs,
    List.length (filter (fun a => (CashAdvance.status a =? s) && p a) docs)
    = Tally.count_status s (filter p docs).
Proof.
  intros p s docs. unfold Tally.count_status.
  induction docs as [|a docs IH]; cbn [filter]; [reflexivity|].
  destruct (p a); cbn [filter];
    destruct (CashAdvance.status a =? s); cbn [andb List.length];
    rewrite ?IH; reflexivity.
Qed.

Lemma count_status_two :
  forall docs,
    (Tally.count_status "approved" docs + Tally.count_status "pending" docs
     <= List.length docs)%nat.
Proof.
  intro docs. pose proof (count_by_status_le docs). lia.
Qed.

(** X10.  On the manager's dashboard the two ways the handler counts the
    pending requests of the team agree: [pendingRequests], read off the
    aggregation by status, equals [pendingApprovals], the separate count.
    [totalTeamRequests] and [totalAmount] are the number and the sum of
    the amounts of the requests of the team, [teamMembers] the size of the
    team, and the three lists hold at most five, five and six entries, all
    of the team, the first one pending requests only. *)
Theorem manager_dashboard_counts_agree :
  forall (db : Db.t) (user : User.t),
    User.role user = "manager" ->
    let team :=
      filter (ManagerViews.in_team (ManagerRoutes.teamMemberIds db user))
             (Db.cashAdvances db) in
    exists d,
      ManagerViews.get_dashboard db user = Success 200 EmptyString d
      /\ ManagerViews.pendingRequests (ManagerViews.dashboard_stats d)
         = ManagerViews.pendingApprovals (ManagerViews.dashboard_stats d)
      /\ ManagerViews.pendingApprovals (ManagerViews.dashboard_stats d)
         = Tally.count_status "pending" team
      /\ ManagerViews.approvedRequests (ManagerViews.dashboard_stats d)
         = Tally.count_status "approved" team
      /\ ManagerViews.totalTeamRequests (ManagerViews.dashboard_stats d)
         = List.length team
      /\ ManagerViews.totalAmount (ManagerViews.dashboard_stats d)
         = Tally.sum_amounts team
      /\ ManagerViews.teamMembers (ManagerViews.dashboard_stats d)
         = List.length (ManagerRoutes.teamMemberIds db user)
      /\ (ManagerViews.approvedRequests (ManagerViews.dashboard_stats d)
          + ManagerViews.pendingRequests (ManagerViews.dashboard_stats d)
          <= ManagerViews.totalTeamRequests (ManagerViews.dashboard_stats d))%nat
      /\ (List.length (ManagerViews.dashboard_pendingApprovals d) <= 5)%nat
      /\ (List.length (ManagerViews.dashboard_recentTeamRequests d) <= 5)%nat
      /\ (List.length (ManagerViews.dashboard_teamMembers d) <= 6)%nat
      /\ (forall a, In a (ManagerViews.dashboard_pendingApprovals d) ->
                    In a team /\ CashAdvance.status a = "pending")
      /\ (forall a, In a (ManagerViews.dashboard_recentTeamRequests d) ->
                    In a team)
      /\ (forall u, In u (ManagerViews.dashboard_teamMembers d) ->
                    In u (Db.users db)
                    /\ ManagerViews.is_team_member user u = true).
Proof.
  intros db user Hrole team.
  unfold ManagerViews.get_dashboard.
  rewrite (authorize_member ManagerViews.Dashboard);
    [|rewrite Hrole; reflexivity].
  cbv zeta. eexists. split; [reflexivity|].
  cbn [ManagerViews.dashboard_stats ManagerViews.dashboard_pendingApprovals
       ManagerViews.dashboard_recentTeamRequests
       ManagerViews.dashboard_teamMembers
       ManagerViews.pendingRequests ManagerViews.pendingApprovals
       ManagerViews.approvedRequests ManagerViews.totalTeamRequests
       ManagerViews.totalAmount ManagerViews.teamMembers].
  fold team.
  destruct (group_by_status_spec team "pending") as (Gp & Gn & Gs).
  destruct (group_by_status_spec team "approved") as (Ga & _ & _).
  rewrite Gp, Ga, Gn, Gs, count_status_filter. fold team.
  repeat apply conj; try reflexivity.
  - unfold ManagerRoutes.teamMemberIds. rewrite length_map. reflexivity.
  - apply count_status_two.
  - apply firstn_le_length.
  - apply firstn_le_length.
  - apply firstn_le_length.
  - intros a Ha. apply In_firstn in Ha.
    apply (Permutation_in _ (sort_desc_perm _ _)) in Ha.
    apply filter_In in Ha. destruct Ha as [Hin Hm].
    apply andb_prop in Hm. destruct Hm as [Hs Ht].
    split; [|apply String.eqb_eq, Hs].
    apply filter_In. split; assumption.
  - intros a Ha. apply In_firstn in Ha.
    apply (Permutation_in _ (sort_desc_perm _ _)) in Ha. exact Ha.
  - intros u Hu. apply In_firstn in Hu. apply filter_In in Hu. exact Hu.
Qed.

Lemma manager_dashboard_counts_agree_witness :
  let db := Sample.db_of [] [Sample.cash_of 20 1 "pending";
                             Sample.cash_of 21 5 "approved";
                             Sample.cash_of 22 3 "pending";
                             Sample.cash_of 23 1 "rejected"] in
  User.role Sample.manager = "manager"
  /\ exists d,
      ManagerViews.get_dashboard db Sample.manager = Success 200 EmptyString d
      /\ ManagerViews.pendingRequests (ManagerViews.dashboard_stats d)
         = ManagerViews.pendingApprovals (ManagerViews.dashboard_stats d)
      /\ ManagerViews.dashboard_stats d = ManagerViews.mkStats 1 2 3 1 1 1500.
Proof.
  intro db. split; [reflexivity|].
  destruct (manager_dashboard_counts_agree db Sample.manager eq_refl)
    as (d & H1 & H2 & _).
  exists d. repeat apply conj; [exact H1|exact H2|].
  assert (E : ManagerViews.get_dashboard db Sample.manager
              = Success 200 EmptyString
                  (ManagerViews.mkDashboard
                     (ManagerViews.mkStats 1 2 3 1 1 1500)
                     [Sample.cash_of 20 1 "pending"]
                     [Sample.staff; Sample.other_staff]
                     [Sample.cash_of 20 1 "pending";
                      Sample.cash_of 21 5 "approved";
                      Sample.cash_of 23 1 "rejected"]))
    by (vm_compute; reflexivity).
  rewrite E in H1. injection H1 as <-. reflexivity.
Defined.

(** ** What a manager can read and decide *)

Lemma manager_find_outside_team :
  forall db user id (p : CashAdvance.t -> bool),
    (forall a, In a (Db.cashAdvances db) -> CashAdvance._id a = id ->
               ManagerViews.in_team (ManagerRoutes.teamMemberIds db user) a = false) ->
    find (fun a => Nat.eqb (CashAdvance._id a) id && p a
                   && existsb (Nat.eqb (CashAdvance.user a))
                              (ManagerRoutes.teamMemberIds db user))
         (Db.cashAdvances db) = None.
Proof.
  intros db user id p H.
  destruct (find _ _) as [a|] eqn:E; [|reflexivity].
  apply find_some in E. destruct E as [Hin Hm].
  apply andb_prop in Hm. destruct Hm as [Hm Ht].
  apply andb_prop in Hm. destruct Hm as [Hid _].
  apply Nat.eqb_eq in Hid. specialize (H a Hin Hid).
  unfold ManagerViews.in_team in H. congruence.
Qed.

(** X11.  A manager reads and decides requests of the own team only.
    Every request in the answers of [GET /api/manager/pending-approvals],
    [GET /api/manager/team-requests] and [GET /api/manager/requests/:id]
    is a stored request of an active staff member of the manager's
    department (pending ones only in the first list); for an id whose
    requests all lie outside the team the detail route and both decision
    routes answer 404 and leave the store as it is.  For a request of the
    team the detail route answers 500: its query populates [rejectedBy],
    which the schema does not have. *)
Theorem manager_reads_and_decides_team_requests_only :
  forall (compiles : string -> bool) (regexp_i : string -> string -> bool)
         (sort_by : string -> list CashAdvance.t -> list CashAdvance.t)
         (db : Db.t) (user : User.t),
    (forall spec l x, In x (sort_by spec l) -> In x l) ->
    User.role user = "manager" ->
    let of_team a :=
      In a (Db.cashAdvances db)
      /\ exists u, In u (Db.users db) /\ User._id u = CashAdvance.user a
                   /\ User.department u = User.department user
                   /\ User.role u = "staff" /\ User.isActive u = true in
    (forall q code message page,
        ManagerViews.get_pending_approvals compiles regexp_i db user q
        = Success code message page ->
        forall a, In a (Listing.items page) ->
                  of_team a /\ CashAdvance.status a = "pending")
    /\ (forall q code message page,
           ManagerViews.get_team_requests compiles regexp_i sort_by db user q
           = Success code message page ->
           forall a, In a (Listing.items page) -> of_team a)
    /\ (forall id code message a,
           ManagerViews.get_request db user id = Success code message a ->
           of_team a /\ CashAdvance._id a = id)
    /\ (forall id,
           (forall a, In a (Db.cashAdvances db) -> CashAdvance._id a = id ->
                      ~ of_team a) ->
           ManagerViews.get_request db user id
           = Failure 404 "Request not found" []
           /\ ManagerRoutes.put_approve db user id
              = (db, Failure 404 "Request not found or already processed" [])
           /\ forall reason,
               ManagerRoutes.put_reject db user id reason
               = (db, Failure 404 "Request not found or already processed" []))
    /\ (forall id a,
           In a (Db.cashAdvances db) -> CashAdvance._id a = id -> of_team a ->
           ManagerViews.get_request db user id
           = Failure 500 "Error fetching request details" []).
Proof.
  intros compiles regexp_i sort_by db user Hsort Hrole of_team.
  assert (Hauth : forall A, @Auth.authorize A ["manager"] user = None)
    by (intro A; apply authorize_member; rewrite Hrole; reflexivity).
  split; [|split; [|split; [|split]]].
  - intros q code message page H a Ha.
    unfold ManagerViews.get_pending_approvals in H. rewrite Hauth in H.
    cbv zeta in H.
    destruct (negb (ManagerViews.search_compiles compiles
                      (ManagerViews.pending_search q))); [discriminate H|].
    destruct (Listing.find_window _ _ _) as [w|] eqn:E; [|discriminate H].
    injection H as _ _ <-. cbn [Listing.items] in Ha.
    apply (find_window_In _ _ _ _ _ E) in Ha.
    apply (Permutation_in _ (sort_desc_perm _ _)) in Ha.
    apply filter_In in Ha. destruct Ha as [Hin Hm].
    unfold ManagerViews.pending_matches in Hm.
    apply andb_prop in Hm. destruct Hm as [Hm _].
    apply andb_prop in Hm. destruct Hm as [Hs Ht].
    split; [|apply String.eqb_eq, Hs].
    split; [exact Hin|apply in_team_member, Ht].
  - intros q code message page H a Ha.
    unfold ManagerViews.get_team_requests in H. rewrite Hauth in H.
    cbv zeta in H.
    destruct (negb (ManagerViews.search_compiles compiles
                      (ManagerViews.team_search q))); [discriminate H|].
    destruct (Listing.find_window _ _ _) as [w|] eqn:E; [|discriminate H].
    injection H as _ _ <-. cbn [Listing.items] in Ha.
    apply (find_window_In _ _ _ _ _ E) in Ha.
    apply Hsort in Ha.
    apply filter_In in Ha. destruct Ha as [Hin Hm].
    unfold ManagerViews.team_matches in Hm.
    apply andb_prop in Hm. destruct Hm as [Hm _].
    apply andb_prop in Hm. destruct Hm as [Ht _].
    split; [exact Hin|apply in_team_member, Ht].
  - intros id code message a H.
    unfold ManagerViews.get_request in H. rewrite Hauth in H.
    cbv zeta in H.
    destruct (find _ _) as [b|]; discriminate H.
  - intros id Hout.
    assert (Hout' : forall a, In a (Db.cashAdvances db) -> CashAdvance._id a = id ->
                              ManagerViews.in_team
                                (ManagerRoutes.teamMemberIds db user) a = false).
    { intros a Hin Hid.
      destruct (ManagerViews.in_team _ a) eqn:E; [|reflexivity].
      exfalso. apply (Hout a Hin Hid). split; [exact Hin|].
      apply in_team_member, E. }
    repeat apply conj.
    + unfold ManagerViews.get_request. rewrite Hauth. cbv zeta.
      destruct (find _ _) as [b|] eqn:E; [|reflexivity].
      exfalso. apply find_some in E. destruct E as [Hin Hm].
      apply andb_prop in Hm. destruct Hm as [Hid Ht].
      apply Nat.eqb_eq in Hid. rewrite (Hout' b Hin Hid) in Ht. discriminate Ht.
    + unfold ManagerRoutes.put_approve. rewrite Hauth.
      unfold ManagerRoutes.findPendingOfTeam.
      rewrite (manager_find_outside_team db user id
                 (fun a => CashAdvance.status a =? "pending") Hout').
      reflexivity.
    + intro reason. unfold ManagerRoutes.put_reject. rewrite Hauth.
      unfold ManagerRoutes.findPendingOfTeam.
      rewrite (manager_find_outside_team db user id
                 (fun a => CashAdvance.status a =? "pending") Hout').
      reflexivity.
  - intros id a Hin Hid (_ & u & Hu & Hu1 & Hu2 & Hu3 & Hu4).
    unfold ManagerViews.get_request. rewrite Hauth. cbv zeta.
    destruct (find _ _) as [b|] eqn:E; [reflexivity|].
    exfalso.
    apply (find_none _ _ E a) in Hin.
    rewrite Hid, Nat.eqb_refl in Hin. cbn [andb] in Hin.
    assert (Ht : ManagerViews.in_team (ManagerRoutes.teamMemberIds db user) a
                 = true).
    { unfold ManagerViews.in_team, ManagerRoutes.teamMemberIds.
      apply existsb_exists. exists (User._id u). split.
      - apply in_map. apply filter_In. split; [exact Hu|].
        rewrite Hu2, Hu3, Hu4, !String.eqb_refl. reflexivity.
      - rewrite Hu1. apply Nat.eqb_refl. }
    congruence.
Qed.

Lemma manager_reads_and_decides_team_requests_only_witness :
  let db := Sample.db_of [] [Sample.cash_of 20 1 "pending";
                             Sample.cash_of 22 3 "pending"] in
  (forall spec l x, In x (Sample.newest_first spec l) -> In x l)
  /\ User.role Sample.manager = "manager"
  /\ ManagerViews.get_request db Sample.manager 22
     = Failure 404 "Request not found" []
  /\ ManagerRoutes.put_approve db Sample.manager 22
     = (db, Failure 404 "Request not found or already processed" []).
Proof.
  intro db.
  assert (Hsort : forall spec l x, In x (Sample.newest_first spec l) -> In x l).
  { intros spec l x H. unfold Sample.newest_first in H.
    apply (Permutation_in _ (sort_desc_perm CashAdvance.createdAt l)), H. }
  destruct (manager_reads_and_decides_team_requests_only
              (fun _ => true) Sample.literal_i Sample.newest_first db
              Sample.manager Hsort eq_refl) as (_ & _ & _ & H & _).
  destruct (H 22) as (H1 & H2 & _).
  - intros a [<-|[<-|[]]] Hid; [discriminate Hid|].
    intros [_ (u & Hu & Hu_id & _ & Hu_role & _)].
    simpl in Hu.
    destruct Hu as [<-|[<-|[<-|[<-|[<-|[]]]]]];
      try discriminate Hu_id; discriminate Hu_role.
  - repeat apply conj; try assumption. reflexivity.
Defined.



(** ** Users: reading, roles, activation, deletion *)

Lemma update_find :
  forall id f l,
    (forall u, User._id (f u) = User._id u) ->
    find (fun u => Nat.eqb (User._id u) id) (UserAdmin.update id f l)
    = option_map f (find (fun u => Nat.eqb (User._id u) id) l).
Proof.
  intros id f l Hf. induction l as [|u l IH]; cbn [UserAdmin.update find];
    [reflexivity|].
  destruct (Nat.eqb (User._id u) id) eqn:E; cbn [find].
  - rewrite Hf, E. reflexivity.
  - rewrite E. exact IH.
Qed.

Lemma update_find_other :
  forall id id' f l,
    (forall u, User._id (f u) = User._id u) -> id' <> id ->
    find (fun u => Nat.eqb (User._id u) id') (UserAdmin.update id f l)
    = find (fun u => Nat.eqb (User._id u) id') l.
Proof.
  intros id id' f l Hf Hne. induction l as [|u l IH];
    cbn [UserAdmin.update find]; [reflexivity|].
  destruct (Nat.eqb (User._id u) id) eqn:E; cbn [find].
  - rewrite Hf. apply Nat.eqb_eq in E. rewrite E.
    destruct (Nat.eqb id id') eqn:E2; [|reflexivity].
    apply Nat.eqb_eq in E2. congruence.
  - rewrite IH. reflexivity.
Qed.

Lemma update_ids :
  forall id f l,
    (forall u, User._id (f u) = User._id u) ->
    map User._id (UserAdmin.update id f l) = map User._id l.
Proof.
  intros id f l Hf. induction l as [|u l IH]; cbn [UserAdmin.update map];
    [reflexivity|].
  destruct (Nat.eqb (User._id u) id); cbn [map]; rewrite ?Hf, ?IH; reflexivity.
Qed.

Lemma update_In_other :
  forall id f l u,
    In u l -> User._id u <> id -> In u (UserAdmin.update id f l).
Proof.
  intros id f l u Hin Hne. induction l as [|v l IH]; [contradiction|].
  cbn [UserAdmin.update].
  destruct (Nat.eqb (User._id v) id) eqn:E.
  - destruct Hin as [->|Hin]; [|right; exact Hin].
    apply Nat.eqb_eq in E. contradiction.
  - destruct Hin as [->|Hin]; [left; reflexivity|right; apply IH, Hin].
Qed.

Lemma update_In :
  forall id f l u,
    In u (UserAdmin.update id f l) ->
    In u l \/ exists v, In v l /\ User._id v = id /\ u = f v.
Proof.
  intros id f l u. induction l as [|v l IH]; cbn [UserAdmin.update];
    [intros []|].
  destruct (Nat.eqb (User._id v) id) eqn:E.
  - intros [<-|Hin].
    + right. exists v. apply Nat.eqb_eq in E.
      repeat apply conj; [left; reflexivity|exact E|reflexivity].
    + left. right. exact Hin.
  - intros [<-|Hin]; [left; left; reflexivity|].
    destruct (IH Hin) as [H|(w & Hw & Hid & ->)]; [left; right; exact H|].
    right. exists w. repeat apply conj; [right; exact Hw|exact Hid|reflexivity].
Qed.

Lemma remove_In :
  forall id l u, In u (UserAdmin.remove id l) -> In u l.
Proof.
  intros id l u. induction l as [|v l IH]; cbn [UserAdmin.remove]; [intros []|].
  destruct (Nat.eqb (User._id v) id).
  - intro H. right. exact H.
  - intros [<-|H]; [left; reflexivity|right; apply IH, H].
Qed.

Lemma remove_In_other :
  forall id l u, In u l -> User._id u <> id -> In u (UserAdmin.remove id l).
Proof.
  intros id l u Hin Hne. induction l as [|v l IH]; [contradiction|].
  cbn [UserAdmin.remove]. destruct (Nat.eqb (User._id v) id) eqn:E.
  - destruct Hin as [->|Hin]; [|exact Hin].
    apply Nat.eqb_eq in E. contradiction.
  - destruct Hin as [->|Hin]; [left; reflexivity|right; apply IH, Hin].
Qed.

Lemma remove_find :
  forall id l,
    NoDup (map User._id l) ->
    find (fun u => Nat.eqb (User._id u) id) (UserAdmin.remove id l) = None.
Proof.
  intros id l Hnd. induction l as [|u l IH]; cbn [UserAdmin.remove];
    [reflexivity|].
  cbn [map] in Hnd. inversion Hnd as [|? ? Hnotin Hnd']; subst.
  destruct (Nat.eqb (User._id u) id) eqn:E.
  - apply Nat.eqb_eq in E. subst id.
    destruct (find _ l) as [v|] eqn:F; [|reflexivity].
    apply (find_by_key_In User._id) in F. destruct F as [Hin Hid].
    exfalso. apply Hnotin. rewrite <- Hid. apply in_map, Hin.
  - cbn [find]. rewrite E. apply IH, Hnd'.
Qed.

Lemma remove_find_other :
  forall id id' l,
    id' <> id ->
    find (fun u => Nat.eqb (User._id u) id') (UserAdmin.remove id l)
    = find (fun u => Nat.eqb (User._id u) id') l.
Proof.
  intros id id' l Hne. induction l as [|u l IH]; cbn [UserAdmin.remove find];
    [reflexivity|].
  destruct (Nat.eqb (User._id u) id) eqn:E.
  - apply Nat.eqb_eq in E. rewrite E.
    destruct (Nat.eqb id id') eqn:E2; [|reflexivity].
    apply Nat.eqb_eq in E2. congruence.
  - cbn [find]. rewrite IH. reflexivity.
Qed.

Lemma isAdmin_iff :
  forall (A : Type) user,
    @Auth.isAdmin A user = None <-> User.role user = "admin".
Proof.
  intros A user. unfold Auth.isAdmin, Auth.authorize, includes. cbn [existsb].
  rewrite orb_false_r.
  destruct (User.role user =? "admin") eqn:E; cbn [negb].
  - apply String.eqb_eq in E. split; [intros _; exact E|reflexivity].
  - apply String.eqb_neq in E. split; [discriminate|contradiction].
Qed.

(** X13.  [GET /api/users/:id] looks the user up before it checks the
    caller, and it tells the caller from the user by the text of the id.
    A text that cannot be read as an id gives 500; an id that is not stored
    gives 404 to every caller; a stored user is returned to admin, manager
    and finance, and to the user itself when the id is written the way its
    token carries it; every other caller gets 403, and so does the user
    itself under another spelling of its id. *)
Theorem user_is_shown_to_itself_and_elevated_roles :
  forall (db : Db.t) (user : User.t) (id : ObjectId) (canonical : bool),
    UserAdmin.get_user db user UserAdmin.Malformed
    = Failure 500 "Error fetching user" []
    /\ (UserAdmin.findById db id = None ->
        UserAdmin.get_user db user (UserAdmin.Spelled id canonical)
        = Failure 404 "User not found" [])
    /\ (forall found,
           UserAdmin.findById db id = Some found ->
           (User._id user = id /\ canonical = true
            \/ User.role user = "admin" \/ User.role user = "manager"
            \/ User.role user = "finance" ->
            UserAdmin.get_user db user (UserAdmin.Spelled id canonical)
            = Success 200 EmptyString found)
           /\ (~ (User._id user = id /\ canonical = true
                  \/ User.role user = "admin" \/ User.role user = "manager"
                  \/ User.role user = "finance") ->
               UserAdmin.get_user db user (UserAdmin.Spelled id canonical)
               = Failure 403 "Access denied" [])).
Proof.
  intros db user id canonical. unfold UserAdmin.get_user.
  split; [reflexivity|]. split.
  - intros ->. reflexivity.
  - intros found ->.
    assert (Hiff : UserAdmin.differs user id canonical
                   && negb (includes ["admin"; "manager"; "finance"]
                                     (User.role user)) = false <->
                   User._id user = id /\ canonical = true
                   \/ User.role user = "admin" \/ User.role user = "manager"
                   \/ User.role user = "finance").
    { unfold UserAdmin.differs.
      rewrite <- negb_orb, negb_false_iff, orb_true_iff, andb_true_iff,
        Nat.eqb_eq.
      unfold includes. cbn [existsb].
      rewrite !orb_true_iff, !String.eqb_eq. intuition discriminate. }
    split; intro H.
    + apply Hiff in H. rewrite H. reflexivity.
    + destruct (UserAdmin.differs user id canonical
                && negb (includes ["admin"; "manager"; "finance"]
                                  (User.role user))) eqn:E; [reflexivity|].
      exfalso. apply H, Hiff. reflexivity.
Qed.

Lemma user_is_shown_to_itself_and_elevated_roles_witness :
  let db := Sample.db_of [] [] in
  UserAdmin.findById db 5 = Some Sample.other_staff
  /\ UserAdmin.findById db 1 = Some Sample.staff
  /\ UserAdmin.get_user db Sample.staff (UserAdmin.Spelled 5 true)
     = Failure 403 "Access denied" []
  /\ UserAdmin.get_user db Sample.staff (UserAdmin.Spelled 1 true)
     = Success 200 EmptyString Sample.staff
  /\ UserAdmin.get_user db Sample.staff (UserAdmin.Spelled 1 false)
     = Failure 403 "Access denied" []
  /\ UserAdmin.get_user db Sample.manager (UserAdmin.Spelled 1 false)
     = Success 200 EmptyString Sample.staff
  /\ UserAdmin.findById db 77 = None
  /\ UserAdmin.get_user db Sample.staff (UserAdmin.Spelled 77 true)
     = Failure 404 "User not found" [].
Proof.
  intro db.
  assert (Hf : UserAdmin.findById db 5 = Some Sample.other_staff) by reflexivity.
  assert (Hf1 : UserAdmin.findById db 1 = Some Sample.staff) by reflexivity.
  assert (Hf77 : UserAdmin.findById db 77 = None) by reflexivity.
  split; [exact Hf|]. split; [exact Hf1|]. split.
  { destruct (user_is_shown_to_itself_and_elevated_roles db Sample.staff 5 true)
      as (_ & _ & H).
    destruct (H _ Hf) as [_ H2]. apply H2.
    vm_compute. intuition discriminate. }
  split.
  { destruct (user_is_shown_to_itself_and_elevated_roles db Sample.staff 1 true)
      as (_ & _ & H).
    destruct (H _ Hf1) as [H2 _]. apply H2. left. split; reflexivity. }
  split.
  { destruct (user_is_shown_to_itself_and_elevated_roles db Sample.staff 1 false)
      as (_ & _ & H).
    destruct (H _ Hf1) as [_ H2]. apply H2.
    vm_compute. intuition discriminate. }
  split.
  { destruct (user_is_shown_to_itself_and_elevated_roles db Sample.manager 1
                                                         false)
      as (_ & _ & H).
    destruct (H _ Hf1) as [H2 _]. apply H2. right; right; left. reflexivity. }
  split; [exact Hf77|].
  destruct (user_is_shown_to_itself_and_elevated_roles db Sample.staff 77 true)
    as (_ & H & _).
  apply H, Hf77.
Defined.

(** Splits a conjunction and leaves equivalences whole. *)
Ltac conjs := repeat match goal with |- _ /\ _ => split end.

(** X14.  [PUT /api/users/:id/role] succeeds exactly when the caller is
    an administrator, the body names one of the four roles and the user
    exists; a refused request leaves the store as it is (an invalid role is
    refused with 400 before the user is looked up).  An accepted request
    rewrites the role of that user and nothing else: every other user, the
    order of the users and both collections of requests are unchanged, and
    the stored roles stay within the four roles.  Nothing stops
    administrators from changing their own role. *)
Theorem role_change_is_admin_only_and_local :
  forall (db : Db.t) (user : User.t) (id : ObjectId) (role : option string),
    let r := UserAdmin.put_role db user id role in
    let valid x := includes ["staff"; "manager"; "finance"; "admin"] x in
    (is_success (snd r) = true <->
     User.role user = "admin"
     /\ (exists x, role = Some x /\ valid x = true)
     /\ UserAdmin.findById db id <> None)
    /\ (is_success (snd r) = false -> fst r = db)
    /\ (User.role user = "admin" ->
        forall x, role = Some x -> valid x = false ->
                  r = (db, Failure 400 "Invalid role specified" []))
    /\ (forall x found,
           User.role user = "admin" -> role = Some x -> valid x = true ->
           UserAdmin.findById db id = Some found ->
           snd r = Success 200 "User role updated successfully"
                           (UserAdmin.set_role found x)
           /\ UserAdmin.findById (fst r) id = Some (UserAdmin.set_role found x)
           /\ (forall id', id' <> id ->
                           UserAdmin.findById (fst r) id'
                           = UserAdmin.findById db id')
           /\ map User._id (Db.users (fst r)) = map User._id (Db.users db)
           /\ Db.advances (fst r) = Db.advances db
           /\ Db.cashAdvances (fst r) = Db.cashAdvances db
           /\ (id = User._id user -> x <> "admin" ->
               forall id2 role2,
                 exists e,
                   UserAdmin.put_role (fst r) (UserAdmin.set_role found x)
                                      id2 role2
                   = (fst r, Failure 403 "Access denied. Insufficient permissions." e)))
    /\ (Forall (fun u => valid (User.role u) = true) (Db.users db) ->
        Forall (fun u => valid (User.role u) = true) (Db.users (fst r))).
Proof.
  intros db user id role r valid. subst r.
  assert (Hid : forall x u, User._id (UserAdmin.set_role u x) = User._id u)
    by reflexivity.
  unfold UserAdmin.put_role.
  destruct (Auth.isAdmin user) as [denied|] eqn:Hadm.
  - assert (Hna : User.role user <> "admin").
    { intro H. apply (isAdmin_iff User.t) in H. congruence. }
    cbn [fst snd]. conjs.
    + unfold Auth.isAdmin, Auth.authorize in Hadm.
      destruct (negb _); [|discriminate Hadm]. injection Hadm as <-.
      split; [discriminate|]. intros (H & _). contradiction.
    + reflexivity.
    + intro H. contradiction.
    + intros x found H. contradiction.
    + intro H. exact H.
  - apply isAdmin_iff in Hadm.
    destruct role as [x|]; cbn [fst snd is_success].
    2:{ conjs.
        - split; [discriminate|]. intros (_ & (x & Hx & _) & _). discriminate Hx.
        - reflexivity.
        - intros _ x Hx. discriminate Hx.
        - intros x found _ Hx. discriminate Hx.
        - intro H. exact H. }
    fold (valid x). destruct (valid x) eqn:Hv; cbn [negb fst snd is_success].
    2:{ conjs.
        - split; [discriminate|]. intros (_ & (y & Hy & Hvy) & _).
          injection Hy as <-. congruence.
        - reflexivity.
        - intros _ y Hy _. reflexivity.
        - intros y found _ Hy Hvy. injection Hy as <-. congruence.
        - intro H. exact H. }
    destruct (UserAdmin.findById db id) as [found|] eqn:Hf;
      cbn [fst snd is_success].
    2:{ conjs.
        - split; [discriminate|]. intros (_ & _ & H). contradiction.
        - reflexivity.
        - intros _ y Hy Hvy. injection Hy as <-. congruence.
        - intros y found _ _ _ H. discriminate H.
        - intro H. exact H. }
    conjs.
    + split; [|reflexivity].
      intros _. conjs; [exact Hadm|exists x; auto|discriminate].
    + discriminate.
    + intros _ y Hy Hvy. injection Hy as <-. congruence.
    + intros y found' _ Hy _ Hf'. injection Hy as <-. injection Hf' as <-.
      conjs; try reflexivity.
      * unfold UserAdmin.findById, UserAdmin.set_users. cbn [Db.users].
        rewrite update_find by apply Hid.
        unfold UserAdmin.findById in Hf. rewrite Hf. reflexivity.
      * intros id' Hne. unfold UserAdmin.findById, UserAdmin.set_users.
        cbn [Db.users]. apply update_find_other; [apply Hid|exact Hne].
      * unfold UserAdmin.set_users. cbn [Db.users]. apply update_ids, Hid.
      * intros _ Hx id2 role2. unfold UserAdmin.put_role.
        unfold Auth.isAdmin, Auth.authorize, includes.
        cbn [existsb User.role UserAdmin.set_role].
        apply String.eqb_neq in Hx. rewrite Hx. cbn. eexists. reflexivity.
    + intro H. unfold UserAdmin.set_users. cbn [Db.users].
      rewrite Forall_forall in *. intros u Hu.
      apply update_In in Hu. destruct Hu as [Hu|(v & Hv' & _ & ->)].
      * apply H, Hu.
      * exact Hv.
Qed.

Lemma role_change_is_admin_only_and_local_witness :
  let db := Sample.db_of [] [] in
  let r := UserAdmin.put_role db Sample.admin 1 (Some "manager") in
  User.role Sample.admin = "admin"
  /\ includes ["staff"; "manager"; "finance"; "admin"] "manager" = true
  /\ UserAdmin.findById db 1 = Some Sample.staff
  /\ UserAdmin.findById (fst r) 1
     = Some (UserAdmin.set_role Sample.staff "manager")
  /\ UserAdmin.findById (fst r) 5 = Some Sample.other_staff
  /\ is_success (snd (UserAdmin.put_role db Sample.manager 1 (Some "admin")))
     = false.
Proof.
  intros db r.
  destruct (role_change_is_admin_only_and_local db Sample.admin 1 (Some "manager"))
    as (_ & _ & _ & H & _).
  destruct (H "manager" Sample.staff eq_refl eq_refl eq_refl eq_refl)
    as (_ & H2 & H3 & _).
  destruct (role_change_is_admin_only_and_local db Sample.manager 1 (Some "admin"))
    as (H4 & _).
  conjs; [reflexivity|reflexivity|reflexivity| | | ].
  - exact H2.
  - rewrite H3; [reflexivity|discriminate].
  - destruct (is_success (snd (UserAdmin.put_role db Sample.manager 1
                                                  (Some "admin")))) eqn:E;
      [|reflexivity].
    destruct H4 as [H4 _]. destruct (H4 eq_refl) as [Hrole _].
    discriminate Hrole.
Defined.

(** ** Authentication *)

Lemma bearer_token :
  forall token,
    Authentication.replace "Bearer " EmptyString ("Bearer " ++ token) = token.
Proof.
  intro token. destruct token; reflexivity.
Qed.

(** X15.  [authenticate] lets a request through only for a stored,
    active user whose id is the one the verified token carries, and hands
    that stored user on as [req.user].  Without an [Authorization] header,
    or with one that is empty once [Bearer ] is removed, the answer is 401;
    every other refusal is 401 as well, except for an error of
    [jwt.verify] that is neither an expired nor a malformed token, which
    gives 500.  A header [Bearer <token>] yields the token. *)
Theorem authenticate_admits_stored_active_users :
  forall (jwt_verify : string -> Authentication.verified) (db : Db.t)
         (authorization : option string),
    let r := Authentication.authenticate jwt_verify db authorization in
    (forall user,
        r = Authentication.Next user ->
        In user (Db.users db) /\ User.isActive user = true
        /\ exists header,
            authorization = Some header
            /\ Authentication.replace "Bearer " EmptyString header <> EmptyString
            /\ jwt_verify (Authentication.replace "Bearer " EmptyString header)
               = Authentication.Payload (User._id user))
    /\ (forall code message,
           r = Authentication.Respond code message ->
           code = 401
           \/ code = 500
              /\ exists header,
                  authorization = Some header
                  /\ jwt_verify (Authentication.replace "Bearer " EmptyString header)
                     = Authentication.OtherError)
    /\ (authorization = None \/ authorization = Some EmptyString
        \/ authorization = Some "Bearer " ->
        r = Authentication.Respond 401 "Access denied. No token provided.")
    /\ (forall token user,
           authorization = Some ("Bearer " ++ token) ->
           token <> EmptyString ->
           jwt_verify token = Authentication.Payload (User._id user) ->
           UserAdmin.findById db (User._id user) = Some user ->
           r = if User.isActive user then Authentication.Next user
               else Authentication.Respond 401 "Account has been deactivated.").
Proof.
  intros jwt_verify db authorization r. subst r.
  unfold Authentication.authenticate. conjs.
  - intros user H. destruct authorization as [header|]; cbn [option_map] in H;
      [|discriminate H].
    destruct (Authentication.replace "Bearer " EmptyString header =? EmptyString)
      eqn:E; [discriminate H|].
    apply String.eqb_neq in E.
    destruct (jwt_verify _) as [id| | |] eqn:V; try discriminate H.
    destruct (UserAdmin.findById db id) as [u|] eqn:F; [|discriminate H].
    destruct (User.isActive u) eqn:A; cbn [negb] in H; [|discriminate H].
    injection H as <-.
    apply (find_by_key_In User._id) in F. destruct F as [Hin Hid].
    conjs; [exact Hin|exact A|].
    exists header. conjs; [reflexivity|exact E|]. rewrite V, Hid. reflexivity.
  - intros code message H.
    destruct authorization as [header|]; cbn [option_map] in H;
      [|injection H as <- _; left; reflexivity].
    destruct (Authentication.replace "Bearer " EmptyString header =? EmptyString);
      [injection H as <- _; left; reflexivity|].
    destruct (jwt_verify _) as [id| | |] eqn:V.
    + destruct (UserAdmin.findById db id) as [u|];
        [|injection H as <- _; left; reflexivity].
      destruct (negb (User.isActive u)); [|discriminate H].
      injection H as <- _. left. reflexivity.
    + injection H as <- _. left. reflexivity.
    + injection H as <- _. left. reflexivity.
    + injection H as <- _. right. split; [reflexivity|].
      exists header. split; [reflexivity|exact V].
  - intros [-> |[-> | ->]]; reflexivity.
  - intros token user -> Ht V F. cbn [option_map].
    rewrite bearer_token.
    apply String.eqb_neq in Ht. rewrite Ht, V, F.
    destruct (User.isActive user); reflexivity.
Qed.

Lemma authenticate_admits_stored_active_users_witness :
  let jwt_verify token :=
    if token =? "token-of-1" then Authentication.Payload 1
    else Authentication.JsonWebTokenError in
  let db := Sample.db_of [] [] in
  "token-of-1" <> EmptyString
  /\ jwt_verify "token-of-1" = Authentication.Payload (User._id Sample.staff)
  /\ UserAdmin.findById db (User._id Sample.staff) = Some Sample.staff
  /\ Authentication.authenticate jwt_verify db (Some "Bearer token-of-1")
     = Authentication.Next Sample.staff
  /\ Authentication.authenticate jwt_verify db (Some "Bearer ")
     = Authentication.Respond 401 "Access denied. No token provided.".
Proof.
  intros jwt_verify db.
  assert (Ht : "token-of-1" <> EmptyString) by discriminate.
  assert (V : jwt_verify "token-of-1" = Authentication.Payload (User._id Sample.staff))
    by reflexivity.
  assert (F : UserAdmin.findById db (User._id Sample.staff) = Some Sample.staff)
    by reflexivity.
  conjs; [exact Ht|exact V|exact F| | ].
  - destruct (authenticate_admits_stored_active_users
                jwt_verify db (Some "Bearer token-of-1")) as (_ & _ & _ & H).
    apply (H "token-of-1" Sample.staff eq_refl Ht V F).
  - destruct (authenticate_admits_stored_active_users
                jwt_verify db (Some "Bearer ")) as (_ & _ & H & _).
    apply H. right; right. reflexivity.
Defined.

Lemma put_status_accepted :
  forall db user id b found,
    User.role user = "admin" ->
    UserAdmin.findById db id = Some found ->
    UserAdmin.put_status db user id (Some b)
    = (UserAdmin.set_users db
         (UserAdmin.update id (fun u => UserAdmin.set_isActive u b) (Db.users db)),
       Success 200
               ("User " ++ (if b then "activated" else "deactivated")
                        ++ " successfully")
               (UserAdmin.set_isActive found b)).
Proof.
  intros db user id b found Hrole Hf. unfold UserAdmin.put_status.
  apply (isAdmin_iff User.t) in Hrole. rewrite Hrole, Hf. reflexivity.
Qed.

(** X16.  Deactivating an account takes effect on the next request.
    After an administrator's [PUT /api/users/:id/status] with
    [isActive: false], [authenticate] refuses every token issued to that
    user with 401 "Account has been deactivated."; after [isActive: true]
    it admits the user again; the tokens of the other users are treated as
    before.  The request is refused with 403 for a caller who is not an
    administrator, with 400 when [isActive] is not a boolean and with 404
    for an unknown id, and then the store is unchanged. *)
Theorem deactivation_takes_effect_on_next_request :
  forall (jwt_verify : string -> Authentication.verified) (db : Db.t)
         (admin : User.t) (id : ObjectId) (isActive : option bool),
    let r := UserAdmin.put_status db admin id isActive in
    (is_success (snd r) = true <->
     User.role admin = "admin" /\ isActive <> None
     /\ UserAdmin.findById db id <> None)
    /\ (is_success (snd r) = false -> fst r = db)
    /\ (forall b found token,
           User.role admin = "admin" -> isActive = Some b ->
           UserAdmin.findById db id = Some found ->
           token <> EmptyString ->
           jwt_verify token = Authentication.Payload id ->
           Authentication.authenticate jwt_verify (fst r)
                                       (Some ("Bearer " ++ token))
           = if b then Authentication.Next (UserAdmin.set_isActive found true)
             else Authentication.Respond 401 "Account has been deactivated.")
    /\ (forall token id',
           jwt_verify token = Authentication.Payload id' -> id' <> id ->
           Authentication.authenticate jwt_verify (fst r)
                                       (Some ("Bearer " ++ token))
           = Authentication.authenticate jwt_verify db
                                         (Some ("Bearer " ++ token)))
    /\ Db.advances (fst r) = Db.advances db
    /\ Db.cashAdvances (fst r) = Db.cashAdvances db.
Proof.
  intros jwt_verify db admin id isActive r. subst r.
  assert (Hid : forall b u, User._id (UserAdmin.set_isActive u b) = User._id u)
    by reflexivity.
  assert (Hother : forall l token id',
             jwt_verify token = Authentication.Payload id' -> id' <> id ->
             forall b,
               Authentication.authenticate jwt_verify
                 (UserAdmin.set_users db
                    (UserAdmin.update id (fun u => UserAdmin.set_isActive u b) l))
                 (Some ("Bearer " ++ token))
               = Authentication.authenticate jwt_verify
                   (UserAdmin.set_users db l) (Some ("Bearer " ++ token))).
  { intros l token id' V Hne b. unfold Authentication.authenticate.
    cbn [option_map]. rewrite bearer_token, V.
    unfold UserAdmin.findById, UserAdmin.set_users. cbn [Db.users].
    rewrite update_find_other; [reflexivity|apply Hid|exact Hne]. }
  unfold UserAdmin.put_status.
  destruct (Auth.isAdmin admin) as [denied|] eqn:Hadm.
  - assert (Hna : User.role admin <> "admin").
    { intro H. apply (isAdmin_iff User.t) in H. congruence. }
    cbn [fst snd]. conjs; try reflexivity.
    + unfold Auth.isAdmin, Auth.authorize in Hadm.
      destruct (negb _); [|discriminate Hadm]. injection Hadm as <-.
      split; [discriminate|]. intros (H & _). contradiction.
    + intros b found token H. contradiction.
  - apply isAdmin_iff in Hadm.
    destruct isActive as [b|]; cbn [fst snd is_success].
    2:{ conjs; try reflexivity.
        - split; [discriminate|]. intros (_ & H & _). contradiction.
        - intros b found token _ H. discriminate H. }
    destruct (UserAdmin.findById db id) as [found|] eqn:Hf;
      cbn [fst snd is_success].
    2:{ conjs; try reflexivity.
        - split; [discriminate|]. intros (_ & _ & H). contradiction.
        - intros b' found token _ _ H. discriminate H. }
    conjs; try reflexivity.
    + split; [|reflexivity]. intros _. conjs; [exact Hadm|discriminate..].
    + discriminate.
    + intros b' found' token _ Hb Hf' Ht V.
      injection Hb as <-. injection Hf' as <-.
      unfold Authentication.authenticate. cbn [option_map].
      rewrite bearer_token. apply String.eqb_neq in Ht. rewrite Ht, V.
      unfold UserAdmin.findById, UserAdmin.set_users. cbn [Db.users].
      rewrite update_find by apply Hid.
      unfold UserAdmin.findById in Hf. rewrite Hf. cbn [option_map].
      destruct b; reflexivity.
    + intros token id' V Hne.
      rewrite (Hother (Db.users db) token id' V Hne b).
      destruct db; reflexivity.
Qed.

Lemma deactivation_takes_effect_on_next_request_witness :
  let jwt_verify token :=
    if token =? "token-of-1" then Authentication.Payload 1
    else Authentication.JsonWebTokenError in
  let db := Sample.db_of [] [] in
  let r := UserAdmin.put_status db Sample.admin 1 (Some false) in
  User.role Sample.admin = "admin"
  /\ UserAdmin.findById db 1 = Some Sample.staff
  /\ "token-of-1" <> EmptyString
  /\ jwt_verify "token-of-1" = Authentication.Payload 1
  /\ Authentication.authenticate jwt_verify db (Some "Bearer token-of-1")
     = Authentication.Next Sample.staff
  /\ Authentication.authenticate jwt_verify (fst r) (Some "Bearer token-of-1")
     = Authentication.Respond 401 "Account has been deactivated.".
Proof.
  intros jwt_verify db r.
  assert (Ht : "token-of-1" <> EmptyString) by discriminate.
  destruct (deactivation_takes_effect_on_next_request
              jwt_verify db Sample.admin 1 (Some false)) as (_ & _ & H & _).
  conjs; [reflexivity|reflexivity|exact Ht|reflexivity|reflexivity|].
  apply (H false Sample.staff "token-of-1" eq_refl eq_refl eq_refl Ht eq_refl).
Defined.

(** X17.  [DELETE /api/users/:id] succeeds exactly for an administrator
    and a stored user, and removes that user only; the advances of the
    user are not touched.  In a store with distinct user ids the user is
    then unknown ([GET /api/users/:id] gives 404 however the id is
    written, a second deletion 404, a
    token of the user 401 "Token is not valid. User not found."), and every
    advance the user requested answers 500 on [GET /api/advances/:id] for
    every caller, because its requester can no longer be populated. *)
Theorem deleted_user_leaves_unreadable_advances :
  forall (jwt_verify : string -> Authentication.verified) (db : Db.t)
         (admin : User.t) (id : ObjectId),
    let r := UserAdmin.delete_user db admin id in
    (is_success (snd r) = true <->
     User.role admin = "admin" /\ UserAdmin.findById db id <> None)
    /\ (is_success (snd r) = false -> fst r = db)
    /\ Db.advances (fst r) = Db.advances db
    /\ Db.cashAdvances (fst r) = Db.cashAdvances db
    /\ (forall id', id' <> id ->
                    UserAdmin.findById (fst r) id' = UserAdmin.findById db id')
    /\ (is_success (snd r) = true ->
        NoDup (map User._id (Db.users db)) ->
        UserAdmin.findById (fst r) id = None
        /\ (forall caller canonical,
               UserAdmin.get_user (fst r) caller (UserAdmin.Spelled id canonical)
               = Failure 404 "User not found" [])
        /\ (forall caller,
               User.role caller = "admin" ->
               UserAdmin.delete_user (fst r) caller id
               = (fst r, Failure 404 "User not found" []))
        /\ (forall token,
               token <> EmptyString ->
               jwt_verify token = Authentication.Payload id ->
               Authentication.authenticate jwt_verify (fst r)
                                           (Some ("Bearer " ++ token))
               = Authentication.Respond 401 "Token is not valid. User not found.")
        /\ (forall caller aid a,
               AdvanceRoutes.findById db aid = Some a ->
               Advance.requester a = id ->
               AdvanceViews.get_advance (fst r) caller aid
               = Failure 500 "Error fetching cash advance request" [])).
Proof.
  intros jwt_verify db admin id r. subst r.
  unfold UserAdmin.delete_user.
  destruct (Auth.isAdmin admin) as [denied|] eqn:Hadm.
  - assert (Hna : User.role admin <> "admin").
    { intro H. apply (isAdmin_iff unit) in H. congruence. }
    unfold Auth.isAdmin, Auth.authorize in Hadm.
    destruct (negb _); [|discriminate Hadm]. injection Hadm as <-.
    cbn [fst snd is_success]. conjs; try reflexivity; try discriminate.
    split; [discriminate|]. intros (H & _). contradiction.
  - apply isAdmin_iff in Hadm.
    destruct (UserAdmin.findById db id) as [found|] eqn:Hf;
      cbn [fst snd is_success].
    2:{ conjs; try reflexivity; try discriminate.
        split; [discriminate|]. intros (_ & H). contradiction. }
    assert (Hgone : NoDup (map User._id (Db.users db)) ->
                    UserAdmin.findById
                      (UserAdmin.set_users db (UserAdmin.remove id (Db.users db)))
                      id = None).
    { intro Hnd. unfold UserAdmin.findById, UserAdmin.set_users.
      cbn [Db.users]. apply remove_find, Hnd. }
    conjs; try reflexivity.
    + split; [|reflexivity]. intros _. split; [exact Hadm|discriminate].
    + discriminate.
    + intros id' Hne. unfold UserAdmin.findById, UserAdmin.set_users.
      cbn [Db.users]. apply remove_find_other, Hne.
    + intros _ Hnd. conjs.
      * apply Hgone, Hnd.
      * intros caller canonical. unfold UserAdmin.get_user.
        rewrite (Hgone Hnd). reflexivity.
      * intros caller Hc. unfold UserAdmin.delete_user.
        apply (isAdmin_iff unit) in Hc. rewrite Hc, (Hgone Hnd). reflexivity.
      * intros token Ht V. unfold Authentication.authenticate.
        cbn [option_map]. rewrite bearer_token.
        apply String.eqb_neq in Ht. rewrite Ht, V, (Hgone Hnd). reflexivity.
      * intros caller aid a Ha Hreq. unfold AdvanceViews.get_advance.
        change (AdvanceRoutes.findById
                (UserAdmin.set_users db (UserAdmin.remove id (Db.users db))) aid)
        with (AdvanceRoutes.findById db aid).
      rewrite Ha, Hreq.
      change (AdvanceViews.populate
                (UserAdmin.set_users db (UserAdmin.remove id (Db.users db))) id)
        with (UserAdmin.findById
                (UserAdmin.set_users db (UserAdmin.remove id (Db.users db))) id).
      rewrite (Hgone Hnd). reflexivity.
Qed.

Lemma deleted_user_leaves_unreadable_advances_witness :
  let jwt_verify token :=
    if token =? "token-of-1" then Authentication.Payload 1
    else Authentication.JsonWebTokenError in
  let a := Sample.advance_with 10 "ADV2025010001" "pending" in
  let db := Sample.db_of [a] [] in
  let r := UserAdmin.delete_user db Sample.admin 1 in
  is_success (snd r) = true
  /\ NoDup (map User._id (Db.users db))
  /\ AdvanceRoutes.findById db 10 = Some a
  /\ Advance.requester a = 1
  /\ AdvanceViews.get_advance db Sample.manager 10 = Success 200 EmptyString a
  /\ AdvanceViews.get_advance (fst r) Sample.manager 10
     = Failure 500 "Error fetching cash advance request" []
  /\ Db.advances (fst r) = [a].
Proof.
  intros jwt_verify a db r.
  assert (Hs : is_success (snd r) = true) by reflexivity.
  assert (Hnd : NoDup (map User._id (Db.users db))).
  { simpl. repeat constructor; simpl; intuition discriminate. }
  destruct (deleted_user_leaves_unreadable_advances jwt_verify db Sample.admin 1)
    as (_ & _ & H3 & _ & _ & H).
  destruct (H Hs Hnd) as (_ & _ & _ & _ & H5).
  conjs; [exact Hs|exact Hnd|reflexivity|reflexivity|reflexivity| |exact H3].
  apply (H5 Sample.manager 10 a eq_refl eq_refl).
Defined.

(** ** The summary of the roles *)

Lemma role_add_count :
  forall r r' gs,
    Tally.role_count r' (map (fun g => (UserAdmin._id g, UserAdmin.count g))
                             (UserAdmin.add r gs))
    = (Tally.role_count r' (map (fun g => (UserAdmin._id g, UserAdmin.count g)) gs)
       + if String.eqb r r' then 1 else 0)%nat.
Proof.
  intros r r' gs. unfold Tally.role_count.
  induction gs as [|g gs IH]; cbn [UserAdmin.add map find fst snd].
  - cbn [UserAdmin._id UserAdmin.count]. destruct (r =? r'); reflexivity.
  - destruct (UserAdmin._id g =? r) eqn:E.
    + apply String.eqb_eq in E. cbn [map find fst snd UserAdmin._id UserAdmin.count].
      rewrite E. destruct (r =? r'); cbn [snd]; lia.
    + cbn [map find fst snd]. destruct (UserAdmin._id g =? r') eqn:E2.
      * apply String.eqb_eq in E2. rewrite E2 in E.
        rewrite String.eqb_sym, E. lia.
      * exact IH.
Qed.

Lemma role_add_keys :
  forall r gs,
    NoDup (map UserAdmin._id gs) ->
    NoDup (map UserAdmin._id (UserAdmin.add r gs))
    /\ (forall x, In x (map UserAdmin._id (UserAdmin.add r gs)) <->
                  x = r \/ In x (map UserAdmin._id gs)).
Proof.
  intros r gs. induction gs as [|g gs IH]; intro Hnd; cbn [UserAdmin.add].
  - split; [repeat constructor; intros []|].
    intro x. cbn. intuition.
  - inversion Hnd as [|? ? Hnotin Hnd']; subst.
    destruct (UserAdmin._id g =? r) eqn:E.
    + apply String.eqb_eq in E. cbn [map UserAdmin._id]. rewrite <- E.
      split; [constructor; assumption|].
      intro x. cbn. intuition.
    + destruct (IH Hnd') as [IH1 IH2]. cbn [map]. split.
      * constructor; [|exact IH1]. rewrite IH2. intros [Hx|Hx].
        -- apply String.eqb_neq in E. congruence.
        -- contradiction.
      * intro x. cbn [In]. rewrite IH2. intuition.
Qed.

Lemma role_add_positive :
  forall r gs,
    Forall (fun g => (1 <= UserAdmin.count g)%nat) gs ->
    Forall (fun g => (1 <= UserAdmin.count g)%nat) (UserAdmin.add r gs).
Proof.
  intros r gs H. induction H as [|g gs Hg Hgs IH]; cbn [UserAdmin.add].
  - repeat constructor.
  - destruct (UserAdmin._id g =? r).
    + constructor; [cbn; lia|exact Hgs].
    + constructor; assumption.
Qed.

Lemma group_by_role_spec :
  forall users,
    let gs := UserAdmin.group_by_role users in
    NoDup (map UserAdmin._id gs)
    /\ Forall (fun g => (1 <= UserAdmin.count g)%nat) gs
    /\ (forall r,
           Tally.role_count r (map (fun g => (UserAdmin._id g, UserAdmin.count g)) gs)
           = Tally.with_role r users)
    /\ (forall r, In r (map UserAdmin._id gs) <->
                  exists u, In u users /\ User.role u = r).
Proof.
  intro users. unfold UserAdmin.group_by_role.
  assert (H : forall acc,
             NoDup (map UserAdmin._id acc) ->
             Forall (fun g => (1 <= UserAdmin.count g)%nat) acc ->
             let gs := fold_left (fun groups u => UserAdmin.add (User.role u) groups)
                                 users acc in
             NoDup (map UserAdmin._id gs)
             /\ Forall (fun g => (1 <= UserAdmin.count g)%nat) gs
             /\ (forall r,
                    Tally.role_count r
                      (map (fun g => (UserAdmin._id g, UserAdmin.count g)) gs)
                    = (Tally.role_count r
                         (map (fun g => (UserAdmin._id g, UserAdmin.count g)) acc)
                       + Tally.with_role r users)%nat)
             /\ (forall r, In r (map UserAdmin._id gs) <->
                           In r (map UserAdmin._id acc)
                           \/ exists u, In u users /\ User.role u = r)).
  { induction users as [|u users IH]; intros acc Hnd Hpos; cbn [fold_left].
    - cbv zeta. conjs; [exact Hnd|exact Hpos| | ].
      + intro r. cbn. lia.
      + intro r. split; [intro H; left; exact H|].
        intros [H|(u & [] & _)]. exact H.
    - destruct (role_add_keys (User.role u) acc Hnd) as [K1 K2].
      destruct (IH (UserAdmin.add (User.role u) acc) K1
                   (role_add_positive _ _ Hpos)) as (I1 & I2 & I3 & I4).
      cbv zeta. conjs; [exact I1|exact I2| | ].
      + intro r. rewrite I3, role_add_count.
        unfold Tally.with_role. cbn [filter].
        destruct (User.role u =? r); cbn [List.length]; lia.
      + intro r. rewrite I4, K2. split.
        * intros [[->|H]|(v & Hv & Hr)].
          -- right. exists u. split; [left; reflexivity|reflexivity].
          -- left. exact H.
          -- right. exists v. split; [right; exact Hv|exact Hr].
        * intros [H|(v & [<-|Hv] & Hr)].
          -- left. right. exact H.
          -- left. left. symmetry. exact Hr.
          -- right. exists v. split; assumption. }
  destruct (H [] (NoDup_nil _) (Forall_nil _)) as (H1 & H2 & H3 & H4).
  cbv zeta. conjs; [exact H1|exact H2| | ].
  - intro r. rewrite H3. reflexivity.
  - intro r. rewrite H4. split; [intros [[]|H']; exact H'|intro H'; right; exact H'].
Qed.

Lemma insert_role_perm :
  forall x l, Permutation (UserAdmin.insert_role x l) (x :: l).
Proof.
  intros x l. induction l as [|y l IH]; cbn [UserAdmin.insert_role].
  - apply Permutation_refl.
  - destruct (String.ltb _ _).
    + apply Permutation_refl.
    + eapply Permutation_trans; [apply perm_skip, IH|apply perm_swap].
Qed.

Lemma sort_by_role_perm :
  forall l, Permutation (UserAdmin.sort_by_role l) l.
Proof.
  intro l. unfold UserAdmin.sort_by_role.
  assert (H : forall acc,
             Permutation (fold_left (fun acc x => UserAdmin.insert_role x acc) l acc)
                         (acc ++ l)%list).
  { induction l as [|x l IH]; intro acc; cbn [fold_left].
    - rewrite app_nil_r. apply Permutation_refl.
    - eapply Permutation_trans; [apply IH|].
      eapply Permutation_trans;
        [apply Permutation_app_tail, insert_role_perm|].
      cbn. apply Permutation_middle. }
  apply (H []).
Qed.

Lemma ltb_false_leb :
  forall a b, String.ltb a b = false -> String.leb b a = true.
Proof.
  intros a b H. unfold String.ltb in H. unfold String.leb.
  rewrite String.compare_antisym.
  destruct (String.compare a b); cbn; [reflexivity|discriminate H|reflexivity].
Qed.

Lemma ltb_true_leb :
  forall a b, String.ltb a b = true -> String.leb a b = true.
Proof.
  intros a b H. unfold String.ltb in H. unfold String.leb.
  destruct (String.compare a b); [reflexivity|reflexivity|discriminate H].
Qed.

Lemma insert_role_sorted :
  forall x l,
    Sorted (fun a b => String.leb (UserAdmin._id a) (UserAdmin._id b) = true) l ->
    Sorted (fun a b => String.leb (UserAdmin._id a) (UserAdmin._id b) = true)
           (UserAdmin.insert_role x l).
Proof.
  intros x l H. induction H as [|y l Hl IH Hy]; cbn [UserAdmin.insert_role].
  - repeat constructor.
  - destruct (String.ltb (UserAdmin._id x) (UserAdmin._id y)) eqn:E.
    + constructor; [constructor; assumption|].
      constructor. apply ltb_true_leb, E.
    + constructor; [exact IH|].
      destruct l as [|z l]; cbn [UserAdmin.insert_role].
      * constructor. apply ltb_false_leb, E.
      * destruct (String.ltb (UserAdmin._id x) (UserAdmin._id z)).
        -- constructor. apply ltb_false_leb, E.
        -- inversion Hy; subst. constructor. assumption.
Qed.

Lemma sort_by_role_sorted :
  forall l,
    Sorted (fun a b => String.leb (UserAdmin._id a) (UserAdmin._id b) = true)
           (UserAdmin.sort_by_role l).
Proof.
  intro l. unfold UserAdmin.sort_by_role.
  assert (H : forall acc,
             Sorted (fun a b => String.leb (UserAdmin._id a) (UserAdmin._id b) = true)
                    acc ->
             Sorted (fun a b => String.leb (UserAdmin._id a) (UserAdmin._id b) = true)
                    (fold_left (fun acc x => UserAdmin.insert_role x acc) l acc)).
  { induction l as [|x l IH]; intros acc Hacc; cbn [fold_left]; [exact Hacc|].
    apply IH, insert_role_sorted, Hacc. }
  apply H. constructor.
Qed.

Lemma role_count_In :
  forall r c l,
    NoDup (map fst l) -> In (r, c) l -> Tally.role_count r l = c.
Proof.
  intros r c l. unfold Tally.role_count.
  induction l as [|[r' c'] l IH]; intros Hnd Hin; [contradiction|].
  cbn [map fst] in Hnd. inversion Hnd as [|? ? Hnotin Hnd']; subst.
  cbn [find fst snd]. destruct (r' =? r) eqn:E.
  - apply String.eqb_eq in E. subst r'. destruct Hin as [Hin|Hin].
    + injection Hin as ->. reflexivity.
    + exfalso. apply Hnotin. apply (in_map fst) in Hin. exact Hin.
  - destruct Hin as [Hin|Hin].
    + injection Hin as -> _. rewrite String.eqb_refl in E. discriminate E.
    + apply IH; assumption.
Qed.

Lemma role_count_notin :
  forall r l, ~ In r (map fst l) -> Tally.role_count r l = 0%nat.
Proof.
  intros r l H. unfold Tally.role_count.
  destruct (find _ l) as [g|] eqn:E; [|reflexivity].
  apply find_some in E. destruct E as [Hin Heq]. apply String.eqb_eq in Heq.
  exfalso. apply H. rewrite <- Heq. apply in_map, Hin.
Qed.

Lemma role_count_perm :
  forall r l l',
    NoDup (map fst l) -> Permutation l l' ->
    Tally.role_count r l' = Tally.role_count r l.
Proof.
  intros r l l' Hnd Hp.
  assert (Hnd' : NoDup (map fst l'))
    by (eapply Permutation_NoDup; [apply Permutation_map, Hp|exact Hnd]).
  destruct (in_dec string_dec r (map fst l)) as [Hin|Hnot].
  - apply in_map_iff in Hin. destruct Hin as ([r0 c] & Hr & Hin).
    cbn [fst] in Hr. subst r0.
    rewrite (role_count_In r c l Hnd Hin).
    apply role_count_In; [exact Hnd'|].
    apply (Permutation_in _ Hp), Hin.
  - rewrite (role_count_notin r l Hnot). apply role_count_notin.
    intro H. apply Hnot.
    apply (Permutation_in _ (Permutation_sym (Permutation_map fst Hp))), H.
Qed.

(** X18.  [GET /api/users/roles/summary] counts the active users by
    role: for an administrator or a manager the answer has one entry for
    each role that an active user has and no entry for any other role, the
    count of an entry is the number of active users with that role (so it
    is at least one, and deactivated users are not counted), and the
    entries come in ascending order of the role.  Finance and staff are
    refused with 403. *)
Theorem roles_summary_counts_active_users :
  forall (db : Db.t) (user : User.t),
    let active := filter User.isActive (Db.users db) in
    (User.role user = "admin" \/ User.role user = "manager" ->
     exists summary,
       UserAdmin.get_roles_summary db user = Success 200 EmptyString summary
       /\ NoDup (map UserAdmin._id summary)
       /\ Sorted (fun a b => String.leb (UserAdmin._id a) (UserAdmin._id b) = true)
                 summary
       /\ (forall g, In g summary ->
                     UserAdmin.count g = Tally.with_role (UserAdmin._id g) active
                     /\ (1 <= UserAdmin.count g)%nat)
       /\ (forall r, In r (map UserAdmin._id summary) <->
                     exists u, In u (Db.users db) /\ User.isActive u = true
                               /\ User.role u = r)
       /\ (forall r,
              Tally.role_count r
                (map (fun g => (UserAdmin._id g, UserAdmin.count g)) summary)
              = Tally.with_role r active))
    /\ (User.role user = "finance" \/ User.role user = "staff" ->
        exists e,
          UserAdmin.get_roles_summary db user
          = Failure 403 "Access denied. Insufficient permissions." e).
Proof.
  intros db user active. split; intro Hrole.
  - unfold UserAdmin.get_roles_summary.
    rewrite (authorize_member (list UserAdmin.RoleCount));
      [|destruct Hrole as [-> | ->]; reflexivity].
    fold active. eexists. split; [reflexivity|].
    destruct (group_by_role_spec active) as (G1 & G2 & G3 & G4).
    cbv zeta in G1, G2, G3, G4.
    pose proof (sort_by_role_perm (UserAdmin.group_by_role active)) as Hp.
    assert (Hpairs : NoDup (map fst
                              (map (fun g => (UserAdmin._id g, UserAdmin.count g))
                                   (UserAdmin.group_by_role active)))).
    { rewrite map_map. cbn [fst]. exact G1. }
    assert (Hcount : forall r,
               Tally.role_count r
                 (map (fun g => (UserAdmin._id g, UserAdmin.count g))
                      (UserAdmin.sort_by_role (UserAdmin.group_by_role active)))
               = Tally.with_role r active).
    { intro r. rewrite <- G3. apply role_count_perm; [exact Hpairs|].
      apply Permutation_map, Permutation_sym, Hp. }
    assert (Hnd : NoDup (map UserAdmin._id
                           (UserAdmin.sort_by_role (UserAdmin.group_by_role active)))).
    { eapply Permutation_NoDup;
        [apply Permutation_map, Permutation_sym, Hp|exact G1]. }
    conjs.
    + exact Hnd.
    + apply sort_by_role_sorted.
    + intros g Hg. split.
      * rewrite <- Hcount. symmetry. apply role_count_In.
        -- rewrite map_map. cbn [fst]. exact Hnd.
        -- apply (in_map (fun g => (UserAdmin._id g, UserAdmin.count g))) in Hg.
           exact Hg.
      * apply (Permutation_in _ Hp) in Hg. rewrite Forall_forall in G2.
        apply G2, Hg.
    + intro r.
      assert (Hiff : In r (map UserAdmin._id
                             (UserAdmin.sort_by_role
                                (UserAdmin.group_by_role active)))
                     <-> In r (map UserAdmin._id (UserAdmin.group_by_role active))).
      { split; apply Permutation_in, Permutation_map;
          [exact Hp|apply Permutation_sym, Hp]. }
      rewrite Hiff, G4. unfold active. split.
      * intros (u & Hu & Hr). apply filter_In in Hu. destruct Hu as [Hin Ha].
        exists u. conjs; assumption.
      * intros (u & Hin & Ha & Hr). exists u. split; [|exact Hr].
        apply filter_In. split; assumption.
    + exact Hcount.
  - unfold UserAdmin.get_roles_summary, Auth.authorize.
    destruct Hrole as [-> | ->]; cbn; eexists; reflexivity.
Qed.

Lemma roles_summary_counts_active_users_witness :
  let retired_staff :=
    User.mk 6 "Bola" "Ojo" "bola@example.com" "EMP006" "Sales" "staff" false 0 in
  let db := Db.mk (Sample.users ++ [retired_staff]) [] [] in
  (User.role Sample.manager = "admin" \/ User.role Sample.manager = "manager")
  /\ UserAdmin.get_roles_summary db Sample.manager
     = Success 200 EmptyString
         [UserAdmin.mkRoleCount "admin" 1; UserAdmin.mkRoleCount "finance" 1;
          UserAdmin.mkRoleCount "manager" 1; UserAdmin.mkRoleCount "staff" 2]
  /\ exists summary,
      UserAdmin.get_roles_summary db Sample.manager
      = Success 200 EmptyString summary
      /\ NoDup (map UserAdmin._id summary).
Proof.
  intros retired_staff db.
  assert (Hrole : User.role Sample.manager = "admin"
                  \/ User.role Sample.manager = "manager")
    by (right; reflexivity).
  destruct (roles_summary_counts_active_users db Sample.manager) as [H _].
  destruct (H Hrole) as (summary & H1 & H2 & _).
  conjs; [exact Hrole|vm_compute; reflexivity|].
  exists summary. split; [exact H1|exact H2].
Defined.

(** ** The decisions of a manager *)

Lemma replace_In :
  forall (A : Type) (key : A -> ObjectId) (x y : A) (l : list A),
    In y (Transition.replace key x l) ->
    y = x \/ (In y l /\ key y <> key x).
Proof.
  intros A key x y l. unfold Transition.replace. intro H.
  apply in_map_iff in H. destruct H as (z & Hz & Hin).
  destruct (Nat.eqb (key z) (key x)) eqn:E.
  - left. symmetry. exact Hz.
  - right. subst z. split; [exact Hin|]. apply Nat.eqb_neq, E.
Qed.

Lemma decided_is_not_pending :
  forall db a' team,
    CashAdvance.status a' <> "pending" ->
    ManagerRoutes.findPendingOfTeam (CashAdvanceRoutes.save db a')
                                    (CashAdvance._id a') team = None.
Proof.
  intros db a' team Hs. unfold ManagerRoutes.findPendingOfTeam.
  destruct (find _ _) as [y|] eqn:E; [|reflexivity].
  apply find_some in E. destruct E as [Hin Hm].
  apply andb_prop in Hm. destruct Hm as [Hm _].
  apply andb_prop in Hm. destruct Hm as [Hid Hst].
  apply Nat.eqb_eq in Hid. apply String.eqb_eq in Hst.
  apply (replace_In _ CashAdvance._id) in Hin.
  destruct Hin as [-> |[_ Hne]]; contradiction.
Qed.

Lemma blank_reason :
  forall r,
    (r =? EmptyString) || Nat.eqb (String.length (JS.trim r)) 0 = true
    <-> JS.trim r = EmptyString.
Proof.
  intro r. rewrite orb_true_iff, String.eqb_eq, Nat.eqb_eq. split.
  - intros [-> |H]; [reflexivity|].
    destruct (JS.trim r); [reflexivity|discriminate H].
  - intro H. right. rewrite H. reflexivity.
Qed.

(** X19.  A manager decides a pending request of the team once.  For
    such a request the approval stores the status [approved] with the
    manager as [approvedBy] and answers 200.  A rejection without a reason,
    or with a reason that is empty once trimmed, is refused with 400 and
    changes nothing.  A rejection with a reason of at most 500 characters
    once trimmed stores the status [rejected] with the trimmed reason and
    is answered 500 all the same: after the write the handler populates
    [rejectedBy], which the schema does not have.  A longer reason is
    refused by [save()]: 500, and nothing is stored.  Neither decision
    touches what the requester submitted.  After either decision both
    decision routes answer 404 for the request, whoever the manager, and a
    rejected request cannot be retired by its owner. *)
Theorem manager_decides_a_pending_request_once :
  forall (db : Db.t) (user : User.t) (id : ObjectId) (a : CashAdvance.t),
    User.role user = "manager" ->
    ManagerRoutes.findPendingOfTeam db id (ManagerRoutes.teamMemberIds db user)
    = Some a ->
    let decided db' :=
      (forall manager,
          User.role manager = "manager" ->
          ManagerRoutes.put_approve db' manager id
          = (db', Failure 404 "Request not found or already processed" []))
      /\ (forall manager reason,
             User.role manager = "manager" ->
             ManagerRoutes.put_reject db' manager id reason
             = (db', Failure 404 "Request not found or already processed" [])) in
    (exists approved,
        ManagerRoutes.put_approve db user id
        = (CashAdvanceRoutes.save db approved,
           Success 200 "Request approved successfully" approved)
        /\ CashAdvance.status approved = "approved"
        /\ CashAdvance.approvedBy approved = Some (User._id user)
        /\ CashAdvance.rejectedReason approved = CashAdvance.rejectedReason a
        /\ CashAdvance.retirement approved = CashAdvance.retirement a
        /\ Consistency.same_request a approved
        /\ decided (CashAdvanceRoutes.save db approved))
    /\ ManagerRoutes.put_reject db user id None
       = (db, Failure 400 "Rejection reason is required" [])
    /\ (forall r,
           JS.trim r = EmptyString ->
           ManagerRoutes.put_reject db user id (Some r)
           = (db, Failure 400 "Rejection reason is required" []))
    /\ (forall r,
           JS.trim r <> EmptyString ->
           (String.length (JS.trim r) <= 500)%nat ->
           exists rejected,
             ManagerRoutes.put_reject db user id (Some r)
             = (CashAdvanceRoutes.save db rejected,
                Failure 500 "Error rejecting request" [])
             /\ CashAdvance.status rejected = "rejected"
             /\ CashAdvance.rejectedReason rejected = Some (JS.trim r)
             /\ CashAdvance.approvedBy rejected = CashAdvance.approvedBy a
             /\ CashAdvance.retirement rejected = CashAdvance.retirement a
             /\ Consistency.same_request a rejected
             /\ In rejected (Db.cashAdvances (CashAdvanceRoutes.save db rejected))
             /\ decided (CashAdvanceRoutes.save db rejected)
             /\ (forall now owner body,
                    exists code message,
                      CashAdvanceRoutes.put_retire
                        now (CashAdvanceRoutes.save db rejected) owner id body
                      = (CashAdvanceRoutes.save db rejected,
                         Failure code message [])))
    /\ (forall r,
           (500 < String.length (JS.trim r))%nat ->
           ManagerRoutes.put_reject db user id (Some r)
           = (db, Failure 500 "Error rejecting request" [])).
Proof.
  intros db user id a Hrole Hf decided.
  assert (Hauth : forall (manager : User.t),
             User.role manager = "manager" ->
             @Auth.authorize CashAdvance.t ["manager"] manager = None).
  { intros manager H. apply authorize_member. rewrite H. reflexivity. }
  destruct (findPendingOfTeam_In _ _ _ _ Hf) as (Hin & Hid & Hst).
  assert (Hdecided : forall a',
             CashAdvance._id a' = id -> CashAdvance.status a' <> "pending" ->
             decided (CashAdvanceRoutes.save db a')).
  { intros a' Hid' Hs'. subst decided. cbv beta. split.
    - intros manager Hm. unfold ManagerRoutes.put_approve.
      rewrite (Hauth manager Hm), <- Hid', decided_is_not_pending by exact Hs'.
      reflexivity.
    - intros manager reason Hm. unfold ManagerRoutes.put_reject.
      rewrite (Hauth manager Hm), <- Hid', decided_is_not_pending by exact Hs'.
      reflexivity. }
  split; [|split; [|split; [|split]]].
  - exists (CashAdvance.set_approvedBy (CashAdvance.set_status a "approved")
                                       (User._id user)).
    split.
    { unfold ManagerRoutes.put_approve.
      rewrite (Hauth user Hrole), Hf. reflexivity. }
    do 4 (split; [reflexivity|]).
    split; [unfold Consistency.same_request; conjs; reflexivity|].
    apply Hdecided; [exact Hid|discriminate].
  - unfold ManagerRoutes.put_reject. rewrite (Hauth user Hrole), Hf. reflexivity.
  - intros r Hr. unfold ManagerRoutes.put_reject.
    rewrite (Hauth user Hrole), Hf.
    apply blank_reason in Hr. rewrite Hr. reflexivity.
  - intros r Hr Hlen.
    set (rejected := CashAdvance.set_rejectedReason
                       (CashAdvance.set_status a "rejected") (JS.trim r)).
    exists rejected.
    split.
    { unfold ManagerRoutes.put_reject. rewrite (Hauth user Hrole), Hf.
      destruct ((r =? EmptyString) || Nat.eqb (String.length (JS.trim r)) 0)
        eqn:E; [apply blank_reason in E; contradiction|].
      unfold Schema.reason_ok.
      apply Nat.leb_le in Hlen. rewrite Hlen. reflexivity. }
    do 4 (split; [reflexivity|]).
    split; [unfold Consistency.same_request; conjs; reflexivity|].
    split; [|split].
    + unfold CashAdvanceRoutes.save. cbn [Db.cashAdvances Db.set_cashAdvances].
      apply in_map_iff. exists a. split; [|exact Hin].
      change (CashAdvance._id rejected) with (CashAdvance._id a).
      rewrite Nat.eqb_refl. reflexivity.
    + apply Hdecided; [exact Hid|discriminate].
    + intros now owner body. unfold CashAdvanceRoutes.put_retire.
      destruct (CashAdvanceRoutes.findOwned _ id (User._id owner)) as [y|] eqn:E;
        [|eexists; eexists; reflexivity].
      apply findOwned_In in E. destruct E as (Hy & Hyid & _).
      apply (replace_In _ CashAdvance._id) in Hy.
      destruct Hy as [-> |[_ Hne]].
      * cbn. eexists; eexists; reflexivity.
      * exfalso. apply Hne. rewrite Hyid. symmetry. exact Hid.
  - intros r Hlen. unfold ManagerRoutes.put_reject.
    rewrite (Hauth user Hrole), Hf.
    destruct ((r =? EmptyString) || Nat.eqb (String.length (JS.trim r)) 0)
      eqn:E.
    + apply blank_reason in E. rewrite E in Hlen. simpl in Hlen. lia.
    + unfold Schema.reason_ok.
      apply Nat.leb_gt in Hlen. rewrite Hlen. reflexivity.
Qed.

Lemma manager_decides_a_pending_request_once_witness :
  let a := Sample.cash_of 20 1 "pending" in
  let db := Sample.db_of [] [a] in
  let long := JS.repeat_char "x"%char 501 in
  User.role Sample.manager = "manager"
  /\ ManagerRoutes.findPendingOfTeam db 20
       (ManagerRoutes.teamMemberIds db Sample.manager) = Some a
  /\ JS.trim "  " = EmptyString
  /\ ManagerRoutes.put_reject db Sample.manager 20 (Some "  ")
     = (db, Failure 400 "Rejection reason is required" [])
  /\ JS.trim " no budget " <> EmptyString
  /\ (String.length (JS.trim " no budget ") <= 500)%nat
  /\ (exists rejected,
         ManagerRoutes.put_reject db Sample.manager 20 (Some " no budget ")
         = (CashAdvanceRoutes.save db rejected,
            Failure 500 "Error rejecting request" [])
         /\ CashAdvance.status rejected = "rejected"
         /\ CashAdvance.rejectedReason rejected = Some "no budget"
         /\ In rejected (Db.cashAdvances (CashAdvanceRoutes.save db rejected)))
  /\ (500 < String.length (JS.trim long))%nat
  /\ ManagerRoutes.put_reject db Sample.manager 20 (Some long)
     = (db, Failure 500 "Error rejecting request" []).
Proof.
  intros a db long.
  assert (Hf : ManagerRoutes.findPendingOfTeam db 20
                 (ManagerRoutes.teamMemberIds db Sample.manager) = Some a)
    by reflexivity.
  assert (Hb : JS.trim "  " = EmptyString) by reflexivity.
  assert (Hr : JS.trim " no budget " <> EmptyString) by (vm_compute; discriminate).
  assert (Hl : (String.length (JS.trim " no budget ") <= 500)%nat)
    by (apply Nat.leb_le; reflexivity).
  assert (Hlong : (500 < String.length (JS.trim long))%nat)
    by (apply Nat.ltb_lt; vm_compute; reflexivity).
  destruct (manager_decides_a_pending_request_once db Sample.manager 20 a
              eq_refl Hf) as (_ & _ & H3 & H4 & H5).
  destruct (H4 " no budget " Hr Hl) as (rejected & E1 & E2 & E3 & _ & _ & _ & E4 & _).
  conjs; [reflexivity|exact Hf|exact Hb|apply H3, Hb|exact Hr|exact Hl| |exact Hlong
          |apply H5, Hlong].
  exists rejected. conjs; [exact E1|exact E2|exact E3|exact E4].
Defined.

(** ** What a staff member can change *)

Lemma Forall2_compose :
  forall (A : Type) (R1 R2 R3 : A -> A -> Prop),
    (forall x y z, R1 x y -> R2 y z -> R3 x z) ->
    forall l1 l2 l3, Forall2 R1 l1 l2 -> Forall2 R2 l2 l3 -> Forall2 R3 l1 l3.
Proof.
  intros A R1 R2 R3 Ht l1 l2 l3 H12. revert l3.
  induction H12 as [|x y l1 l2 Hxy H12 IH]; intros l3 H23;
    inversion H23; subst; constructor; eauto.
Qed.

Lemma staff_step :
  forall db op,
    User.role (Transition.actor op) = "staff" ->
    NoDup (map CashAdvance._id (Db.cashAdvances db)) ->
    let db' := fst (Lifecycle.step db op) in
    Db.advances db' = Db.advances db
    /\ Db.users db' = Db.users db
    /\ Forall2 (fun c c' =>
                  c' = c
                  \/ (CashAdvance.status c = "approved"
                      /\ CashAdvance.status c' = "retired"
                      /\ CashAdvance.user c = User._id (Transition.actor op)))
               (Db.cashAdvances db) (Db.cashAdvances db').
Proof.
  intros db op Hrole Hnd db'. subst db'.
  assert (Hdenied : forall (A : Type) roles,
             includes roles "staff" = false ->
             exists denied, @Auth.authorize A roles (Transition.actor op)
                            = Some denied).
  { intros A roles H. unfold Auth.authorize. rewrite Hrole, H. cbn.
    eexists. reflexivity. }
  assert (Hsame : Forall2 (fun c c' =>
                             c' = c
                             \/ (CashAdvance.status c = "approved"
                                 /\ CashAdvance.status c' = "retired"
                                 /\ CashAdvance.user c
                                    = User._id (Transition.actor op)))
                          (Db.cashAdvances db) (Db.cashAdvances db)).
  { apply Forall2_refl. intro x. left. reflexivity. }
  destruct op as [now user id body|now user id body|now user id body
                  |user id|user id reason];
    cbn [Transition.actor] in *; cbn [Lifecycle.step Lifecycle.outcome fst snd].
  - unfold AdvanceRoutes.put_approve, Auth.canApprove.
    destruct (Hdenied Advance.t ["manager"; "finance"; "admin"] eq_refl)
      as [denied ->].
    conjs; [reflexivity|reflexivity|exact Hsame].
  - unfold AdvanceRoutes.put_disburse.
    destruct (Hdenied Advance.t ["finance"; "admin"] eq_refl) as [denied ->].
    conjs; [reflexivity|reflexivity|exact Hsame].
  - destruct (put_retire_cases now db user id body)
      as [(c & m & e & -> & _)|(a & Hf & Hs & ->)]; cbn [fst].
    + conjs; [reflexivity|reflexivity|exact Hsame].
    + apply findOwned_In in Hf. destruct Hf as (Hin & Hid & Hu).
      conjs; [reflexivity|reflexivity|].
      apply (Forall2_replace _ CashAdvance._id _ a); auto.
  - unfold ManagerRoutes.put_approve.
    destruct (Hdenied CashAdvance.t ["manager"] eq_refl) as [denied ->].
    conjs; [reflexivity|reflexivity|exact Hsame].
  - unfold ManagerRoutes.put_reject.
    destruct (Hdenied CashAdvance.t ["manager"] eq_refl) as [denied ->].
    conjs; [reflexivity|reflexivity|exact Hsame].
Qed.

(** X20.  Requests of staff members change nothing but their own
    retirements.  After any sequence of approval, disbursement, retirement
    and manager decision requests that all come from users with the role
    staff, the advances and the users are what they were, and in a store
    with distinct ids every cash advance is unchanged or went from
    [approved] to [retired] on a request of its owner. *)
Theorem staff_requests_change_only_own_retirements :
  forall (ops : list Lifecycle.operation) (db : Db.t),
    Forall (fun op => User.role (Transition.actor op) = "staff") ops ->
    NoDup (map CashAdvance._id (Db.cashAdvances db)) ->
    Db.advances (Lifecycle.run db ops) = Db.advances db
    /\ Db.users (Lifecycle.run db ops) = Db.users db
    /\ Forall2 (fun c c' =>
                  c' = c
                  \/ (CashAdvance.status c = "approved"
                      /\ CashAdvance.status c' = "retired"
                      /\ exists op, In op ops
                                    /\ CashAdvance.user c
                                       = User._id (Transition.actor op)))
               (Db.cashAdvances db) (Db.cashAdvances (Lifecycle.run db ops)).
Proof.
  induction ops as [|op ops IH]; intros db Hstaff Hnd; cbn [Lifecycle.run].
  - conjs; [reflexivity|reflexivity|].
    apply Forall2_refl. intro x. left. reflexivity.
  - inversion Hstaff as [|? ? Hop Hops]; subst.
    destruct (staff_step db op Hop Hnd) as (S1 & S2 & S3).
    destruct (run_keys [op] db) as (_ & K & _). cbn [Lifecycle.run] in K.
    destruct (IH (fst (Lifecycle.step db op)) Hops) as (I1 & I2 & I3);
      [rewrite K; exact Hnd|].
    conjs; [congruence|congruence|].
    eapply Forall2_compose; [|exact S3|exact I3].
    intros x y z [-> |(Hx & Hy & Hu)] [-> |(Hy' & Hz & (op' & Hin & Hu'))].
    + left. reflexivity.
    + right. conjs; [exact Hy'|exact Hz|].
      exists op'. split; [right; exact Hin|exact Hu'].
    + right. conjs; [exact Hx|exact Hy|].
      exists op. split; [left; reflexivity|exact Hu].
    + rewrite Hy in Hy'. discriminate Hy'.
Qed.

Lemma staff_requests_change_only_own_retirements_witness :
  let mine := Sample.cash_of 20 1 "approved" in
  let theirs := Sample.cash_of 21 5 "approved" in
  let a := Sample.advance_with 10 "ADV2025010001" "pending" in
  let db := Sample.db_of [a] [mine; theirs] in
  let ops := [Lifecycle.Approve 2000 Sample.staff 10
                (AdvanceRoutes.mkApproveBody (Some "approved") None);
              Lifecycle.Retire 2001 Sample.staff 21
                (CashAdvanceRoutes.mkRetireBody 2001 480 None);
              Lifecycle.Retire 2002 Sample.staff 20
                (CashAdvanceRoutes.mkRetireBody 2002 480 None);
              Lifecycle.ManagerApprove Sample.staff 21] in
  Forall (fun op => User.role (Transition.actor op) = "staff") ops
  /\ NoDup (map CashAdvance._id (Db.cashAdvances db))
  /\ Db.advances (Lifecycle.run db ops) = [a]
  /\ Db.cashAdvances (Lifecycle.run db ops)
     = [retired_from 2002 (CashAdvanceRoutes.mkRetireBody 2002 480 None) mine;
        theirs].
Proof.
  intros mine theirs a db ops.
  assert (Hstaff : Forall (fun op => User.role (Transition.actor op) = "staff") ops)
    by (repeat constructor).
  assert (Hnd : NoDup (map CashAdvance._id (Db.cashAdvances db))).
  { simpl. repeat constructor; simpl; intuition discriminate. }
  destruct (staff_requests_change_only_own_retirements ops db Hstaff Hnd)
    as (H1 & _ & _).
  conjs; [exact Hstaff|exact Hnd|exact H1|vm_compute; reflexivity].
Defined.

(** ** The reports on pending and overdue advances *)

Lemma filter_insert_asc :
  forall {A : Type} (key : A -> Z) (p : A -> bool) (x : A) (l : list A),
    StronglySorted (fun a b => (key a <= key b)%Z) l ->
    filter p (AdvanceViews.insert_asc key x l)
    = if p x then AdvanceViews.insert_asc key x (filter p l) else filter p l.
Proof.
  intros A key p x l H. induction H as [|y l Hl IH Hy];
    cbn [AdvanceViews.insert_asc filter].
  - destruct (p x); reflexivity.
  - destruct (key x <? key y)%Z eqn:E.
    + cbn [filter]. destruct (p x) eqn:Px.
      * destruct (p y) eqn:Py.
        -- cbn [AdvanceViews.insert_asc]. rewrite E. reflexivity.
        -- (* the next kept document is not before [x] either *)
           clear IH. apply Z.ltb_lt in E.
           induction l as [|z l IHl]; cbn [filter]; [reflexivity|].
           inversion Hl as [|? ? Hl' Hz]; subst.
           inversion Hy as [|? ? Hyz Hy']; subst.
           destruct (p z) eqn:Pz.
           ++ cbn [AdvanceViews.insert_asc].
              assert ((key x <? key z)%Z = true) by (apply Z.ltb_lt; lia).
              rewrite H. reflexivity.
           ++ apply IHl; assumption.
      * reflexivity.
    + cbn [filter]. rewrite IH. destruct (p y) eqn:Py; destruct (p x) eqn:Px;
        cbn [AdvanceViews.insert_asc]; rewrite ?E; reflexivity.
Qed.

Lemma filter_sort_asc :
  forall {A : Type} (key : A -> Z) (p : A -> bool) (l : list A),
    filter p (AdvanceViews.sort_asc key l)
    = AdvanceViews.sort_asc key (filter p l).
Proof.
  intros A key p l. unfold AdvanceViews.sort_asc.
  assert (H : forall acc,
             StronglySorted (fun a b => (key a <= key b)%Z) acc ->
             filter p (fold_left (fun acc x => AdvanceViews.insert_asc key x acc)
                                 l acc)
             = fold_left (fun acc x => AdvanceViews.insert_asc key x acc)
                         (filter p l) (filter p acc)).
  { induction l as [|x l IH]; intros acc Hacc; cbn [fold_left filter];
      [reflexivity|].
    rewrite IH by (apply insert_asc_sorted, Hacc).
    rewrite filter_insert_asc by exact Hacc.
    destruct (p x); reflexivity. }
  apply (H []). constructor.
Qed.

Lemma filter_filter :
  forall {A : Type} (p q : A -> bool) (l : list A),
    filter p (filter q l) = filter (fun x => q x && p x) l.
Proof.
  intros A p q l. induction l as [|x l IH]; cbn [filter]; [reflexivity|].
  destruct (q x); cbn [filter andb]; rewrite ?IH; reflexivity.
Qed.

Lemma amount_fold :
  forall (f : Advance.t -> Z) l acc,
    fold_left (fun sum adv => (sum + f adv)%Z) l acc
    = (acc + fold_right (fun adv sum => (f adv + sum)%Z) 0%Z l)%Z.
Proof.
  intros f l. induction l as [|a l IH]; intro acc; cbn.
  - lia.
  - rewrite IH. lia.
Qed.

Lemma length_two_statuses :
  forall (l : list Advance.t),
    Forall (fun a => Advance.status a = "pending"
                     \/ Advance.status a = "manager_approved") l ->
    List.length l
    = (List.length (filter (fun adv => String.eqb (Advance.status adv) "pending") l)
       + List.length
           (filter (fun adv => String.eqb (Advance.status adv) "manager_approved")
                   l))%nat.
Proof.
  intros l H. induction H as [|a l Ha Hl IH]; cbn [filter List.length];
    [reflexivity|].
  destruct Ha as [-> | ->]; cbn [String.eqb Ascii.eqb Bool.eqb List.length]; lia.
Qed.

(** X21.  The report [GET /api/reports/pending-advances] lists the active
    advances that wait for a manager or for finance, oldest request first,
    and splits them without loss: [totalPending] is the sum of
    [awaitingManagerApproval] and [awaitingFinanceApproval].  When every
    stored advance is active, its two categories are, entry by entry, the
    lists that [getPendingForApproval] gives to a manager and to finance.
    Staff is refused with 403. *)
Theorem pending_report_splits_the_approval_queues :
  forall (db : Db.t) (user : User.t),
    (includes ["manager"; "finance"; "admin"] (User.role user) = true ->
     exists report,
       Reports.get_pending_advances db user = Success 200 EmptyString report
       /\ (forall a,
              In a (Reports.pendingAdvances report) <->
              In a (Db.advances db) /\ Advance.isActive a = true
              /\ (Advance.status a = "pending"
                  \/ Advance.status a = "manager_approved"))
       /\ StronglySorted
            (fun a b => (Advance.requestDate a <= Advance.requestDate b)%Z)
            (Reports.pendingAdvances report)
       /\ Reports.totalPending (Reports.pending_summary report)
          = (Reports.awaitingManagerApproval (Reports.pending_summary report)
             + Reports.awaitingFinanceApproval (Reports.pending_summary report))%nat
       /\ Reports.totalPending (Reports.pending_summary report)
          = List.length (Reports.pendingAdvances report)
       /\ Reports.totalPendingAmount (Reports.pending_summary report)
          = fold_right (fun adv sum => (Advance.amount adv + sum)%Z) 0%Z
                       (Reports.pendingAdvances report)
       /\ (Forall (fun a => Advance.isActive a = true) (Db.advances db) ->
           forall uid,
             Reports.categorized_pending report
             = AdvanceViews.getPendingForApproval (Db.advances db) "manager" uid
             /\ Reports.categorized_managerApproved report
                = AdvanceViews.getPendingForApproval (Db.advances db) "finance" uid))
    /\ (User.role user = "staff" ->
        exists e,
          Reports.get_pending_advances db user
          = Failure 403 "Access denied. Insufficient permissions." e).
Proof.
  intros db user. split.
  - intro Hrole. unfold Reports.get_pending_advances.
    rewrite (authorize_member Reports.PendingReport) by exact Hrole.
    cbv zeta. eexists. split; [reflexivity|].
    cbn [Reports.pendingAdvances Reports.categorized_pending
         Reports.categorized_managerApproved Reports.pending_summary
         Reports.totalPending Reports.awaitingManagerApproval
         Reports.awaitingFinanceApproval Reports.totalPendingAmount].
    assert (Hin : forall a,
               In a (AdvanceViews.sort_asc Advance.requestDate
                       (filter (fun a => includes ["pending"; "manager_approved"]
                                                  (Advance.status a)
                                         && Advance.isActive a)
                               (Db.advances db))) <->
               In a (Db.advances db) /\ Advance.isActive a = true
               /\ (Advance.status a = "pending"
                   \/ Advance.status a = "manager_approved")).
    { intro a. split.
      - intro H. apply (Permutation_in _ (sort_asc_perm _ _)) in H.
        apply filter_In in H. destruct H as [H1 H2].
        apply andb_prop in H2. destruct H2 as [H2 H3].
        unfold includes in H2. cbn [existsb] in H2.
        rewrite !orb_true_iff, !String.eqb_eq in H2.
        conjs; [exact H1|exact H3|]. intuition discriminate.
      - intros (H1 & H2 & H3).
        apply (Permutation_in _ (Permutation_sym (sort_asc_perm _ _))).
        apply filter_In. split; [exact H1|]. rewrite H2, andb_true_r.
        destruct H3 as [-> | ->]; reflexivity. }
    conjs.
    + exact Hin.
    + apply sort_asc_sorted.
    + apply length_two_statuses. apply Forall_forall. intros a Ha.
      apply Hin in Ha. apply Ha.
    + reflexivity.
    + rewrite amount_fold. lia.
    + intros Hact uid. unfold AdvanceViews.getPendingForApproval.
      cbn [AdvanceViews.statusFilter String.eqb Ascii.eqb Bool.eqb].
      rewrite !filter_sort_asc, !filter_filter.
      split; f_equal; apply filter_ext_in; intros a Ha;
        rewrite Forall_forall in Hact; rewrite (Hact a Ha), andb_true_r;
        unfold includes; cbn [existsb];
        destruct (Advance.status a =? "pending") eqn:E1;
        destruct (Advance.status a =? "manager_approved") eqn:E2;
        try reflexivity;
        apply String.eqb_eq in E1; apply String.eqb_eq in E2; congruence.
  - intro Hrole. unfold Reports.get_pending_advances, Auth.authorize.
    rewrite Hrole. cbn. eexists. reflexivity.
Qed.

Lemma pending_report_splits_the_approval_queues_witness :
  let waiting := Sample.advance_with 10 "ADV2025010001" "pending" in
  let passed :=
    Advance.mk 11 (Some "ADV2025010002") 5 700 "conference registration" None
               500 9000 "manager_approved" [] None None "high" true in
  let db := Sample.db_of [waiting; passed;
                          Sample.advance_with 12 "ADV2025010003" "rejected"] [] in
  includes ["manager"; "finance"; "admin"] (User.role Sample.finance) = true
  /\ Forall (fun a => Advance.isActive a = true) (Db.advances db)
  /\ exists report,
      Reports.get_pending_advances db Sample.finance
      = Success 200 EmptyString report
      /\ Reports.pendingAdvances report = [passed; waiting]
      /\ Reports.categorized_managerApproved report
         = AdvanceViews.getPendingForApproval (Db.advances db) "finance" 3.
Proof.
  intros waiting passed db.
  assert (Hact : Forall (fun a => Advance.isActive a = true) (Db.advances db))
    by (repeat constructor).
  destruct (pending_report_splits_the_approval_queues db Sample.finance)
    as [H _].
  destruct (H eq_refl) as (report & H1 & _ & _ & _ & _ & _ & H7).
  conjs; [reflexivity|exact Hact|].
  exists report. conjs; [exact H1| |apply (H7 Hact 3%nat)].
  assert (E : Reports.get_pending_advances db Sample.finance
              = Success 200 EmptyString
                  (Reports.mkPendingReport
                     [passed; waiting] [waiting] [passed]
                     (Reports.mkPendingSummary 2 1 1 1200)))
    by (vm_compute; reflexivity).
  rewrite E in H1. injection H1 as <-. reflexivity.
Defined.

Lemma run_keeps_settled :
  forall ops db a,
    NoDup (map Advance._id (Db.advances db)) ->
    In a (Db.advances db) ->
    (forall a', ~ Transition.advance_step a a') ->
    In a (Db.advances (Lifecycle.run db ops)).
Proof.
  induction ops as [|op ops IH]; intros db a Hnd Hin Hno; cbn [Lifecycle.run];
    [exact Hin|].
  destruct (run_keys [op] db) as (K & _ & _). cbn [Lifecycle.run] in K.
  apply IH; [rewrite K; exact Hnd| |exact Hno].
  destruct (step_store db op) as [_ [->|[(a0 & a0' & Hin0 & Hs & Hid & -> & _)
                                        |(c & c' & _ & _ & _ & _ & ->)]]];
    try exact Hin.
  apply (In_replace_other Advance._id); [exact Hin|].
  intro Heq.
  assert (a = a0)
    by (apply (NoDup_key_inj Advance._id (Db.advances db));
        [assumption..|congruence]).
  subst a0. apply (Hno a0' Hs).
Qed.

Lemma disbursed_is_settled :
  forall a a', Advance.status a = "disbursed" -> ~ Transition.advance_step a a'.
Proof.
  intros a a' Hs H.
  destruct (advance_step_cases a a' H)
    as [(? & ? & ? & E & _)|[(? & ? & ? & E & _)|[(? & ? & ? & E & _)
       |[(? & ? & ? & E & _)|(? & ? & ? & E & _)]]]];
    rewrite Hs in E; discriminate E.
Qed.

(** X22.  The report [GET /api/reports/overdue-returns] lists exactly
    the active disbursed advances whose expected return date lies before
    today, the longest overdue first, each with the number of whole days
    since that date, which is never negative.  No request takes an advance
    off the report: in a store with distinct ids an advance that is
    overdue today is still listed at any later day after any sequence of
    approval, disbursement, retirement and manager decision requests. *)
Theorem overdue_report_lists_disbursed_past_due :
  forall (today : Date) (db : Db.t) (user : User.t),
    includes ["finance"; "admin"] (User.role user) = true ->
    exists report,
      Reports.get_overdue_returns today db user = Success 200 EmptyString report
      /\ (forall a,
             In a (map Reports.advance (Reports.overdueAdvances report)) <->
             In a (Db.advances db) /\ Advance.status a = "disbursed"
             /\ (Advance.expectedReturnDate a < today)%Z
             /\ Advance.isActive a = true)
      /\ (forall o,
             In o (Reports.overdueAdvances report) ->
             let late := (today - Advance.expectedReturnDate (Reports.advance o))%Z in
             (0 <= Reports.daysOverdue o)%Z
             /\ (Reports.daysOverdue o * 86400000 <= late
                 < (Reports.daysOverdue o + 1) * 86400000)%Z)
      /\ StronglySorted
           (fun o1 o2 => (Reports.daysOverdue o2 <= Reports.daysOverdue o1)%Z)
           (Reports.overdueAdvances report)
      /\ Reports.totalOverdue (Reports.overdue_summary report)
         = List.length (Reports.overdueAdvances report)
      /\ (NoDup (map Advance._id (Db.advances db)) ->
          forall ops later a,
            (today <= later)%Z ->
            In a (map Reports.advance (Reports.overdueAdvances report)) ->
            exists report',
              Reports.get_overdue_returns later (Lifecycle.run db ops) user
              = Success 200 EmptyString report'
              /\ In a (map Reports.advance (Reports.overdueAdvances report'))).
Proof.
  intros today db user Hrole.
  assert (Hget : forall t d,
             Reports.get_overdue_returns t d user
             = Success 200 EmptyString
                 (Reports.mkOverdueReport
                    (map (fun advance =>
                            Reports.mkOverdue advance
                              ((t - Advance.expectedReturnDate advance)
                                 / (1000 * 60 * 60 * 24))%Z)
                         (AdvanceViews.sort_asc Advance.expectedReturnDate
                            (filter (Reports.is_overdue t) (Db.advances d))))
                    (Reports.mkOverdueSummary
                       (List.length
                          (AdvanceViews.sort_asc Advance.expectedReturnDate
                             (filter (Reports.is_overdue t) (Db.advances d))))
                       (fold_left (fun sum adv => (sum + Reports.amount_out adv)%Z)
                          (AdvanceViews.sort_asc Advance.expectedReturnDate
                             (filter (Reports.is_overdue t) (Db.advances d)))
                          0%Z)))).
  { intros t d. unfold Reports.get_overdue_returns.
    rewrite (authorize_member Reports.OverdueReport) by exact Hrole.
    reflexivity. }
  assert (Hin : forall t d a,
             In a (map Reports.advance
                     (map (fun advance =>
                             Reports.mkOverdue advance
                               ((t - Advance.expectedReturnDate advance)
                                  / (1000 * 60 * 60 * 24))%Z)
                          (AdvanceViews.sort_asc Advance.expectedReturnDate
                             (filter (Reports.is_overdue t) (Db.advances d))))) <->
             In a (Db.advances d) /\ Advance.status a = "disbursed"
             /\ (Advance.expectedReturnDate a < t)%Z
             /\ Advance.isActive a = true).
  { intros t d a. rewrite map_map. cbn [Reports.advance]. rewrite map_id.
    split.
    - intro H. apply (Permutation_in _ (sort_asc_perm _ _)) in H.
      apply filter_In in H. destruct H as [H1 H2].
      unfold Reports.is_overdue in H2.
      apply andb_prop in H2. destruct H2 as [H2 H4].
      apply andb_prop in H2. destruct H2 as [H2 H3].
      apply String.eqb_eq in H2. apply Z.ltb_lt in H3. auto.
    - intros (H1 & H2 & H3 & H4).
      apply (Permutation_in _ (Permutation_sym (sort_asc_perm _ _))).
      apply filter_In. split; [exact H1|]. unfold Reports.is_overdue.
      apply Z.ltb_lt in H3. rewrite H2, H3, H4. reflexivity. }
  eexists. split; [apply Hget|].
  cbn [Reports.overdueAdvances Reports.overdue_summary Reports.totalOverdue].
  conjs.
  - apply Hin.
  - intros o Ho. apply in_map_iff in Ho. destruct Ho as (a & <- & Ha).
    cbn [Reports.advance Reports.daysOverdue] in *.
    apply (Permutation_in _ (sort_asc_perm _ _)) in Ha.
    apply filter_In in Ha. destruct Ha as [_ Ha].
    unfold Reports.is_overdue in Ha.
    apply andb_prop in Ha. destruct Ha as [Ha _].
    apply andb_prop in Ha. destruct Ha as [_ Ha]. apply Z.ltb_lt in Ha.
    change (1000 * 60 * 60 * 24)%Z with 86400000%Z.
    pose proof (Z.div_mod (today - Advance.expectedReturnDate a) 86400000).
    pose proof (Z.mod_pos_bound (today - Advance.expectedReturnDate a) 86400000).
    split; [apply Z.div_pos; lia|lia].
  - pose proof (sort_asc_sorted Advance.expectedReturnDate
                  (filter (Reports.is_overdue today) (Db.advances db))) as Hs.
    induction Hs as [|a l Hl IH Ha]; cbn [map]; constructor; [exact IH|].
    rewrite Forall_forall in *. intros o Ho.
    apply in_map_iff in Ho. destruct Ho as (b & <- & Hb).
    cbn [Reports.daysOverdue]. specialize (Ha b Hb).
    apply Z.div_le_mono; lia.
  - rewrite length_map. reflexivity.
  - intros Hnd ops later a Hlater Ha.
    eexists. split; [apply Hget|]. cbn [Reports.overdueAdvances].
    apply Hin. apply Hin in Ha. destruct Ha as (H1 & H2 & H3 & H4).
    conjs; [|exact H2|lia|exact H4].
    apply run_keeps_settled; [exact Hnd|exact H1|].
    intro a'. apply disbursed_is_settled, H2.
Qed.

Lemma overdue_report_lists_disbursed_past_due_witness :
  let day := 86400000%Z in
  let out :=
    Advance.mk 10 (Some "ADV2025010001") 1 500 "travel reimbursement" None 1000
               (3 * day) "disbursed" [] 
               (Some (Advance.mkDisbursement 3 2000 450 "cash" None))
               None "medium" true in
  let db := Sample.db_of [out; Sample.advance_with 11 "ADV2025010002" "pending"] [] in
  includes ["finance"; "admin"] (User.role Sample.finance) = true
  /\ Reports.get_overdue_returns (5 * day + 1) db Sample.finance
     = Success 200 EmptyString
         (Reports.mkOverdueReport [Reports.mkOverdue out 2]
                                  (Reports.mkOverdueSummary 1 450))
  /\ exists report,
      Reports.get_overdue_returns (5 * day + 1) db Sample.finance
      = Success 200 EmptyString report
      /\ Reports.totalOverdue (Reports.overdue_summary report)
         = List.length (Reports.overdueAdvances report).
Proof.
  intros day out db.
  destruct (overdue_report_lists_disbursed_past_due
              (5 * day + 1) db Sample.finance eq_refl)
    as (report & H1 & _ & _ & _ & H5 & _).
  conjs; [reflexivity|vm_compute; reflexivity|].
  exists report. split; [exact H1|exact H5].
Defined.

(** ** The summary report *)

Lemma sums_perm :
  forall l l',
    Permutation l l' ->
    Aggregate.sum_count l = Aggregate.sum_count l'
    /\ Aggregate.sum_amount l = Aggregate.sum_amount l'.
Proof.
  intros l l' H. induction H as [|x l l' H [IH1 IH2]|x y l|l l' l'' H1 [I1 I2] H2 [I3 I4]].
  - split; reflexivity.
  - rewrite !sum_count_cons, !sum_amount_cons, IH1, IH2. split; reflexivity.
  - rewrite !sum_count_cons, !sum_amount_cons. split; lia.
  - split; congruence.
Qed.

Lemma group_by_sums :
  forall docs,
    Aggregate.sum_count (Reports.group_by docs) = List.length docs
    /\ Aggregate.sum_amount (Reports.group_by docs)
       = fold_right (fun d sum => (snd d + sum)%Z) 0%Z docs.
Proof.
  intro docs. unfold Reports.group_by.
  assert (H : forall gs,
             Aggregate.sum_count
               (fold_left (fun groups d => Aggregate.add (fst d) (snd d) groups)
                          docs gs)
             = (Aggregate.sum_count gs + List.length docs)%nat
             /\ Aggregate.sum_amount
                  (fold_left (fun groups d => Aggregate.add (fst d) (snd d) groups)
                             docs gs)
                = (Aggregate.sum_amount gs
                   + fold_right (fun d sum => (snd d + sum)%Z) 0%Z docs)%Z).
  { induction docs as [|d docs IH]; intro gs; cbn [fold_left fold_right List.length].
    - split; lia.
    - destruct (IH (Aggregate.add (fst d) (snd d) gs)) as [-> ->].
      destruct (add_sums (fst d) (snd d) gs) as [-> ->]. split; lia. }
  destruct (H []) as [-> ->]. cbn. split; lia.
Qed.

Lemma insert_group_perm :
  forall x l, Permutation (Reports.insert_group x l) (x :: l).
Proof.
  intros x l. induction l as [|y l IH]; cbn [Reports.insert_group].
  - apply Permutation_refl.
  - destruct (String.ltb _ _).
    + apply Permutation_refl.
    + eapply Permutation_trans; [apply perm_skip, IH|apply perm_swap].
Qed.

Lemma sort_by_id_perm :
  forall l, Permutation (Reports.sort_by_id l) l.
Proof.
  intro l. unfold Reports.sort_by_id.
  assert (H : forall acc,
             Permutation (fold_left (fun acc x => Reports.insert_group x acc) l acc)
                         (acc ++ l)%list).
  { induction l as [|x l IH]; intro acc; cbn [fold_left].
    - rewrite app_nil_r. apply Permutation_refl.
    - eapply Permutation_trans; [apply IH|].
      eapply Permutation_trans;
        [apply Permutation_app_tail, insert_group_perm|].
      cbn. apply Permutation_middle. }
  apply (H []).
Qed.

Lemma totals_fold :
  forall docs acc,
    let t := fold_left Reports.accumulate docs acc in
    Reports.totalRequests t = (Reports.totalRequests acc + List.length docs)%nat
    /\ Reports.totalAmount t
       = (Reports.totalAmount acc
          + fold_right (fun d sum => (Advance.amount (fst d) + sum)%Z) 0%Z docs)%Z
    /\ ((Reports.approvedAmount acc + Reports.pendingAmount acc
         <= Reports.totalAmount acc)%Z ->
        Forall (fun d => (0 <= Advance.amount (fst d))%Z) docs ->
        (Reports.approvedAmount t + Reports.pendingAmount t
         <= Reports.totalAmount t)%Z).
Proof.
  induction docs as [|d docs IH]; intro acc; cbn [fold_left fold_right List.length].
  - cbv zeta. conjs; [lia|lia|intros H _; exact H].
  - destruct (IH (Reports.accumulate acc d)) as (I1 & I2 & I3).
    cbv zeta in *.
    conjs;
      [rewrite I1; cbn [Reports.accumulate Reports.totalRequests]; lia
      |rewrite I2; cbn [Reports.accumulate Reports.totalAmount]; lia|].
    intros Hacc Hpos. inversion Hpos as [|? ? Hd Hdocs]; subst.
    apply I3; [|exact Hdocs].
    cbn [Reports.accumulate Reports.totalAmount Reports.approvedAmount
         Reports.pendingAmount].
    unfold Reports.cond_in, includes. cbn [existsb].
    destruct (Advance.status (fst d) =? "finance_approved") eqn:E1;
      [apply String.eqb_eq in E1; rewrite E1; cbn; lia|].
    destruct (Advance.status (fst d) =? "disbursed") eqn:E2;
      [apply String.eqb_eq in E2; rewrite E2; cbn; lia|].
    destruct (Advance.status (fst d) =? "retired") eqn:E3;
      [apply String.eqb_eq in E3; rewrite E3; cbn; lia|].
    cbn [orb].
    destruct (Advance.status (fst d) =? "pending");
      destruct (Advance.status (fst d) =? "manager_approved"); cbn [orb]; lia.
Qed.

Lemma summary_totals :
  forall (docs : list (Advance.t * User.t)),
    let t := match Reports.group_null Reports.accumulate Reports.no_totals docs with
             | summary0 :: _ => summary0
             | [] => Reports.no_totals
             end in
    Reports.totalRequests t = List.length docs
    /\ Reports.totalAmount t
       = fold_right (fun d sum => (Advance.amount (fst d) + sum)%Z) 0%Z docs
    /\ (Forall (fun d => (0 <= Advance.amount (fst d))%Z) docs ->
        (Reports.approvedAmount t + Reports.pendingAmount t
         <= Reports.totalAmount t)%Z).
Proof.
  intro docs. destruct docs as [|d docs].
  - cbn. conjs; [reflexivity|reflexivity|intros _; lia].
  - cbn [Reports.group_null]. cbv zeta.
    destruct (totals_fold (d :: docs) Reports.no_totals) as (H1 & H2 & H3).
    cbv zeta in H1, H2, H3.
    conjs; [rewrite H1; cbn; lia|rewrite H2; cbn; lia|].
    intro Hpos. apply H3; [cbn; lia|exact Hpos].
Qed.

Lemma fold_right_map_snd :
  forall (A : Type) (key : A -> string) (amount : A -> Z) (l : list A),
    fold_right (fun d sum => (snd d + sum)%Z) 0%Z
               (map (fun d => (key d, amount d)) l)
    = fold_right (fun d sum => (amount d + sum)%Z) 0%Z l.
Proof.
  intros A key amount l. induction l as [|x l IH]; cbn; [reflexivity|].
  rewrite IH. reflexivity.
Qed.

(** X23.  In [GET /api/reports/summary] the totals of the summary are the
    totals of the status breakdown: [totalRequests] is the sum of the
    counts and [totalAmount] the sum of the amounts of the groups, over the
    active advances in the date range whose requester is still stored.  The
    department filter narrows the summary and the status breakdown but not
    the department breakdown, whose counts add up to all matched advances.
    [approvedAmount] and [pendingAmount] together never exceed
    [totalAmount] when no stored amount is negative. *)
Theorem summary_report_totals_agree :
  forall (db : Db.t) (user : User.t) (q : Reports.SummaryQuery),
    includes ["manager"; "finance"; "admin"] (User.role user) = true ->
    let matched :=
      Reports.lookup_requester db (filter (Reports.matchFilter q) (Db.advances db)) in
    let docs := filter (Reports.departmentFilter q) matched in
    exists report,
      Reports.get_summary db user q = Success 200 EmptyString report
      /\ Reports.totalRequests (Reports.summary report) = List.length docs
      /\ Aggregate.sum_count (Reports.statusBreakdown report)
         = Reports.totalRequests (Reports.summary report)
      /\ Aggregate.sum_amount (Reports.statusBreakdown report)
         = Reports.totalAmount (Reports.summary report)
      /\ Aggregate.sum_count (Reports.departmentBreakdown report)
         = List.length matched
      /\ (Reports.totalRequests (Reports.summary report)
          <= Aggregate.sum_count (Reports.departmentBreakdown report))%nat
      /\ (Forall (fun a => (0 <= Advance.amount a)%Z) (Db.advances db) ->
          (Reports.approvedAmount (Reports.summary report)
           + Reports.pendingAmount (Reports.summary report)
           <= Reports.totalAmount (Reports.summary report))%Z)
      /\ (forall d, In d matched ->
                    In (fst d) (Db.advances db) /\ In (snd d) (Db.users db)
                    /\ User._id (snd d) = Advance.requester (fst d)
                    /\ Advance.isActive (fst d) = true).
Proof.
  intros db user q Hrole matched docs.
  unfold Reports.get_summary.
  rewrite (authorize_member Reports.Summary) by exact Hrole.
  cbv zeta. fold matched. fold docs. eexists. split; [reflexivity|].
  cbn [Reports.summary Reports.statusBreakdown Reports.departmentBreakdown].
  destruct (summary_totals docs) as (T1 & T2 & T3). cbv zeta in T1, T2, T3.
  assert (Hmatched : forall d, In d matched ->
                               In (fst d) (Db.advances db)
                               /\ In (snd d) (Db.users db)
                               /\ User._id (snd d) = Advance.requester (fst d)
                               /\ Advance.isActive (fst d) = true).
  { intros d Hd. unfold matched, Reports.lookup_requester in Hd.
    apply in_flat_map in Hd. destruct Hd as (a & Ha & Hd).
    apply in_map_iff in Hd. destruct Hd as (u & <- & Hu).
    apply filter_In in Ha. destruct Ha as [Ha Hm].
    apply filter_In in Hu. destruct Hu as [Hu Hid].
    cbn [fst snd]. conjs; [exact Ha|exact Hu|apply Nat.eqb_eq, Hid|].
    unfold Reports.matchFilter in Hm.
    apply andb_prop in Hm. destruct Hm as [Hm _].
    apply andb_prop in Hm. destruct Hm as [Hm _].
    apply andb_prop in Hm. destruct Hm as [Hm _]. exact Hm. }
  assert (Hdept : Aggregate.sum_count
                    (Listing.sort_desc Aggregate.totalAmount
                       (Reports.group_by
                          (map (fun d => (User.department (snd d),
                                          Advance.amount (fst d))) matched)))
                  = List.length matched).
  { destruct (sums_perm _ _ (sort_desc_perm Aggregate.totalAmount
                               (Reports.group_by
                                  (map (fun d => (User.department (snd d),
                                                  Advance.amount (fst d)))
                                       matched)))) as [-> _].
    destruct (group_by_sums
                (map (fun d => (User.department (snd d), Advance.amount (fst d)))
                     matched)) as [-> _].
    apply length_map. }
  destruct (sums_perm _ _ (sort_by_id_perm
                             (Reports.group_by
                                (map (fun d => (Advance.status (fst d),
                                                Advance.amount (fst d))) docs))))
    as [S1 S2].
  destruct (group_by_sums
              (map (fun d => (Advance.status (fst d), Advance.amount (fst d)))
                   docs)) as [G1 G2].
  conjs.
  - exact T1.
  - rewrite S1, G1, T1. apply length_map.
  - rewrite S2, G2, T2.
    apply (fold_right_map_snd _ (fun d => Advance.status (fst d))
                              (fun d => Advance.amount (fst d))).
  - exact Hdept.
  - rewrite Hdept, T1. unfold docs. apply filter_length_le.
  - intro Hpos. apply T3. apply Forall_forall. intros d Hd.
    unfold docs in Hd. apply filter_In in Hd. destruct Hd as [Hd _].
    rewrite Forall_forall in Hpos. apply Hpos. apply (Hmatched d Hd).
  - exact Hmatched.
Qed.

Lemma summary_report_totals_agree_witness :
  let sales := Sample.advance_of 10 1 "ADV2025010001" "pending" in
  let fin := Sample.advance_of 11 3 "ADV2025010002" "disbursed" in
  let orphan := Sample.advance_of 12 77 "ADV2025010003" "pending" in
  let db := Sample.db_of [sales; fin; orphan] [] in
  let q := Reports.mkSummaryQuery None None (Some "Sales") None in
  includes ["manager"; "finance"; "admin"] (User.role Sample.finance) = true
  /\ exists report,
      Reports.get_summary db Sample.finance q = Success 200 EmptyString report
      /\ Reports.totalRequests (Reports.summary report) = 1%nat
      /\ Aggregate.sum_count (Reports.statusBreakdown report) = 1%nat
      /\ Aggregate.sum_count (Reports.departmentBreakdown report) = 2%nat.
Proof.
  intros sales fin orphan db q.
  destruct (summary_report_totals_agree db Sample.finance q eq_refl)
    as (report & H1 & H2 & H3 & _ & H5 & _).
  split; [reflexivity|].
  exists report. conjs; [exact H1| | |].
  - rewrite H2. vm_compute. reflexivity.
  - rewrite H3, H2. vm_compute. reflexivity.
  - rewrite H5. vm_compute. reflexivity.
Defined.

(** ** The requests of one team member *)

Lemma get_set_same :
  forall k v obj, ManagerViews.get k (ManagerViews.set k v obj) = v.
Proof.
  intros k v obj. unfold ManagerViews.get.
  induction obj as [|[k' v'] obj IH]; cbn [ManagerViews.set find fst snd].
  - rewrite String.eqb_refl. reflexivity.
  - destruct (k' =? k) eqn:E; cbn [find fst snd].
    + rewrite String.eqb_refl. reflexivity.
    + rewrite E. exact IH.
Qed.

Lemma get_set_other :
  forall k k' v obj,
    k <> k' -> ManagerViews.get k (ManagerViews.set k' v obj) = ManagerViews.get k obj.
Proof.
  intros k k' v obj Hne. unfold ManagerViews.get.
  induction obj as [|[k0 v0] obj IH]; cbn [ManagerViews.set find fst snd].
  - apply String.eqb_neq in Hne. rewrite String.eqb_sym, Hne. reflexivity.
  - destruct (k0 =? k') eqn:E; cbn [find fst snd].
    + apply String.eqb_eq in E. subst k0.
      apply String.eqb_neq in Hne. rewrite String.eqb_sym, Hne. reflexivity.
    + destruct (k0 =? k); [reflexivity|exact IH].
Qed.

Lemma set_keys :
  forall k v obj,
    In k (map fst obj) ->
    map fst (ManagerViews.set k v obj) = map fst obj.
Proof.
  intros k v obj. induction obj as [|[k0 v0] obj IH]; [intros []|].
  cbn [ManagerViews.set map fst]. intro Hin.
  destruct (k0 =? k) eqn:E; cbn [map fst].
  - apply String.eqb_eq in E. subst k0. reflexivity.
  - f_equal. apply IH. destruct Hin as [H|H]; [|exact H].
    apply String.eqb_neq in E. contradiction.
Qed.

Lemma count_stat_spec :
  forall obj g,
    Aggregate._id g <> "total" -> Aggregate._id g <> "totalAmount" ->
    let obj' := ManagerViews.count_stat obj g in
    ManagerViews.get "total" obj'
    = (ManagerViews.get "total" obj + Z.of_nat (Aggregate.count g))%Z
    /\ ManagerViews.get "totalAmount" obj'
       = (ManagerViews.get "totalAmount" obj + Aggregate.totalAmount g)%Z
    /\ (forall k, k <> "total" -> k <> "totalAmount" ->
                  ManagerViews.get k obj'
                  = if Aggregate._id g =? k
                    then Z.of_nat (Aggregate.count g)
                    else ManagerViews.get k obj)
    /\ (In (Aggregate._id g) (map fst obj) -> In "total" (map fst obj) ->
        In "totalAmount" (map fst obj) ->
        map fst obj' = map fst obj).
Proof.
  intros obj g H1 H2 obj'. subst obj'. unfold ManagerViews.count_stat.
  cbv zeta. conjs.
  - rewrite get_set_other by discriminate. rewrite get_set_same.
    rewrite get_set_other by (intro E; apply H1; symmetry; exact E).
    reflexivity.
  - rewrite get_set_same. rewrite get_set_other by discriminate.
    rewrite get_set_other by (intro E; apply H2; symmetry; exact E).
    unfold or_number. destruct (Aggregate.totalAmount g =? 0)%Z eqn:E;
      [apply Z.eqb_eq in E; rewrite E|]; reflexivity.
  - intros k K1 K2. rewrite !get_set_other by assumption.
    destruct (Aggregate._id g =? k) eqn:E.
    + apply String.eqb_eq in E. subst k. apply get_set_same.
    + apply get_set_other. intro Hk. subst k.
      rewrite String.eqb_refl in E. discriminate E.
  - intros K0 K1 K2.
    rewrite set_keys; [rewrite set_keys; [apply set_keys, K0|]|].
    + rewrite set_keys by exact K0. exact K1.
    + rewrite set_keys; [rewrite set_keys by exact K0; exact K2|].
      rewrite set_keys by exact K0. exact K1.
Qed.

Lemma count_stats_fold :
  forall gs obj,
    NoDup (map Aggregate._id gs) ->
    (forall g, In g gs ->
               Aggregate._id g <> "total" /\ Aggregate._id g <> "totalAmount"
               /\ In (Aggregate._id g) (map fst obj)) ->
    In "total" (map fst obj) -> In "totalAmount" (map fst obj) ->
    let final := fold_left ManagerViews.count_stat gs obj in
    ManagerViews.get "total" final
    = (ManagerViews.get "total" obj + Z.of_nat (Aggregate.sum_count gs))%Z
    /\ ManagerViews.get "totalAmount" final
       = (ManagerViews.get "totalAmount" obj + Aggregate.sum_amount gs)%Z
    /\ (forall k, k <> "total" -> k <> "totalAmount" ->
                  ManagerViews.get k final
                  = match find (fun g => Aggregate._id g =? k) gs with
                    | Some g => Z.of_nat (Aggregate.count g)
                    | None => ManagerViews.get k obj
                    end)
    /\ map fst final = map fst obj.
Proof.
  induction gs as [|g gs IH]; intros obj Hnd Hids Kt Ka; cbn [fold_left].
  - cbv zeta. cbn. conjs; try reflexivity; lia.
  - cbn [map] in Hnd. inversion Hnd as [|? ? Hnotin Hnd']; subst.
    destruct (Hids g (or_introl eq_refl)) as (G1 & G2 & G3).
    destruct (count_stat_spec obj g G1 G2) as (C1 & C2 & C3 & C4).
    cbv zeta in C1, C2, C3, C4. specialize (C4 G3 Kt Ka).
    destruct (IH (ManagerViews.count_stat obj g) Hnd') as (I1 & I2 & I3 & I4).
    + intros g' Hg'. destruct (Hids g' (or_intror Hg')) as (A1 & A2 & A3).
      conjs; [exact A1|exact A2|]. rewrite C4. exact A3.
    + rewrite C4. exact Kt.
    + rewrite C4. exact Ka.
    + cbv zeta in *. conjs.
      * rewrite I1, C1, sum_count_cons. lia.
      * rewrite I2, C2, sum_amount_cons. lia.
      * intros k K1 K2. rewrite (I3 k K1 K2), (C3 k K1 K2). cbn [find].
        destruct (Aggregate._id g =? k) eqn:E; [|reflexivity].
        apply String.eqb_eq in E. subst k.
        destruct (find _ gs) as [g'|] eqn:F; [|reflexivity].
        apply find_some in F. destruct F as [Hin Heq].
        apply String.eqb_eq in Heq. exfalso. apply Hnotin.
        rewrite <- Heq. apply in_map, Hin.
      * rewrite I4. exact C4.
Qed.

Lemma status_groups_keys :
  forall docs,
    NoDup (map Aggregate._id (Aggregate.group_by_status docs))
    /\ (forall g, In g (Aggregate.group_by_status docs) ->
                  exists a, In a docs /\ CashAdvance.status a = Aggregate._id g).
Proof.
  intro docs. unfold Aggregate.group_by_status.
  assert (Hadd : forall s amt gs,
             NoDup (map Aggregate._id gs) ->
             NoDup (map Aggregate._id (Aggregate.add s amt gs))
             /\ (forall g, In g (Aggregate.add s amt gs) ->
                           Aggregate._id g = s
                           \/ In (Aggregate._id g) (map Aggregate._id gs))).
  { intros s amt gs. induction gs as [|g gs IH]; intro Hnd; cbn [Aggregate.add].
    - split; [repeat constructor; intros []|].
      intros g [<-|[]]. left. reflexivity.
    - inversion Hnd as [|? ? Hnotin Hnd']; subst.
      destruct (Aggregate._id g =? s) eqn:E.
      + apply String.eqb_eq in E. cbn [map Aggregate._id]. rewrite <- E. split.
        * constructor; assumption.
        * intros g' [<-|H]; [left; reflexivity|].
          right. right. apply in_map, H.
      + destruct (IH Hnd') as [I1 I2]. cbn [map]. split.
        * constructor; [|exact I1]. intro H. apply in_map_iff in H.
          destruct H as (g' & Hid & Hg'). destruct (I2 g' Hg') as [Hs|Hs].
          -- apply String.eqb_neq in E. congruence.
          -- apply Hnotin. rewrite <- Hid. exact Hs.
        * intros g' [<-|H]; [right; left; reflexivity|].
          destruct (I2 g' H) as [Hs|Hs]; [left; exact Hs|right; right; exact Hs]. }
  assert (H : forall gs,
             NoDup (map Aggregate._id gs) ->
             let final := fold_left
                            (fun groups a => Aggregate.add (CashAdvance.status a)
                                                           (CashAdvance.amount a)
                                                           groups) docs gs in
             NoDup (map Aggregate._id final)
             /\ (forall g, In g final ->
                           In (Aggregate._id g) (map Aggregate._id gs)
                           \/ exists a, In a docs
                                        /\ CashAdvance.status a = Aggregate._id g)).
  { induction docs as [|a docs IH]; intros gs Hnd; cbn [fold_left].
    - cbv zeta. split; [exact Hnd|]. intros g Hg. left. apply in_map, Hg.
    - destruct (Hadd (CashAdvance.status a) (CashAdvance.amount a) gs Hnd)
        as [A1 A2].
      destruct (IH _ A1) as [I1 I2]. cbv zeta in *. split; [exact I1|].
      intros g Hg. destruct (I2 g Hg) as [Hin|(b & Hb & Hs)].
      + apply in_map_iff in Hin. destruct Hin as (g' & Hid & Hg').
        destruct (A2 g' Hg') as [Hs|Hs].
        * right. exists a. split; [left; reflexivity|congruence].
        * left. rewrite <- Hid. exact Hs.
      + right. exists b. split; [right; exact Hb|exact Hs]. }
  destruct (H [] (NoDup_nil _)) as [H1 H2]. cbv zeta in H1, H2.
  split; [exact H1|].
  intros g Hg. destruct (H2 g Hg) as [[]|H']. exact H'.
Qed.

Lemma status_counts_shape :
  forall obj : ManagerViews.object,
    map fst obj = ["pending"; "approved"; "rejected"; "retired"; "total";
                   "totalAmount"] ->
    obj = [("pending", ManagerViews.get "pending" obj);
           ("approved", ManagerViews.get "approved" obj);
           ("rejected", ManagerViews.get "rejected" obj);
           ("retired", ManagerViews.get "retired" obj);
           ("total", ManagerViews.get "total" obj);
           ("totalAmount", ManagerViews.get "totalAmount" obj)].
Proof.
  intros obj H.
  destruct obj as [|[k1 v1] [|[k2 v2] [|[k3 v3] [|[k4 v4] [|[k5 v5]
                  [|[k6 v6] [|? ?]]]]]]]; try discriminate H.
  cbn [map fst] in H.
  injection H as -> -> -> -> -> ->. reflexivity.
Qed.

(** X24.  [GET /api/manager/team-members/:id/requests] answers 404 unless
    the id is that of an active staff member of the manager's department.
    For a team member it lists requests of that user only, and when every
    stored status is one of the four of the schema, the statistics it
    attaches count the user's requests by status, with [total] their number
    (the sum of the four counts) and [totalAmount] the sum of their
    amounts. *)
Theorem member_requests_are_for_team_members_only :
  forall (db : Db.t) (user : User.t) (id : ObjectId) (q : ManagerViews.MemberQuery),
    User.role user = "manager" ->
    let found :=
      find (fun u => Nat.eqb (User._id u) id && ManagerViews.is_team_member user u)
           (Db.users db) in
    (found = None ->
     ManagerViews.get_member_requests db user id q
     = Failure 404 "Team member not found" [])
    /\ (forall member (l p : nat),
           found = Some member ->
           JS.parseInt_or (ManagerViews.member_page q) 1 = JS.Int (Z.of_nat p) ->
           JS.parseInt_or (ManagerViews.member_limit q) 10 = JS.Int (Z.of_nat l) ->
           (1 <= p)%nat -> (1 <= l)%nat ->
           let own := Tally.owned id (Db.cashAdvances db) in
           exists report,
             ManagerViews.get_member_requests db user id q
             = Success 200 EmptyString report
             /\ ManagerViews.teamMember report = member
             /\ User._id member = id
             /\ User.department member = User.department user
             /\ User.role member = "staff" /\ User.isActive member = true
             /\ (forall a,
                    In a (Listing.items (ManagerViews.member_requests report)) ->
                    In a (Db.cashAdvances db) /\ CashAdvance.user a = id)
             /\ Listing.total
                  (Listing.pagination (ManagerViews.member_requests report))
                = List.length (filter (ManagerViews.member_matches id q)
                                      (Db.cashAdvances db))
             /\ (Forall (fun c => Schema.cash_status_ok c = true)
                        (Db.cashAdvances db) ->
                 ManagerViews.teamMember_stats report
                 = [("pending", Z.of_nat (Tally.count_status "pending" own));
                    ("approved", Z.of_nat (Tally.count_status "approved" own));
                    ("rejected", Z.of_nat (Tally.count_status "rejected" own));
                    ("retired", Z.of_nat (Tally.count_status "retired" own));
                    ("total", Z.of_nat (List.length own));
                    ("totalAmount", Tally.sum_amounts own)]
                 /\ List.length own
                    = (Tally.count_status "pending" own
                       + Tally.count_status "approved" own
                       + Tally.count_status "rejected" own
                       + Tally.count_status "retired" own)%nat)).
Proof.
  intros db user id q Hrole found.
  assert (Hauth : @Auth.authorize ManagerViews.MemberRequests ["manager"] user
                  = None)
    by (apply authorize_member; rewrite Hrole; reflexivity).
  unfold ManagerViews.get_member_requests. rewrite Hauth. fold found. split.
  - intros ->. reflexivity.
  - intros member l p Hf Hp Hl Hp1 Hl1.
    set (own := Tally.owned id (Db.cashAdvances db)).
    rewrite Hf. cbv zeta.
    rewrite Hp, Hl.
    rewrite (find_window_page _ l p Hl1 Hp1).
    unfold found in Hf. apply find_some in Hf. destruct Hf as [Hin Hm].
    apply andb_prop in Hm. destruct Hm as [Hid Hteam].
    apply Nat.eqb_eq in Hid.
    unfold ManagerViews.is_team_member in Hteam.
    apply andb_prop in Hteam. destruct Hteam as [Hteam Hact].
    apply andb_prop in Hteam. destruct Hteam as [Hdep Hstaff].
    apply String.eqb_eq in Hdep, Hstaff.
    eexists. split; [reflexivity|].
    cbn [ManagerViews.teamMember ManagerViews.member_requests
         ManagerViews.teamMember_stats Listing.items Listing.pagination].
    conjs; try assumption; try reflexivity.
    + intros a Ha. unfold page_of in Ha.
      apply In_firstn, In_skipn in Ha.
      apply (Permutation_in _ (sort_desc_perm _ _)) in Ha.
      apply filter_In in Ha. destruct Ha as [Ha Hm]. split; [exact Ha|].
      unfold ManagerViews.member_matches in Hm.
      apply andb_prop in Hm. destruct Hm as [Hm _]. apply Nat.eqb_eq, Hm.
    + intro Hok. rewrite Hid.
      change (filter (fun a => Nat.eqb (CashAdvance.user a) id)
                     (Db.cashAdvances db)) with own.
      assert (Hown : Forall (fun c => Schema.cash_status_ok c = true) own).
      { apply Forall_forall. intros c Hc. unfold own, Tally.owned in Hc.
        apply filter_In in Hc. rewrite Forall_forall in Hok. apply Hok, Hc. }
      destruct (status_groups_keys own) as [Hnd Hgroups].
      assert (Hkeys : forall g,
                 In g (Aggregate.group_by_status own) ->
                 Aggregate._id g <> "total" /\ Aggregate._id g <> "totalAmount"
                 /\ In (Aggregate._id g) (map fst ManagerViews.statusCounts0)).
      { intros g Hg. destruct (Hgroups g Hg) as (a & Ha & <-).
        rewrite Forall_forall in Hown. specialize (Hown a Ha).
        unfold Schema.cash_status_ok, includes in Hown. cbn [existsb] in Hown.
        rewrite !orb_true_iff, !String.eqb_eq in Hown.
        destruct Hown as [->|[->|[->|[->|Hf]]]]; try discriminate Hf;
          (conjs; [discriminate|discriminate|cbn; tauto]). }
      destruct (count_stats_fold (Aggregate.group_by_status own)
                                 ManagerViews.statusCounts0 Hnd Hkeys)
        as (F1 & F2 & F3 & F4); [cbn; tauto|cbn; tauto|].
      cbv zeta in F1, F2, F3, F4.
      assert (Hcount : forall k,
                 k <> "total" -> k <> "totalAmount" ->
                 ManagerViews.get k ManagerViews.statusCounts0 = 0%Z ->
                 ManagerViews.get k
                   (fold_left ManagerViews.count_stat
                              (Aggregate.group_by_status own)
                              ManagerViews.statusCounts0)
                 = Z.of_nat (Tally.count_status k own)).
      { intros k K1 K2 K0. rewrite (F3 k K1 K2).
        destruct (group_by_status_spec own k) as (<- & _ & _).
        unfold Aggregate.count_of.
        destruct (find (fun g => Aggregate._id g =? k)
                       (Aggregate.group_by_status own));
          [reflexivity|exact K0]. }
      destruct (group_by_status_spec own "pending") as (_ & Gn & Gs).
      split; [|apply count_by_status, Hown].
      rewrite (status_counts_shape _ F4).
      rewrite F1, F2, Gn, Gs.
      rewrite !Hcount by (discriminate || reflexivity).
      reflexivity.
Qed.

Lemma member_requests_are_for_team_members_only_witness :
  let db := Sample.db_of [] [Sample.cash_of 20 1 "pending";
                             Sample.cash_of 21 5 "approved";
                             Sample.cash_of 22 1 "retired"] in
  let q := ManagerViews.mkMemberQuery None None None in
  User.role Sample.manager = "manager"
  /\ Forall (fun c => Schema.cash_status_ok c = true) (Db.cashAdvances db)
  /\ ManagerViews.get_member_requests db Sample.manager 3 q
     = Failure 404 "Team member not found" []
  /\ exists report,
      ManagerViews.get_member_requests db Sample.manager 1 q
      = Success 200 EmptyString report
      /\ ManagerViews.teamMember_stats report
         = [("pending", 1%Z); ("approved", 0%Z); ("rejected", 0%Z);
            ("retired", 1%Z); ("total", 2%Z); ("totalAmount", 1000%Z)].
Proof.
  intros db q.
  assert (Hok : Forall (fun c => Schema.cash_status_ok c = true)
                       (Db.cashAdvances db))
    by (repeat constructor).
  destruct (member_requests_are_for_team_members_only
              db Sample.manager 3 q eq_refl) as [H3 _].
  destruct (member_requests_are_for_team_members_only
              db Sample.manager 1 q eq_refl) as [_ H1].
  destruct (H1 Sample.staff 10%nat 1%nat eq_refl eq_refl eq_refl)
    as (report & R1 & _ & _ & _ & _ & _ & _ & _ & R9); [lia|lia|].
  destruct (R9 Hok) as [R10 _].
  conjs; [reflexivity|exact Hok|apply H3; reflexivity|].
  exists report. split; [exact R1|]. rewrite R10. vm_compute. reflexivity.
Defined.

(** ** The user activity report *)








(** ** The list of advances, for callers that are not staff *)

Lemma build_filter_elevated :
  forall user q,
    User.role user <> "staff" ->
    AdvanceRoutes.build_filter user q
    = AdvanceRoutes.mkFilter true None
        (JS.given_not_all (AdvanceRoutes.status q))
        (JS.given_not_all (AdvanceRoutes.priority q))
        (AdvanceRoutes.startDate q) (AdvanceRoutes.endDate q).
Proof.
  intros user q H. unfold AdvanceRoutes.build_filter.
  apply String.eqb_neq in H. rewrite H. reflexivity.
Qed.

(** X26.  [GET /api/advances] has no role check and scopes the list for
    staff only: two callers whose role is not staff receive the same
    answer to the same query, whatever their role and department.  For
    every caller, a listed advance is stored and active and has the status
    and the priority the query asks for and a request date within the
    dates of the query. *)
Theorem advance_list_is_unscoped_for_other_roles :
  forall (regexp_i : string -> string -> bool) (db : Db.t)
         (q : AdvanceRoutes.Query),
    (forall user1 user2,
        User.role user1 <> "staff" -> User.role user2 <> "staff" ->
        AdvanceRoutes.get_advances regexp_i db user1 q
        = AdvanceRoutes.get_advances regexp_i db user2 q)
    /\ (forall user code message page,
           AdvanceRoutes.get_advances regexp_i db user q
           = Success code message page ->
           forall a,
             In a (Listing.items page) ->
             In a (Db.advances db) /\ Advance.isActive a = true
             /\ (forall s, JS.given_not_all (AdvanceRoutes.status q) = Some s ->
                           Advance.status a = s)
             /\ (forall p, JS.given_not_all (AdvanceRoutes.priority q) = Some p ->
                           Advance.priority a = p)
             /\ (forall d, AdvanceRoutes.startDate q = Some d ->
                           (d <= Advance.requestDate a)%Z)
             /\ (forall d, AdvanceRoutes.endDate q = Some d ->
                           (Advance.requestDate a <= d)%Z)).
Proof.
  intros regexp_i db q. split.
  - intros user1 user2 H1 H2. unfold AdvanceRoutes.get_advances.
    rewrite (build_filter_elevated user1 q H1), (build_filter_elevated user2 q H2).
    reflexivity.
  - intros user code message page H a Ha.
    assert (Hm : In a (Db.advances db)
                 /\ AdvanceRoutes.matches (AdvanceRoutes.build_filter user q) a
                    = true).
    { unfold AdvanceRoutes.get_advances in H. cbv zeta in H.
      destruct (AdvanceRoutes.search q) as [[|c s]|].
      - destruct (Listing.find_window _ _ _) as [w|] eqn:E; [|discriminate H].
        injection H as _ _ <-. cbn [Listing.items] in Ha.
        apply (find_window_In _ _ _ _ _ E) in Ha.
        apply (Permutation_in _ (sort_desc_perm _ _)) in Ha.
        apply filter_In in Ha. exact Ha.
      - destruct (Listing.aggregate_window _ _ _) as [w|] eqn:E;
          [|discriminate H].
        injection H as _ _ <-. cbn [Listing.items] in Ha.
        apply (aggregate_window_In _ _ _ _ _ E) in Ha.
        apply (Permutation_in _ (sort_desc_perm _ _)) in Ha.
        apply filter_In in Ha. destruct Ha as [Ha Hm].
        apply andb_prop in Hm. split; [exact Ha|apply Hm].
      - destruct (Listing.find_window _ _ _) as [w|] eqn:E; [|discriminate H].
        injection H as _ _ <-. cbn [Listing.items] in Ha.
        apply (find_window_In _ _ _ _ _ E) in Ha.
        apply (Permutation_in _ (sort_desc_perm _ _)) in Ha.
        apply filter_In in Ha. exact Ha. }
    destruct Hm as [Hin Hm]. unfold AdvanceRoutes.matches in Hm.
    cbn [AdvanceRoutes.build_filter AdvanceRoutes.f_isActive
         AdvanceRoutes.f_requester AdvanceRoutes.f_status
         AdvanceRoutes.f_priority AdvanceRoutes.f_requestDate_gte
         AdvanceRoutes.f_requestDate_lte] in Hm.
    apply andb_prop in Hm. destruct Hm as [Hm Hlte].
    apply andb_prop in Hm. destruct Hm as [Hm Hgte].
    apply andb_prop in Hm. destruct Hm as [Hm Hprio].
    apply andb_prop in Hm. destruct Hm as [Hm Hstatus].
    apply andb_prop in Hm. destruct Hm as [Hact _].
    conjs.
    + exact Hin.
    + destruct (Advance.isActive a); [reflexivity|discriminate Hact].
    + intros s Hs. rewrite Hs in Hstatus. apply String.eqb_eq, Hstatus.
    + intros p Hp. rewrite Hp in Hprio. apply String.eqb_eq, Hprio.
    + intros d Hd. rewrite Hd in Hgte. apply Z.leb_le, Hgte.
    + intros d Hd. rewrite Hd in Hlte. apply Z.leb_le, Hlte.
Qed.

Lemma advance_list_is_unscoped_for_other_roles_witness :
  let db := Sample.db_of [Sample.advance_of 10 1 "ADV2025010001" "pending";
                          Sample.advance_of 11 3 "ADV2025010002" "disbursed"] [] in
  let q := AdvanceRoutes.mkQuery None None None None None None None in
  User.role Sample.manager <> "staff"
  /\ User.role Sample.admin <> "staff"
  /\ AdvanceRoutes.get_advances Sample.literal_i db Sample.manager q
     = AdvanceRoutes.get_advances Sample.literal_i db Sample.admin q
  /\ exists page,
      AdvanceRoutes.get_advances Sample.literal_i db Sample.manager q
      = Success 200 EmptyString page
      /\ List.length (Listing.items page) = 2%nat.
Proof.
  intros db q.
  assert (H1 : User.role Sample.manager <> "staff") by discriminate.
  assert (H2 : User.role Sample.admin <> "staff") by discriminate.
  destruct (advance_list_is_unscoped_for_other_roles Sample.literal_i db q)
    as [H _].
  conjs; [exact H1|exact H2|apply H; assumption|].
  eexists. split; vm_compute; reflexivity.
Defined.

(** ** The filters of the list of users *)

(** X28.  [GET /api/users] is refused with 403 unless the caller is
    admin, manager or finance.  Every listed user is stored and has the
    role the query asks for; with an [isActive] parameter other than [all]
    the list holds active users only when the parameter is exactly [true],
    and for any other value, [false] or not, inactive users only. *)
Theorem user_list_filters_by_role_and_activity :
  forall (regexp_i : string -> string -> bool) (db : Db.t) (user : User.t)
         (q : UserRoutes.Query),
    (includes ["admin"; "manager"; "finance"] (User.role user) = false ->
     exists e,
       UserRoutes.get_users regexp_i db user q
       = Failure 403 "Access denied. Insufficient permissions." e)
    /\ (forall code message page,
           UserRoutes.get_users regexp_i db user q = Success code message page ->
           includes ["admin"; "manager"; "finance"] (User.role user) = true
           /\ forall u,
               In u (Listing.items page) ->
               In u (Db.users db)
               /\ (forall r, JS.given_not_all (UserRoutes.role q) = Some r ->
                             User.role u = r)
               /\ (forall s, UserRoutes.isActive q = Some s -> s <> "all" ->
                             User.isActive u = (s =? "true"))).
Proof.
  intros regexp_i db user q. unfold UserRoutes.get_users, Auth.authorize.
  destruct (includes ["admin"; "manager"; "finance"] (User.role user)) eqn:Hrole;
    cbn [negb]; split.
  - discriminate.
  - intros code message page H. split; [reflexivity|]. intros u Hu.
    cbv zeta in H.
    destruct (Listing.find_window _ _ _) as [w|] eqn:E; [|discriminate H].
    injection H as _ _ <-. cbn [Listing.items] in Hu.
    apply (find_window_In _ _ _ _ _ E) in Hu.
    apply (Permutation_in _ (sort_desc_perm _ _)) in Hu.
    apply filter_In in Hu. destruct Hu as [Hin Hm].
    unfold UserRoutes.matches in Hm.
    apply andb_prop in Hm. destruct Hm as [Hm _].
    apply andb_prop in Hm. destruct Hm as [Hm Hact].
    apply andb_prop in Hm. destruct Hm as [Hr _].
    conjs.
    + exact Hin.
    + intros r Hq. rewrite Hq in Hr. apply String.eqb_eq, Hr.
    + intros s Hq Hs. rewrite Hq in Hact.
      apply String.eqb_neq in Hs. rewrite Hs in Hact.
      apply Bool.eqb_prop, Hact.
  - intros _. eexists. reflexivity.
  - intros code message page H. discriminate H.
Qed.

Lemma user_list_filters_by_role_and_activity_witness :
  let gone :=
    User.mk 6 "Bola" "Ojo" "bola@example.com" "EMP006" "Sales" "staff" false 0 in
  let db := Db.mk (Sample.users ++ [gone]) [] [] in
  let q := UserRoutes.mkQuery None None None None None (Some "yes") in
  includes ["admin"; "manager"; "finance"] (User.role Sample.staff) = false
  /\ (exists e,
         UserRoutes.get_users Sample.literal_i db Sample.staff q
         = Failure 403 "Access denied. Insufficient permissions." e)
  /\ exists page,
      UserRoutes.get_users Sample.literal_i db Sample.admin q
      = Success 200 EmptyString page
      /\ Listing.items page = [gone].
Proof.
  intros gone db q.
  destruct (user_list_filters_by_role_and_activity
              Sample.literal_i db Sample.staff q) as [H _].
  conjs; [reflexivity|apply H; reflexivity|].
  eexists. split; vm_compute; reflexivity.
Defined.
